(** * SpotDailyReview: trading metrics and boundary-data reconciliation

    A shallow embedding of [review.py] (class [PowerDataAnalyzer]),
    [app.py] ([preprocess_boundary_files], [process_trading_files] and
    the upload page of the boundary files) and [preprocess_data.py]
    ([preprocess_data]), followed by the properties of the
    specification that were checked against it (C1 to C10) and by
    further properties of the code (X1 to X21).

    Modelling conventions.
    - A pandas cell is a [cell]: null (NaN / NaT / None), a number, a
      text, a calendar date ([datetime.date], in days) or a timestamp
      (in seconds).  float64 quantities are carried as rationals [Q]:
      sums, products and quotients are exact, rounding being outside
      the model, and the mean of a column is what the runtime gives.
    - A [DataFrame] is an ordered list of column names and a list of
      rows; a row maps a column name to its cell.  Column names are
      taken to be distinct, as [pd.read_excel] makes them.
    - Python exceptions are values of [PyError] and a fallible
      computation returns a [result]; code that also prints returns a
      [Py], the lines printed paired with the outcome.
    - What the code asks of pandas, [re] and the Python runtime beyond
      this (date and number parsing, formatting, the Unicode digit
      table, the binary64 mean) is the interface [PyLib]. *)

From Stdlib Require Import String Ascii List ZArith NArith QArith Lia Lqa Bool Permutation Sorted.
From Stdlib Require Import Floats.
From stdpp Require Import base gmap strings.
Import ListNotations.
Local Open Scope string_scope.
Local Open Scope list_scope.

(** ** Cells, errors and the two monads *)

Inductive cell : Type :=
| CNull
| CNum (x : Q)
| CStr (s : string)
| CDate (d : Z)
| CStamp (t : Z).

Inductive PyError : Type :=
| KeyError (key : string)
| IndexError
| TypeError
| ValueError
| ZeroDivisionError
| FileNotFoundError (name : string).

Inductive result (A : Type) : Type :=
| Ok (a : A)
| Raise (e : PyError).
Arguments Ok {A} a.
Arguments Raise {A} e.

Definition bind_result {A B : Type} (m : result A) (k : A -> result B) : result B :=
  match m with
  | Ok a => k a
  | Raise e => Raise e
  end.

Notation "'let?' x ':=' m 'in' k" := (bind_result m (fun x => k))
  (at level 10, x name, m at level 100, k at level 200).

Fixpoint mapM {A B : Type} (f : A -> result B) (l : list A) : result (list B) :=
  match l with
  | [] => Ok []
  | a :: l' =>
      let? b := f a in
      let? bs := mapM f l' in
      Ok (b :: bs)
  end.

(** [Py A]: the lines written by [print], then the outcome. *)
Definition Py (A : Type) : Type := (list string * result A)%type.

Definition ret {A : Type} (a : A) : Py A := ([], Ok a).
Definition raise {A : Type} (e : PyError) : Py A := ([], Raise e).
Definition print (line : string) : Py unit := ([line], Ok tt).
Definition lift {A : Type} (m : result A) : Py A := ([], m).

Definition bind {A B : Type} (m : Py A) (k : A -> Py B) : Py B :=
  match m with
  | (out, Ok a) => let (out', r) := k a in (out ++ out', r)
  | (out, Raise e) => (out, Raise e)
  end.

Notation "'do' x '<-' m ';' k" := (bind m (fun x => k))
  (at level 10, x name, m at level 100, k at level 200).
Notation "m ';;' k" := (bind m (fun _ => k))
  (at level 100, k at level 200, right associativity).

(** ** Data frames *)

Abbreviation Row := (string -> cell).

Record DataFrame : Type := mkDataFrame {
  columns : list string;
  data : list Row
}.

(** [col in df.columns] *)
Definition has_column (df : DataFrame) (col : string) : bool :=
  existsb (String.eqb col) (columns df).

(** [len(df)] *)
Definition len (df : DataFrame) : nat := length (data df).

(** [df.empty]: no row or no column. *)
Definition empty (df : DataFrame) : bool :=
  (len df =? 0)%nat || (length (columns df) =? 0)%nat.

(** [df[col]]: the series of a named column, [KeyError] when absent. *)
Definition getitem (df : DataFrame) (col : string) : result (list cell) :=
  if has_column df col then Ok (map (fun r => r col) (data df))
  else Raise (KeyError col).

(** [df[mask]]: the rows whose mask entry is [True]. *)
Definition mask_rows (df : DataFrame) (mask : list bool) : DataFrame :=
  {| columns := columns df;
     data := map fst (List.filter snd (combine (data df) mask)) |}.

(** [series[mask]] *)
Definition mask_series {A : Type} (s : list A) (mask : list bool) : list A :=
  map fst (List.filter snd (combine s mask)).

(** [series OP scalar] for an ordering comparison with a number: a null
    compares [False]; a text, date or timestamp cell makes pandas raise
    [TypeError]. *)
Definition compare_cell (op : Q -> Q -> bool) (v : Q) (c : cell) : result bool :=
  match c with
  | CNum x => Ok (op x v)
  | CNull => Ok false
  | CStr _ | CDate _ | CStamp _ => Raise TypeError
  end.

Definition compare_scalar (op : Q -> Q -> bool) (s : list cell) (v : Q)
  : result (list bool) :=
  mapM (compare_cell op v) s.

Definition Qgt_bool (x y : Q) : bool := negb (Qle_bool x y).
Definition Qge_bool (x y : Q) : bool := Qle_bool y x.
Definition Qlt_bool (x y : Q) : bool := negb (Qle_bool y x).

(** [series == text]: exact match on text cells, [False] elsewhere. *)
Definition eq_text (s : string) (c : cell) : bool :=
  match c with
  | CStr t => String.eqb t s
  | _ => false
  end.

(** [series.fillna(0)] *)
Definition fillna0 (c : cell) : cell :=
  match c with
  | CNull => CNum 0
  | _ => c
  end.

(** Element-wise arithmetic of two series: a null operand gives a null,
    an operand of any other kind raises [TypeError]. *)
Definition cell_binop (op : Q -> Q -> Q) (a b : cell) : result cell :=
  match a, b with
  | CNum x, CNum y => Ok (CNum (op x y))
  | CNull, (CNull | CNum _) | CNum _, CNull => Ok CNull
  | _, _ => Raise TypeError
  end.

Fixpoint series_binop (op : Q -> Q -> Q) (a b : list cell) : result (list cell) :=
  match a, b with
  | x :: a', y :: b' =>
      let? z := cell_binop op x y in
      let? zs := series_binop op a' b' in
      Ok (z :: zs)
  | _, _ => Ok []
  end.

(** [series.sum()]: nulls are skipped, the empty sum is 0. *)
Fixpoint series_sum (s : list cell) : result Q :=
  match s with
  | [] => Ok 0%Q
  | CNum x :: s' => let? t := series_sum s' in Ok (x + t)%Q
  | CNull :: s' => series_sum s'
  | (CStr _ | CDate _ | CStamp _) :: _ => Raise TypeError
  end.

(** [a / b] on floats. *)
Definition py_div (a b : Q) : result Q :=
  if Qeq_bool b 0 then Raise ZeroDivisionError else Ok (a / b)%Q.

(** [len(df) / 4] *)
Definition quarter_hours (n : nat) : Q := (inject_Z (Z.of_nat n) / 4)%Q.

(** [series.count()]: the cells that are not null. *)
Definition series_count (s : list cell) : nat :=
  length (List.filter (fun c => match c with CNull => false | _ => true end) s).

(** [series.dropna()] of a column of numbers. *)
Fixpoint numbers (s : list cell) : list Q :=
  match s with
  | [] => []
  | CNum x :: s' => x :: numbers s'
  | _ :: s' => numbers s'
  end.

(** ** The runtime interface *)

Class PyLib : Type := {
  (** The timestamp, in seconds, that [pd.to_datetime] reads in a value
      that is neither null nor a text standing for NaT; [None] when the
      value does not parse. *)
  parse_datetime : cell -> option Z;
  (** [pd.to_datetime(text, format='%H:%M')]: seconds since midnight. *)
  parse_hm : string -> option Z;
  (** [pd.to_numeric(value, errors='coerce')] on a value that is neither
      a number nor null. *)
  coerce_numeric : cell -> option Q;
  (** [str(value)] of a value that is not already text. *)
  format_value : cell -> string;
  (** [float(m.group(1))] for the first match [m] that [re.search]
      finds in a text for the capacity pattern: the label 运行机组容量,
      digits with an optional fraction, optional blanks and MW. *)
  capacity_match : string -> option Q;
  (** The value of a code point that is a Unicode decimal digit, the
      class [\d] of [re] and the digits [int] reads. *)
  decimal_digit : N -> option N;
  (** [str(e)] of a caught exception. *)
  error_text : PyError -> string;
  (** The mean of a list of numbers as pandas computes it in binary64,
      the rounded sum divided by the count.  It is not taken to be the
      exact mean: three cells of 100.03 average to 100.03000000000002. *)
  float_mean : list Q -> Q
}.

(** [str(value)] *)
Definition py_str {lib : PyLib} (c : cell) : string :=
  match c with
  | CStr s => s
  | _ => format_value c
  end.

(** [value is not None] *)
Definition is_set {A : Type} (o : option A) : bool :=
  match o with
  | Some _ => true
  | None => false
  end.

(** [pd.isna(value)] *)
Definition isna (c : cell) : bool :=
  match c with
  | CNull => true
  | _ => false
  end.

(** The texts that [pd.to_datetime] reads as NaT without an exception:
    the empty text and the spellings of NaT and nan that pandas lists
    as [nat_strings]. *)
Definition nat_strings : list string := ["NaT"; "nat"; "NAT"; "nan"; "NaN"; "NAN"].

Definition nat_text (s : string) : bool :=
  String.eqb s "" || existsb (String.eqb s) nat_strings.

(** [pd.to_datetime(value)] on one value: a timestamp in seconds, NaT
    ([None]) for a null and for a text that stands for NaT, and
    [ValueError] for a value that does not parse. *)
Definition to_datetime {lib : PyLib} (c : cell) : result (option Z) :=
  match c with
  | CNull => Ok None
  | CStr s =>
      if nat_text s then Ok None
      else match parse_datetime c with
           | Some t => Ok (Some t)
           | None => Raise ValueError
           end
  | _ => match parse_datetime c with
         | Some t => Ok (Some t)
         | None => Raise ValueError
         end
  end.

(** [series.mean()]: nulls are skipped and the mean of no number is NaN,
    a null; the mean of the numbers is the binary64 value of the
    runtime.  pandas can average a column of timestamps; no metric reads
    one, and the model raises [TypeError] there as [sum] does. *)
Definition series_mean {lib : PyLib} (s : list cell) : result cell :=
  let? _ := series_sum s in
  if (series_count s =? 0)%nat then Ok CNull
  else Ok (CNum (float_mean (numbers s))).

(** A Python [str] is a sequence of code points; the literals of this
    file are UTF-8 bytes, decoded here. *)
Definition utf8_lead (b : N) : N :=
  if (b <? 128)%N then b
  else if (b <? 224)%N then (b - 192)%N
  else if (b <? 240)%N then (b - 224)%N
  else (b - 240)%N.

Definition utf8_continuation (b : N) : bool := (128 <=? b)%N && (b <? 192)%N.

Fixpoint utf8_decode_from (cur : N) (s : string) : list N :=
  match s with
  | EmptyString => [cur]
  | String a s' =>
      let b := N_of_ascii a in
      if utf8_continuation b then utf8_decode_from (cur * 64 + (b - 128))%N s'
      else cur :: utf8_decode_from (utf8_lead b) s'
  end.

Definition utf8_decode (s : string) : list N :=
  match s with
  | EmptyString => []
  | String a s' => utf8_decode_from (utf8_lead (N_of_ascii a)) s'
  end.

(** Row-wise column assignment [df[col] = ...]: the column is replaced
    in place when it exists and appended otherwise. *)
Definition upd (r : Row) (col : string) (v : cell) : Row :=
  fun c => if String.eqb c col then v else r c.

Definition add_column (cols : list string) (col : string) : list string :=
  if existsb (String.eqb col) cols then cols else cols ++ [col].

Definition assign (df : DataFrame) (col : string) (f : Row -> cell) : DataFrame :=
  {| columns := add_column (columns df) col;
     data := map (fun r => upd r col (f r)) (data df) |}.

(** * review.py: PowerDataAnalyzer *)

Module Review.
Section PowerDataAnalyzer.
Context {lib : PyLib}.

Definition power_conversion_factors : gmap string Q :=
  list_to_map
    [ ("同华", 660 / 660); ("塔山", 660 / 600); ("阳高", 660 / 350);
      ("同达", 660 / 330); ("王坪", 660 / 200); ("蒲洲", 660 / 350);
      ("河津", 660 / 350); ("临汾", 660 / 300); ("侯马", 660 / 300) ]%Q.

Definition default_power_conversion_factor : Q := 1%Q.

Definition _get_power_conversion_factor (company_name : option string) : Q :=
  match company_name with
  | None => default_power_conversion_factor
  | Some c => default default_power_conversion_factor (power_conversion_factors !! c)
  end.

(** [re.search(r'(\d+)', text)]: the leftmost digit, then every digit
    that follows it; the result is the values of the digits of group 1. *)
Definition is_digit (c : N) : bool :=
  match decimal_digit c with
  | Some _ => true
  | None => false
  end.

Fixpoint take_digits (cs : list N) : list N :=
  match cs with
  | [] => []
  | c :: cs' =>
      match decimal_digit c with
      | Some d => d :: take_digits cs'
      | None => []
      end
  end.

Fixpoint search_digits (cs : list N) : option (list N) :=
  match cs with
  | [] => None
  | c :: cs' => if is_digit c then Some (take_digits cs) else search_digits cs'
  end.

(** [int(digits)]; the interpreter's cap on the length of a decimal
    string (4300 digits by default) is not modelled. *)
Definition int_of_digits (ds : list N) : N :=
  fold_left (fun acc d => 10 * acc + d)%N ds 0%N.

Definition determine_dimension (unit_name : cell) : string :=
  if isna unit_name then "未知"
  else
    match search_digits (utf8_decode (py_str unit_name)) with
    | None => "未知"
    | Some digits =>
        let unit_no := int_of_digits digits in
        if (unit_no =? 1)%N || (unit_no =? 3)%N then "机组1&3组"
        else if (unit_no =? 2)%N || (unit_no =? 4)%N then "机组2&4组"
        else "其他机组"
    end.

Definition _add_unit_dimension_column (df : DataFrame) : Py DataFrame :=
  if negb (has_column df "机组名称") then
    print "警告: 数据中不包含'机组名称'列，无法生成机组维度" ;;
    ret df
  else
    ret (assign df "机组维度" (fun r => CStr (determine_dimension (r "机组名称")))).

(** The arguments every metric hands on to [filter_by_price_range]. *)
Record Criteria : Type := mkCriteria {
  min_price : option Q;
  max_price : option Q;
  start_date : option string;
  end_date : option string;
  company_name : option string;
  unit_name : option string;
  unit_dimension : option string;
  include_min_boundary : bool;
  include_max_boundary : bool
}.

(** [pd.to_datetime(series, errors='coerce')] on one cell: NaT where
    the cell does not parse. *)
Definition to_datetime_coerce (c : cell) : option Z :=
  match to_datetime c with
  | Ok t => t
  | Raise _ => None
  end.

(** [pd.to_datetime(text)] of an argument: a timestamp, NaT for the
    empty text and the like, an exception when it does not parse. *)
Definition to_datetime_scalar (s : string) : result (option Z) :=
  to_datetime (CStr s).

(** [dates >= ts] and [dates <= ts]: a comparison with NaT, on either
    side, is [False]. *)
Definition date_ge (ts d : option Z) : bool :=
  match ts, d with
  | Some ts, Some t => (ts <=? t)%Z
  | _, _ => false
  end.

Definition date_le (ts d : option Z) : bool :=
  match ts, d with
  | Some ts, Some t => (t <=? ts)%Z
  | _, _ => false
  end.

(** [filtered = filtered[filtered[column] OP bound]] *)
Definition where_price (op : Q -> Q -> bool) (filtered : DataFrame)
    (column : string) (bound : Q) : result DataFrame :=
  let? s := getitem filtered column in
  let? mask := compare_scalar op s bound in
  Ok (mask_rows filtered mask).

(** 价格筛选 *)
Definition filter_price (filtered : DataFrame) (price_column : string)
    (min_price max_price : option Q)
    (include_min_boundary include_max_boundary : bool) : result DataFrame :=
  let? filtered :=
    match min_price with
    | Some lo =>
        if include_min_boundary then where_price Qge_bool filtered price_column lo
        else where_price Qgt_bool filtered price_column lo
    | None => Ok filtered
    end in
  match max_price with
  | Some hi =>
      if include_max_boundary then where_price Qle_bool filtered price_column hi
      else where_price Qlt_bool filtered price_column hi
  | None => Ok filtered
  end.

(** 日期筛选 *)
Definition filter_date (filtered : DataFrame) (date_column : string)
    (start_date end_date : option string) : Py DataFrame :=
  if has_column filtered date_column then
    do dates <- lift (let? s := getitem filtered date_column in
                      Ok (map to_datetime_coerce s));
    do fd <- match start_date with
             | Some sd =>
                 do start_ts <- lift (to_datetime_scalar sd);
                 let mask := map (date_ge start_ts) dates in
                 ret (mask_rows filtered mask, mask_series dates mask)
             | None => ret (filtered, dates)
             end;
    let filtered := fst fd in
    match end_date with
    | Some ed =>
        do end_ts <- lift (to_datetime_scalar ed);
        do dates <- lift (let? s := getitem filtered date_column in
                          Ok (map to_datetime_coerce s));
        let mask := map (date_le end_ts) dates in
        ret (mask_rows filtered mask)
    | None => ret filtered
    end
  else if is_set start_date || is_set end_date then
    print ("警告: 日期列 '" +:+ date_column +:+ "' 不存在，无法应用日期筛选") ;;
    ret filtered
  else ret filtered.

(** [filtered = filtered[filtered[column] == text]] *)
Definition where_text (filtered : DataFrame) (column text : string) : DataFrame :=
  mask_rows filtered (map (fun r => eq_text text (r column)) (data filtered)).

(** 公司筛选 *)
Definition filter_company (filtered : DataFrame) (company_name : option string)
  : DataFrame :=
  match company_name with
  | Some c => if has_column filtered "公司名称" then where_text filtered "公司名称" c
              else filtered
  | None => filtered
  end.

(** 机组筛选 *)
Definition filter_unit (filtered : DataFrame) (unit_name : option string)
  : DataFrame :=
  match unit_name with
  | Some u => if has_column filtered "机组名称" then where_text filtered "机组名称" u
              else filtered
  | None => filtered
  end.

(** 机组维度筛选 *)
Definition filter_unit_dimension (filtered : DataFrame)
    (unit_dimension : option string) : Py DataFrame :=
  match unit_dimension with
  | Some d =>
      if has_column filtered "机组维度" then ret (where_text filtered "机组维度" d)
      else
        print "警告: 数据中不包含'机组维度'列，无法应用机组维度筛选" ;;
        ret filtered
  | None => ret filtered
  end.

Definition filter_by_price_range (df : DataFrame) (price_column date_column : string)
    (a : Criteria) : Py DataFrame :=
  let filtered := df in
  do filtered <- lift (filter_price filtered price_column (min_price a) (max_price a)
                         (include_min_boundary a) (include_max_boundary a));
  do filtered <- filter_date filtered date_column (start_date a) (end_date a);
  let filtered := filter_company filtered (company_name a) in
  let filtered := filter_unit filtered (unit_name a) in
  do filtered <- filter_unit_dimension filtered (unit_dimension a);
  ret filtered.

(** 1. 日前小时数 *)
Definition calculate_daily_forward_hours (df : DataFrame) (a : Criteria) : Py Q :=
  do filtered <- filter_by_price_range df "日前出清节点价格" "日期" a;
  let hours := quarter_hours (len filtered) in
  ret hours.

(** 2. 实时小时数 *)
Definition calculate_realtime_hours (df : DataFrame) (a : Criteria) : Py Q :=
  do filtered <- filter_by_price_range df "日前出清节点价格" "日期" a;
  do filtered <-
    lift (if has_column filtered "日内出清节点价格" then
            filter_price filtered "日内出清节点价格" (min_price a) (max_price a)
              (include_min_boundary a) (include_max_boundary a)
          else Ok filtered);
  let hours := quarter_hours (len filtered) in
  ret hours.

(** 5. 省间价格均价 *)
Definition calculate_inter_provincial_avg_price (df : DataFrame)
    (price_column : string) (a : Criteria) : Py Q :=
  do filtered <- filter_by_price_range df price_column "日期" a;
  lift (let? power_daily := getitem filtered "省间日前出清电力" in
        let power_daily := map fillna0 power_daily in
        let? price_daily := getitem filtered "省间日前出清价格" in
        let price_daily := map fillna0 price_daily in
        let? power_realtime := getitem filtered "省间实时出清电力" in
        let power_realtime := map fillna0 power_realtime in
        let? price_realtime := getitem filtered "省间实时出清价格" in
        let price_realtime := map fillna0 price_realtime in
        let? daily := series_binop Qmult power_daily price_daily in
        let? realtime := series_binop Qmult power_realtime price_realtime in
        let? weighted := series_binop Qplus daily realtime in
        let? numerator := series_sum weighted in
        let? total := series_binop Qplus power_realtime power_daily in
        let? denominator := series_sum total in
        if Qeq_bool denominator 0 then Ok 0%Q
        else py_div numerator denominator).

(** 7. 日前中标电量 *)
Definition calculate_daily_forward_power (df : DataFrame) (a : Criteria) : Py Q :=
  do filtered <- filter_by_price_range df "日前出清节点价格" "日期" a;
  if empty filtered then ret 0%Q
  else
    let hours := quarter_hours (len filtered) in
    if Qeq_bool hours 0 then ret 0%Q
    else
      lift (let? s := getitem filtered "日前中标出力" in
            let? total := series_sum s in
            let total_power := (total / 4)%Q in
            let factor := _get_power_conversion_factor (company_name a) in
            py_div (total_power * factor)%Q hours).

(** The arithmetic of the last lines of [calculate_daily_forward_power]
    in binary64, as Python carries it out on a column sum, a number of
    rows and the two terms of a conversion factor. *)
Definition daily_forward_power_binary64 (column_sum rows numerator denominator : float)
  : float :=
  ((column_sum / 4) * (numerator / denominator) / (rows / 4))%float.

(** 10. 中长期持仓加权均价 *)
Definition calculate_medium_long_weighted_avg_price (df : DataFrame)
    (price_column : string) (a : Criteria) : Py Q :=
  do filtered <- filter_by_price_range df price_column "日期" a;
  lift (let? intra_power := getitem filtered "省内中长期上网电量" in
        let intra_power := map fillna0 intra_power in
        let? intra_price := getitem filtered "省内中长期均价" in
        let intra_price := map fillna0 intra_price in
        let? inter_power := getitem filtered "省间中长期上网电量" in
        let inter_power := map fillna0 inter_power in
        let? inter_price := getitem filtered "省间中长期均价" in
        let inter_price := map fillna0 inter_price in
        let? intra := series_binop Qmult intra_power intra_price in
        let? inter := series_binop Qmult inter_power inter_price in
        let? weighted_price := series_binop Qplus intra inter in
        let? total_power := series_binop Qplus intra_power inter_power in
        let? numerator := series_sum weighted_price in
        let? denominator := series_sum total_power in
        if Qeq_bool denominator 0 then Ok 0%Q
        else py_div numerator denominator).

(** 3. 日前价格均价 *)
Definition calculate_daily_forward_avg_price (df : DataFrame) (a : Criteria) : Py cell :=
  do filtered <- filter_by_price_range df "日前出清节点价格" "日期" a;
  lift (let? s := getitem filtered "日前出清节点价格" in
        series_mean s).

(** 4. 实时价格均价 *)
Definition calculate_realtime_avg_price (df : DataFrame) (a : Criteria) : Py cell :=
  do filtered <- filter_by_price_range df "日前出清节点价格" "日期" a;
  lift (let? s := getitem filtered "日内出清节点价格" in
        series_mean s).

(** 6. 省间中标电量 *)
Definition calculate_inter_provincial_power (df : DataFrame)
    (price_column : string) (a : Criteria) : Py Q :=
  do filtered <- filter_by_price_range df price_column "日期" a;
  do total_power <-
    (if has_column filtered "省间日前出清电力" && has_column filtered "省间实时出清电力" then
       do total <- lift (let? daily := getitem filtered "省间日前出清电力" in
                         let? realtime := getitem filtered "省间实时出清电力" in
                         let? total := series_binop Qplus (map fillna0 daily)
                                         (map fillna0 realtime) in
                         series_sum total);
       ret (Some total)
     else if has_column filtered "省间中标总量" then
       do total <- lift (let? s := getitem filtered "省间中标总量" in series_sum s);
       ret (Some total)
     else
       print "警告: 数据中没有省间电力列，无法计算省间中标电量" ;;
       ret None);
  match total_power with
  | None => ret 0%Q
  | Some total_power =>
      let factor := _get_power_conversion_factor (company_name a) in
      ret (total_power * factor)%Q
  end.

(** 8. 实际出力电量 *)
Definition calculate_actual_output_power (df : DataFrame) (a : Criteria) : Py Q :=
  do filtered <- filter_by_price_range df "日前出清节点价格" "日期" a;
  if empty filtered then ret 0%Q
  else
    let hours := quarter_hours (len filtered) in
    if Qeq_bool hours 0 then ret 0%Q
    else
      lift (let? s := getitem filtered "日内实际出力" in
            let? total := series_sum s in
            let total_power := (total / 4)%Q in
            let factor := _get_power_conversion_factor (company_name a) in
            py_div (total_power * factor)%Q hours).

(** 9. 中长期持仓电量均值 *)
Definition calculate_medium_long_avg_power (df : DataFrame)
    (price_column : string) (a : Criteria) : Py Q :=
  do filtered <- filter_by_price_range df price_column "日期" a;
  if empty filtered then ret 0%Q
  else
    let hours := quarter_hours (len filtered) in
    if Qeq_bool hours 0 then ret 0%Q
    else
      lift (let? intra := getitem filtered "省内中长期上网电量" in
            let? inter := getitem filtered "省间中长期上网电量" in
            let? medium_long_power :=
              series_binop Qplus (map fillna0 intra) (map fillna0 inter) in
            let factor := _get_power_conversion_factor (company_name a) in
            let? total := series_sum medium_long_power in
            py_div (total * factor)%Q hours).

(** [analyze_all_metrics]: the ten metrics in the order of the dict
    literal, each under its key. *)
Definition analyze_all_metrics (df : DataFrame) (a : Criteria)
  : Py (list (string * cell)) :=
  do m1 <- calculate_daily_forward_hours df a;
  do m2 <- calculate_realtime_hours df a;
  do m3 <- calculate_daily_forward_avg_price df a;
  do m4 <- calculate_realtime_avg_price df a;
  do m5 <- calculate_inter_provincial_avg_price df "日前出清节点价格" a;
  do m6 <- calculate_inter_provincial_power df "日前出清节点价格" a;
  do m7 <- calculate_daily_forward_power df a;
  do m8 <- calculate_actual_output_power df a;
  do m9 <- calculate_medium_long_avg_power df "日前出清节点价格" a;
  do m10 <- calculate_medium_long_weighted_avg_price df "日前出清节点价格" a;
  ret [ ("1. 日前小时数", CNum m1); ("2. 实时小时数", CNum m2);
        ("3. 日前价格均价", m3); ("4. 实时价格均价", m4);
        ("5. 省间价格均价", CNum m5); ("6. 省间中标电量", CNum m6);
        ("7. 日前中标电量", CNum m7); ("8. 实际出力电量", CNum m8);
        ("9. 中长期持仓电量均值", CNum m9); ("10. 中长期持仓加权均价", CNum m10) ].

End PowerDataAnalyzer.
End Review.

(** * app.py and preprocess_data.py: boundary-data reconciliation *)

(** ** Data-frame operations of the reconciliation *)

Global Instance Q_eq_dec : EqDecision Q.
Proof. solve_decision. Defined.

Global Instance cell_eq_dec : EqDecision cell.
Proof. solve_decision. Defined.

Definition mem (c : string) (cols : list string) : bool :=
  existsb (String.eqb c) cols.

(** A row seen through a list of columns: null outside it. *)
Definition restrict (cols : list string) (r : Row) : Row :=
  fun c => if mem c cols then r c else CNull.

(** [df.iloc[1:].reset_index(drop=True)] *)
Definition iloc_from1 (df : DataFrame) : DataFrame :=
  {| columns := columns df; data := tl (data df) |}.

(** The name of the column at a position, for [df.iloc[:, k]]. *)
Definition column_at (df : DataFrame) (k : nat) : result string :=
  match nth_error (columns df) k with
  | Some c => Ok c
  | None => Raise IndexError
  end.

(** [df.iloc[i, k]] *)
Definition iloc_cell (df : DataFrame) (i k : nat) : result cell :=
  match nth_error (data df) i with
  | Some r => let? c := column_at df k in Ok (r c)
  | None => Raise IndexError
  end.

(** [df[col] = f(df.iloc[:, k])] and [df[col] = f(df[src])], for an [f]
    that works cell by cell. *)
Definition assignM (df : DataFrame) (col : string) (f : Row -> result cell)
  : result DataFrame :=
  let? rows := mapM (fun r => let? v := f r in Ok (upd r col v)) (data df) in
  Ok {| columns := add_column (columns df) col; data := rows |}.

Definition assign_iloc (df : DataFrame) (col : string) (k : nat)
    (f : cell -> result cell) : result DataFrame :=
  let? src := column_at df k in
  assignM df col (fun r => f (r src)).

Definition assign_from (df : DataFrame) (col src : string)
    (f : cell -> result cell) : result DataFrame :=
  if has_column df src then assignM df col (fun r => f (r src))
  else Raise (KeyError src).

(** [df[[c1, ..., cn]]] *)
Definition select (df : DataFrame) (cols : list string) : result DataFrame :=
  match List.find (fun c => negb (has_column df c)) cols with
  | Some c => Raise (KeyError c)
  | None => Ok {| columns := cols; data := map (restrict cols) (data df) |}
  end.

(** [df.drop(columns=cols)] *)
Definition drop (df : DataFrame) (cols : list string) : result DataFrame :=
  match List.find (fun c => negb (has_column df c)) cols with
  | Some c => Raise (KeyError c)
  | None =>
      let keep := List.filter (fun c => negb (mem c cols)) (columns df) in
      Ok {| columns := keep; data := map (restrict keep) (data df) |}
  end.

(** [pd.merge(left, right, on=on, how=...)].  Key cells are equal when
    they are the same value, two nulls included, as pandas matches
    them.  The value columns of the two sides are taken to be disjoint
    (no [_x]/[_y] suffixes arise in this program).  The rows come in the
    order of the left frame, then the unmatched rows of the right one;
    pandas orders an outer join by key, which no property below reads. *)
Inductive How : Type := Outer | Left.

Definition key_of (on : list string) (r : Row) : list cell := map r on.

Definition keys_eqb (on : list string) (l r : Row) : bool :=
  bool_decide (key_of on l = key_of on r).

Definition join_rows (lcols rcols : list string) (l r : Row) : Row :=
  fun c => if mem c lcols then l c else if mem c rcols then r c else CNull.

Definition right_only (on lcols rcols : list string) (r : Row) : Row :=
  fun c => if mem c on then r c
           else if mem c lcols then CNull
           else if mem c rcols then r c else CNull.

(** The rows of the join for one row of the left frame: one for each
    row of the right frame with its key, or the row alone. *)
Definition matched_rows (left right : DataFrame) (on : list string) (l : Row)
  : list Row :=
  match List.filter (keys_eqb on l) (data right) with
  | [] => [restrict (columns left) l]
  | ms => map (join_rows (columns left) (columns right) l) ms
  end.

(** The rows of the right frame whose key no row of the left frame has. *)
Definition unmatched_rows (left right : DataFrame) (on : list string) : list Row :=
  map (right_only on (columns left) (columns right))
    (List.filter (fun r => negb (existsb (fun l => keys_eqb on l r) (data left)))
       (data right)).

Definition merge (left right : DataFrame) (on : list string) (how : How)
  : result DataFrame :=
  match List.find (fun c => negb (has_column left c && has_column right c)) on with
  | Some c => Raise (KeyError c)
  | None =>
      Ok {| columns := columns left
                       ++ List.filter (fun c => negb (mem c (columns left))) (columns right);
            data := flat_map (matched_rows left right on) (data left)
                    ++ match how with
                       | Outer => unmatched_rows left right on
                       | Left => []
                       end |}
  end.

(** [pd.concat([a, b], ignore_index=True)]: the union of the columns,
    each row null where its own frame had no such column. *)
Definition concat (a b : DataFrame) : DataFrame :=
  {| columns := columns a ++ List.filter (fun c => negb (mem c (columns a))) (columns b);
     data := map (restrict (columns a)) (data a) ++ map (restrict (columns b)) (data b) |}.

(** The order of [sort_values]: nulls last; cells of two different
    kinds do not meet in one sort column of this program. *)
Definition cell_compare (a b : cell) : comparison :=
  match a, b with
  | CNull, CNull => Eq
  | CNull, _ => Gt
  | _, CNull => Lt
  | CNum x, CNum y => (x ?= y)%Q
  | CStr x, CStr y => String.compare x y
  | CDate x, CDate y => (x ?= y)%Z
  | CStamp x, CStamp y => (x ?= y)%Z
  | _, _ => Eq
  end.

Fixpoint rows_compare (by_ : list string) (a b : Row) : comparison :=
  match by_ with
  | [] => Eq
  | c :: by' =>
      match cell_compare (a c) (b c) with
      | Eq => rows_compare by' a b
      | o => o
      end
  end.

(** Stable insertion: [x] was before every row of [l] and stays before
    those it does not exceed. *)
Fixpoint insert_row (by_ : list string) (x : Row) (l : list Row) : list Row :=
  match l with
  | [] => [x]
  | y :: l' =>
      match rows_compare by_ y x with
      | Lt => y :: insert_row by_ x l'
      | _ => x :: l
      end
  end.

(** [df.sort_values(by).reset_index(drop=True)] *)
Definition sort_values (df : DataFrame) (by_ : list string) : result DataFrame :=
  match List.find (fun c => negb (has_column df c)) by_ with
  | Some c => Raise (KeyError c)
  | None => Ok {| columns := columns df;
                  data := fold_right (insert_row by_) [] (data df) |}
  end.

Module Boundary.
Section Reconciliation.
Context {lib : PyLib}.

(** What [pd.read_excel] makes of an uploaded file: a frame whose
    columns are the cells of the first sheet row, or an exception. *)
Definition UploadedFile : Type := result DataFrame.

Definition read_excel (file : UploadedFile) : result DataFrame := file.

Definition extract_online_capacity (text : cell) : option Q :=
  if isna text then None
  else
    match capacity_match (py_str text) with
    | Some capacity => Some capacity
    | None => None
    end.

(** [pd.to_datetime(series).dt.date] on one cell. *)
Definition to_date (c : cell) : result cell :=
  let? t := to_datetime c in
  Ok match t with
     | Some t => CDate (t / 86400)
     | None => CNull
     end.

(** [series.astype(str)] on one cell. *)
Definition astype_str (c : cell) : result cell := Ok (CStr (py_str c)).

(** [pd.to_numeric(series, errors='coerce')] on one cell. *)
Definition to_numeric (c : cell) : result cell :=
  Ok match c with
     | CNum x => CNum x
     | CNull => CNull
     | _ => match coerce_numeric c with
            | Some x => CNum x
            | None => CNull
            end
     end.

(** [df[df.iloc[:, 1] == '总加']] *)
Definition only_total (df : DataFrame) : result DataFrame :=
  let? label := column_at df 1 in
  Ok (mask_rows df (map (fun r => eq_text "总加" (r label)) (data df))).

(** 日前统调系统负荷预测 *)
Definition normalize_load (file : UploadedFile) : result DataFrame :=
  let? df_load := read_excel file in
  let df_load := iloc_from1 df_load in
  let? df_load := assign_iloc df_load "日期" 1 to_date in
  let? df_load := assign_iloc df_load "时点" 2 astype_str in
  assign_iloc df_load "省调负荷(MW)" 3 to_numeric.

(** 日前新能源负荷预测 *)
Definition normalize_renewable (file : UploadedFile) : result DataFrame :=
  let? df_renewable := read_excel file in
  let df_renewable := iloc_from1 df_renewable in
  let? df_renewable := assign_iloc df_renewable "日期" 1 to_date in
  let? df_renewable := assign_iloc df_renewable "时点" 2 astype_str in
  let? df_renewable := assign_iloc df_renewable "风电(MW)" 4 to_numeric in
  let? df_renewable := assign_iloc df_renewable "光伏(MW)" 5 to_numeric in
  assign_iloc df_renewable "新能源负荷(MW)" 3 to_numeric.

(** 披露信息96点数据 *)
Definition normalize_disclosure (file : UploadedFile) : result DataFrame :=
  let? df_disclosure := read_excel file in
  let df_disclosure := iloc_from1 df_disclosure in
  let? df_disclosure := assign_iloc df_disclosure "日期" 1 to_date in
  let? df_disclosure := assign_iloc df_disclosure "时点" 2 astype_str in
  assign_iloc df_disclosure "非市场化出力(MW)" 3 to_numeric.

(** 日前联络线计划 and 实时联络线计划 *)
Definition normalize_tie_line (file : UploadedFile) : result DataFrame :=
  let? df_tie_line := read_excel file in
  let df_tie_line := iloc_from1 df_tie_line in
  let? df_tie_line := only_total df_tie_line in
  let? df_tie_line := assign_iloc df_tie_line "日期" 2 to_date in
  let? df_tie_line := assign_iloc df_tie_line "时点" 3 astype_str in
  assign_iloc df_tie_line "联络线计划(MW)" 4 to_numeric.

(** 日前市场出清情况 *)
Definition normalize_clearing (file : UploadedFile) : result (option Q) :=
  let? df_clearing := read_excel file in
  let df_clearing := iloc_from1 df_clearing in
  let? text := iloc_cell df_clearing 0 2 in
  Ok (extract_online_capacity text).

(** 日前水电计划发电总出力预测 *)
Definition normalize_hydro (file : UploadedFile) : result DataFrame :=
  let? df_hydro := read_excel file in
  let df_hydro := iloc_from1 df_hydro in
  let? df_hydro := assign_iloc df_hydro "日期" 1 to_date in
  let? df_hydro := assign_iloc df_hydro "时点" 2 astype_str in
  assign_iloc df_hydro "水电出力(MW)" 3 to_numeric.

(** 96点电网运行实际值 *)
Definition normalize_actual (file : UploadedFile) : result DataFrame :=
  let? df_actual := read_excel file in
  let df_actual := iloc_from1 df_actual in
  let? df_actual := assign_iloc df_actual "日期" 1 to_date in
  let? df_actual := assign_iloc df_actual "时点" 2 astype_str in
  let? df_actual := assign_iloc df_actual "省调负荷(MW)" 3 to_numeric in
  let? df_actual := assign_iloc df_actual "风电(MW)" 5 to_numeric in
  let? df_actual := assign_iloc df_actual "光伏(MW)" 6 to_numeric in
  let? df_actual := assign_iloc df_actual "新能源负荷(MW)" 7 to_numeric in
  let? df_actual := assign_iloc df_actual "水电出力(MW)" 8 to_numeric in
  assign_iloc df_actual "非市场化出力(MW)" 11 to_numeric.

(** 现货出清电价 *)
Definition normalize_price (file : UploadedFile) : result DataFrame :=
  let? df_price := read_excel file in
  let? seq := getitem df_price "序号" in
  let? numbers := mapM to_numeric seq in
  let df_price := mask_rows df_price (map (fun c => negb (isna c)) numbers) in
  let? df_price := assign_from df_price "日期" "日期" to_date in
  let? df_price := assign_from df_price "时点" "时点" astype_str in
  let? df_price :=
    assign_from df_price "实时出清价格(元/MWh)" "实时出清价格(元/MWh)" to_numeric in
  assign_from df_price "日前出清价格(元/MWh)" "日前出清价格(元/MWh)" to_numeric.

Definition on_keys : list string := ["日期"; "时点"].

(** The fixed column set of the unified table. *)
Definition unified_columns : list string :=
  [ "日期"; "时点"; "边界数据类型"; "竞价空间(MW)"; "省调负荷(MW)"; "风电(MW)";
    "光伏(MW)"; "新能源负荷(MW)"; "非市场化出力(MW)"; "水电出力(MW)";
    "联络线计划(MW)"; "在线机组容量(MW)"; "日前出清价格(元/MWh)";
    "实时出清价格(元/MWh)"; "负荷率(%)" ].

(** A Python scalar stored in every row of a column. *)
Definition scalar_cell (v : option Q) : cell :=
  match v with
  | Some x => CNum x
  | None => CNull
  end.

(** [pd.to_datetime(series, format='%H:%M', errors='coerce')] on one cell. *)
Definition to_datetime_hm (c : cell) : cell :=
  match c with
  | CStr s => match parse_hm s with
              | Some t => CStamp t
              | None => CNull
              end
  | _ => CNull
  end.

(** [series.map({'日前': 0, '实时': 1})] on one cell. *)
Definition epoch_rank (c : cell) : cell :=
  if eq_text "日前" c then CNum 0
  else if eq_text "实时" c then CNum 1
  else CNull.

(** 合并所有日前数据 *)
Definition merge_day_ahead
    (df_load df_renewable df_disclosure df_tie_line df_hydro df_price : DataFrame)
  : result DataFrame :=
  let? l := select df_load ["日期"; "时点"; "省调负荷(MW)"] in
  let? r := select df_renewable
              ["日期"; "时点"; "风电(MW)"; "光伏(MW)"; "新能源负荷(MW)"] in
  let? day_ahead_data := merge l r on_keys Outer in
  let? r := select df_disclosure ["日期"; "时点"; "非市场化出力(MW)"] in
  let? day_ahead_data := merge day_ahead_data r on_keys Outer in
  let? r := select df_tie_line ["日期"; "时点"; "联络线计划(MW)"] in
  let? day_ahead_data := merge day_ahead_data r on_keys Outer in
  let? r := select df_hydro ["日期"; "时点"; "水电出力(MW)"] in
  let? day_ahead_data := merge day_ahead_data r on_keys Outer in
  let? r := select df_price ["日期"; "时点"; "日前出清价格(元/MWh)"] in
  merge day_ahead_data r on_keys Outer.

(** 合并所有实时数据 *)
Definition merge_real_time (df_actual df_tie_line_rt df_price : DataFrame)
  : result DataFrame :=
  let? real_time_data :=
    select df_actual
      ["日期"; "时点"; "省调负荷(MW)"; "风电(MW)"; "光伏(MW)"; "新能源负荷(MW)";
       "水电出力(MW)"; "非市场化出力(MW)"] in
  let? r := select df_tie_line_rt ["日期"; "时点"; "联络线计划(MW)"] in
  let? real_time_data := merge real_time_data r on_keys Left in
  let? r := select df_price ["日期"; "时点"; "实时出清价格(元/MWh)"] in
  merge real_time_data r on_keys Left.

(** The text from 合并所有日前数据 to the final [drop], the same in
    [preprocess_boundary_files] and in [preprocess_data]. *)
Definition merge_boundary_data
    (df_load df_renewable df_disclosure df_tie_line : DataFrame)
    (online_capacity : option Q)
    (df_hydro df_actual df_tie_line_rt df_price : DataFrame) : result DataFrame :=
  let? day_ahead_data :=
    merge_day_ahead df_load df_renewable df_disclosure df_tie_line df_hydro df_price in
  let day_ahead_data := assign day_ahead_data "边界数据类型" (fun _ => CStr "日前") in
  let day_ahead_data :=
    assign day_ahead_data "在线机组容量(MW)" (fun _ => scalar_cell online_capacity) in
  let? real_time_data := merge_real_time df_actual df_tie_line_rt df_price in
  let real_time_data := assign real_time_data "边界数据类型" (fun _ => CStr "实时") in
  let result_df := concat day_ahead_data real_time_data in
  let result_df :=
    fold_left
      (fun df col => if has_column df col then df else assign df col (fun _ => CNull))
      unified_columns result_df in
  let? result_df := select result_df unified_columns in
  let result_df := assign result_df "时点_排序" (fun r => to_datetime_hm (r "时点")) in
  let result_df :=
    assign result_df "边界数据类型_排序" (fun r => epoch_rank (r "边界数据类型")) in
  let? result_df :=
    sort_values result_df ["边界数据类型_排序"; "日期"; "时点_排序"] in
  drop result_df ["时点_排序"; "边界数据类型_排序"].

(** The body of the [try] block: it goes on, returns early with a
    message, or raises. *)
Inductive step (A : Type) : Type :=
| Next (a : A)
| Return (message : string)
| Raised (e : PyError).
Arguments Next {A} a.
Arguments Return {A} message.
Arguments Raised {A} e.

Definition bind_step {A B : Type} (m : step A) (k : A -> step B) : step B :=
  match m with
  | Next a => k a
  | Return message => Return message
  | Raised e => Raised e
  end.

Definition of_result {A : Type} (m : result A) : step A :=
  match m with
  | Ok a => Next a
  | Raise e => Raised e
  end.

(** [if name in files_dict: ... else: return None, "缺少文件: " + name] *)
Definition load {A : Type} (files_dict : gmap string UploadedFile) (name : string)
    (normalize : UploadedFile -> result A) : step A :=
  match files_dict !! name with
  | Some file => of_result (normalize file)
  | None => Return ("缺少文件: " +:+ name)
  end.

Definition preprocess_boundary_files (files_dict : gmap string UploadedFile)
  : option DataFrame * option string :=
  let body :=
    bind_step (load files_dict "日前统调系统负荷预测_REPORT0.xlsx" normalize_load)
      (fun df_load =>
    bind_step (load files_dict "日前新能源负荷预测_REPORT0.xlsx" normalize_renewable)
      (fun df_renewable =>
    bind_step (load files_dict "披露信息96点数据_REPORT0.xlsx" normalize_disclosure)
      (fun df_disclosure =>
    bind_step (load files_dict "日前联络线计划_REPORT0.xlsx" normalize_tie_line)
      (fun df_tie_line =>
    bind_step (load files_dict "日前市场出清情况_TABLE.xlsx" normalize_clearing)
      (fun online_capacity =>
    bind_step (load files_dict "日前水电计划发电总出力预测_REPORT0.xlsx" normalize_hydro)
      (fun df_hydro =>
    bind_step (load files_dict "96点电网运行实际值_REPORT0.xlsx" normalize_actual)
      (fun df_actual =>
    bind_step (load files_dict "实时联络线计划_REPORT0.xlsx" normalize_tie_line)
      (fun df_tie_line_rt =>
    bind_step (load files_dict "现货出清电价_REPORT0.xlsx" normalize_price)
      (fun df_price =>
    of_result
      (merge_boundary_data df_load df_renewable df_disclosure df_tie_line
         online_capacity df_hydro df_actual df_tie_line_rt df_price)))))))))) in
  match body with
  | Next result_df => (Some result_df, None)
  | Return message => (None, Some message)
  | Raised e => (None, Some ("处理出错: " +:+ error_text e))
  end.

(** The nine names the upload page requires, in its order. *)
Definition required_files : list string :=
  [ "日前统调系统负荷预测_REPORT0.xlsx";
    "日前新能源负荷预测_REPORT0.xlsx";
    "披露信息96点数据_REPORT0.xlsx";
    "日前联络线计划_REPORT0.xlsx";
    "日前市场出清情况_TABLE.xlsx";
    "日前水电计划发电总出力预测_REPORT0.xlsx";
    "96点电网运行实际值_REPORT0.xlsx";
    "实时联络线计划_REPORT0.xlsx";
    "现货出清电价_REPORT0.xlsx" ].

(** preprocess_data.py: the files are read from the directory
    [margin_data]; a file that is not there makes [pd.read_excel] raise.
    The progress lines the function prints are left out. *)
Definition read_from (margin_data : gmap string UploadedFile) (name : string)
  : UploadedFile :=
  match margin_data !! name with
  | Some file => file
  | None => Raise (FileNotFoundError name)
  end.

Definition preprocess_data (margin_data : gmap string UploadedFile) : result DataFrame :=
  let? df_load :=
    normalize_load (read_from margin_data "日前统调系统负荷预测_REPORT0.xlsx") in
  let? df_renewable :=
    normalize_renewable (read_from margin_data "日前新能源负荷预测_REPORT0.xlsx") in
  let? df_disclosure :=
    normalize_disclosure (read_from margin_data "披露信息96点数据_REPORT0.xlsx") in
  let? df_tie_line :=
    normalize_tie_line (read_from margin_data "日前联络线计划_REPORT0.xlsx") in
  let? online_capacity :=
    normalize_clearing (read_from margin_data "日前市场出清情况_TABLE.xlsx") in
  let? df_hydro :=
    normalize_hydro (read_from margin_data "日前水电计划发电总出力预测_REPORT0.xlsx") in
  let? df_actual :=
    normalize_actual (read_from margin_data "96点电网运行实际值_REPORT0.xlsx") in
  let? df_tie_line_rt :=
    normalize_tie_line (read_from margin_data "实时联络线计划_REPORT0.xlsx") in
  let? df_price :=
    normalize_price (read_from margin_data "现货出清电价_REPORT0.xlsx") in
  merge_boundary_data df_load df_renewable df_disclosure df_tie_line
    online_capacity df_hydro df_actual df_tie_line_rt df_price.

End Reconciliation.
End Boundary.

Module Page.
Section Upload.
Context {lib : PyLib}.
Import Boundary.

(** The upload page of app.py for the boundary files.  An uploaded file
    is its name and its content.  [required_files = {name: False, ...}]
    is the list of the nine names, each with its flag. *)
Definition required_flags : list (string * bool) :=
  map (fun name => (name, false)) required_files.

(** [required_files[file.name] = True] *)
Definition mark (name : string) (required : list (string * bool))
  : list (string * bool) :=
  map (fun entry => if String.eqb (fst entry) name then (fst entry, true) else entry)
    required.

(** The loop over the uploaded files: [files_dict[file.name] = file],
    and the flag of a required name is set. *)
Definition collect (uploaded_files : list (string * UploadedFile))
  : gmap string UploadedFile * list (string * bool) :=
  fold_left
    (fun state file =>
       (<[fst file := snd file]> (fst state),
        if existsb (String.eqb (fst file)) (map fst (snd state))
        then mark (fst file) (snd state) else snd state))
    uploaded_files (∅, required_flags).

(** [[name for name, found in required_files.items() if not found]] *)
Definition missing_files (required : list (string * bool)) : list string :=
  map fst (List.filter (fun entry => negb (snd entry)) required).

(** The button 开始处理: nothing is shown without an uploaded file, the
    button is disabled while a required file is missing, and it runs
    [preprocess_boundary_files] on [files_dict] otherwise.  [None] is the
    page on which the function was not run. *)
Definition start_processing (uploaded_files : list (string * UploadedFile))
  : option (option DataFrame * option string) :=
  match uploaded_files with
  | [] => None
  | _ =>
      let files_dict := fst (collect uploaded_files) in
      let required := snd (collect uploaded_files) in
      if (0 <? length (missing_files required))%nat then None
      else Some (preprocess_boundary_files files_dict)
  end.

End Upload.
End Page.

(** * app.py and main.py: merging the trading files *)

Module Trading.
Section Merge.
Context {lib : PyLib}.
Import Boundary.

(** [name.rfind(ch)] *)
Fixpoint rfind (ch : ascii) (s : string) : option nat :=
  match s with
  | EmptyString => None
  | String a s' =>
      match rfind ch s' with
      | Some i => Some (S i)
      | None => if Ascii.eqb a ch then Some 0%nat else None
      end
  end.

(** [Path(name).stem], for a name that is a final path component: the
    name without its last suffix, a suffix being what a dot that is
    neither the first nor the last character starts. *)
Definition stem (name : string) : string :=
  match rfind "." name with
  | Some i =>
      if (0 <? i)%nat && (i <? String.length name - 1)%nat then substring 0 i name
      else name
  | None => name
  end.

(** [text.split(ch)[0]] *)
Fixpoint first_part (ch : ascii) (s : string) : string :=
  match s with
  | EmptyString => EmptyString
  | String a s' => if Ascii.eqb a ch then EmptyString else String a (first_part ch s')
  end.

(** [Path(uploaded_file.name).stem.split("-")[0]] *)
Definition company_name_of (name : string) : string := first_part "-" (stem name).

(** [pd.concat(all_data, ignore_index=True)]: the columns in the order
    of their first appearance, the rows of the frames in turn, each
    null where its own frame had no such column. *)
Definition union_columns (frames : list DataFrame) : list string :=
  fold_left (fun cols df => cols ++ List.filter (fun c => negb (mem c cols)) (columns df))
    frames [].

Definition concat_all (frames : list DataFrame) : DataFrame :=
  {| columns := union_columns frames;
     data := flat_map (fun df => map (restrict (columns df)) (data df)) frames |}.

(** One turn of the loop of [process_trading_files]: the sheet is read
    and labelled, or the error is shown and the file is left out. *)
Definition process_file (state : list string * list DataFrame)
    (uploaded_file : string * UploadedFile) : list string * list DataFrame :=
  let company_name := company_name_of (fst uploaded_file) in
  match read_excel (snd uploaded_file) with
  | Ok df =>
      (fst state, snd state ++ [assign df "公司名称" (fun _ => CStr company_name)])
  | Raise e =>
      (fst state ++ ["处理文件 " +:+ fst uploaded_file +:+ " 时出错: " +:+ error_text e],
       snd state)
  end.

(** The messages of [st.error] and the merged table, [None] when no
    sheet could be read. *)
Definition process_trading_files (uploaded_files : list (string * UploadedFile))
  : list string * option DataFrame :=
  let state := fold_left process_file uploaded_files ([], []) in
  (fst state,
   match snd state with
   | [] => None
   | all_data => Some (concat_all all_data)
   end).

End Merge.
End Trading.

(** * A concrete runtime and concrete tables

    The properties below hold for every [PyLib].  To run the model on
    examples, [plain_lib] reads ASCII digits, dates given as date or
    timestamp cells or as one of two texts, and time labels of the
    shape HH:MM, and it averages exactly. *)

Definition ascii_decimal (c : N) : option N :=
  if (48 <=? c)%N && (c <=? 57)%N then Some (c - 48)%N else None.

Definition two_digits (a b : ascii) : option Z :=
  match ascii_decimal (N_of_ascii a), ascii_decimal (N_of_ascii b) with
  | Some x, Some y => Some (Z.of_N (10 * x + y))
  | _, _ => None
  end.

Definition plain_parse_hm (s : string) : option Z :=
  match s with
  | String h1 (String h2 (String ":" (String m1 (String m2 EmptyString)))) =>
      match two_digits h1 h2, two_digits m1 m2 with
      | Some h, Some m =>
          if (h <? 24)%Z && (m <? 60)%Z then Some (h * 3600 + m * 60)%Z else None
      | _, _ => None
      end
  | _ => None
  end.

Definition plain_lib : PyLib :=
  {| parse_datetime := fun c => match c with
                                | CDate d => Some (d * 86400)%Z
                                | CStamp t => Some t
                                | CStr s => if String.eqb s "2026-01-01" then Some 1767225600%Z
                                            else if String.eqb s "2026-01-02"
                                                 then Some 1767312000%Z
                                                 else None
                                | _ => None
                                end;
     parse_hm := plain_parse_hm;
     coerce_numeric := fun _ => None;
     format_value := fun _ => "nan";
     capacity_match := fun s => if String.eqb s "运行机组容量42340.00MW"
                                then Some 42340%Q else None;
     decimal_digit := ascii_decimal;
     error_text := fun e => match e with
                            | KeyError key => key
                            | IndexError => "single positional indexer is out-of-bounds"
                            | FileNotFoundError name => name
                            | _ => "error"
                            end;
     float_mean := fun xs => (fold_right Qplus 0 xs / inject_Z (Z.of_nat (length xs)))%Q |}.

(** A row given by its named cells, and a sheet given by its header and
    its rows of cells. *)
Definition row_of (cells : list (string * cell)) : Row :=
  fun c => match List.find (fun kv => String.eqb (fst kv) c) cells with
           | Some kv => snd kv
           | None => CNull
           end.

Definition sheet (header : list string) (rows : list (list cell)) : DataFrame :=
  {| columns := header; data := map (fun cells => row_of (combine header cells)) rows |}.

(** A trading table: four quarter-hours of unit 1 of 塔山 on one day. *)
Definition trading_columns : list string :=
  [ "日期"; "公司名称"; "机组名称"; "日前出清节点价格"; "日内出清节点价格";
    "省间日前出清电力"; "省间日前出清价格"; "省间实时出清电力"; "省间实时出清价格";
    "日前中标出力"; "省内中长期上网电量"; "省内中长期均价";
    "省间中长期上网电量"; "省间中长期均价" ].

Definition trading_row (forecast intraday : Q) : list cell :=
  [ CDate 20454; CStr "塔山"; CStr "1号机组"; CNum forecast; CNum intraday;
    CNum 0; CNum 320; CNull; CNull;
    CNum 150; CNull; CNum 330; CNum 0; CNull ].

Definition trading_df : DataFrame :=
  sheet trading_columns
    [ trading_row 100 90; trading_row 150 160; trading_row 200 100; trading_row 250 300 ].

(** A table that has the forecast price and nothing else. *)
Definition bare_df : DataFrame := sheet ["日前出清节点价格"] [[CNum 150]].

(** Criteria with a minimum price of 100 alone, the bound excluded and
    the bound included. *)
Definition min_100 : Review.Criteria :=
  Review.mkCriteria (Some 100%Q) None None None None None None false false.

Definition min_100_included : Review.Criteria :=
  Review.mkCriteria (Some 100%Q) None None None None None None true false.

(** The rows of [trading_df] whose forecast price is above 100. *)
Definition trading_above_100 : DataFrame :=
  sheet trading_columns
    [ trading_row 150 160; trading_row 200 100; trading_row 250 300 ].

(** Criteria that name the company 塔山 and nothing else. *)
Definition tashan_only : Review.Criteria :=
  Review.mkCriteria None None None None (Some "塔山") None None false false.

(** Criteria that set a start date, a company, a unit and a unit group,
    and no price bound. *)
Definition no_price_bound : Review.Criteria :=
  Review.mkCriteria None None (Some "2026-01-01") None (Some "塔山") (Some "1号机组")
    (Some "机组1&3组") false false.

(** Nine sheets for one day.  The first row under each header is the
    units row that the normalization drops; six sources bring one
    time slot each, all different. *)
Definition units_row (n : nat) : list cell := repeat (CStr "-") n.

Definition example_load : DataFrame :=
  sheet ["序号"; "日期"; "时点"; "省调负荷"]
    [ units_row 4; [CNum 1; CStamp 1767225600; CStr "00:15"; CNum 21000] ].

Definition example_renewable : DataFrame :=
  sheet ["序号"; "日期"; "时点"; "新能源"; "风电"; "光伏"]
    [ units_row 6; [CNum 1; CStamp 1767225600; CStr "00:30"; CNum 5000; CNum 5000; CNum 0] ].

Definition example_disclosure : DataFrame :=
  sheet ["序号"; "日期"; "时点"; "非市场化出力"]
    [ units_row 4; [CNum 1; CStamp 1767225600; CStr "00:45"; CNum 800] ].

Definition example_tie_line : DataFrame :=
  sheet ["序号"; "通道"; "日期"; "时点"; "计划"]
    [ units_row 5;
      [CNum 1; CStr "总加"; CStamp 1767225600; CStr "01:00"; CNum (-3000)];
      [CNum 2; CStr "雁淮直流"; CStamp 1767225600; CStr "01:00"; CNum (-2000)] ].

Definition example_clearing : DataFrame :=
  sheet ["序号"; "日期"; "出清概况"]
    [ units_row 3; [CNum 1; CStamp 1767225600; CStr "运行机组容量42340.00MW"] ].

Definition example_hydro : DataFrame :=
  sheet ["序号"; "日期"; "时点"; "水电"]
    [ units_row 4; [CNum 1; CStamp 1767225600; CStr "01:15"; CNum 300] ].

Definition example_actual : DataFrame :=
  sheet ["序号"; "日期"; "时点"; "负荷"; "火电"; "风电"; "光伏"; "新能源"; "水电";
         "抽蓄"; "储能"; "非市场化"]
    [ units_row 12;
      [CNum 1; CStamp 1767225600; CStr "00:15"; CNum 20900; CNum 15000; CNum 4800;
       CNum 0; CNum 4800; CNum 290; CNum 0; CNum 0; CNum 810] ].

Definition example_price : DataFrame :=
  sheet ["序号"; "日期"; "时点"; "实时出清价格(元/MWh)"; "日前出清价格(元/MWh)"]
    [ [CNum 1; CStamp 1767225600; CStr "01:30"; CNum 305; CNum 310];
      [CStr "均价"; CNull; CNull; CNum 305; CNum 310] ].

Definition example_files : gmap string Boundary.UploadedFile :=
  list_to_map
    [ ("日前统调系统负荷预测_REPORT0.xlsx", Ok example_load);
      ("日前新能源负荷预测_REPORT0.xlsx", Ok example_renewable);
      ("披露信息96点数据_REPORT0.xlsx", Ok example_disclosure);
      ("日前联络线计划_REPORT0.xlsx", Ok example_tie_line);
      ("日前市场出清情况_TABLE.xlsx", Ok example_clearing);
      ("日前水电计划发电总出力预测_REPORT0.xlsx", Ok example_hydro);
      ("96点电网运行实际值_REPORT0.xlsx", Ok example_actual);
      ("实时联络线计划_REPORT0.xlsx", Ok example_tie_line);
      ("现货出清电价_REPORT0.xlsx", Ok example_price) ].

(** The load forecast alone, as a sheet with a single column. *)
Definition one_column_files : gmap string Boundary.UploadedFile :=
  {[ "日前统调系统负荷预测_REPORT0.xlsx" := Ok (sheet ["序号"] [[CStr "-"]; [CNum 1]]) ]}.

(** The unified table of [example_files]. *)
Definition example_unified : DataFrame :=
  default (mkDataFrame [] [])
    (fst (Boundary.preprocess_boundary_files (lib := plain_lib) example_files)).

(** * Vocabulary of the properties *)

(** A cell of a float64 column: a number or null. *)
Definition numeric (c : cell) : Prop :=
  match c with
  | CNull | CNum _ => True
  | _ => False
  end.

(** The cell is a number that satisfies [x OP bound]. *)
Definition passes (op : Q -> Q -> bool) (bound : Q) (c : cell) : bool :=
  match c with
  | CNum x => op x bound
  | _ => false
  end.

(** The price bounds of a criteria set, read on one cell: above the
    minimum when one is set, below the maximum when one is set, each
    bound strict unless its flag includes it. *)
Definition price_ok (lo hi : option Q) (include_lo include_hi : bool) (c : cell) : bool :=
  match lo with
  | Some m => passes (if include_lo then Qge_bool else Qgt_bool) m c
  | None => true
  end
  &&
  match hi with
  | Some m => passes (if include_hi then Qle_bool else Qlt_bool) m c
  | None => true
  end.

Definition bounds_ok (a : Review.Criteria) (c : cell) : bool :=
  price_ok (Review.min_price a) (Review.max_price a)
    (Review.include_min_boundary a) (Review.include_max_boundary a) c.

(** Only the price bounds of a criteria set are in use. *)
Definition price_only (a : Review.Criteria) : Prop :=
  Review.start_date a = None /\ Review.end_date a = None /\
  Review.company_name a = None /\ Review.unit_name a = None /\
  Review.unit_dimension a = None.

(** A volume that is null or zero. *)
Definition null_or_zero (c : cell) : Prop :=
  match c with
  | CNull => True
  | CNum x => (x == 0)%Q
  | _ => False
  end.

(** The number a cell stands for once its null is filled with 0. *)
Definition num_of (c : cell) : Q :=
  match c with
  | CNum x => x
  | _ => 0%Q
  end.

(** [Σ q] over a list of rows. *)
Definition Qsum_over {A : Type} (q : A -> Q) (l : list A) : Q :=
  fold_right (fun a t => (q a + t)%Q) 0%Q l.

(** The rows of a frame on which two volumes are null or zero and two
    prices are numbers or nulls. *)
Definition zero_volume_rows (f : DataFrame) (power_a price_a power_b price_b : string)
  : Prop :=
  Forall (fun r => null_or_zero (r power_a) /\ null_or_zero (r power_b) /\
                   numeric (r price_a) /\ numeric (r price_b)) (data f).

(** The rows of a frame on which four columns hold numbers or nulls. *)
Definition numeric_rows (f : DataFrame) (power_a price_a power_b price_b : string)
  : Prop :=
  Forall (fun r => numeric (r power_a) /\ numeric (r price_a) /\
                   numeric (r power_b) /\ numeric (r price_b)) (data f).

(** Σ (power_a × price_a + power_b × price_b) / Σ (power_a + power_b) over
    the rows, every null counted as 0, and 0 when the denominator is 0. *)
Definition weighted_average (rows : list Row) (power_a price_a power_b price_b : string)
  : Q :=
  let numerator :=
    Qsum_over (fun r => num_of (r power_a) * num_of (r price_a)
                        + num_of (r power_b) * num_of (r price_b))%Q rows in
  let denominator :=
    Qsum_over (fun r => num_of (r power_a) + num_of (r power_b))%Q rows in
  if Qeq_bool denominator 0 then 0%Q else (numerator / denominator)%Q.

(** The frame [f'] has the columns of [f] and a selection of its rows. *)
Definition selection_of (f' f : DataFrame) : Prop :=
  columns f' = columns f /\ exists p, data f' = List.filter p (data f).

(** The computation returned. *)
Definition is_ok {A : Type} (m : result A) : bool :=
  match m with
  | Ok _ => true
  | Raise _ => false
  end.

(** The required files in the order [preprocess_boundary_files] asks for
    them, each with the test that its block of the function runs to the
    end without raising. *)
Definition loaders {lib : PyLib} : list (string * (Boundary.UploadedFile -> bool)) :=
  [ ("日前统调系统负荷预测_REPORT0.xlsx", fun f => is_ok (Boundary.normalize_load f));
    ("日前新能源负荷预测_REPORT0.xlsx", fun f => is_ok (Boundary.normalize_renewable f));
    ("披露信息96点数据_REPORT0.xlsx", fun f => is_ok (Boundary.normalize_disclosure f));
    ("日前联络线计划_REPORT0.xlsx", fun f => is_ok (Boundary.normalize_tie_line f));
    ("日前市场出清情况_TABLE.xlsx", fun f => is_ok (Boundary.normalize_clearing f));
    ("日前水电计划发电总出力预测_REPORT0.xlsx", fun f => is_ok (Boundary.normalize_hydro f));
    ("96点电网运行实际值_REPORT0.xlsx", fun f => is_ok (Boundary.normalize_actual f));
    ("实时联络线计划_REPORT0.xlsx", fun f => is_ok (Boundary.normalize_tie_line f));
    ("现货出清电价_REPORT0.xlsx", fun f => is_ok (Boundary.normalize_price f)) ].

(** The exception a computation raises, if it raises. *)
Definition raised {A : Type} (m : result A) : option PyError :=
  match m with
  | Ok _ => None
  | Raise e => Some e
  end.

(** The required files in the same order, each with the exception that
    its block of the function raises on a file. *)
Definition loader_errors {lib : PyLib}
  : list (string * (Boundary.UploadedFile -> option PyError)) :=
  [ ("日前统调系统负荷预测_REPORT0.xlsx", fun f => raised (Boundary.normalize_load f));
    ("日前新能源负荷预测_REPORT0.xlsx", fun f => raised (Boundary.normalize_renewable f));
    ("披露信息96点数据_REPORT0.xlsx", fun f => raised (Boundary.normalize_disclosure f));
    ("日前联络线计划_REPORT0.xlsx", fun f => raised (Boundary.normalize_tie_line f));
    ("日前市场出清情况_TABLE.xlsx", fun f => raised (Boundary.normalize_clearing f));
    ("日前水电计划发电总出力预测_REPORT0.xlsx", fun f => raised (Boundary.normalize_hydro f));
    ("96点电网运行实际值_REPORT0.xlsx", fun f => raised (Boundary.normalize_actual f));
    ("实时联络线计划_REPORT0.xlsx", fun f => raised (Boundary.normalize_tie_line f));
    ("现货出清电价_REPORT0.xlsx", fun f => raised (Boundary.normalize_price f)) ].

(** The first required file that the file set lacks. *)
Definition first_missing (files_dict : gmap string Boundary.UploadedFile)
  : option string :=
  List.find (fun name => negb (is_set (files_dict !! name))) Boundary.required_files.

(** Every required file asked for before [name] is there and its block
    runs without raising. *)
Fixpoint loaded_before (files_dict : gmap string Boundary.UploadedFile)
    (ls : list (string * (Boundary.UploadedFile -> bool))) (name : string) : bool :=
  match ls with
  | [] => true
  | (n, runs) :: ls' =>
      if String.eqb n name then true
      else
        match files_dict !! n with
        | Some file => runs file && loaded_before files_dict ls' name
        | None => false
        end
  end.

(** The join key of a row, and the keys of the rows of a table. *)
Definition keys (t : DataFrame) : list (list cell) :=
  map (key_of Boundary.on_keys) (data t).

(** How many times a key occurs in a list of keys. *)
Definition occurrences (k : list cell) (ks : list (list cell)) : nat :=
  length (List.filter (fun k' => bool_decide (k' = k)) ks).

(** The rows an outer join of several tables has for one key, given how
    many rows each table has for it: none when no table has the key,
    and otherwise every combination of the rows that have it, a table
    without the key standing for one row of nulls. *)
Definition joined_rows (counts : list nat) : nat :=
  if forallb (Nat.eqb 0) counts then 0%nat
  else fold_right (fun c n => (Nat.max 1 c * n)%nat) 1%nat counts.

(** The number of rows of the outer join of several tables on the key,
    each table given by the keys of its rows. *)
Definition outer_join_cardinality (tables : list (list (list cell))) : nat :=
  sum_list_with (fun k => joined_rows (map (occurrences k) tables))
    (remove_dups (List.concat tables)).

(** The forecast-epoch partition of a unified table. *)
Definition forecast_rows (t : DataFrame) : list Row :=
  List.filter (fun r => eq_text "日前" (r "边界数据类型")) (data t).

(** The keys of the six normalized tables that are joined into the
    forecast epoch, as both entry points read them. *)
Definition forecast_keys {lib : PyLib} (files : gmap string Boundary.UploadedFile)
  : result (list (list (list cell))) :=
  let? df_load :=
    Boundary.normalize_load
      (Boundary.read_from files "日前统调系统负荷预测_REPORT0.xlsx") in
  let? df_renewable :=
    Boundary.normalize_renewable
      (Boundary.read_from files "日前新能源负荷预测_REPORT0.xlsx") in
  let? df_disclosure :=
    Boundary.normalize_disclosure
      (Boundary.read_from files "披露信息96点数据_REPORT0.xlsx") in
  let? df_tie_line :=
    Boundary.normalize_tie_line
      (Boundary.read_from files "日前联络线计划_REPORT0.xlsx") in
  let? df_hydro :=
    Boundary.normalize_hydro
      (Boundary.read_from files "日前水电计划发电总出力预测_REPORT0.xlsx") in
  let? df_price :=
    Boundary.normalize_price
      (Boundary.read_from files "现货出清电价_REPORT0.xlsx") in
  Ok [ keys df_load; keys df_renewable; keys df_disclosure; keys df_tie_line;
       keys df_hydro; keys df_price ].

(** The capacity both entry points take from the clearing summary. *)
Definition clearing_capacity {lib : PyLib} (files : gmap string Boundary.UploadedFile)
  : result (option Q) :=
  Boundary.normalize_clearing (Boundary.read_from files "日前市场出清情况_TABLE.xlsx").

(** A list without its element at one position. *)
Definition without {A : Type} (i : nat) (l : list A) : list A :=
  firstn i l ++ skipn (S i) l.

(** The cells of a row that the properties of the unified table read. *)
Definition tracked_cells (r : Row) : list cell :=
  [ r "日期"; r "时点"; r "边界数据类型"; r "在线机组容量(MW)" ].

(** The rows of a two-table outer join for one key. *)
Definition join2 (a b : nat) : nat :=
  if (a =? 0)%nat then b else (a * Nat.max 1 b)%nat.

(** The timestamp [pd.to_datetime] reads in a date argument, NaT when
    it reads none. *)
Definition date_bound {lib : PyLib} (text : string) : option Z :=
  match Review.to_datetime_scalar text with
  | Ok ts => ts
  | Raise _ => None
  end.

(** The date range of a criteria set, read on one cell of the date
    column: on or after the start date when one is set, on or before the
    end date when one is set; a cell that is no date is outside, and so
    is every cell when a date that is set reads as NaT. *)
Definition in_date_range {lib : PyLib} (s e : option string) (c : cell) : bool :=
  match s with
  | Some sd => Review.date_ge (date_bound sd) (Review.to_datetime_coerce c)
  | None => true
  end
  &&
  match e with
  | Some ed => Review.date_le (date_bound ed) (Review.to_datetime_coerce c)
  | None => true
  end.

(** A text criterion read on one row: it holds when it is not set, when
    the table has no such column, and when the cell is that text. *)
Definition text_ok (df : DataFrame) (col : string) (wanted : option string) (r : Row)
  : bool :=
  match wanted with
  | Some t => if has_column df col then eq_text t (r col) else true
  | None => true
  end.

(** The conjunction of the five criteria of [filter_by_price_range]. *)
Definition selected {lib : PyLib} (df : DataFrame) (col dcol : string)
    (a : Review.Criteria) (r : Row) : bool :=
  bounds_ok a (r col)
  && (if has_column df dcol
      then in_date_range (Review.start_date a) (Review.end_date a) (r dcol) else true)
  && text_ok df "公司名称" (Review.company_name a) r
  && text_ok df "机组名称" (Review.unit_name a) r
  && text_ok df "机组维度" (Review.unit_dimension a) r.

(** The lines [filter_by_price_range] prints. *)
Definition filter_warnings (df : DataFrame) (dcol : string) (a : Review.Criteria)
  : list string :=
  (if negb (has_column df dcol)
      && (is_set (Review.start_date a) || is_set (Review.end_date a))
   then ["警告: 日期列 '" +:+ dcol +:+ "' 不存在，无法应用日期筛选"] else [])
  ++
  (if is_set (Review.unit_dimension a) && negb (has_column df "机组维度")
   then ["警告: 数据中不包含'机组维度'列，无法应用机组维度筛选"] else []).

(** What [filter_by_price_range] needs in order to return: a price
    column of numbers and nulls when a bound is set, and, on a table
    with the date column, a start and an end date that [pd.to_datetime]
    reads without an exception, as a timestamp or as NaT. *)
Definition price_column_ready (df : DataFrame) (col : string) (a : Review.Criteria)
  : Prop :=
  is_set (Review.min_price a) || is_set (Review.max_price a) = true ->
  has_column df col = true /\ Forall (fun r => numeric (r col)) (data df).

Definition date_parses {lib : PyLib} (d : option string) : Prop :=
  match d with
  | Some text => exists ts, Review.to_datetime_scalar text = Ok ts
  | None => True
  end.

Definition dates_ready {lib : PyLib} (df : DataFrame) (dcol : string)
    (a : Review.Criteria) : Prop :=
  has_column df dcol = true ->
  date_parses (Review.start_date a) /\ date_parses (Review.end_date a).

(** A criteria set with another company, another unit group, other
    price bounds. *)
Definition with_company (a : Review.Criteria) (c : option string) : Review.Criteria :=
  Review.mkCriteria (Review.min_price a) (Review.max_price a) (Review.start_date a)
    (Review.end_date a) c (Review.unit_name a) (Review.unit_dimension a)
    (Review.include_min_boundary a) (Review.include_max_boundary a).

Definition with_unit_dimension (a : Review.Criteria) (d : option string)
  : Review.Criteria :=
  Review.mkCriteria (Review.min_price a) (Review.max_price a) (Review.start_date a)
    (Review.end_date a) (Review.company_name a) (Review.unit_name a) d
    (Review.include_min_boundary a) (Review.include_max_boundary a).

Definition with_bounds (a : Review.Criteria) (lo hi : option Q) (include_lo include_hi : bool)
  : Review.Criteria :=
  Review.mkCriteria lo hi (Review.start_date a) (Review.end_date a)
    (Review.company_name a) (Review.unit_name a) (Review.unit_dimension a)
    include_lo include_hi.

Definition with_dates (a : Review.Criteria) (s e : option string) : Review.Criteria :=
  Review.mkCriteria (Review.min_price a) (Review.max_price a) s e
    (Review.company_name a) (Review.unit_name a) (Review.unit_dimension a)
    (Review.include_min_boundary a) (Review.include_max_boundary a).

Definition with_unit (a : Review.Criteria) (u : option string) : Review.Criteria :=
  Review.mkCriteria (Review.min_price a) (Review.max_price a) (Review.start_date a)
    (Review.end_date a) (Review.company_name a) u (Review.unit_dimension a)
    (Review.include_min_boundary a) (Review.include_max_boundary a).

(** The criteria of [filter_by_price_range] other than the price
    bounds, read on one row. *)
Definition other_criteria {lib : PyLib} (df : DataFrame) (dcol : string)
    (a : Review.Criteria) (r : Row) : bool :=
  (if has_column df dcol
   then in_date_range (Review.start_date a) (Review.end_date a) (r dcol) else true)
  && text_ok df "公司名称" (Review.company_name a) r
  && text_ok df "机组名称" (Review.unit_name a) r
  && text_ok df "机组维度" (Review.unit_dimension a) r.

(** A table of three priced quarter-hours that has the date column and
    neither the company, the unit nor the unit group; criteria that set
    a minimum price, the two dates, a company, a unit and a unit group;
    and the one row they select. *)
Definition priced_days : DataFrame :=
  sheet ["日期"; "日前出清节点价格"]
    [ [CDate 20454; CNum 150]; [CDate 20454; CNum 90]; [CDate 20455; CNum 200] ].

Definition day_one_tashan : Review.Criteria :=
  Review.mkCriteria (Some 100%Q) None (Some "2026-01-01") (Some "2026-01-01")
    (Some "塔山") (Some "1号机组") (Some "机组1&3组") false false.

Definition priced_day_one : DataFrame :=
  sheet ["日期"; "日前出清节点价格"] [ [CDate 20454; CNum 150] ].

(** Criteria with both price bounds, the minimum included and the
    maximum excluded, and a company; the rows of [trading_df] they
    select. *)
Definition from_100_below_200 : Review.Criteria :=
  Review.mkCriteria (Some 100%Q) (Some 200%Q) None None (Some "塔山") None None true false.

Definition trading_100_to_200 : DataFrame :=
  sheet trading_columns [ trading_row 100 90; trading_row 150 160 ].

(** The four labels of [determine_dimension]. *)
Definition unit_dimensions : list string :=
  [ "机组1&3组"; "机组2&4组"; "其他机组"; "未知" ].

(** [Σ x] over a list of numbers. *)
Definition Qsum (l : list Q) : Q := Qsum_over (fun x => x) l.

(** A number inside the price bounds of a criteria set. *)
Definition within_bounds (a : Review.Criteria) (x : Q) : Prop :=
  match Review.min_price a with
  | Some lo => if Review.include_min_boundary a then (lo <= x)%Q else (lo < x)%Q
  | None => True
  end
  /\
  match Review.max_price a with
  | Some hi => if Review.include_max_boundary a then (x <= hi)%Q else (x < hi)%Q
  | None => True
  end.

(** The criteria with no argument set. *)
Definition no_criteria : Review.Criteria :=
  Review.mkCriteria None None None None None None None false false.

(** * Vocabulary of the further properties *)

(** [trading_df] with its unit groups. *)
Definition trading_with_dimension : DataFrame :=
  assign trading_df "机组维度"
    (fun r => CStr (Review.determine_dimension (lib := plain_lib) (r "机组名称"))).

(** The companies of [power_conversion_factors]. *)
Definition known_companies : list string :=
  [ "同华"; "塔山"; "阳高"; "同达"; "王坪"; "蒲洲"; "河津"; "临汾"; "侯马" ].

(** Criteria that select no row of [trading_df]: a maximum price of 50. *)
Definition below_50 : Review.Criteria :=
  Review.mkCriteria None (Some 50%Q) None None None None None false false.

(** The columns every run of [analyze_all_metrics] reads. *)
Definition analysis_columns : list string :=
  [ "日前出清节点价格"; "日内出清节点价格";
    "省间日前出清电力"; "省间日前出清价格"; "省间实时出清电力"; "省间实时出清价格";
    "省内中长期上网电量"; "省内中长期均价"; "省间中长期上网电量"; "省间中长期均价" ].

(** The keys of the dict of [analyze_all_metrics]. *)
Definition metric_keys : list string :=
  [ "1. 日前小时数"; "2. 实时小时数"; "3. 日前价格均价"; "4. 实时价格均价";
    "5. 省间价格均价"; "6. 省间中标电量"; "7. 日前中标电量"; "8. 实际出力电量";
    "9. 中长期持仓电量均值"; "10. 中长期持仓加权均价" ].

(** The exceptions of the analysis: a cell of the wrong kind, a date
    that does not parse, a column that is not there. *)
Definition analysis_error (df : DataFrame) (e : PyError) : Prop :=
  e = TypeError \/ e = ValueError \/
  exists c, e = KeyError c /\ has_column df c = false.

(** [trading_df] with the column of the actual output. *)
Definition output_df : DataFrame := assign trading_df "日内实际出力" (fun _ => CNum 140).

(** The ten metrics of [output_df] above a forecast price of 100. *)
Definition output_metrics : list (string * cell) :=
  [ ("1. 日前小时数", CNum (3 # 4)); ("2. 实时小时数", CNum (2 # 4));
    ("3. 日前价格均价", CNum (600 # 3)); ("4. 实时价格均价", CNum (560 # 3));
    ("5. 省间价格均价", CNum 0); ("6. 省间中标电量", CNum 0);
    ("7. 日前中标电量", CNum (1800 # 12)); ("8. 实际出力电量", CNum (1680 # 12));
    ("9. 中长期持仓电量均值", CNum (0 # 3)); ("10. 中长期持仓加权均价", CNum 0) ].

(** The cells of a row of the unified table, in the order of its
    columns. *)
Definition unified_cells (r : Row) : list cell := map r Boundary.unified_columns.

(** The cells a row of the forecast join has in the unified table, and
    those a row of the realtime join has. *)
Definition forecast_cells (capacity : cell) (r : Row) : list cell :=
  [ r "日期"; r "时点"; CStr "日前"; CNull; r "省调负荷(MW)"; r "风电(MW)"; r "光伏(MW)";
    r "新能源负荷(MW)"; r "非市场化出力(MW)"; r "水电出力(MW)"; r "联络线计划(MW)";
    capacity; r "日前出清价格(元/MWh)"; CNull; CNull ].

Definition realtime_cells (r : Row) : list cell :=
  [ r "日期"; r "时点"; CStr "实时"; CNull; r "省调负荷(MW)"; r "风电(MW)"; r "光伏(MW)";
    r "新能源负荷(MW)"; r "非市场化出力(MW)"; r "水电出力(MW)"; r "联络线计划(MW)";
    CNull; CNull; r "实时出清价格(元/MWh)"; CNull ].

(** The realtime-epoch partition of a unified table. *)
Definition realtime_rows (t : DataFrame) : list Row :=
  List.filter (fun r => eq_text "实时" (r "边界数据类型")) (data t).

(** A calendar date or a null, and a text. *)
Definition date_cell (c : cell) : Prop :=
  match c with
  | CNull | CDate _ => True
  | _ => False
  end.

Definition text_cell (c : cell) : Prop :=
  match c with
  | CStr _ => True
  | _ => False
  end.

(** The rows of a frame are null outside its columns. *)
Definition confined (df : DataFrame) : Prop :=
  Forall (fun r : Row => forall c, has_column df c = false -> r c = CNull) (data df).

(** A normalized table: on every row a date or a null under 日期, a text
    under 时点 and a number or a null under each of the value columns. *)
Definition normalized (values : list string) (t : DataFrame) : Prop :=
  Forall (fun r : Row => date_cell (r "日期") /\ text_cell (r "时点") /\
                         Forall (fun c => numeric (r c)) values) (data t).

(** A 序号 that [pd.to_numeric] turns into a number. *)
Definition numbered {lib : PyLib} (c : cell) : bool :=
  match c with
  | CNum _ => true
  | CNull => false
  | _ => is_set (coerce_numeric c)
  end.

(** The kind of the cells of a column of the two joins: a date or a
    null under 日期, a text or a null under 时点, a number or a null
    elsewhere. *)
Definition kind_ok (c : string) (v : cell) : Prop :=
  if String.eqb c "日期" then date_cell v
  else if String.eqb c "时点" then v = CNull \/ text_cell v
  else numeric v.

Definition well_kinded (r : Row) : Prop := forall c, kind_ok c (r c).

(** A join key whose time label is a text. *)
Definition text_key (k : list cell) : Prop :=
  match k with
  | [_; CStr _] => True
  | _ => False
  end.

(** The columns of the unified table that hold measures. *)
Definition measure_columns : list string :=
  [ "省调负荷(MW)"; "风电(MW)"; "光伏(MW)"; "新能源负荷(MW)"; "非市场化出力(MW)";
    "水电出力(MW)"; "联络线计划(MW)"; "在线机组容量(MW)"; "日前出清价格(元/MWh)";
    "实时出清价格(元/MWh)" ].

(** A row of the unified table, as its schema has it. *)
Definition unified_row (r : Row) : Prop :=
  date_cell (r "日期") /\ text_cell (r "时点") /\
  r "竞价空间(MW)" = CNull /\ r "负荷率(%)" = CNull /\
  Forall (fun c => numeric (r c)) measure_columns /\
  ((r "边界数据类型" = CStr "日前" /\ r "实时出清价格(元/MWh)" = CNull) \/
   (r "边界数据类型" = CStr "实时" /\ r "日前出清价格(元/MWh)" = CNull /\
    r "在线机组容量(MW)" = CNull)).

(** The sort key of a row of the unified table: the rank of its epoch,
    its date, its time of day. *)
Definition sort_key {lib : PyLib} (r : Row) : list cell :=
  [ Boundary.epoch_rank (r "边界数据类型"); r "日期"; Boundary.to_datetime_hm (r "时点") ].

(** The lexicographic order of [sort_values] on keys. *)
Fixpoint key_compare (a b : list cell) : comparison :=
  match a, b with
  | x :: a', y :: b' =>
      match cell_compare x y with
      | Eq => key_compare a' b'
      | o => o
      end
  | _, _ => Eq
  end.

Definition key_le (a b : list cell) : Prop := key_compare a b <> Gt.

(** The nine example sheets, uploaded in another order, the price sheet
    twice, with one file the page does not ask for. *)
Definition example_uploads : list (string * Boundary.UploadedFile) :=
  [ ("现货出清电价_REPORT0.xlsx", Raise ValueError);
    ("实时联络线计划_REPORT0.xlsx", Ok example_tie_line);
    ("96点电网运行实际值_REPORT0.xlsx", Ok example_actual);
    ("说明.xlsx", Raise ValueError);
    ("日前水电计划发电总出力预测_REPORT0.xlsx", Ok example_hydro);
    ("日前市场出清情况_TABLE.xlsx", Ok example_clearing);
    ("日前联络线计划_REPORT0.xlsx", Ok example_tie_line);
    ("披露信息96点数据_REPORT0.xlsx", Ok example_disclosure);
    ("日前新能源负荷预测_REPORT0.xlsx", Ok example_renewable);
    ("日前统调系统负荷预测_REPORT0.xlsx", Ok example_load);
    ("现货出清电价_REPORT0.xlsx", Ok example_price) ].

(** [ch in text] *)
Fixpoint occurs (ch : ascii) (s : string) : bool :=
  match s with
  | EmptyString => false
  | String a s' => Ascii.eqb a ch || occurs ch s'
  end.

(** The rows a trading file brings to the merged table. *)
Definition rows_of_file (file : string * Boundary.UploadedFile) : nat :=
  match snd file with
  | Ok df => len df
  | Raise _ => 0%nat
  end.

Definition readable (file : string * Boundary.UploadedFile) : bool :=
  match snd file with
  | Ok _ => true
  | Raise _ => false
  end.

(** What one trading file adds to [all_data], and what it makes the
    page show. *)
Definition labelled (file : string * Boundary.UploadedFile) : list DataFrame :=
  match snd file with
  | Ok df => [assign df "公司名称" (fun _ => CStr (Trading.company_name_of (fst file)))]
  | Raise _ => []
  end.

Definition read_error {lib : PyLib} (file : string * Boundary.UploadedFile) : list string :=
  match snd file with
  | Ok _ => []
  | Raise e => ["处理文件 " +:+ fst file +:+ " 时出错: " +:+ error_text e]
  end.

Definition example_trading_uploads : list (string * Boundary.UploadedFile) :=
  [ ("河津-电力营销信息统计1.10-20260112(1).xlsx", Ok bare_df);
    ("损坏.xlsx", Raise ValueError);
    ("塔山-电力营销信息统计1.10.xlsx", Ok trading_df) ].

(** The table merged from [example_trading_uploads]. *)
Definition example_merged : DataFrame :=
  Trading.concat_all (flat_map labelled example_trading_uploads).





(** One assignment of a normalization: the column written, the column
    read and the conversion of its cells. *)
Definition Assignment : Type := (string * string * (cell -> result cell))%type.

Definition target (m : Assignment) : string := fst (fst m).
Definition source (m : Assignment) : string := snd (fst m).
Definition conversion (m : Assignment) : cell -> result cell := snd m.

(** A sheet row [r] and its normalized row [r']: under each column
    written, the converted cell that [r] has under the column read;
    under every other column, the cell of [r]. *)
Definition converted (plan : list Assignment) (r r' : Row) : Prop :=
  Forall (fun m => conversion m (r (source m)) = Ok (r' (target m))) plan /\
  forall c, ~ In c (map target plan) -> r' c = r c.

(** No column is read after another assignment has written it. *)
Fixpoint sources_kept (written : list string) (plan : list Assignment) : Prop :=
  match plan with
  | [] => True
  | m :: plan' => ~ In (source m) written /\ sources_kept (target m :: written) plan'
  end.

(** Assignments in a row, by the name of the column read and by its
    position. *)
Fixpoint assign_all (df : DataFrame) (plan : list Assignment) : result DataFrame :=
  match plan with
  | [] => Ok df
  | m :: plan' =>
      let? df := assignM df (target m) (fun r => conversion m (r (source m))) in
      assign_all df plan'
  end.

Fixpoint assign_positions (df : DataFrame)
    (steps : list (string * nat * (cell -> result cell))) : result DataFrame :=
  match steps with
  | [] => Ok df
  | (col, k, f) :: steps' =>
      let? df := assign_iloc df col k f in
      assign_positions df steps'
  end.

Fixpoint assign_names (df : DataFrame) (plan : list Assignment) : result DataFrame :=
  match plan with
  | [] => Ok df
  | m :: plan' =>
      let? df := assign_from df (target m) (source m) (conversion m) in
      assign_names df plan'
  end.

(** * General lemmas *)

Lemma to_datetime_raise {lib : PyLib} (c : cell) (e : PyError) :
  to_datetime c = Raise e -> e = ValueError.
Proof.
  unfold to_datetime. destruct c; try discriminate;
    try destruct (nat_text _); try discriminate;
    destruct (parse_datetime _); try discriminate; intros [= <-]; reflexivity.
Qed.

Lemma to_datetime_scalar_raise {lib : PyLib} (s : string) (e : PyError) :
  Review.to_datetime_scalar s = Raise e -> e = ValueError.
Proof. apply to_datetime_raise. Qed.

Lemma bind_result_ok {A B : Type} (m : result A) (k : A -> result B) (b : B) :
  bind_result m k = Ok b -> exists a, m = Ok a /\ k a = Ok b.
Proof. destruct m as [a|e]; simpl; [eauto | discriminate]. Qed.

Lemma bind_ok {A B : Type} (m : Py A) (k : A -> Py B) (out : list string) (b : B) :
  bind m k = (out, Ok b) ->
  exists o1 a o2, m = (o1, Ok a) /\ k a = (o2, Ok b) /\ out = o1 ++ o2.
Proof.
  destruct m as [o1 [a|e]]; simpl; [|discriminate].
  destruct (k a) as [o2 r] eqn:Hk. intros [= <- ->]. eauto 6.
Qed.

Lemma lift_ok {A : Type} (m : result A) (out : list string) (r : result A) :
  lift m = (out, r) -> out = [] /\ m = r.
Proof. unfold lift. intros [= <- <-]. auto. Qed.

Lemma mapM_ok {A B : Type} (f : A -> result B) (g : A -> B) (l : list A) (bs : list B) :
  (forall a b, f a = Ok b -> b = g a) ->
  mapM f l = Ok bs -> bs = map g l.
Proof.
  intros Hf. revert bs. induction l as [|a l IH]; simpl; intros bs Hm.
  - congruence.
  - apply bind_result_ok in Hm as (b & Hb & Hm).
    apply bind_result_ok in Hm as (bs' & Hbs & Hm).
    injection Hm as <-. rewrite (Hf _ _ Hb), (IH _ Hbs). reflexivity.
Qed.

Lemma mapM_total {A B : Type} (f : A -> result B) (l : list A) :
  Forall (fun a => exists b, f a = Ok b) l -> exists bs, mapM f l = Ok bs.
Proof.
  induction 1 as [|a l [b Hb] _ [bs Hbs]]; simpl; [eauto|].
  rewrite Hb, Hbs. simpl. eauto.
Qed.

Lemma filter_mask {A : Type} (p : A -> bool) (l : list A) :
  map fst (List.filter snd (combine l (map p l))) = List.filter p l.
Proof.
  induction l as [|a l IH]; simpl; [reflexivity|].
  destruct (p a); simpl; rewrite IH; reflexivity.
Qed.

Lemma mask_rows_map (df : DataFrame) (p : Row -> bool) :
  mask_rows df (map p (data df)) = {| columns := columns df; data := List.filter p (data df) |}.
Proof. unfold mask_rows. rewrite filter_mask. reflexivity. Qed.

Lemma mask_rows_series (df : DataFrame) (col : string) (p : cell -> bool) :
  mask_rows df (map p (map (fun r => r col) (data df)))
  = {| columns := columns df; data := List.filter (fun r => p (r col)) (data df) |}.
Proof. rewrite List.map_map. apply (mask_rows_map df (fun r => p (r col))). Qed.

Lemma filter_filter {A : Type} (p q : A -> bool) (l : list A) :
  List.filter q (List.filter p l) = List.filter (fun x => p x && q x) l.
Proof.
  induction l as [|a l IH]; simpl; [reflexivity|].
  destruct (p a); simpl; [destruct (q a)|]; rewrite IH; reflexivity.
Qed.

Lemma filter_length_le {A : Type} (p : A -> bool) (l : list A) :
  (length (List.filter p l) <= length l)%nat.
Proof. induction l as [|a l IH]; simpl; [lia|]. destruct (p a); simpl; lia. Qed.

Lemma filter_all {A : Type} (p : A -> bool) (l : list A) :
  Forall (fun x => p x = true) l -> List.filter p l = l.
Proof. induction 1 as [|a l Ha _ IH]; simpl; [reflexivity|]. rewrite Ha, IH. reflexivity. Qed.

Lemma selection_of_refl (f : DataFrame) : selection_of f f.
Proof.
  split; [reflexivity|]. exists (fun _ => true).
  symmetry. apply filter_all. apply List.Forall_forall. reflexivity.
Qed.

Lemma selection_of_trans (f1 f2 f3 : DataFrame) :
  selection_of f1 f2 -> selection_of f2 f3 -> selection_of f1 f3.
Proof.
  intros [Hc1 [p Hp]] [Hc2 [q Hq]]. split; [congruence|].
  exists (fun x => q x && p x). rewrite Hp, Hq. apply filter_filter.
Qed.

Lemma selection_of_filter (f : DataFrame) (p : Row -> bool) :
  selection_of {| columns := columns f; data := List.filter p (data f) |} f.
Proof. split; simpl; eauto. Qed.

Lemma selection_of_In (f' f : DataFrame) (r : Row) :
  selection_of f' f -> In r (data f') -> In r (data f).
Proof. intros [_ [p Hp]] Hin. rewrite Hp in Hin. apply List.filter_In in Hin. tauto. Qed.

Lemma selection_of_len (f' f : DataFrame) : selection_of f' f -> (len f' <= len f)%nat.
Proof. intros [_ [p Hp]]. unfold len. rewrite Hp. apply filter_length_le. Qed.

Lemma selection_of_has_column (f' f : DataFrame) (col : string) :
  selection_of f' f -> has_column f' col = has_column f col.
Proof. intros [Hc _]. unfold has_column. rewrite Hc. reflexivity. Qed.

Lemma quarter_hours_le (n m : nat) : (n <= m)%nat -> (quarter_hours n <= quarter_hours m)%Q.
Proof.
  intros Hnm. unfold quarter_hours, Qdiv. apply Qmult_le_compat_r.
  - rewrite <- Zle_Qle. lia.
  - apply Qinv_le_0_compat. discriminate.
Qed.

Lemma quarter_hours_spec (n : nat) :
  (quarter_hours n == (1 # 4) * inject_Z (Z.of_nat n))%Q.
Proof. unfold quarter_hours. field. Qed.

Lemma mapM_ok_Forall {A B : Type} (f : A -> result B) (l : list A) (bs : list B) :
  mapM f l = Ok bs -> Forall (fun a => exists b, f a = Ok b) l.
Proof.
  revert bs. induction l as [|a l IH]; simpl; intros bs Hm; [constructor|].
  apply bind_result_ok in Hm as (b & Hb & Hm).
  apply bind_result_ok in Hm as (bs' & Hbs & _).
  constructor; eauto.
Qed.

(** * The layered filter of review.py *)

Section FilterLemmas.
Context {lib : PyLib}.
Import Review.

Lemma compare_cell_passes (op : Q -> Q -> bool) (v : Q) (c : cell) (b : bool) :
  compare_cell op v c = Ok b -> b = passes op v c.
Proof. destruct c; simpl; congruence. Qed.

Lemma compare_cell_numeric (op : Q -> Q -> bool) (v : Q) (c : cell) :
  (exists b, compare_cell op v c = Ok b) <-> numeric c.
Proof.
  destruct c; simpl; split; intros Hn; try exact I; eauto;
    solve [destruct Hn; discriminate | contradiction].
Qed.

Lemma where_price_ok (op : Q -> Q -> bool) (f f' : DataFrame) (col : string) (v : Q) :
  where_price op f col v = Ok f' ->
  has_column f col = true /\
  Forall (fun r => numeric (r col)) (data f) /\
  f' = {| columns := columns f;
          data := List.filter (fun r => passes op v (r col)) (data f) |}.
Proof.
  unfold where_price, getitem. destruct (has_column f col); [|discriminate].
  simpl. intros Hw. apply bind_result_ok in Hw as (mask & Hmask & Hw).
  injection Hw as <-. unfold compare_scalar in Hmask. split; [reflexivity|]. split.
  - apply mapM_ok_Forall in Hmask. rewrite List.Forall_map in Hmask.
    eapply List.Forall_impl; [|exact Hmask]. intros r Hr. apply compare_cell_numeric in Hr. exact Hr.
  - rewrite (mapM_ok _ (passes op v) _ _ (compare_cell_passes op v) Hmask).
    apply mask_rows_series.
Qed.

Lemma where_price_total (op : Q -> Q -> bool) (f : DataFrame) (col : string) (v : Q) :
  has_column f col = true ->
  Forall (fun r => numeric (r col)) (data f) ->
  where_price op f col v
  = Ok {| columns := columns f;
          data := List.filter (fun r => passes op v (r col)) (data f) |}.
Proof.
  intros Hcol Hnum.
  destruct (where_price op f col v) as [f'|e] eqn:Hw.
  - apply where_price_ok in Hw as (_ & _ & ->). reflexivity.
  - exfalso. unfold where_price, getitem in Hw. rewrite Hcol in Hw. simpl in Hw.
    destruct (mapM_total (compare_cell op v) (map (fun r => r col) (data f))) as [mask Hmask].
    + rewrite List.Forall_map. eapply List.Forall_impl; [|exact Hnum].
      intros r Hr. apply compare_cell_numeric. exact Hr.
    + unfold compare_scalar in Hw. rewrite Hmask in Hw. discriminate.
Qed.

Lemma filter_price_ok (f f' : DataFrame) (col : string) (lo hi : option Q) (il ih : bool) :
  filter_price f col lo hi il ih = Ok f' ->
  f' = {| columns := columns f;
          data := List.filter (fun r => price_ok lo hi il ih (r col)) (data f) |}.
Proof.
  unfold filter_price. intros Hf.
  apply bind_result_ok in Hf as (f1 & H1 & H2).
  assert (Hf1 : f1 = {| columns := columns f;
                        data := List.filter
                                  (fun r => match lo with
                                            | Some m => passes (if il then Qge_bool else Qgt_bool) m (r col)
                                            | None => true
                                            end) (data f) |}).
  { destruct lo as [m|].
    - destruct il; apply where_price_ok in H1 as (_ & _ & ->); reflexivity.
    - injection H1 as <-. destruct f as [cs rows]; simpl. f_equal.
      symmetry. apply filter_all. apply List.Forall_forall. reflexivity. }
  subst f1. destruct hi as [m|].
  - assert (Hf' : f' = {| columns := columns f;
                          data := List.filter
                                    (fun r => passes (if ih then Qle_bool else Qlt_bool) m (r col))
                                    (List.filter
                                       (fun r => match lo with
                                                 | Some m => passes (if il then Qge_bool else Qgt_bool) m (r col)
                                                 | None => true
                                                 end) (data f)) |}).
    { destruct ih; apply where_price_ok in H2 as (_ & _ & ->); reflexivity. }
    rewrite Hf', filter_filter. reflexivity.
  - injection H2 as <-. f_equal. apply List.filter_ext. intros r. unfold price_ok.
    rewrite andb_true_r. reflexivity.
Qed.

Lemma filter_price_unset (f : DataFrame) (col : string) (il ih : bool) :
  filter_price f col None None il ih = Ok f.
Proof. reflexivity. Qed.

(** With the column present and its cells numeric the price filter returns. *)
Lemma filter_price_total (f : DataFrame) (col : string) (lo hi : option Q) (il ih : bool) :
  has_column f col = true ->
  Forall (fun r => numeric (r col)) (data f) ->
  filter_price f col lo hi il ih
  = Ok {| columns := columns f;
          data := List.filter (fun r => price_ok lo hi il ih (r col)) (data f) |}.
Proof.
  intros Hcol Hnum.
  assert (Hex : exists f', filter_price f col lo hi il ih = Ok f').
  { unfold filter_price.
    assert (Hsub : forall p, Forall (fun r => numeric (r col)) (List.filter p (data f))).
    { intros p. apply List.Forall_forall. intros r Hr. apply List.filter_In in Hr as [Hr _].
      rewrite List.Forall_forall in Hnum. auto. }
    destruct lo as [m|]; [destruct il|];
      try rewrite (where_price_total _ f col m Hcol Hnum); simpl;
      (destruct hi as [m'|]; [destruct ih|]; try (eexists; reflexivity);
       rewrite where_price_total; simpl; eauto). }
  destruct Hex as [f' Hf']. rewrite Hf'. f_equal. apply filter_price_ok. exact Hf'.
Qed.

Lemma filter_date_selection (f f' : DataFrame) (dcol : string) (s e : option string)
    (out : list string) :
  filter_date f dcol s e = (out, Ok f') -> selection_of f' f.
Proof.
  unfold filter_date. destruct (has_column f dcol) eqn:Hcol.
  - intros Hb. apply bind_ok in Hb as (o1 & dates & o2 & Hd & Hb & _).
    apply bind_ok in Hb as (o3 & fd & o4 & Hfd & Hb & _).
    assert (Hsel : selection_of (fst fd) f).
    { destruct s as [sd|].
      - apply bind_ok in Hfd as (o5 & ts & o6 & _ & Hfd & _).
        injection Hfd as _ <-. simpl.
        apply lift_ok in Hd as [_ Hd]. unfold getitem in Hd. rewrite Hcol in Hd.
        simpl in Hd. injection Hd as <-. rewrite !List.map_map.
        rewrite (mask_rows_map f (fun r => date_ge ts (to_datetime_coerce (r dcol)))).
        apply selection_of_filter.
      - injection Hfd as _ <-. apply selection_of_refl. }
    destruct e as [ed|].
    + apply bind_ok in Hb as (o5 & ts & o6 & _ & Hb & _).
      apply bind_ok in Hb as (o7 & dates' & o8 & Hd' & Hb & _).
      injection Hb as _ <-.
      apply lift_ok in Hd' as [_ Hd']. apply bind_result_ok in Hd' as (s' & Hs' & Hd').
      injection Hd' as <-. unfold getitem in Hs'.
      destruct (has_column (fst fd) dcol); [|discriminate]. injection Hs' as <-.
      rewrite !List.map_map.
      rewrite (mask_rows_map (fst fd) (fun r => date_le ts (to_datetime_coerce (r dcol)))).
      eapply selection_of_trans; [apply selection_of_filter | exact Hsel].
    + injection Hb as _ <-. exact Hsel.
  - destruct (is_set s || is_set e); simpl; intros [= _ <-]; apply selection_of_refl.
Qed.

Lemma filter_date_unset (f : DataFrame) (dcol : string) :
  filter_date f dcol None None = ([], Ok f).
Proof.
  unfold filter_date, getitem. destruct (has_column f dcol); reflexivity.
Qed.

Lemma where_text_selection (f : DataFrame) (col text : string) :
  selection_of (where_text f col text) f.
Proof.
  unfold where_text. rewrite (mask_rows_map f (fun r => eq_text text (r col))).
  apply selection_of_filter.
Qed.

Lemma filter_company_selection (f : DataFrame) (c : option string) :
  selection_of (filter_company f c) f.
Proof.
  unfold filter_company. destruct c; [destruct (has_column f _)|];
    auto using where_text_selection, selection_of_refl.
Qed.

Lemma filter_unit_selection (f : DataFrame) (u : option string) :
  selection_of (filter_unit f u) f.
Proof.
  unfold filter_unit. destruct u; [destruct (has_column f _)|];
    auto using where_text_selection, selection_of_refl.
Qed.

Lemma filter_unit_dimension_selection (f f' : DataFrame) (d : option string)
    (out : list string) :
  filter_unit_dimension f d = (out, Ok f') -> selection_of f' f.
Proof.
  unfold filter_unit_dimension. destruct d; [destruct (has_column f _)|]; simpl;
    intros [= _ <-]; auto using where_text_selection, selection_of_refl.
Qed.

(** What [filter_by_price_range] returns is a selection of what its
    price filter returned. *)
Lemma filter_by_price_range_ok (df filtered : DataFrame) (col dcol : string)
    (a : Criteria) (out : list string) :
  filter_by_price_range df col dcol a = (out, Ok filtered) ->
  selection_of filtered
    {| columns := columns df;
       data := List.filter (fun r => bounds_ok a (r col)) (data df) |}.
Proof.
  unfold filter_by_price_range. intros Hb.
  apply bind_ok in Hb as (o1 & f1 & o2 & Hp & Hb & _).
  apply lift_ok in Hp as [_ Hp]. apply filter_price_ok in Hp.
  apply bind_ok in Hb as (o3 & f2 & o4 & Hd & Hb & _).
  apply filter_date_selection in Hd.
  apply bind_ok in Hb as (o5 & f3 & o6 & Hu & Hb & _).
  apply filter_unit_dimension_selection in Hu.
  injection Hb as _ <-. unfold bounds_ok. rewrite <- Hp.
  eapply selection_of_trans; [exact Hu|].
  eapply selection_of_trans; [apply filter_unit_selection|].
  eapply selection_of_trans; [apply filter_company_selection|]. exact Hd.
Qed.

Lemma filter_by_price_range_selection (df filtered : DataFrame) (col dcol : string)
    (a : Criteria) (out : list string) :
  filter_by_price_range df col dcol a = (out, Ok filtered) -> selection_of filtered df.
Proof.
  intros Hf. eapply selection_of_trans; [exact (filter_by_price_range_ok _ _ _ _ _ _ Hf)|].
  apply selection_of_filter.
Qed.

(** With only price bounds in use the function is its price filter. *)
Lemma filter_by_price_range_price_only (df : DataFrame) (col dcol : string) (a : Criteria) :
  price_only a ->
  filter_by_price_range df col dcol a
  = lift (filter_price df col (min_price a) (max_price a)
            (include_min_boundary a) (include_max_boundary a)).
Proof.
  intros (Hs & He & Hc & Hu & Hd). unfold filter_by_price_range.
  rewrite Hs, He, Hc, Hu, Hd.
  destruct (filter_price df col _ _ _ _) as [f1|e]; simpl; [|reflexivity].
  rewrite filter_date_unset. reflexivity.
Qed.

End FilterLemmas.

(** * Metrics 1 and 2: hours *)

Section Hours.
Context {lib : PyLib}.
Import Review.

Lemma calculate_daily_forward_hours_ok (df filtered : DataFrame) (a : Criteria)
    (out : list string) :
  filter_by_price_range df "日前出清节点价格" "日期" a = (out, Ok filtered) ->
  calculate_daily_forward_hours df a = (out, Ok (quarter_hours (len filtered))).
Proof.
  intros Hf. unfold calculate_daily_forward_hours. rewrite Hf. simpl.
  rewrite app_nil_r. reflexivity.
Qed.

(** The second stage of metric 2, on the frame the first stage returned. *)
Lemma calculate_realtime_hours_ok (df filtered : DataFrame) (a : Criteria)
    (out : list string) (h : Q) :
  filter_by_price_range df "日前出清节点价格" "日期" a = (out, Ok filtered) ->
  calculate_realtime_hours df a = (out, Ok h) ->
  h = quarter_hours
        (if has_column filtered "日内出清节点价格"
         then length (List.filter (fun r => bounds_ok a (r "日内出清节点价格")) (data filtered))
         else len filtered).
Proof.
  intros Hf. unfold calculate_realtime_hours. rewrite Hf. simpl.
  destruct (has_column filtered "日内出清节点价格").
  - destruct (filter_price filtered _ _ _ _ _) as [f2|e] eqn:H2; simpl; [|discriminate].
    apply filter_price_ok in H2. subst f2. intros [= _ <-]. reflexivity.
  - simpl. intros [= _ <-]. reflexivity.
Qed.

Lemma calculate_realtime_hours_inv (df : DataFrame) (a : Criteria)
    (out : list string) (h : Q) :
  calculate_realtime_hours df a = (out, Ok h) ->
  exists filtered, filter_by_price_range df "日前出清节点价格" "日期" a = (out, Ok filtered).
Proof.
  unfold calculate_realtime_hours. intros Hb.
  apply bind_ok in Hb as (o1 & f1 & o2 & Hf & Hb & ->).
  apply bind_ok in Hb as (o3 & f2 & o4 & Hl & Hb & ->).
  apply lift_ok in Hl as [-> _]. injection Hb as <- _.
  rewrite !app_nil_r. eauto.
Qed.

(** C10.  With the same arguments on the same table, whenever metric 2
    ([calculate_realtime_hours]) returns, metric 1
    ([calculate_daily_forward_hours]) returns too, having printed the
    same lines, and metric 2 is less than or equal to metric 1: the
    second stage only removes rows from what the first stage kept. *)
Theorem realtime_hours_le_daily_forward_hours (df : DataFrame) (a : Criteria)
    (out : list string) (h2 : Q) :
  calculate_realtime_hours df a = (out, Ok h2) ->
  exists h1, calculate_daily_forward_hours df a = (out, Ok h1) /\ (h2 <= h1)%Q.
Proof.
  intros H2. destruct (calculate_realtime_hours_inv _ _ _ _ H2) as [filtered Hf].
  exists (quarter_hours (len filtered)). split.
  - apply calculate_daily_forward_hours_ok. exact Hf.
  - rewrite (calculate_realtime_hours_ok _ _ _ _ _ Hf H2).
    apply quarter_hours_le.
    destruct (has_column filtered _); [apply filter_length_le | unfold len; lia].
Qed.

(** C3, as the code has it.  Let [filtered] be what the metric-1 filter
    (price column 日前出清节点价格) returns.  When the table has the column
    日内出清节点价格 and its cells on the rows of [filtered] are numbers or
    nulls, metric 2 is a quarter of the number of rows of [filtered]
    whose intraday price also satisfies the same bounds with the same
    inclusivity flags; when the table has no such column the second
    stage is skipped and metric 2 is metric 1. *)
Theorem realtime_hours_two_stage (df filtered : DataFrame) (a : Criteria)
    (out : list string) :
  filter_by_price_range df "日前出清节点价格" "日期" a = (out, Ok filtered) ->
  (has_column df "日内出清节点价格" = true ->
   Forall (fun r => numeric (r "日内出清节点价格")) (data filtered) ->
   calculate_realtime_hours df a
   = (out, Ok (quarter_hours
                 (length (List.filter (fun r => bounds_ok a (r "日内出清节点价格"))
                            (data filtered))))))
  /\
  (has_column df "日内出清节点价格" = false ->
   calculate_realtime_hours df a = (out, Ok (quarter_hours (len filtered)))
   /\ calculate_daily_forward_hours df a = (out, Ok (quarter_hours (len filtered)))).
Proof.
  intros Hf.
  pose proof (selection_of_has_column _ _ "日内出清节点价格"
                (filter_by_price_range_selection _ _ _ _ _ _ Hf)) as Hcol.
  split; intros Hc; rewrite Hc in Hcol.
  - intros Hnum. unfold calculate_realtime_hours. rewrite Hf. simpl. rewrite Hcol.
    rewrite (filter_price_total _ _ _ _ _ _ Hcol Hnum). simpl.
    rewrite app_nil_r. reflexivity.
  - split; [|apply calculate_daily_forward_hours_ok; exact Hf].
    unfold calculate_realtime_hours. rewrite Hf. simpl. rewrite Hcol. simpl.
    rewrite app_nil_r. reflexivity.
Qed.

End Hours.

Lemma realtime_hours_le_daily_forward_hours_witness :
  exists h1,
    Review.calculate_daily_forward_hours (lib := plain_lib) trading_df min_100 = ([], Ok h1)
    /\ (quarter_hours 2 <= h1)%Q.
Proof.
  apply (realtime_hours_le_daily_forward_hours (lib := plain_lib) trading_df min_100 []
           (quarter_hours 2)).
  vm_compute. reflexivity.
Defined.

Lemma realtime_hours_two_stage_witness :
  Review.calculate_realtime_hours (lib := plain_lib) trading_df min_100
  = ([], Ok (quarter_hours 2)).
Proof.
  refine (proj1 (realtime_hours_two_stage (lib := plain_lib) trading_df trading_above_100
                   min_100 [] _) _ _).
  - vm_compute. reflexivity.
  - reflexivity.
  - repeat (first [exact I | constructor]).
Defined.

(** C3 as stated fails on a table without the column 日内出清节点价格: the
    one row that passes the metric-1 filter has no intraday price that
    could satisfy the bound, so a quarter of the rows passing both
    stages is 0, and metric 2 is 0.25. *)
Lemma realtime_hours_without_intraday_column :
  exists filtered,
    Review.filter_by_price_range (lib := plain_lib) bare_df "日前出清节点价格" "日期" min_100
    = ([], Ok filtered)
    /\ length (List.filter (fun r => bounds_ok min_100 (r "日内出清节点价格"))
                 (data filtered)) = 0%nat
    /\ Review.calculate_realtime_hours (lib := plain_lib) bare_df min_100
       = ([], Ok (quarter_hours 1))
    /\ ~ (quarter_hours 1 == (1 # 4) * inject_Z (Z.of_nat 0))%Q.
Proof.
  exists bare_df. repeat split; try (vm_compute; reflexivity).
  vm_compute. discriminate.
Qed.

(** * The price filter and its boundaries *)

Section Boundaries.
Context {lib : PyLib}.
Import Review.

Lemma passes_gt_eq (x lo : Q) : (x == lo)%Q -> passes Qgt_bool lo (CNum x) = false.
Proof.
  intros Hx. simpl. unfold Qgt_bool. apply negb_false_iff.
  apply Qle_bool_iff. rewrite Hx. apply Qle_refl.
Qed.

Lemma passes_ge_eq (x lo : Q) : (x == lo)%Q -> passes Qge_bool lo (CNum x) = true.
Proof.
  intros Hx. simpl. unfold Qge_bool. apply Qle_bool_iff. rewrite Hx. apply Qle_refl.
Qed.

Lemma passes_lt_eq (x hi : Q) : (x == hi)%Q -> passes Qlt_bool hi (CNum x) = false.
Proof.
  intros Hx. simpl. unfold Qlt_bool. apply negb_false_iff.
  apply Qle_bool_iff. rewrite Hx. apply Qle_refl.
Qed.

Lemma passes_le_eq (x hi : Q) : (x == hi)%Q -> passes Qle_bool hi (CNum x) = true.
Proof. intros Hx. simpl. apply Qle_bool_iff. rewrite Hx. apply Qle_refl. Qed.

(** Every row the function returns is a row of the table whose price
    satisfies the bounds. *)
Lemma filter_by_price_range_In (df filtered : DataFrame) (col dcol : string)
    (a : Criteria) (out : list string) (r : Row) :
  filter_by_price_range df col dcol a = (out, Ok filtered) ->
  In r (data filtered) -> In r (data df) /\ bounds_ok a (r col) = true.
Proof.
  intros Hf Hin. apply filter_by_price_range_ok in Hf.
  apply (selection_of_In _ _ r Hf) in Hin. simpl in Hin.
  apply List.filter_In in Hin. exact Hin.
Qed.

(** With only price bounds in use, those are all the rows it returns. *)
Lemma filter_by_price_range_price_only_In (df filtered : DataFrame) (col dcol : string)
    (a : Criteria) (out : list string) (r : Row) :
  price_only a ->
  filter_by_price_range df col dcol a = (out, Ok filtered) ->
  In r (data df) -> bounds_ok a (r col) = true -> In r (data filtered).
Proof.
  intros Hp Hf Hin Hb. rewrite (filter_by_price_range_price_only _ _ _ _ Hp) in Hf.
  apply lift_ok in Hf as [_ Hf]. apply filter_price_ok in Hf. subst filtered. simpl.
  apply List.filter_In. split; assumption.
Qed.

End Boundaries.

(** * Metrics 5 and 10: weighted averages *)

Lemma bind_result_raise {A B : Type} (m : result A) (k : A -> result B) (e : PyError) :
  bind_result m k = Raise e -> m = Raise e \/ exists a, m = Ok a /\ k a = Raise e.
Proof. destruct m as [a|e']; simpl; [eauto | intros [= ->]; auto]. Qed.

Lemma bind_raise {A B : Type} (m : Py A) (k : A -> Py B) (out : list string) (e : PyError) :
  bind m k = (out, Raise e) ->
  m = (out, Raise e) \/ exists o1 a o2, m = (o1, Ok a) /\ k a = (o2, Raise e).
Proof.
  destruct m as [o1 [a|e']]; simpl.
  - destruct (k a) as [o2 r] eqn:Hk. intros [= <- ->]. right. eauto.
  - intros [= <- <-]. auto.
Qed.

Lemma getitem_raise (f : DataFrame) (col : string) (e : PyError) :
  getitem f col = Raise e -> e = KeyError col.
Proof. unfold getitem. destruct (has_column f col); congruence. Qed.

Lemma getitem_present (f : DataFrame) (col : string) :
  has_column f col = true -> getitem f col = Ok (map (fun r => r col) (data f)).
Proof. unfold getitem. intros ->. reflexivity. Qed.

Lemma cell_binop_raise (op : Q -> Q -> Q) (a b : cell) (e : PyError) :
  cell_binop op a b = Raise e -> e = TypeError.
Proof. destruct a, b; simpl; congruence. Qed.

Lemma series_binop_raise (op : Q -> Q -> Q) (a b : list cell) (e : PyError) :
  series_binop op a b = Raise e -> e = TypeError.
Proof.
  revert b. induction a as [|x a IH]; intros [|y b]; simpl; try discriminate.
  intros Hs. apply bind_result_raise in Hs as [Hs | (z & _ & Hs)].
  - eapply cell_binop_raise; eauto.
  - apply bind_result_raise in Hs as [Hs | (zs & _ & Hs)]; [eauto | discriminate].
Qed.

Lemma series_sum_raise (s : list cell) (e : PyError) :
  series_sum s = Raise e -> e = TypeError.
Proof.
  induction s as [|c s IH]; simpl; [discriminate|].
  destruct c; try congruence; auto.
  intros Hs. apply bind_result_raise in Hs as [Hs | (t & _ & Hs)]; [auto | discriminate].
Qed.

Lemma compare_scalar_raise (op : Q -> Q -> bool) (s : list cell) (v : Q) (e : PyError) :
  compare_scalar op s v = Raise e -> e = TypeError.
Proof.
  unfold compare_scalar. induction s as [|c s IH]; simpl; [discriminate|]. intros Hw.
  apply bind_result_raise in Hw as [Hw | (b & _ & Hw)].
  - destruct c; simpl in Hw; congruence.
  - apply bind_result_raise in Hw as [Hw | (bs & _ & Hw)]; [auto | discriminate].
Qed.

Lemma series_binop_map {A : Type} (op : Q -> Q -> Q) (f g h : A -> cell) (l : list A) :
  Forall (fun a => cell_binop op (f a) (g a) = Ok (h a)) l ->
  series_binop op (map f l) (map g l) = Ok (map h l).
Proof.
  induction 1 as [|a l Ha _ IH]; simpl; [reflexivity|].
  rewrite Ha, IH. reflexivity.
Qed.

Lemma series_sum_map {A : Type} (q : A -> Q) (l : list A) :
  series_sum (map (fun a => CNum (q a)) l) = Ok (Qsum_over q l).
Proof. induction l as [|a l IH]; simpl; [reflexivity|]. rewrite IH. reflexivity. Qed.

Lemma Qsum_over_zero {A : Type} (q : A -> Q) (l : list A) :
  Forall (fun a => (q a == 0)%Q) l -> (Qsum_over q l == 0)%Q.
Proof.
  induction 1 as [|a l Ha _ IH]; simpl; [reflexivity|].
  rewrite Ha, IH. reflexivity.
Qed.

Lemma fillna0_numeric (c : cell) : numeric c -> fillna0 c = CNum (num_of c).
Proof. destruct c; simpl; intros Hn; try contradiction; reflexivity. Qed.

Lemma null_or_zero_numeric (c : cell) : null_or_zero c -> numeric c.
Proof. destruct c; simpl; auto. Qed.

Lemma null_or_zero_num_of (c : cell) : null_or_zero c -> (num_of c == 0)%Q.
Proof. destruct c; simpl; intros Hz; try contradiction; [reflexivity | exact Hz]. Qed.

Lemma py_div_guarded (n d : Q) :
  (if Qeq_bool d 0 then Ok 0%Q else py_div n d) <> Raise ZeroDivisionError.
Proof. unfold py_div. destruct (Qeq_bool d 0); discriminate. Qed.

Section WeightedAverages.
Context {lib : PyLib}.
Import Review.

Lemma filter_price_raise (f : DataFrame) (col : string) (lo hi : option Q) (il ih : bool)
    (e : PyError) :
  filter_price f col lo hi il ih = Raise e -> e = KeyError col \/ e = TypeError.
Proof.
  assert (Hw : forall op g v, where_price op g col v = Raise e ->
                              e = KeyError col \/ e = TypeError).
  { intros op g v Hw. unfold where_price in Hw.
    apply bind_result_raise in Hw as [Hw | (s & _ & Hw)].
    - left. eapply getitem_raise; eauto.
    - apply bind_result_raise in Hw as [Hw | (m & _ & Hw)]; [|discriminate].
      right. eapply compare_scalar_raise; eauto. }
  unfold filter_price. intros Hf.
  apply bind_result_raise in Hf as [Hf | (f1 & _ & Hf)].
  - destruct lo; [destruct il; eauto | discriminate].
  - destruct hi; [destruct ih; eauto | discriminate].
Qed.

Lemma filter_by_price_range_raise (df : DataFrame) (col dcol : string) (a : Criteria)
    (out : list string) (e : PyError) :
  filter_by_price_range df col dcol a = (out, Raise e) -> e <> ZeroDivisionError.
Proof.
  unfold filter_by_price_range. intros Hb.
  apply bind_raise in Hb as [Hb | (o1 & f1 & o2 & _ & Hb)].
  { apply lift_ok in Hb as [_ Hb]. apply filter_price_raise in Hb as [-> | ->]; discriminate. }
  apply bind_raise in Hb as [Hb | (o3 & f2 & o4 & _ & Hb)].
  { unfold filter_date in Hb. destruct (has_column f1 dcol).
    - apply bind_raise in Hb as [Hb | (o5 & dates & o6 & _ & Hb)].
      { apply lift_ok in Hb as [_ Hb].
        apply bind_result_raise in Hb as [Hb | (cs & _ & Hb)]; [|discriminate].
        apply getitem_raise in Hb as ->. discriminate. }
      apply bind_raise in Hb as [Hb | (o7 & fd & o8 & _ & Hb)].
      { destruct (start_date a); [|discriminate].
        apply bind_raise in Hb as [Hb | (o9 & ts & o10 & _ & Hb)]; [|discriminate].
        apply lift_ok in Hb as [_ Hb]. apply to_datetime_scalar_raise in Hb as ->. discriminate. }
      destruct (end_date a); [|discriminate].
      apply bind_raise in Hb as [Hb | (o9 & ts & o10 & _ & Hb)].
      { apply lift_ok in Hb as [_ Hb]. apply to_datetime_scalar_raise in Hb as ->. discriminate. }
      apply bind_raise in Hb as [Hb | (o11 & d & o12 & _ & Hb)]; [|discriminate].
      apply lift_ok in Hb as [_ Hb].
      apply bind_result_raise in Hb as [Hb | (cs & _ & Hb)]; [|discriminate].
      apply getitem_raise in Hb as ->. discriminate.
    - destruct (is_set _ || is_set _); discriminate. }
  apply bind_raise in Hb as [Hb | (o5 & f3 & o6 & _ & Hb)]; [|discriminate].
  unfold filter_unit_dimension in Hb.
  destruct (unit_dimension a); [destruct (has_column _ _)|]; discriminate.
Qed.

End WeightedAverages.

Section ZeroVolumes.
Context {lib : PyLib}.
Import Review.

Lemma product_step (rows : list Row) (power price : string) :
  Forall (fun r => numeric (r power) /\ numeric (r price)) rows ->
  series_binop Qmult (map (fun r => fillna0 (r power)) rows)
    (map (fun r => fillna0 (r price)) rows)
  = Ok (map (fun r => CNum (num_of (r power) * num_of (r price))%Q) rows).
Proof.
  intros Hrows. apply series_binop_map.
  eapply List.Forall_impl; [|exact Hrows]. intros r [Hp Hc].
  rewrite (fillna0_numeric _ Hp), (fillna0_numeric _ Hc). reflexivity.
Qed.

Lemma total_step (rows : list Row) (power_a power_b : string) :
  Forall (fun r => numeric (r power_a) /\ numeric (r power_b)) rows ->
  series_binop Qplus (map (fun r => fillna0 (r power_a)) rows)
    (map (fun r => fillna0 (r power_b)) rows)
  = Ok (map (fun r => CNum (num_of (r power_a) + num_of (r power_b))%Q) rows).
Proof.
  intros Hrows. apply series_binop_map.
  eapply List.Forall_impl; [|exact Hrows]. intros r [Hp Hc].
  rewrite (fillna0_numeric _ Hp), (fillna0_numeric _ Hc). reflexivity.
Qed.

Lemma sum_step (rows : list Row) (x y : Row -> Q) :
  series_binop Qplus (map (fun r => CNum (x r)) rows) (map (fun r => CNum (y r)) rows)
  = Ok (map (fun r => CNum (x r + y r)%Q) rows).
Proof. apply series_binop_map. apply List.Forall_forall. reflexivity. Qed.

Lemma zero_total (rows : list Row) (power_a power_b : string) :
  Forall (fun r => null_or_zero (r power_a) /\ null_or_zero (r power_b)) rows ->
  Qeq_bool (Qsum_over (fun r => num_of (r power_a) + num_of (r power_b))%Q rows) 0 = true.
Proof.
  intros Hrows. apply Qeq_bool_iff. apply Qsum_over_zero.
  eapply List.Forall_impl; [|exact Hrows]. intros r [Ha Hb]. cbv beta.
  rewrite (null_or_zero_num_of _ Ha), (null_or_zero_num_of _ Hb). reflexivity.
Qed.

Ltac weaken_rows Hrows :=
  eapply List.Forall_impl; [|exact Hrows];
  let r := fresh "r" in
  intros r (? & ? & ? & ?); auto using null_or_zero_numeric.

Lemma Qsum_over_Qeq {A : Type} (f g : A -> Q) (l : list A) :
  (forall a, (f a == g a)%Q) -> (Qsum_over f l == Qsum_over g l)%Q.
Proof.
  intros Hfg. induction l as [|a l IH]; simpl; [reflexivity|].
  rewrite (Hfg a), IH. reflexivity.
Qed.

Lemma guarded_quotient (n d : Q) :
  (if Qeq_bool d 0 then Ok 0%Q else py_div n d)
  = Ok (if Qeq_bool d 0 then 0%Q else (n / d)%Q).
Proof. unfold py_div. destruct (Qeq_bool d 0); reflexivity. Qed.

Lemma guarded_quotient_Qeq (n d d' : Q) :
  (d == d')%Q ->
  ((if Qeq_bool d 0 then 0 else n / d) == (if Qeq_bool d' 0 then 0 else n / d'))%Q.
Proof.
  intros Hd. destruct (Qeq_bool d 0) eqn:E, (Qeq_bool d' 0) eqn:E'.
  - reflexivity.
  - apply Qeq_bool_iff in E. apply Qeq_bool_neq in E'. rewrite Hd in E. contradiction.
  - apply Qeq_bool_iff in E'. apply Qeq_bool_neq in E. rewrite Hd in E. contradiction.
  - rewrite Hd. reflexivity.
Qed.

Lemma zero_volume_rows_numeric (f : DataFrame) (power_a price_a power_b price_b : string) :
  zero_volume_rows f power_a price_a power_b price_b ->
  numeric_rows f power_a price_a power_b price_b.
Proof.
  unfold zero_volume_rows, numeric_rows. intros Hrows. eapply List.Forall_impl; [|exact Hrows].
  intros r (Ha & Hb & Hca & Hcb). auto using null_or_zero_numeric.
Qed.

(** Metric 5 is the weighted average of the spec, nulls counted as 0. *)
Lemma inter_provincial_avg_price_formula (df filtered : DataFrame) (col : string)
    (a : Criteria) (out : list string) :
  filter_by_price_range df col "日期" a = (out, Ok filtered) ->
  has_column df "省间日前出清电力" = true -> has_column df "省间日前出清价格" = true ->
  has_column df "省间实时出清电力" = true -> has_column df "省间实时出清价格" = true ->
  numeric_rows filtered
    "省间日前出清电力" "省间日前出清价格" "省间实时出清电力" "省间实时出清价格" ->
  exists q,
    calculate_inter_provincial_avg_price df col a = (out, Ok q) /\
    (q == weighted_average (data filtered)
            "省间日前出清电力" "省间日前出清价格" "省间实时出清电力" "省间实时出清价格")%Q.
Proof.
  intros Hf H1 H2 H3 H4 Hrows.
  pose proof (filter_by_price_range_selection _ _ _ _ _ _ Hf) as Hsel.
  unfold calculate_inter_provincial_avg_price. rewrite Hf. simpl. rewrite app_nil_r.
  rewrite !getitem_present by (rewrite (selection_of_has_column _ _ _ Hsel); assumption).
  simpl. rewrite !List.map_map.
  rewrite product_step by weaken_rows Hrows. simpl.
  rewrite product_step by weaken_rows Hrows. simpl.
  rewrite sum_step. simpl. rewrite series_sum_map. simpl.
  rewrite total_step by weaken_rows Hrows. simpl. rewrite series_sum_map. simpl.
  rewrite guarded_quotient. eexists. split; [reflexivity|].
  unfold weighted_average. apply guarded_quotient_Qeq.
  apply Qsum_over_Qeq. intros r. apply Qplus_comm.
Qed.

(** Metric 10 is the weighted average of the spec, nulls counted as 0. *)
Lemma medium_long_weighted_avg_price_formula (df filtered : DataFrame) (col : string)
    (a : Criteria) (out : list string) :
  filter_by_price_range df col "日期" a = (out, Ok filtered) ->
  has_column df "省内中长期上网电量" = true -> has_column df "省内中长期均价" = true ->
  has_column df "省间中长期上网电量" = true -> has_column df "省间中长期均价" = true ->
  numeric_rows filtered
    "省内中长期上网电量" "省内中长期均价" "省间中长期上网电量" "省间中长期均价" ->
  exists q,
    calculate_medium_long_weighted_avg_price df col a = (out, Ok q) /\
    (q == weighted_average (data filtered)
            "省内中长期上网电量" "省内中长期均价" "省间中长期上网电量" "省间中长期均价")%Q.
Proof.
  intros Hf H1 H2 H3 H4 Hrows.
  pose proof (filter_by_price_range_selection _ _ _ _ _ _ Hf) as Hsel.
  unfold calculate_medium_long_weighted_avg_price. rewrite Hf. simpl. rewrite app_nil_r.
  rewrite !getitem_present by (rewrite (selection_of_has_column _ _ _ Hsel); assumption).
  simpl. rewrite !List.map_map.
  rewrite product_step by weaken_rows Hrows. simpl.
  rewrite product_step by weaken_rows Hrows. simpl.
  rewrite sum_step. simpl.
  rewrite total_step by weaken_rows Hrows. simpl.
  rewrite !series_sum_map. simpl.
  rewrite guarded_quotient. eexists. split; reflexivity.
Qed.

Lemma weighted_average_zero (rows : list Row) (power_a price_a power_b price_b : string) :
  Forall (fun r => null_or_zero (r power_a) /\ null_or_zero (r power_b)) rows ->
  weighted_average rows power_a price_a power_b price_b = 0%Q.
Proof.
  intros Hrows. unfold weighted_average. rewrite (zero_total _ _ _ Hrows). reflexivity.
Qed.

(** C5.  Let [filter_by_price_range] return [filtered], a frame that
    has the four columns a weighted average reads.  When those columns
    hold numbers or nulls, [calculate_inter_provincial_avg_price]
    (metric 5) and [calculate_medium_long_weighted_avg_price]
    (metric 10) return Σ (volume × price) / Σ volume over the two legs,
    every null counted as 0 in numerator and denominator, and 0 when
    the denominator is 0.  When both volumes of every row are null or
    zero they return exactly 0.  And on no table, with no arguments,
    does either of them raise [ZeroDivisionError]. *)
Theorem weighted_averages_zero_volume (df : DataFrame) (col : string) (a : Criteria) :
  (forall filtered out,
     filter_by_price_range df col "日期" a = (out, Ok filtered) ->
     has_column df "省间日前出清电力" = true -> has_column df "省间日前出清价格" = true ->
     has_column df "省间实时出清电力" = true -> has_column df "省间实时出清价格" = true ->
     (numeric_rows filtered
        "省间日前出清电力" "省间日前出清价格" "省间实时出清电力" "省间实时出清价格" ->
      exists q,
        calculate_inter_provincial_avg_price df col a = (out, Ok q) /\
        (q == weighted_average (data filtered)
                "省间日前出清电力" "省间日前出清价格" "省间实时出清电力" "省间实时出清价格")%Q)
     /\
     (zero_volume_rows filtered
        "省间日前出清电力" "省间日前出清价格" "省间实时出清电力" "省间实时出清价格" ->
      calculate_inter_provincial_avg_price df col a = (out, Ok 0%Q)))
  /\
  (forall filtered out,
     filter_by_price_range df col "日期" a = (out, Ok filtered) ->
     has_column df "省内中长期上网电量" = true -> has_column df "省内中长期均价" = true ->
     has_column df "省间中长期上网电量" = true -> has_column df "省间中长期均价" = true ->
     (numeric_rows filtered
        "省内中长期上网电量" "省内中长期均价" "省间中长期上网电量" "省间中长期均价" ->
      exists q,
        calculate_medium_long_weighted_avg_price df col a = (out, Ok q) /\
        (q == weighted_average (data filtered)
                "省内中长期上网电量" "省内中长期均价" "省间中长期上网电量" "省间中长期均价")%Q)
     /\
     (zero_volume_rows filtered
        "省内中长期上网电量" "省内中长期均价" "省间中长期上网电量" "省间中长期均价" ->
      calculate_medium_long_weighted_avg_price df col a = (out, Ok 0%Q)))
  /\
  (forall out,
     calculate_inter_provincial_avg_price df col a <> (out, Raise ZeroDivisionError) /\
     calculate_medium_long_weighted_avg_price df col a <> (out, Raise ZeroDivisionError)).
Proof.
  split; [|split].
  - intros filtered out Hf H1 H2 H3 H4.
    split; [apply inter_provincial_avg_price_formula; assumption|].
    intros Hrows.
    pose proof (filter_by_price_range_selection _ _ _ _ _ _ Hf) as Hsel.
    unfold calculate_inter_provincial_avg_price. rewrite Hf. simpl.
    rewrite app_nil_r. f_equal.
    rewrite !getitem_present by (rewrite (selection_of_has_column _ _ _ Hsel); assumption).
    simpl. rewrite !List.map_map.
    rewrite product_step by weaken_rows Hrows. simpl.
    rewrite product_step by weaken_rows Hrows. simpl.
    rewrite sum_step. simpl. rewrite series_sum_map. simpl.
    rewrite total_step by weaken_rows Hrows. simpl. rewrite series_sum_map. simpl.
    rewrite zero_total by weaken_rows Hrows. reflexivity.
  - intros filtered out Hf H1 H2 H3 H4.
    split; [apply medium_long_weighted_avg_price_formula; assumption|].
    intros Hrows.
    pose proof (filter_by_price_range_selection _ _ _ _ _ _ Hf) as Hsel.
    unfold calculate_medium_long_weighted_avg_price. rewrite Hf. simpl.
    rewrite app_nil_r. f_equal.
    rewrite !getitem_present by (rewrite (selection_of_has_column _ _ _ Hsel); assumption).
    simpl. rewrite !List.map_map.
    rewrite product_step by weaken_rows Hrows. simpl.
    rewrite product_step by weaken_rows Hrows. simpl.
    rewrite sum_step. simpl.
    rewrite total_step by weaken_rows Hrows. simpl.
    rewrite !series_sum_map. simpl.
    rewrite zero_total by weaken_rows Hrows. reflexivity.
  - intros out. split; intros Hm.
    + unfold calculate_inter_provincial_avg_price in Hm.
      apply bind_raise in Hm as [Hm | (o1 & filtered & o2 & _ & Hm)].
      { apply filter_by_price_range_raise in Hm. congruence. }
      apply lift_ok in Hm as [_ Hm].
      repeat (apply bind_result_raise in Hm as [Hm | (? & _ & Hm)];
              [first [apply getitem_raise in Hm | apply series_binop_raise in Hm
                     | apply series_sum_raise in Hm]; discriminate|]).
      exact (py_div_guarded _ _ Hm).
    + unfold calculate_medium_long_weighted_avg_price in Hm.
      apply bind_raise in Hm as [Hm | (o1 & filtered & o2 & _ & Hm)].
      { apply filter_by_price_range_raise in Hm. congruence. }
      apply lift_ok in Hm as [_ Hm].
      repeat (apply bind_result_raise in Hm as [Hm | (? & _ & Hm)];
              [first [apply getitem_raise in Hm | apply series_binop_raise in Hm
                     | apply series_sum_raise in Hm]; discriminate|]).
      exact (py_div_guarded _ _ Hm).
Qed.

End ZeroVolumes.

Lemma weighted_averages_zero_volume_witness :
  Review.calculate_inter_provincial_avg_price (lib := plain_lib) trading_df
    "日前出清节点价格" min_100 = ([], Ok 0%Q)
  /\ Review.calculate_medium_long_weighted_avg_price (lib := plain_lib) trading_df
       "日前出清节点价格" min_100 = ([], Ok 0%Q).
Proof.
  split.
  - refine (proj2 (proj1 (weighted_averages_zero_volume (lib := plain_lib) trading_df
                            "日前出清节点价格" min_100) trading_above_100 [] _ _ _ _ _) _);
      [vm_compute; reflexivity | reflexivity | reflexivity | reflexivity | reflexivity |].
    unfold zero_volume_rows. simpl.
    repeat (constructor; [repeat split; try exact I; vm_compute; reflexivity|]).
    constructor.
  - refine (proj2 (proj1 (proj2 (weighted_averages_zero_volume (lib := plain_lib)
                                   trading_df "日前出清节点价格" min_100))
                     trading_above_100 [] _ _ _ _ _) _);
      [vm_compute; reflexivity | reflexivity | reflexivity | reflexivity | reflexivity |].
    unfold zero_volume_rows. simpl.
    repeat (constructor; [repeat split; try exact I; vm_compute; reflexivity|]).
    constructor.
Defined.

(** * Metric 7: forecast committed power *)

Section CommittedPower.
Context {lib : PyLib}.
Import Review.

Lemma conversion_factor_tashan :
  _get_power_conversion_factor (Some "塔山") = (660 / 600)%Q.
Proof. vm_compute. reflexivity. Qed.

(** C1, as the code has it.  Let the metric-1 filter return four rows
    for the company argument 塔山, on a table that has the column
    日前中标出力, and let that column sum to 600 over the four rows.  Then
    [calculate_daily_forward_power] (metric 7) returns
    (600 / 4) × (660 / 600) / (4 / 4), which is 165. *)
Theorem daily_forward_power_tashan (df filtered : DataFrame) (a : Criteria)
    (out : list string) (total : Q) :
  filter_by_price_range df "日前出清节点价格" "日期" a = (out, Ok filtered) ->
  len filtered = 4%nat ->
  company_name a = Some "塔山" ->
  has_column df "日前中标出力" = true ->
  series_sum (map (fun r => r "日前中标出力") (data filtered)) = Ok total ->
  (total == 600)%Q ->
  exists q, calculate_daily_forward_power df a = (out, Ok q) /\ (q == 165)%Q.
Proof.
  intros Hf Hlen Hco Hcol Hsum Htotal.
  pose proof (filter_by_price_range_selection _ _ _ _ _ _ Hf) as Hsel.
  rewrite <- (selection_of_has_column _ _ _ Hsel) in Hcol.
  exists ((total / 4) * (660 / 600) / quarter_hours 4)%Q. split.
  - unfold calculate_daily_forward_power. rewrite Hf. simpl.
    assert (Hne : empty filtered = false).
    { unfold empty. rewrite Hlen. simpl. unfold has_column in Hcol.
      destruct (columns filtered); [discriminate | reflexivity]. }
    rewrite Hne, Hlen. simpl. rewrite (getitem_present _ _ Hcol). simpl.
    rewrite Hsum. simpl. rewrite Hco, conversion_factor_tashan.
    rewrite app_nil_r. reflexivity.
  - rewrite Htotal. reflexivity.
Qed.

(** The same input in binary64: the rounding of 660/600 does not show
    in the result. *)
Lemma daily_forward_power_tashan_binary64 :
  daily_forward_power_binary64 600 4 660 600 = 165%float.
Proof. vm_compute. reflexivity. Qed.

End CommittedPower.

Lemma daily_forward_power_tashan_witness :
  exists q,
    Review.calculate_daily_forward_power (lib := plain_lib) trading_df tashan_only
    = ([], Ok q) /\ (q == 165)%Q.
Proof.
  apply (daily_forward_power_tashan (lib := plain_lib) trading_df trading_df tashan_only []
           600%Q).
  - vm_compute. reflexivity.
  - reflexivity.
  - reflexivity.
  - reflexivity.
  - vm_compute. reflexivity.
  - reflexivity.
Defined.

(** C1 as stated fails: on four rows of 塔山 whose 日前中标出力 sums to 600
    metric 7 is 165, not 660. *)
Lemma daily_forward_power_is_not_660 :
  exists filtered total q,
    Review.filter_by_price_range (lib := plain_lib) trading_df "日前出清节点价格" "日期"
      tashan_only = ([], Ok filtered)
    /\ len filtered = 4%nat
    /\ Forall (fun r => r "公司名称" = CStr "塔山") (data filtered)
    /\ series_sum (map (fun r => r "日前中标出力") (data filtered)) = Ok total
    /\ (total == 600)%Q
    /\ Review.calculate_daily_forward_power (lib := plain_lib) trading_df tashan_only
       = ([], Ok q)
    /\ ~ (q == 660)%Q.
Proof.
  exists trading_df, (150 + (150 + (150 + (150 + 0))))%Q, (1584000 # 9600)%Q.
  split; [vm_compute; reflexivity|].
  split; [reflexivity|].
  split; [repeat constructor|].
  split; [vm_compute; reflexivity|].
  split; [vm_compute; reflexivity|].
  split; [vm_compute; reflexivity|].
  vm_compute. discriminate.
Qed.

(** * The unit group of a unit name *)

Section UnitDimension.
Context {lib : PyLib}.
Import Review.

Lemma take_digits_run (run after digits : list N) :
  map decimal_digit run = map Some digits ->
  (after = [] \/ exists c rest, after = c :: rest /\ is_digit c = false) ->
  take_digits (run ++ after) = digits.
Proof.
  intros Hrun Hafter. revert digits Hrun.
  induction run as [|c run IH]; intros [|d digits]; simpl; try discriminate.
  - intros _. destruct Hafter as [-> | (c & rest & -> & Hc)]; [reflexivity|].
    simpl. unfold is_digit in Hc. destruct (decimal_digit c); [discriminate | reflexivity].
  - intros [= Hc Hrun]. rewrite Hc, (IH _ Hrun). reflexivity.
Qed.

Lemma search_digits_none (cs : list N) :
  Forall (fun c => is_digit c = false) cs -> search_digits cs = None.
Proof. induction 1 as [|c cs Hc _ IH]; simpl; [reflexivity|]. rewrite Hc. exact IH. Qed.

Lemma search_digits_first_run (before run after digits : list N) :
  Forall (fun c => is_digit c = false) before ->
  run <> [] ->
  map decimal_digit run = map Some digits ->
  (after = [] \/ exists c rest, after = c :: rest /\ is_digit c = false) ->
  search_digits (before ++ run ++ after) = Some digits.
Proof.
  intros Hbefore Hne Hrun Hafter.
  induction Hbefore as [|c before Hc _ IH]; simpl.
  - destruct run as [|c run]; [contradiction|]. destruct digits as [|d digits]; [discriminate|].
    simpl. unfold is_digit. injection Hrun as Hc Hrun'. rewrite Hc.
    f_equal. f_equal. apply take_digits_run; assumption.
  - rewrite Hc. exact IH.
Qed.

(** C8, as the code has it.  A null name is 未知, and so is a name with
    no decimal digit.  Otherwise the number of a unit is read from the
    first run of decimal digits in its name, whatever follows that run:
    number 1 or 3 gives 机组1&3组, number 2 or 4 gives 机组2&4组, and any
    other number gives 其他机组. *)
Theorem unit_dimension_of_first_digit_run (name : cell) :
  (isna name = true -> determine_dimension name = "未知")
  /\
  (isna name = false ->
   Forall (fun c => is_digit c = false) (utf8_decode (py_str name)) ->
   determine_dimension name = "未知")
  /\
  (forall before run after digits,
     isna name = false ->
     utf8_decode (py_str name) = before ++ run ++ after ->
     Forall (fun c => is_digit c = false) before ->
     run <> [] ->
     map decimal_digit run = map Some digits ->
     (after = [] \/ exists c rest, after = c :: rest /\ is_digit c = false) ->
     let unit_no := int_of_digits digits in
     (unit_no = 1%N \/ unit_no = 3%N -> determine_dimension name = "机组1&3组") /\
     (unit_no = 2%N \/ unit_no = 4%N -> determine_dimension name = "机组2&4组") /\
     (unit_no <> 1%N -> unit_no <> 2%N -> unit_no <> 3%N -> unit_no <> 4%N ->
      determine_dimension name = "其他机组")).
Proof.
  split; [|split].
  - intros Hna. unfold determine_dimension. rewrite Hna. reflexivity.
  - intros Hna Hnone. unfold determine_dimension.
    rewrite Hna, (search_digits_none _ Hnone). reflexivity.
  - intros before run after digits Hna Hname Hbefore Hne Hrun Hafter unit_no.
    unfold determine_dimension.
    rewrite Hna, Hname, (search_digits_first_run _ _ _ _ Hbefore Hne Hrun Hafter).
    fold unit_no. split; [|split].
    + intros [-> | ->]; reflexivity.
    + intros [-> | ->]; reflexivity.
    + intros H1 H2 H3 H4.
      destruct (N.eqb_spec unit_no 1); [contradiction|].
      destruct (N.eqb_spec unit_no 3); [contradiction|].
      destruct (N.eqb_spec unit_no 2); [contradiction|].
      destruct (N.eqb_spec unit_no 4); [contradiction|]. reflexivity.
Qed.

End UnitDimension.

Lemma unit_dimension_of_first_digit_run_witness :
  Review.determine_dimension (lib := plain_lib) (CStr "塔山3号机组") = "机组1&3组".
Proof.
  refine (proj1 (proj2 (proj2 (unit_dimension_of_first_digit_run (lib := plain_lib)
                                 (CStr "塔山3号机组")))
                   [22612; 23665]%N [51]%N [21495; 26426; 32452]%N [3]%N _ _ _ _ _ _) _).
  - reflexivity.
  - vm_compute. reflexivity.
  - repeat constructor.
  - discriminate.
  - reflexivity.
  - right. exists 21495%N, [26426; 32452]%N. split; reflexivity.
  - right. reflexivity.
Defined.

(** C8 as stated fails: the name 2号机组3 ends in the number 3 and
    contains 3, and it is put in 机组2&4组, not in the group of 1号机组; and
    30号机组 contains 3 and is put in 其他机组. *)
Lemma unit_dimension_is_not_by_suffix :
  Review.determine_dimension (lib := plain_lib) (CStr "2号机组3") = "机组2&4组"
  /\ Review.determine_dimension (lib := plain_lib) (CStr "1号机组") = "机组1&3组"
  /\ Review.determine_dimension (lib := plain_lib) (CStr "30号机组") = "其他机组".
Proof. repeat split. Qed.

(** * Reconciliation with a file missing *)

(** One block of the function, in a hypothesis about its result: the
    file is absent, or it is there and its normalization returns or
    raises. *)
Ltac next_file Hp :=
  match type of Hp with
  | context [Boundary.load ?files ?n ?norm] =>
      let file := fresh "file" in
      let Hfile := fresh "Hfile" in
      let Hnorm := fresh "Hnorm" in
      unfold Boundary.load in Hp at 1;
      destruct (files !! n) as [file|] eqn:Hfile;
      [ destruct (norm file) eqn:Hnorm | ];
      cbn [Boundary.bind_step Boundary.of_result] in Hp
  end.

Section MissingFiles.
Context {lib : PyLib}.
Import Boundary.

Lemma first_missing_exists (files_dict : gmap string UploadedFile) (n : string) :
  In n required_files -> files_dict !! n = None ->
  exists name, first_missing files_dict = Some name.
Proof.
  intros Hin Hn. unfold first_missing.
  destruct (List.find _ required_files) as [name|] eqn:Hfind; [eauto|].
  pose proof (find_none _ _ Hfind n Hin) as Hnone. cbv beta in Hnone.
  rewrite Hn in Hnone. discriminate.
Qed.

Lemma first_missing_spec (files_dict : gmap string UploadedFile) (name : string) :
  first_missing files_dict = Some name ->
  In name required_files /\ files_dict !! name = None.
Proof.
  unfold first_missing. intros Hfind. apply find_some in Hfind as [Hin Hn].
  split; [exact Hin|]. destruct (files_dict !! name); [discriminate | reflexivity].
Qed.

Lemma missing_or_raised (files_dict : gmap string UploadedFile) (name : string) :
  first_missing files_dict = Some name ->
  preprocess_boundary_files files_dict = (None, Some ("缺少文件: " +:+ name)) \/
  exists e, preprocess_boundary_files files_dict
            = (None, Some ("处理出错: " +:+ error_text e)).
Proof.
  destruct (preprocess_boundary_files files_dict) as [table message] eqn:Hp.
  unfold first_missing, required_files. cbn [List.find]. intros Hname.
  unfold preprocess_boundary_files in Hp.
  repeat (next_file Hp;
          [ cbn [is_set negb] in Hname
          | injection Hp as <- <-; right; eexists; reflexivity
          | cbn [is_set negb] in Hname; injection Hname as <-;
            injection Hp as <- <-; left; reflexivity ]).
  discriminate.
Qed.

Lemma missing_after_loading (files_dict : gmap string UploadedFile) (name : string) :
  In name required_files -> files_dict !! name = None ->
  loaded_before files_dict loaders name = true ->
  preprocess_boundary_files files_dict = (None, Some ("缺少文件: " +:+ name)).
Proof.
  destruct (preprocess_boundary_files files_dict) as [table message] eqn:Hp.
  unfold required_files. unfold preprocess_boundary_files in Hp.
  intros Hin Hname Hbefore. unfold loaders in Hbefore.
  repeat (destruct Hin as [<- | Hin];
          [ cbn [loaded_before String.eqb Ascii.eqb Bool.eqb andb] in Hbefore;
            repeat (next_file Hp;
                    [ first [congruence | cbn [is_ok andb] in Hbefore]
                    | first [congruence | cbn [is_ok andb] in Hbefore; discriminate Hbefore]
                    | first [discriminate Hbefore | injection Hp as <- <-; reflexivity] ])
          | ]).
  contradiction.
Qed.

(** The files already stepped through, rewritten in a goal about
    [loaded_before]. *)
Ltac loaded_so_far :=
  unfold loaders; cbn [loaded_before String.eqb Ascii.eqb Bool.eqb];
  repeat match goal with
         | H : ?files !! ?n = Some ?file |- context [?files !! ?n] => rewrite H
         | H : ?m = Ok _ |- context [is_ok ?m] => rewrite H
         end;
  cbn [is_ok andb]; try reflexivity.

Lemma raised_before_missing (files_dict : gmap string UploadedFile) (name : string) :
  first_missing files_dict = Some name ->
  loaded_before files_dict loaders name = false ->
  exists earlier raises file e,
    In (earlier, raises) loader_errors /\
    files_dict !! earlier = Some file /\ raises file = Some e /\
    loaded_before files_dict loaders earlier = true /\
    preprocess_boundary_files files_dict = (None, Some ("处理出错: " +:+ error_text e)).
Proof.
  destruct (preprocess_boundary_files files_dict) as [table message] eqn:Hp.
  unfold first_missing, required_files. cbn [List.find]. intros Hname Hbefore.
  unfold preprocess_boundary_files in Hp.
  repeat (next_file Hp;
          [ cbn [is_set negb] in Hname
          | injection Hp as <- <-;
            match goal with
            | Hfile : files_dict !! ?n = Some ?file, Hnorm : ?norm ?file = Raise ?e |- _ =>
                exists n, (fun f => raised (norm f)), file, e;
                split; [unfold loader_errors; cbn [In]; tauto|];
                split; [exact Hfile|];
                split; [cbv beta; rewrite Hnorm; reflexivity|];
                split; [loaded_so_far | reflexivity]
            end
          | exfalso; cbn [is_set negb] in Hname; injection Hname as <-;
            revert Hbefore; loaded_so_far; discriminate ]).
  discriminate.
Qed.

(** C9, as the code has it.  When the file set lacks one of the nine
    required files, [preprocess_boundary_files] returns no table and a
    message.  If every required file asked for before the first missing
    one is read and normalized without an exception, the message is
    缺少文件 followed by the name of that first missing file.  Otherwise
    the message is 处理出错 followed by the text of the exception that
    an earlier required file raised: the first file, all those before
    it being read and normalized, whose block raises. *)
Theorem missing_file_reported (files_dict : gmap string UploadedFile) (n : string) :
  In n required_files -> files_dict !! n = None ->
  exists name,
    first_missing files_dict = Some name /\
    ((loaded_before files_dict loaders name = true /\
      preprocess_boundary_files files_dict = (None, Some ("缺少文件: " +:+ name)))
     \/
     (loaded_before files_dict loaders name = false /\
      exists earlier raises file e,
        In (earlier, raises) loader_errors /\
        files_dict !! earlier = Some file /\ raises file = Some e /\
        loaded_before files_dict loaders earlier = true /\
        preprocess_boundary_files files_dict
        = (None, Some ("处理出错: " +:+ error_text e)))).
Proof.
  intros Hin Hn. destruct (first_missing_exists _ _ Hin Hn) as [name Hname].
  exists name. split; [exact Hname|].
  destruct (loaded_before files_dict loaders name) eqn:Hbefore.
  - left. split; [reflexivity|].
    destruct (first_missing_spec _ _ Hname). apply missing_after_loading; assumption.
  - right. split; [reflexivity|]. apply (raised_before_missing _ name); assumption.
Qed.

End MissingFiles.

Lemma missing_file_reported_witness :
  Boundary.preprocess_boundary_files (lib := plain_lib)
    (delete "现货出清电价_REPORT0.xlsx" example_files)
  = (None, Some "缺少文件: 现货出清电价_REPORT0.xlsx")
  /\
  exists name,
    first_missing one_column_files = Some name /\
    ((loaded_before one_column_files (loaders (lib := plain_lib)) name = true /\
      Boundary.preprocess_boundary_files (lib := plain_lib) one_column_files
      = (None, Some ("缺少文件: " +:+ name)))
     \/
     (loaded_before one_column_files (loaders (lib := plain_lib)) name = false /\
      exists earlier raises file e,
        In (earlier, raises) (loader_errors (lib := plain_lib)) /\
        one_column_files !! earlier = Some file /\ raises file = Some e /\
        loaded_before one_column_files (loaders (lib := plain_lib)) earlier = true /\
        Boundary.preprocess_boundary_files (lib := plain_lib) one_column_files
        = (None, Some ("处理出错: " +:+ error_text (PyLib := plain_lib) e)))).
Proof.
  split.
  - destruct (missing_file_reported (lib := plain_lib)
                (delete "现货出清电价_REPORT0.xlsx" example_files)
                "现货出清电价_REPORT0.xlsx")
      as (name & Hname & [[_ Hp] | [Hbefore _]]).
    + do 8 right. left. reflexivity.
    + vm_compute. reflexivity.
    + vm_compute in Hname. injection Hname as <-. exact Hp.
    + vm_compute in Hname. injection Hname as <-. vm_compute in Hbefore.
      discriminate Hbefore.
  - apply (missing_file_reported (lib := plain_lib) one_column_files
             "现货出清电价_REPORT0.xlsx").
    + do 8 right. left. reflexivity.
    + vm_compute. reflexivity.
Defined.

(** C9 as stated fails on a file set that has only the load forecast,
    as a sheet with a single column: eight required files are missing,
    no table is returned, and the message names none of them; it is the
    text of the [IndexError] raised while the load forecast was read. *)
Lemma missing_file_not_named :
  Forall (fun name => one_column_files !! name = None) (tl Boundary.required_files)
  /\ Boundary.preprocess_boundary_files (lib := plain_lib) one_column_files
     = (None, Some "处理出错: single positional indexer is out-of-bounds").
Proof.
  split.
  - repeat constructor.
  - vm_compute. reflexivity.
Qed.

(** * Outer joins and their cardinality *)

Lemma occurrences_nil (k : list cell) : occurrences k [] = 0%nat.
Proof. reflexivity. Qed.

Lemma occurrences_cons (k k' : list cell) (ks : list (list cell)) :
  occurrences k (k' :: ks)
  = ((if bool_decide (k' = k) then 1 else 0) + occurrences k ks)%nat.
Proof. unfold occurrences. simpl. destruct (bool_decide (k' = k)); reflexivity. Qed.

Lemma occurrences_app (k : list cell) (ks ks' : list (list cell)) :
  occurrences k (ks ++ ks') = (occurrences k ks + occurrences k ks')%nat.
Proof. unfold occurrences. rewrite List.filter_app, length_app. reflexivity. Qed.

Lemma occurrences_pos (k : list cell) (ks : list (list cell)) :
  (0 < occurrences k ks)%nat <-> In k ks.
Proof.
  induction ks as [|k' ks IH]; simpl.
  - rewrite occurrences_nil. split; [lia | contradiction].
  - rewrite occurrences_cons. destruct (bool_decide_reflect (k' = k)) as [->|Hne].
    + split; [auto | lia].
    + simpl. rewrite IH. split; [auto | intros [Heq|Hin]; [contradiction | exact Hin]].
Qed.

Lemma occurrences_zero (k : list cell) (ks : list (list cell)) :
  occurrences k ks = 0%nat <-> ~ In k ks.
Proof. rewrite <- occurrences_pos. lia. Qed.

Lemma occurrences_same (k : list cell) (n : nat) (ks : list (list cell)) :
  Forall (fun k' => k' = k) ks -> occurrences k ks = length ks.
Proof.
  induction 1 as [|k' ks -> _ IH]; [reflexivity|].
  rewrite occurrences_cons, bool_decide_eq_true_2 by reflexivity. simpl. rewrite IH. reflexivity.
Qed.

Lemma occurrences_other (k : list cell) (ks : list (list cell)) :
  Forall (fun k' => k' <> k) ks -> occurrences k ks = 0%nat.
Proof.
  induction 1 as [|k' ks Hne _ IH]; [reflexivity|].
  rewrite occurrences_cons, bool_decide_eq_false_2 by exact Hne. exact IH.
Qed.

(** The length of a list of keys, counted key by key over any
    duplicate-free list that holds them all. *)
Lemma length_by_key (ks U : list (list cell)) :
  NoDup U -> (forall k, In k ks -> In k U) ->
  length ks = sum_list_with (fun k => occurrences k ks) U.
Proof.
  intros HU. induction ks as [|k' ks IH]; intros Hin.
  - simpl. clear HU Hin. induction U as [|u U IHU]; [reflexivity|]. simpl.
    rewrite <- IHU. reflexivity.
  - simpl. rewrite IH by (intros k Hk; apply Hin; right; exact Hk).
    assert (Hk' : In k' U) by (apply Hin; left; reflexivity).
    clear IH Hin. induction U as [|u U IHU]; [contradiction|].
    inversion HU as [|u' U' Hnotin HU']; subst. simpl.
    rewrite occurrences_cons. destruct Hk' as [->|Hk'].
    + rewrite bool_decide_eq_true_2 by reflexivity.
      assert (Hrest : sum_list_with (fun k => occurrences k (k' :: ks)) U
                      = sum_list_with (fun k => occurrences k ks) U).
      { clear IHU HU HU'. induction U as [|v U IHV]; [reflexivity|]. simpl.
        rewrite occurrences_cons, bool_decide_eq_false_2.
        - rewrite IHV; [reflexivity|]. intros Hv. apply Hnotin. right. exact Hv.
        - intros ->. apply Hnotin. left. }
      rewrite Hrest. lia.
    + rewrite bool_decide_eq_false_2.
      * specialize (IHU HU' Hk'). lia.
      * intros ->. apply Hnotin. apply list_elem_of_In. exact Hk'.
Qed.

Lemma sum_list_with_ext {A : Type} (f g : A -> nat) (l : list A) :
  (forall a, In a l -> f a = g a) -> sum_list_with f l = sum_list_with g l.
Proof.
  induction l as [|a l IH]; intros Hfg; [reflexivity|]. simpl.
  rewrite (Hfg a), IH; [reflexivity | | left; reflexivity].
  intros b Hb. apply Hfg. right. exact Hb.
Qed.

Lemma product_all_zero (cs : list nat) :
  forallb (Nat.eqb 0) cs = true ->
  fold_right (fun c n => (Nat.max 1 c * n)%nat) 1%nat cs = 1%nat.
Proof.
  induction cs as [|c cs IH]; simpl; [reflexivity|].
  intros Hz. apply andb_true_iff in Hz as [Hc Hz]. destruct c; [|discriminate].
  rewrite (IH Hz). reflexivity.
Qed.

Lemma product_pos (cs : list nat) :
  (0 < fold_right (fun c n => (Nat.max 1 c * n)%nat) 1%nat cs)%nat.
Proof. induction cs as [|c cs IH]; simpl; [lia|]. nia. Qed.

Lemma product_snoc (cs : list nat) (c : nat) :
  fold_right (fun c n => (Nat.max 1 c * n)%nat) 1%nat (cs ++ [c])
  = (fold_right (fun c n => (Nat.max 1 c * n)%nat) 1%nat cs * Nat.max 1 c)%nat.
Proof. induction cs as [|c' cs IH]; simpl; [lia|]. rewrite IH. lia. Qed.

(** Joining one more table multiplies the rows of a key as a two-table
    outer join does. *)
Lemma joined_rows_snoc (cs : list nat) (c : nat) :
  joined_rows (cs ++ [c]) = join2 (joined_rows cs) c.
Proof.
  unfold joined_rows, join2. rewrite forallb_app, product_snoc.
  cbn [forallb]. rewrite andb_true_r.
  destruct (forallb (Nat.eqb 0) cs) eqn:Hz; cbn [andb].
  - rewrite (product_all_zero _ Hz). destruct c; cbn [Nat.eqb]; lia.
  - pose proof (product_pos cs) as Hpos.
    destruct (Nat.eqb_spec (fold_right (fun c n => (Nat.max 1 c * n)%nat) 1%nat cs) 0); lia.
Qed.

Lemma joined_rows_pos (cs : list nat) :
  (0 < joined_rows cs)%nat <-> Exists (fun c => (0 < c)%nat) cs.
Proof.
  unfold joined_rows. destruct (forallb (Nat.eqb 0) cs) eqn:Hz.
  - split; [lia|]. intros Hex. exfalso.
    rewrite forallb_forall in Hz. apply List.Exists_exists in Hex as (c & Hc & Hpos).
    specialize (Hz c Hc). apply Nat.eqb_eq in Hz. lia.
  - split; [|intros _; apply product_pos]. intros _.
    apply List.Exists_exists.
    induction cs as [|c cs IH]; simpl in Hz; [discriminate|].
    destruct (Nat.eqb_spec 0 c) as [<-|Hc]; simpl in Hz.
    + destruct (IH Hz) as (c' & Hin & Hpos). exists c'. split; [right; exact Hin | exact Hpos].
    + exists c. split; [left; reflexivity | lia].
Qed.

Lemma mem_In (c : string) (cols : list string) : mem c cols = true <-> In c cols.
Proof.
  unfold mem. rewrite existsb_exists. split.
  - intros (x & Hx & Heq). apply String.eqb_eq in Heq. subst x. exact Hx.
  - intros Hin. exists c. split; [exact Hin | apply String.eqb_refl].
Qed.

Lemma key_of_ext (on : list string) (r r' : Row) :
  (forall c, In c on -> r' c = r c) -> key_of on r' = key_of on r.
Proof. intros Hext. unfold key_of. apply map_ext_in. exact Hext. Qed.

Lemma key_of_restrict (on cols : list string) (r : Row) :
  Forall (fun c => mem c cols = true) on -> key_of on (restrict cols r) = key_of on r.
Proof.
  intros Hon. apply key_of_ext. intros c Hc. unfold restrict.
  rewrite List.Forall_forall in Hon. rewrite (Hon c Hc). reflexivity.
Qed.

Lemma key_of_join_rows (on lcols rcols : list string) (l r : Row) :
  Forall (fun c => mem c lcols = true) on ->
  key_of on (join_rows lcols rcols l r) = key_of on l.
Proof.
  intros Hon. apply key_of_ext. intros c Hc. unfold join_rows.
  rewrite List.Forall_forall in Hon. rewrite (Hon c Hc). reflexivity.
Qed.

Lemma key_of_right_only (on lcols rcols : list string) (r : Row) :
  key_of on (right_only on lcols rcols r) = key_of on r.
Proof.
  apply key_of_ext. intros c Hc. unfold right_only.
  apply mem_In in Hc. rewrite Hc. reflexivity.
Qed.

Lemma matches_length (on : list string) (l : Row) (R : list Row) :
  length (List.filter (keys_eqb on l) R) = occurrences (key_of on l) (map (key_of on) R).
Proof.
  unfold occurrences, keys_eqb. induction R as [|r R IH]; simpl; [reflexivity|].
  rewrite (bool_decide_ext (key_of on l = key_of on r) (key_of on r = key_of on l))
    by (split; congruence).
  destruct (bool_decide (key_of on r = key_of on l)); simpl; rewrite IH; reflexivity.
Qed.

Lemma unmatched_spec (on : list string) (r : Row) (L : list Row) :
  negb (existsb (fun l => keys_eqb on l r) L) = true
  <-> occurrences (key_of on r) (map (key_of on) L) = 0%nat.
Proof.
  rewrite occurrences_zero, negb_true_iff. split.
  - intros Hnone Hin. apply List.in_map_iff in Hin as (l & Hk & Hl).
    assert (Hex : existsb (fun l => keys_eqb on l r) L = true).
    { apply existsb_exists. exists l. split; [exact Hl|].
      unfold keys_eqb. apply bool_decide_eq_true_2. exact Hk. }
    congruence.
  - intros Hnotin. destruct (existsb _ L) eqn:Hex; [|reflexivity]. exfalso.
    apply existsb_exists in Hex as (l & Hl & Hk). unfold keys_eqb in Hk.
    apply bool_decide_eq_true_1 in Hk. apply Hnotin.
    apply List.in_map_iff. exists l. split; [exact Hk | exact Hl].
Qed.

Section Joins.
Variables (left right : DataFrame) (on : list string).
Hypothesis on_left : Forall (fun c => mem c (columns left) = true) on.

Lemma matched_rows_keys (l : Row) :
  Forall (fun k => k = key_of on l) (map (key_of on) (matched_rows left right on l)).
Proof.
  unfold matched_rows. destruct (List.filter _ _) as [|m ms].
  - constructor; [|constructor]. apply key_of_restrict. exact on_left.
  - rewrite !List.Forall_map. apply List.Forall_forall. intros r _.
    apply key_of_join_rows. exact on_left.
Qed.

Lemma matched_rows_length (l : Row) :
  length (matched_rows left right on l)
  = Nat.max 1 (occurrences (key_of on l) (map (key_of on) (data right))).
Proof.
  rewrite <- matches_length. unfold matched_rows.
  destruct (List.filter _ _) as [|m ms]; [reflexivity|].
  rewrite length_map. simpl. lia.
Qed.

Lemma matched_occurrences (k : list cell) (L : list Row) :
  occurrences k (map (key_of on) (flat_map (matched_rows left right on) L))
  = (occurrences k (map (key_of on) L)
     * Nat.max 1 (occurrences k (map (key_of on) (data right))))%nat.
Proof.
  induction L as [|l L IH]; [reflexivity|].
  simpl. rewrite List.map_app, occurrences_app, IH, occurrences_cons.
  pose proof (matched_rows_keys l) as Hkeys.
  destruct (bool_decide_reflect (key_of on l = k)) as [Heq|Hne].
  - rewrite <- Heq in *. rewrite (occurrences_same _ 0%nat _ Hkeys).
    rewrite length_map, matched_rows_length. lia.
  - rewrite occurrences_other; [lia|].
    eapply List.Forall_impl; [|exact Hkeys]. intros k' ->. exact Hne.
Qed.

Lemma unmatched_occurrences (k : list cell) :
  occurrences k (map (key_of on) (unmatched_rows left right on))
  = if (occurrences k (map (key_of on) (data left)) =? 0)%nat
    then occurrences k (map (key_of on) (data right)) else 0%nat.
Proof.
  unfold unmatched_rows.
  induction (data right) as [|r R IH]; simpl; [destruct (_ =? _)%nat; reflexivity|].
  rewrite (occurrences_cons k (key_of on r)).
  destruct (negb _) eqn:Hun; simpl.
  - rewrite occurrences_cons, key_of_right_only, IH.
    apply unmatched_spec in Hun.
    destruct (bool_decide_reflect (key_of on r = k)) as [Heq|Hne].
    + rewrite <- Heq, Hun. reflexivity.
    + destruct (_ =? _)%nat; reflexivity.
  - rewrite IH. destruct (bool_decide_reflect (key_of on r = k)) as [Heq|Hne].
    + assert (Hpos : occurrences k (map (key_of on) (data left)) <> 0%nat).
      { rewrite <- Heq. intros Hz. apply unmatched_spec in Hz. congruence. }
      apply Nat.eqb_neq in Hpos. rewrite Hpos. reflexivity.
    + reflexivity.
Qed.

End Joins.

Lemma merge_ok (left right m : DataFrame) (on : list string) (how : How) :
  merge left right on how = Ok m ->
  Forall (fun c => mem c (columns left) = true) on /\
  Forall (fun c => mem c (columns right) = true) on /\
  columns m
  = columns left ++ List.filter (fun c => negb (mem c (columns left))) (columns right) /\
  data m
  = flat_map (matched_rows left right on) (data left)
    ++ match how with
       | Outer => unmatched_rows left right on
       | Left => []
       end.
Proof.
  unfold merge. destruct (List.find _ on) as [c|] eqn:Hfind; [discriminate|].
  intros [= <-]. simpl.
  assert (Hboth : forall c, In c on ->
                    has_column left c = true /\ has_column right c = true).
  { intros c Hc. pose proof (find_none _ _ Hfind c Hc) as Hn. cbv beta in Hn.
    apply negb_false_iff, andb_true_iff in Hn. exact Hn. }
  repeat split; try (apply List.Forall_forall; intros c Hc; apply (Hboth c Hc)).
Qed.

(** The rows an outer merge has for a key, from the rows its two sides
    have for it. *)
Lemma merge_outer_occurrences (left right m : DataFrame) (on : list string)
    (k : list cell) :
  merge left right on Outer = Ok m ->
  occurrences k (map (key_of on) (data m))
  = join2 (occurrences k (map (key_of on) (data left)))
      (occurrences k (map (key_of on) (data right))).
Proof.
  intros Hm. apply merge_ok in Hm as (Hl & _ & _ & ->).
  rewrite List.map_app, occurrences_app.
  rewrite (matched_occurrences left right on Hl), unmatched_occurrences.
  unfold join2. destruct (Nat.eqb_spec (occurrences k (map (key_of on) (data left))) 0); lia.
Qed.

(** * The reconciliation, step by step *)

Lemma select_ok (df s : DataFrame) (cols : list string) :
  select df cols = Ok s ->
  columns s = cols /\ data s = map (restrict cols) (data df).
Proof.
  unfold select. destruct (List.find _ cols); [discriminate|].
  intros [= <-]. split; reflexivity.
Qed.

Lemma keys_select (df s : DataFrame) (cols : list string) :
  select df cols = Ok s ->
  Forall (fun c => mem c cols = true) Boundary.on_keys ->
  keys s = keys df.
Proof.
  intros Hs Hon. apply select_ok in Hs as [_ Hd]. unfold keys. rewrite Hd, List.map_map.
  apply map_ext. intros r. apply key_of_restrict. exact Hon.
Qed.

Lemma insert_row_perm (by_ : list string) (x : Row) (l : list Row) :
  Permutation (insert_row by_ x l) (x :: l).
Proof.
  induction l as [|y l IH]; simpl; [reflexivity|].
  destruct (rows_compare by_ y x); try reflexivity.
  rewrite IH. apply perm_swap.
Qed.

Lemma sort_values_ok (df s : DataFrame) (by_ : list string) :
  sort_values df by_ = Ok s ->
  columns s = columns df /\ Permutation (data s) (data df).
Proof.
  unfold sort_values. destruct (List.find _ by_); [discriminate|].
  intros [= <-]. split; [reflexivity|]. simpl.
  induction (data df) as [|x l IH]; simpl; [reflexivity|].
  rewrite insert_row_perm, IH. reflexivity.
Qed.

Lemma drop_ok (df s : DataFrame) (cols : list string) :
  drop df cols = Ok s ->
  columns s = List.filter (fun c => negb (mem c cols)) (columns df) /\
  data s = map (restrict (List.filter (fun c => negb (mem c cols)) (columns df))) (data df).
Proof.
  unfold drop. destruct (List.find _ cols); [discriminate|].
  intros [= <-]. split; reflexivity.
Qed.

Lemma mem_add_column (c col : string) (cols : list string) :
  mem c cols = true -> mem c (add_column cols col) = true.
Proof.
  intros Hc. unfold add_column. destruct (existsb _ cols); [exact Hc|].
  unfold mem. rewrite existsb_app. fold (mem c cols). rewrite Hc. reflexivity.
Qed.

Lemma tracked_cells_ext (r r' : Row) :
  r' "日期" = r "日期" -> r' "时点" = r "时点" ->
  r' "边界数据类型" = r "边界数据类型" -> r' "在线机组容量(MW)" = r "在线机组容量(MW)" ->
  tracked_cells r' = tracked_cells r.
Proof. unfold tracked_cells. intros -> -> -> ->. reflexivity. Qed.

Lemma upd_other (r : Row) (col c : string) (v : cell) :
  c <> col -> upd r col v c = r c.
Proof. intros Hne. unfold upd. apply String.eqb_neq in Hne. rewrite Hne. reflexivity. Qed.

(** Filling in the columns that are missing leaves alone the cells of
    the columns that are there. *)
Lemma fill_missing_tracked (cols : list string) (df : DataFrame) :
  has_column df "日期" = true -> has_column df "时点" = true ->
  has_column df "边界数据类型" = true -> has_column df "在线机组容量(MW)" = true ->
  map tracked_cells
    (data (fold_left
             (fun df col => if has_column df col then df
                            else assign df col (fun _ => CNull)) cols df))
  = map tracked_cells (data df).
Proof.
  revert df. induction cols as [|col cols IH]; intros df H1 H2 H3 H4; [reflexivity|].
  simpl. destruct (has_column df col) eqn:Hcol; [apply IH; assumption|].
  rewrite IH; try (apply mem_add_column; assumption).
  simpl. rewrite List.map_map. apply map_ext. intros r.
  apply tracked_cells_ext; apply upd_other; intros <-; congruence.
Qed.

Lemma Permutation_filter {A : Type} (p : A -> bool) (l l' : list A) :
  Permutation l l' -> Permutation (List.filter p l) (List.filter p l').
Proof.
  induction 1 as [|x l l' _ IH|x y l|l l' l'' _ IH1 _ IH2]; simpl.
  - reflexivity.
  - destruct (p x); [rewrite IH|]; [reflexivity | exact IH].
  - destruct (p x), (p y); try reflexivity. apply perm_swap.
  - rewrite IH1. exact IH2.
Qed.

Section Assembly.
Context {lib : PyLib}.
Import Boundary.

Lemma merge_day_ahead_ok
    (df_load df_renewable df_disclosure df_tie_line df_hydro df_price da : DataFrame) :
  merge_day_ahead df_load df_renewable df_disclosure df_tie_line df_hydro df_price = Ok da ->
  columns da
  = [ "日期"; "时点"; "省调负荷(MW)"; "风电(MW)"; "光伏(MW)"; "新能源负荷(MW)";
      "非市场化出力(MW)"; "联络线计划(MW)"; "水电出力(MW)"; "日前出清价格(元/MWh)" ]
  /\
  forall k,
    occurrences k (keys da)
    = joined_rows
        (map (occurrences k)
           [ keys df_load; keys df_renewable; keys df_disclosure; keys df_tie_line;
             keys df_hydro; keys df_price ]).
Proof.
  unfold merge_day_ahead. intros Hm.
  apply bind_result_ok in Hm as (s1 & Hs1 & Hm).
  apply bind_result_ok in Hm as (s2 & Hs2 & Hm).
  apply bind_result_ok in Hm as (m1 & Hm1 & Hm).
  apply bind_result_ok in Hm as (s3 & Hs3 & Hm).
  apply bind_result_ok in Hm as (m2 & Hm2 & Hm).
  apply bind_result_ok in Hm as (s4 & Hs4 & Hm).
  apply bind_result_ok in Hm as (m3 & Hm3 & Hm).
  apply bind_result_ok in Hm as (s5 & Hs5 & Hm).
  apply bind_result_ok in Hm as (m4 & Hm4 & Hm).
  apply bind_result_ok in Hm as (s6 & Hs6 & Hm).
  split.
  - apply select_ok in Hs1 as [Hc1 _]. apply select_ok in Hs2 as [Hc2 _].
    apply select_ok in Hs3 as [Hc3 _]. apply select_ok in Hs4 as [Hc4 _].
    apply select_ok in Hs5 as [Hc5 _]. apply select_ok in Hs6 as [Hc6 _].
    apply merge_ok in Hm1 as (_ & _ & Hd1 & _). rewrite Hc1, Hc2 in Hd1.
    apply merge_ok in Hm2 as (_ & _ & Hd2 & _). rewrite Hd1, Hc3 in Hd2.
    apply merge_ok in Hm3 as (_ & _ & Hd3 & _). rewrite Hd2, Hc4 in Hd3.
    apply merge_ok in Hm4 as (_ & _ & Hd4 & _). rewrite Hd3, Hc5 in Hd4.
    apply merge_ok in Hm as (_ & _ & Hd & _). rewrite Hd4, Hc6 in Hd.
    exact Hd.
  - intros k.
    assert (Hon3 : forall a b c, Forall (fun x => mem x (a :: b :: c) = true) [a; b]).
    { intros a b c. repeat constructor; unfold mem; simpl;
        rewrite ?String.eqb_refl, ?orb_true_r; reflexivity. }
    rewrite <- (keys_select _ _ _ Hs1 (Hon3 _ _ _)), <- (keys_select _ _ _ Hs2 (Hon3 _ _ _)),
      <- (keys_select _ _ _ Hs3 (Hon3 _ _ _)), <- (keys_select _ _ _ Hs4 (Hon3 _ _ _)),
      <- (keys_select _ _ _ Hs5 (Hon3 _ _ _)), <- (keys_select _ _ _ Hs6 (Hon3 _ _ _)).
    unfold keys.
    rewrite (merge_outer_occurrences _ _ _ _ k Hm), (merge_outer_occurrences _ _ _ _ k Hm4),
      (merge_outer_occurrences _ _ _ _ k Hm3), (merge_outer_occurrences _ _ _ _ k Hm2),
      (merge_outer_occurrences _ _ _ _ k Hm1).
    cbn [map].
    set (c1 := occurrences k (map (key_of on_keys) (data s1))).
    set (c2 := occurrences k (map (key_of on_keys) (data s2))).
    set (c3 := occurrences k (map (key_of on_keys) (data s3))).
    set (c4 := occurrences k (map (key_of on_keys) (data s4))).
    set (c5 := occurrences k (map (key_of on_keys) (data s5))).
    set (c6 := occurrences k (map (key_of on_keys) (data s6))).
    change [c1; c2; c3; c4; c5; c6] with ([c1; c2; c3; c4; c5] ++ [c6]).
    rewrite joined_rows_snoc.
    change [c1; c2; c3; c4; c5] with ([c1; c2; c3; c4] ++ [c5]).
    rewrite joined_rows_snoc.
    change [c1; c2; c3; c4] with ([c1; c2; c3] ++ [c4]).
    rewrite joined_rows_snoc.
    change [c1; c2; c3] with ([c1; c2] ++ [c3]).
    rewrite joined_rows_snoc.
    change [c1; c2] with ([c1] ++ [c2]).
    rewrite joined_rows_snoc.
    change [c1] with ([] ++ [c1]).
    rewrite joined_rows_snoc. reflexivity.
Qed.

Lemma merge_real_time_ok (df_actual df_tie_line_rt df_price rt : DataFrame) :
  merge_real_time df_actual df_tie_line_rt df_price = Ok rt ->
  columns rt
  = [ "日期"; "时点"; "省调负荷(MW)"; "风电(MW)"; "光伏(MW)"; "新能源负荷(MW)";
      "水电出力(MW)"; "非市场化出力(MW)"; "联络线计划(MW)"; "实时出清价格(元/MWh)" ].
Proof.
  unfold merge_real_time. intros Hm.
  apply bind_result_ok in Hm as (s1 & Hs1 & Hm).
  apply bind_result_ok in Hm as (s2 & Hs2 & Hm).
  apply bind_result_ok in Hm as (m1 & Hm1 & Hm).
  apply bind_result_ok in Hm as (s3 & Hs3 & Hm).
  apply select_ok in Hs1 as [Hc1 _]. apply select_ok in Hs2 as [Hc2 _].
  apply select_ok in Hs3 as [Hc3 _].
  apply merge_ok in Hm1 as (_ & _ & Hd1 & _). rewrite Hc1, Hc2 in Hd1.
  apply merge_ok in Hm as (_ & _ & Hd & _). rewrite Hd1, Hc3 in Hd.
  exact Hd.
Qed.

End Assembly.

Section UnifiedTable.
Context {lib : PyLib}.
Import Boundary.

(** Up to the order of the rows, the unified table has the rows of the
    forecast join, marked 日前 and carrying the capacity, then the rows
    of the realtime join, marked 实时 and carrying no capacity. *)
Lemma merge_boundary_data_tracked
    (df_load df_renewable df_disclosure df_tie_line : DataFrame)
    (online_capacity : option Q)
    (df_hydro df_actual df_tie_line_rt df_price result : DataFrame) :
  merge_boundary_data df_load df_renewable df_disclosure df_tie_line online_capacity
    df_hydro df_actual df_tie_line_rt df_price = Ok result ->
  exists da rt,
    merge_day_ahead df_load df_renewable df_disclosure df_tie_line df_hydro df_price
    = Ok da /\
    merge_real_time df_actual df_tie_line_rt df_price = Ok rt /\
    Permutation (map tracked_cells (data result))
      (map (fun r => [r "日期"; r "时点"; CStr "日前"; scalar_cell online_capacity]) (data da)
       ++ map (fun r => [r "日期"; r "时点"; CStr "实时"; CNull]) (data rt)).
Proof.
  unfold merge_boundary_data. intros Hm.
  apply bind_result_ok in Hm as (da & Hda & Hm).
  apply bind_result_ok in Hm as (rt & Hrt & Hm).
  apply bind_result_ok in Hm as (r1 & Hr1 & Hm).
  apply bind_result_ok in Hm as (r2 & Hr2 & Hm).
  exists da, rt. split; [exact Hda|]. split; [exact Hrt|].
  apply merge_day_ahead_ok in Hda as [Hcda _].
  apply merge_real_time_ok in Hrt as Hcrt.
  apply drop_ok in Hm as [_ Hdata].
  apply sort_values_ok in Hr2 as [Hc2 Hperm].
  apply select_ok in Hr1 as [Hc1 Hd1].
  rewrite Hdata, Hc2, List.map_map. cbn [assign columns]. rewrite Hc1.
  rewrite (map_ext _ tracked_cells) by (intros r; reflexivity).
  rewrite (Permutation_map tracked_cells Hperm). cbn [assign data].
  rewrite Hd1, !List.map_map.
  rewrite (map_ext _ tracked_cells) by (intros r; reflexivity).
  rewrite fill_missing_tracked;
    try (unfold has_column, concat; cbn [assign columns]; rewrite Hcda; reflexivity).
  unfold concat. cbn [assign data columns]. rewrite Hcda, Hcrt.
  rewrite List.map_app, !List.map_map. reflexivity.
Qed.

Lemma tracked_forecast (t : DataFrame) (rowsD rowsR : list Row) (capacity : cell) :
  Permutation (map tracked_cells (data t))
    (map (fun r => [r "日期"; r "时点"; CStr "日前"; capacity]) rowsD
     ++ map (fun r => [r "日期"; r "时点"; CStr "实时"; CNull]) rowsR) ->
  Permutation (map (key_of on_keys) (forecast_rows t)) (map (key_of on_keys) rowsD).
Proof.
  pose (forecast := fun cells : list cell =>
                      match cells with
                      | [_; _; epoch; _] => eq_text "日前" epoch
                      | _ => false
                      end).
  assert (HD : List.filter forecast
                 (map (fun r => [r "日期"; r "时点"; CStr "日前"; capacity]) rowsD)
               = map (fun r => [r "日期"; r "时点"; CStr "日前"; capacity]) rowsD).
  { apply filter_all. apply List.Forall_map. apply List.Forall_forall. reflexivity. }
  assert (HR : List.filter forecast
                 (map (fun r => [r "日期"; r "时点"; CStr "实时"; CNull]) rowsR) = []).
  { induction rowsR as [|r rowsR IH]; [reflexivity | exact IH]. }
  assert (HT : map (firstn 2) (List.filter forecast (map tracked_cells (data t)))
               = map (key_of on_keys) (forecast_rows t)).
  { unfold forecast_rows. induction (data t) as [|r rows IH]; [reflexivity|].
    simpl. destruct (eq_text "日前" (r "边界数据类型")); simpl; rewrite IH; reflexivity. }
  intros Hperm.
  apply (Permutation_filter forecast) in Hperm.
  apply (Permutation_map (firstn 2)) in Hperm.
  rewrite List.filter_app, HD, HR, app_nil_r, HT, List.map_map in Hperm.
  exact Hperm.
Qed.

(** What both entry points do once the nine files are normalized. *)
Lemma entry_points (files : gmap string UploadedFile) (result : DataFrame) :
  preprocess_boundary_files files = (Some result, None) \/ preprocess_data files = Ok result ->
  exists df_load df_renewable df_disclosure df_tie_line online_capacity
         df_hydro df_actual df_tie_line_rt df_price,
    normalize_load (read_from files "日前统调系统负荷预测_REPORT0.xlsx") = Ok df_load /\
    normalize_renewable (read_from files "日前新能源负荷预测_REPORT0.xlsx") = Ok df_renewable /\
    normalize_disclosure (read_from files "披露信息96点数据_REPORT0.xlsx") = Ok df_disclosure /\
    normalize_tie_line (read_from files "日前联络线计划_REPORT0.xlsx") = Ok df_tie_line /\
    normalize_clearing (read_from files "日前市场出清情况_TABLE.xlsx") = Ok online_capacity /\
    normalize_hydro (read_from files "日前水电计划发电总出力预测_REPORT0.xlsx") = Ok df_hydro /\
    normalize_price (read_from files "现货出清电价_REPORT0.xlsx") = Ok df_price /\
    merge_boundary_data df_load df_renewable df_disclosure df_tie_line online_capacity
      df_hydro df_actual df_tie_line_rt df_price = Ok result.
Proof.
  intros [Hp | Hp].
  - unfold preprocess_boundary_files in Hp. unfold read_from.
    repeat (next_file Hp; [ | discriminate Hp | discriminate Hp]).
    destruct (merge_boundary_data _ _ _ _ _ _ _ _ _) as [r|e] eqn:Hm;
      cbn [of_result] in Hp; [|discriminate].
    injection Hp as <-.
    do 9 eexists. repeat (split; [reflexivity|]). eassumption.
  - unfold preprocess_data in Hp.
    do 9 (apply bind_result_ok in Hp as (? & ? & Hp)).
    do 9 eexists. repeat (split; [eassumption|]). eassumption.
Qed.

End UnifiedTable.

Section UnifiedTableProperties.
Context {lib : PyLib}.
Import Boundary.

(** C7.  In every unified table that [preprocess_boundary_files] or
    [preprocess_data] returns, each row is a forecast row (日前) or a
    realtime row (实时).  The column 在线机组容量(MW) holds the same cell on
    every forecast row: the number that the capacity pattern captures
    in the third cell of the first row under the units row of the
    clearing-summary sheet, or null when that cell is null or the
    pattern does not match it.  It holds null on every realtime row. *)
Theorem online_capacity_broadcast (files : gmap string UploadedFile) (result : DataFrame) :
  preprocess_boundary_files files = (Some result, None) \/ preprocess_data files = Ok result ->
  exists clearing label summary,
    files !! "日前市场出清情况_TABLE.xlsx" = Some (Ok clearing) /\
    nth_error (columns clearing) 2 = Some label /\
    nth_error (data clearing) 1 = Some summary /\
    Forall (fun r =>
              (r "边界数据类型" = CStr "日前" /\
               r "在线机组容量(MW)"
               = match summary label with
                 | CNull => CNull
                 | text => match capacity_match (py_str text) with
                           | Some capacity => CNum capacity
                           | None => CNull
                           end
                 end) \/
              (r "边界数据类型" = CStr "实时" /\ r "在线机组容量(MW)" = CNull))
      (data result).
Proof.
  intros Hp.
  destruct (entry_points _ _ Hp)
    as (t1 & t2 & t3 & t4 & capacity & t5 & t7 & t8 & t6 & _ & _ & _ & _ & Hcap & _ & _ & Hm).
  unfold normalize_clearing, read_excel, read_from in Hcap.
  destruct (files !! "日前市场出清情况_TABLE.xlsx") as [[clearing|e]|] eqn:Hfile;
    cbn [bind_result] in Hcap; try discriminate Hcap.
  unfold iloc_cell, column_at in Hcap. cbn [iloc_from1 data columns] in Hcap.
  destruct (nth_error (tl (data clearing)) 0) as [summary|] eqn:Hrow; [|discriminate Hcap].
  destruct (nth_error (columns clearing) 2) as [label|] eqn:Hlabel;
    cbn [bind_result] in Hcap; [|discriminate Hcap].
  injection Hcap as <-.
  exists clearing, label, summary. split; [reflexivity|]. split; [exact Hlabel|]. split.
  { destruct (data clearing) as [|units rows]; [discriminate Hrow | exact Hrow]. }
  destruct (merge_boundary_data_tracked _ _ _ _ _ _ _ _ _ _ Hm) as (da & rt & _ & _ & Hperm).
  apply List.Forall_forall. intros r Hr.
  assert (Hin : In (tracked_cells r) (map tracked_cells (data result)))
    by (apply in_map; exact Hr).
  apply (Permutation_in _ Hperm) in Hin. apply List.in_app_iff in Hin as [Hin | Hin];
    apply List.in_map_iff in Hin as (r0 & Heq & _); unfold tracked_cells in Heq;
    injection Heq as _ _ Hepoch Hcapacity; [left | right]; (split; [congruence|]).
  - rewrite <- Hcapacity. unfold scalar_cell, extract_online_capacity, isna.
    destruct (summary label); try reflexivity; destruct (capacity_match _); reflexivity.
  - congruence.
Qed.

Lemma forecast_keys_ok (files : gmap string UploadedFile)
    (t1 t2 t3 t4 t5 t6 : DataFrame) :
  normalize_load (read_from files "日前统调系统负荷预测_REPORT0.xlsx") = Ok t1 ->
  normalize_renewable (read_from files "日前新能源负荷预测_REPORT0.xlsx") = Ok t2 ->
  normalize_disclosure (read_from files "披露信息96点数据_REPORT0.xlsx") = Ok t3 ->
  normalize_tie_line (read_from files "日前联络线计划_REPORT0.xlsx") = Ok t4 ->
  normalize_hydro (read_from files "日前水电计划发电总出力预测_REPORT0.xlsx") = Ok t5 ->
  normalize_price (read_from files "现货出清电价_REPORT0.xlsx") = Ok t6 ->
  forecast_keys files = Ok [keys t1; keys t2; keys t3; keys t4; keys t5; keys t6].
Proof.
  intros H1 H2 H3 H4 H5 H6. unfold forecast_keys.
  rewrite H1, H2, H3, H4, H5, H6. reflexivity.
Qed.

Lemma key_in_some_table (k : list cell) (tables : list (list (list cell))) :
  (0 < joined_rows (map (occurrences k) tables))%nat <-> In k (List.concat tables).
Proof.
  rewrite joined_rows_pos, List.Exists_exists, in_concat. split.
  - intros (c & Hc & Hpos). apply List.in_map_iff in Hc as (t & <- & Ht).
    exists t. split; [exact Ht | apply occurrences_pos; exact Hpos].
  - intros (t & Ht & Hk). exists (occurrences k t). split.
    + apply in_map. exact Ht.
    + apply occurrences_pos. exact Hk.
Qed.

(** C6, as the code has it.  The forecast-epoch partition of the
    unified table that [preprocess_boundary_files] or [preprocess_data]
    returns has exactly as many rows as the outer join, on (日期, 时点),
    of the six normalized tables it is built from (load forecast,
    renewable forecast, disclosed non-market output, tie-line plan,
    hydro forecast, clearing price), and every key of every one of the
    six is the key of a row of the partition. *)
Theorem forecast_partition_cardinality (files : gmap string UploadedFile)
    (result : DataFrame) :
  preprocess_boundary_files files = (Some result, None) \/ preprocess_data files = Ok result ->
  exists tables,
    forecast_keys files = Ok tables /\
    length tables = 6%nat /\
    length (forecast_rows result) = outer_join_cardinality tables /\
    forall k, In k (List.concat tables) ->
              exists r, In r (forecast_rows result) /\ key_of on_keys r = k.
Proof.
  intros Hp.
  destruct (entry_points _ _ Hp)
    as (t1 & t2 & t3 & t4 & capacity & t5 & t7 & t8 & t6
        & H1 & H2 & H3 & H4 & _ & H5 & H6 & Hm).
  exists [keys t1; keys t2; keys t3; keys t4; keys t5; keys t6].
  split; [apply forecast_keys_ok; assumption|]. split; [reflexivity|].
  destruct (merge_boundary_data_tracked _ _ _ _ _ _ _ _ _ _ Hm) as (da & rt & Hda & _ & Hperm).
  apply tracked_forecast in Hperm. fold (keys da) in Hperm.
  apply merge_day_ahead_ok in Hda as [_ Hocc].
  set (tables := [keys t1; keys t2; keys t3; keys t4; keys t5; keys t6]) in *.
  assert (Hkeys : forall k, In k (keys da) <-> In k (List.concat tables)).
  { intros k. rewrite <- occurrences_pos, Hocc. apply key_in_some_table. }
  split.
  - rewrite <- (length_map (key_of on_keys)), (Permutation_length Hperm).
    unfold outer_join_cardinality.
    rewrite (length_by_key (keys da) (remove_dups (List.concat tables))).
    + apply sum_list_with_ext. intros k _. apply Hocc.
    + apply NoDup_remove_dups.
    + intros k Hk. apply list_elem_of_In, elem_of_remove_dups, list_elem_of_In.
      apply Hkeys. exact Hk.
  - intros k Hk. apply Hkeys in Hk.
    apply (Permutation_in _ (Permutation_sym Hperm)) in Hk.
    apply List.in_map_iff in Hk as (r & Hr & Hin). eauto.
Qed.

End UnifiedTableProperties.

Lemma online_capacity_broadcast_witness :
  Forall (fun r =>
            (r "边界数据类型" = CStr "日前" /\ r "在线机组容量(MW)" = CNum 42340) \/
            (r "边界数据类型" = CStr "实时" /\ r "在线机组容量(MW)" = CNull))
    (data example_unified)
  /\ length (forecast_rows example_unified) = 6%nat
  /\ length (data example_unified) = 7%nat.
Proof.
  split; [|split; vm_compute; reflexivity].
  destruct (online_capacity_broadcast (lib := plain_lib) example_files example_unified)
    as (clearing & label & summary & Hfile & Hlabel & Hrow & Hall).
  { left. vm_compute. reflexivity. }
  assert (Hsheet : clearing = example_clearing).
  { change (example_files !! "日前市场出清情况_TABLE.xlsx") with (Some (Ok example_clearing))
      in Hfile.
    congruence. }
  subst clearing. injection Hlabel as <-. injection Hrow as <-.
  eapply List.Forall_impl; [|exact Hall]. intros r [[He Hc] | [He Hc]]; [left | right].
  - split; [exact He|]. rewrite Hc. reflexivity.
  - split; assumption.
Defined.

Lemma forecast_partition_cardinality_witness :
  exists tables,
    forecast_keys (lib := plain_lib) example_files = Ok tables /\
    length tables = 6%nat /\
    length (forecast_rows example_unified) = outer_join_cardinality tables /\
    forall k, In k (List.concat tables) ->
              exists r, In r (forecast_rows example_unified)
                        /\ key_of Boundary.on_keys r = k.
Proof.
  apply (forecast_partition_cardinality (lib := plain_lib) example_files).
  left. vm_compute. reflexivity.
Defined.

(** C6 as stated fails: when each of the six forecast sources brings a
    time slot of its own, the forecast partition has six rows, and the
    outer join of any five of the six tables has five. *)
Lemma forecast_partition_joins_six_tables :
  exists tables,
    forecast_keys (lib := plain_lib) example_files = Ok tables /\
    Boundary.preprocess_boundary_files (lib := plain_lib) example_files
    = (Some example_unified, None) /\
    length (forecast_rows example_unified) = 6%nat /\
    Forall (fun i => outer_join_cardinality (without i tables) = 5%nat) (seq 0 6).
Proof.
  eexists. split; [vm_compute; reflexivity|].
  split; [vm_compute; reflexivity|].
  split; [vm_compute; reflexivity|].
  repeat (constructor; [vm_compute; reflexivity|]). constructor.
Qed.

(** * The layered filter as one conjunction *)

Lemma frame_eta (f : DataFrame) : {| columns := columns f; data := data f |} = f.
Proof. destruct f; reflexivity. Qed.

Lemma filter_true {A : Type} (l : list A) : List.filter (fun _ => true) l = l.
Proof. apply filter_all. apply List.Forall_forall. reflexivity. Qed.

Section Conjunction.
Context {lib : PyLib}.
Import Review.

Lemma where_text_rows (f : DataFrame) (col text : string) :
  where_text f col text
  = {| columns := columns f; data := List.filter (fun r => eq_text text (r col)) (data f) |}.
Proof. unfold where_text. apply (mask_rows_map f (fun r => eq_text text (r col))). Qed.

Lemma text_filter_rows (f : DataFrame) (col : string) (wanted : option string) :
  match wanted with
  | Some t => if has_column f col then where_text f col t else f
  | None => f
  end
  = {| columns := columns f; data := List.filter (text_ok f col wanted) (data f) |}.
Proof.
  unfold text_ok. destruct wanted as [t|].
  - destruct (has_column f col).
    + apply where_text_rows.
    + rewrite filter_true. symmetry. apply frame_eta.
  - rewrite filter_true. symmetry. apply frame_eta.
Qed.

Lemma filter_date_rows (f f' : DataFrame) (dcol : string) (s e : option string)
    (out : list string) :
  filter_date f dcol s e = (out, Ok f') ->
  out = (if negb (has_column f dcol) && (is_set s || is_set e)
         then ["警告: 日期列 '" +:+ dcol +:+ "' 不存在，无法应用日期筛选"] else [])
  /\ f' = {| columns := columns f;
             data := List.filter
                       (fun r => if has_column f dcol then in_date_range s e (r dcol) else true)
                       (data f) |}.
Proof.
  unfold filter_date, in_date_range, date_bound. destruct (has_column f dcol) eqn:Hcol.
  - unfold getitem. rewrite Hcol. cbn [bind_result lift bind app negb andb].
    destruct s as [sd|].
    + destruct (to_datetime_scalar sd) as [ts|err];
        cbn [bind_result lift bind app ret fst snd]; [|discriminate].
      rewrite !List.map_map.
      rewrite (mask_rows_map f (fun r => date_ge ts (to_datetime_coerce (r dcol)))).
      destruct e as [ed|].
      * destruct (to_datetime_scalar ed) as [te|err];
          cbn [bind_result lift bind app ret fst snd]; [|discriminate].
        unfold has_column at 1. cbn [columns]. fold (has_column f dcol). rewrite Hcol.
        cbn [bind_result lift bind app ret fst snd data]. rewrite !List.map_map.
        intros [= <- <-]. split; [reflexivity|].
        match goal with
        | |- mask_rows ?g _ = _ =>
            rewrite (mask_rows_map g (fun r => date_le te (to_datetime_coerce (r dcol))))
        end.
        cbn [columns data]. rewrite filter_filter. reflexivity.
      * cbn [bind_result lift bind app ret fst snd]. intros [= <- <-].
        split; [reflexivity|]. f_equal. apply List.filter_ext. intros r.
        rewrite andb_true_r. reflexivity.
    + cbn [bind_result lift bind app ret fst snd]. destruct e as [ed|].
      * destruct (to_datetime_scalar ed) as [te|err];
          cbn [bind_result lift bind app ret fst snd]; [|discriminate].
        rewrite Hcol. cbn [bind_result lift bind app ret fst snd data]. rewrite !List.map_map.
        intros [= <- <-]. split; [reflexivity|].
        apply (mask_rows_map f (fun r => date_le te (to_datetime_coerce (r dcol)))).
      * intros [= <- <-]. split; [reflexivity|].
        rewrite filter_true. symmetry. apply frame_eta.
  - cbn [negb andb]. destruct (is_set s || is_set e); cbn [print ret bind app];
      intros [= <- <-]; (split; [reflexivity|]);
      rewrite filter_true; symmetry; apply frame_eta.
Qed.

Lemma filter_unit_dimension_rows (f f' : DataFrame) (d : option string)
    (out : list string) :
  filter_unit_dimension f d = (out, Ok f') ->
  out = (if is_set d && negb (has_column f "机组维度")
         then ["警告: 数据中不包含'机组维度'列，无法应用机组维度筛选"] else [])
  /\ f' = {| columns := columns f;
             data := List.filter (text_ok f "机组维度" d) (data f) |}.
Proof.
  unfold filter_unit_dimension, text_ok. destruct d as [d|]; cbn [is_set andb].
  - destruct (has_column f "机组维度"); cbn [negb print ret bind app];
      intros [= <- <-]; (split; [reflexivity|]).
    + apply where_text_rows.
    + rewrite filter_true. symmetry. apply frame_eta.
  - intros [= <- <-]. split; [reflexivity|].
    rewrite filter_true. symmetry. apply frame_eta.
Qed.

Lemma has_column_columns (f g : DataFrame) (c : string) :
  columns f = columns g -> has_column f c = has_column g c.
Proof. unfold has_column. intros ->. reflexivity. Qed.

(** What the function returns when it returns: the lines it printed and
    the rows that satisfy every criterion. *)
Lemma filter_by_price_range_rows (df filtered : DataFrame) (col dcol : string)
    (a : Criteria) (out : list string) :
  filter_by_price_range df col dcol a = (out, Ok filtered) ->
  out = filter_warnings df dcol a /\
  filtered = {| columns := columns df;
                data := List.filter (selected df col dcol a) (data df) |}.
Proof.
  unfold filter_by_price_range. intros Hb.
  apply bind_ok in Hb as (o1 & f1 & o2 & Hp & Hb & ->).
  apply lift_ok in Hp as [-> Hp]. apply filter_price_ok in Hp.
  apply bind_ok in Hb as (o3 & f2 & o4 & Hd & Hb & ->).
  apply filter_date_rows in Hd as [-> Hd].
  remember (filter_company f2 (company_name a)) as f3 eqn:H3.
  remember (filter_unit f3 (unit_name a)) as f4 eqn:H4.
  unfold filter_company in H3. rewrite text_filter_rows in H3.
  unfold filter_unit in H4. rewrite text_filter_rows in H4.
  apply bind_ok in Hb as (o5 & f5 & o6 & Hu & Hb & ->).
  injection Hb as <- <-.
  apply filter_unit_dimension_rows in Hu as [-> Hu].
  assert (Hc1 : columns f1 = columns df) by (rewrite Hp; reflexivity).
  assert (Hc2 : columns f2 = columns df) by (rewrite Hd; exact Hc1).
  assert (Hc3 : columns f3 = columns df) by (rewrite H3; exact Hc2).
  assert (Hc4 : columns f4 = columns df) by (rewrite H4; exact Hc3).
  split.
  - unfold filter_warnings.
    rewrite (has_column_columns f1 df dcol Hc1), (has_column_columns f4 df "机组维度" Hc4).
    rewrite !app_nil_r. reflexivity.
  - assert (Ht : forall g c w, columns g = columns df -> text_ok g c w = text_ok df c w).
    { intros g c w Hg. unfold text_ok. rewrite (has_column_columns g df c Hg). reflexivity. }
    rewrite Hu, Hc4. f_equal.
    rewrite (Ht f4 _ _ Hc4), H4. cbn [data].
    rewrite (Ht f3 _ _ Hc3), H3. cbn [data].
    rewrite (Ht f2 _ _ Hc2), Hd. cbn [data].
    rewrite (has_column_columns f1 df dcol Hc1), Hp. cbn [data].
    rewrite !filter_filter. apply List.filter_ext. intros r.
    unfold selected, bounds_ok. rewrite !andb_assoc. reflexivity.
Qed.

Lemma filter_date_returns (f : DataFrame) (dcol : string) (s e : option string) :
  has_column f dcol = true ->
  (exists out f', filter_date f dcol s e = (out, Ok f')) <-> date_parses s /\ date_parses e.
Proof.
  intros Hcol. unfold filter_date, date_parses, getitem. rewrite Hcol.
  cbn [bind_result lift bind app].
  destruct s as [sd|]; [destruct (to_datetime_scalar sd) as [ts|err]|];
    cbn [bind_result lift bind app ret fst snd];
    (destruct e as [ed|]; [destruct (to_datetime_scalar ed) as [te|err']|]);
    cbn [bind_result lift bind app ret fst snd];
    try (unfold has_column at 1; cbn [columns mask_rows]; fold (has_column f dcol));
    rewrite ?Hcol; cbn [bind_result lift bind app ret fst snd];
    split;
    try (intros (out & f' & [=]); fail);
    try (intros _; split; first [exact I | eexists; reflexivity]; fail);
    try (intros _; eauto; fail);
    try (intros [[? [=]] _]; fail);
    try (intros [_ [? [=]]]; fail).
Qed.

Lemma filter_price_returns (f : DataFrame) (col : string) (lo hi : option Q) (il ih : bool) :
  (exists f', filter_price f col lo hi il ih = Ok f') <->
  (is_set lo || is_set hi = true ->
   has_column f col = true /\ Forall (fun r => numeric (r col)) (data f)).
Proof.
  split.
  - intros [f' Hf] Hset. unfold filter_price in Hf.
    apply bind_result_ok in Hf as (f1 & H1 & H2).
    destruct lo as [m|].
    + destruct il; apply where_price_ok in H1 as (Hc & Hn & _); auto.
    + injection H1 as <-. destruct hi as [m|]; [|discriminate].
      destruct ih; apply where_price_ok in H2 as (Hc & Hn & _); auto.
  - intros Hready. destruct (is_set lo || is_set hi) eqn:Hset.
    + destruct (Hready eq_refl) as [Hc Hn]. rewrite (filter_price_total _ _ _ _ _ _ Hc Hn). eauto.
    + destruct lo, hi; try discriminate. eexists. reflexivity.
Qed.

Lemma filter_by_price_range_returns (df : DataFrame) (col dcol : string) (a : Criteria) :
  (exists out filtered, filter_by_price_range df col dcol a = (out, Ok filtered))
  <-> price_column_ready df col a /\ dates_ready df dcol a.
Proof.
  unfold price_column_ready, dates_ready. split.
  - intros (out & filtered & Hb). unfold filter_by_price_range in Hb.
    apply bind_ok in Hb as (o1 & f1 & o2 & Hp & Hb & _).
    apply lift_ok in Hp as [_ Hp].
    apply bind_ok in Hb as (o3 & f2 & o4 & Hd & _ & _).
    split.
    + apply (proj1 (filter_price_returns df col (min_price a) (max_price a)
                      (include_min_boundary a) (include_max_boundary a))). eauto.
    + intros Hcol. apply filter_price_ok in Hp.
      apply (proj1 (filter_date_returns f1 dcol _ _ ltac:(rewrite Hp; exact Hcol))). eauto.
  - intros [Hprice Hdates]. unfold filter_by_price_range.
    apply (proj2 (filter_price_returns df col (min_price a) (max_price a)
                      (include_min_boundary a) (include_max_boundary a))) in Hprice as [f1 Hp]. rewrite Hp.
    apply filter_price_ok in Hp.
    cbn [lift bind app].
    assert (Hd : exists o f2, filter_date f1 dcol (start_date a) (end_date a) = (o, Ok f2)).
    { destruct (has_column f1 dcol) eqn:Hcol.
      - apply (proj2 (filter_date_returns f1 dcol _ _ Hcol)). apply Hdates.
        rewrite Hp in Hcol. exact Hcol.
      - unfold filter_date. rewrite Hcol. destruct (is_set _ || is_set _); eauto. }
    destruct Hd as (o & f2 & ->). cbn [bind].
    assert (Hu : forall g, exists o' g', filter_unit_dimension g (unit_dimension a) = (o', Ok g')).
    { intros g. unfold filter_unit_dimension.
      destruct (unit_dimension a); [destruct (has_column g _)|]; eauto. }
    destruct (Hu (filter_unit (filter_company f2 (company_name a)) (unit_name a)))
      as (o' & g' & ->).
    cbn [ret bind app]. eauto.
Qed.


End Conjunction.


(** * Filters on absent columns and the price boundaries *)

Section AbsentColumns.
Context {lib : PyLib}.
Import Review.

Lemma filter_price_columns (f f' : DataFrame) (col : string) (lo hi : option Q)
    (il ih : bool) (c : string) :
  filter_price f col lo hi il ih = Ok f' -> has_column f' c = has_column f c.
Proof. intros Hp. apply filter_price_ok in Hp. subst f'. reflexivity. Qed.

Lemma filter_date_columns (f f' : DataFrame) (dcol : string) (s e : option string)
    (out : list string) (c : string) :
  filter_date f dcol s e = (out, Ok f') -> has_column f' c = has_column f c.
Proof.
  intros Hd. apply filter_date_selection in Hd. apply selection_of_has_column. exact Hd.
Qed.

Lemma filter_date_absent (f : DataFrame) (dcol : string) (s e : option string) :
  has_column f dcol = false ->
  filter_date f dcol s e
  = (if is_set s || is_set e
     then ["警告: 日期列 '" +:+ dcol +:+ "' 不存在，无法应用日期筛选"] else [],
     Ok f).
Proof.
  intros Hc. unfold filter_date. rewrite Hc. destruct (is_set s || is_set e); reflexivity.
Qed.

(** C2, as the code has it.  On any table and for any criteria, a
    filter of [filter_by_price_range] on a column that the table lacks
    is a no-op: the call is the call with that criterion unset, which
    raises if and only if that one does, but for the warnings.  Without
    the date column a warning is printed, before any other, when a
    start or an end date is set and the price filter has not raised;
    without 公司名称 and without 机组名称 nothing is printed; without
    机组维度 a warning is printed, after any other, when a group is
    asked for and nothing has raised.  So with no price bound set and
    the four columns absent the table comes back unchanged. *)
Theorem filters_on_absent_columns (df : DataFrame) (col dcol : string) (a : Criteria) :
  (has_column df dcol = false ->
   filter_by_price_range df col dcol a
   = match filter_by_price_range df col dcol (with_dates a None None) with
     | (out, Ok filtered) =>
         ((if is_set (start_date a) || is_set (end_date a)
           then ["警告: 日期列 '" +:+ dcol +:+ "' 不存在，无法应用日期筛选"] else [])
          ++ out, Ok filtered)
     | (out, Raise e) => (out, Raise e)
     end)
  /\
  (has_column df "公司名称" = false ->
   filter_by_price_range df col dcol a
   = filter_by_price_range df col dcol (with_company a None))
  /\
  (has_column df "机组名称" = false ->
   filter_by_price_range df col dcol a
   = filter_by_price_range df col dcol (with_unit a None))
  /\
  (has_column df "机组维度" = false ->
   filter_by_price_range df col dcol a
   = match filter_by_price_range df col dcol (with_unit_dimension a None) with
     | (out, Ok filtered) =>
         (out ++ (if is_set (unit_dimension a)
                  then ["警告: 数据中不包含'机组维度'列，无法应用机组维度筛选"] else []),
          Ok filtered)
     | (out, Raise e) => (out, Raise e)
     end)
  /\
  (min_price a = None -> max_price a = None ->
   has_column df dcol = false -> has_column df "公司名称" = false ->
   has_column df "机组名称" = false -> has_column df "机组维度" = false ->
   filter_by_price_range df col dcol a
   = ((if is_set (start_date a) || is_set (end_date a)
       then ["警告: 日期列 '" +:+ dcol +:+ "' 不存在，无法应用日期筛选"] else [])
      ++ (if is_set (unit_dimension a)
          then ["警告: 数据中不包含'机组维度'列，无法应用机组维度筛选"] else []),
      Ok df)).
Proof.
  split; [|split; [|split; [|split]]].
  - intros Hc. unfold filter_by_price_range.
    cbn [with_dates min_price max_price start_date end_date company_name unit_name
         unit_dimension include_min_boundary include_max_boundary].
    destruct (filter_price df col _ _ _ _) as [f1|e] eqn:Hp; cbn [lift bind]; [|reflexivity].
    rewrite filter_date_unset.
    rewrite (filter_date_absent f1 dcol _ _
               (eq_trans (filter_price_columns _ _ _ _ _ _ _ dcol Hp) Hc)).
    cbn [bind app].
    unfold filter_unit_dimension.
    destruct (unit_dimension a); [destruct (has_column _ "机组维度")|];
      destruct (is_set (start_date a) || is_set (end_date a));
      cbn [bind ret print app]; reflexivity.
  - intros Hc. unfold filter_by_price_range.
    cbn [with_company min_price max_price start_date end_date company_name unit_name
         unit_dimension include_min_boundary include_max_boundary].
    destruct (filter_price df col _ _ _ _) as [f1|e] eqn:Hp; cbn [lift bind]; [|reflexivity].
    destruct (filter_date f1 dcol _ _) as [o [f2|e]] eqn:Hd; [|reflexivity].
    assert (H2 : has_column f2 "公司名称" = false).
    { rewrite (filter_date_columns _ _ _ _ _ _ _ Hd), (filter_price_columns _ _ _ _ _ _ _ _ Hp).
      exact Hc. }
    cbn [bind]. unfold filter_company. rewrite H2. destruct (company_name a); reflexivity.
  - intros Hc. unfold filter_by_price_range.
    cbn [with_unit min_price max_price start_date end_date company_name unit_name
         unit_dimension include_min_boundary include_max_boundary].
    destruct (filter_price df col _ _ _ _) as [f1|e] eqn:Hp; cbn [lift bind]; [|reflexivity].
    destruct (filter_date f1 dcol _ _) as [o [f2|e]] eqn:Hd; [|reflexivity].
    assert (H3 : has_column (filter_company f2 (company_name a)) "机组名称" = false).
    { rewrite (selection_of_has_column _ _ _ (filter_company_selection _ _)).
      rewrite (filter_date_columns _ _ _ _ _ _ _ Hd), (filter_price_columns _ _ _ _ _ _ _ _ Hp).
      exact Hc. }
    cbn [bind]. unfold filter_unit. rewrite H3. destruct (unit_name a); reflexivity.
  - intros Hc. unfold filter_by_price_range.
    cbn [with_unit_dimension min_price max_price start_date end_date company_name unit_name
         unit_dimension include_min_boundary include_max_boundary].
    destruct (filter_price df col _ _ _ _) as [f1|e] eqn:Hp; cbn [lift bind]; [|reflexivity].
    destruct (filter_date f1 dcol _ _) as [o [f2|e]] eqn:Hd; [|reflexivity].
    assert (H4 : has_column (filter_unit (filter_company f2 (company_name a)) (unit_name a))
                   "机组维度" = false).
    { rewrite (selection_of_has_column _ _ _ (filter_unit_selection _ _)).
      rewrite (selection_of_has_column _ _ _ (filter_company_selection _ _)).
      rewrite (filter_date_columns _ _ _ _ _ _ _ Hd), (filter_price_columns _ _ _ _ _ _ _ _ Hp).
      exact Hc. }
    cbn [bind]. unfold filter_unit_dimension. rewrite H4.
    destruct (unit_dimension a); cbn [bind ret print app is_set];
      rewrite ?app_nil_r, <- ?app_assoc; reflexivity.
  - intros Hmin Hmax Hd Hc Hu Hg. unfold filter_by_price_range.
    rewrite Hmin, Hmax. cbn [filter_price bind_result lift bind app].
    rewrite (filter_date_absent _ _ _ _ Hd). cbn [bind app].
    unfold filter_company. rewrite Hc.
    destruct (company_name a); unfold filter_unit; rewrite Hu;
      destruct (unit_name a); unfold filter_unit_dimension; rewrite Hg;
      destruct (unit_dimension a); cbn [bind ret print app is_set];
      rewrite ?app_nil_r; reflexivity.
Qed.

Lemma selected_other_criteria (df : DataFrame) (col dcol : string) (a : Criteria) (r : Row) :
  selected df col dcol a r = bounds_ok a (r col) && other_criteria df dcol a r.
Proof. unfold selected, other_criteria. rewrite !andb_assoc. reflexivity. Qed.

(** C4.  Let [filter_by_price_range] return [filtered] for a price
    column [col], whatever the criteria, and let [r] be a row of the
    table.  If the price of [r] equals the minimum exactly, [r] is in
    [filtered] if and only if [include_min_boundary] is on and [r]
    satisfies the maximum, if one is set, and the criteria other than
    the price bounds; so it is excluded when the flag is off.  The same
    holds of the maximum and [include_max_boundary].  And if a minimum
    or a maximum is set and the price of [r] is null, [r] is excluded. *)
Theorem price_boundary_inclusivity (df filtered : DataFrame) (col dcol : string)
    (a : Criteria) (out : list string) (r : Row) :
  filter_by_price_range df col dcol a = (out, Ok filtered) ->
  In r (data df) ->
  (forall lo x, min_price a = Some lo -> r col = CNum x -> (x == lo)%Q ->
     (In r (data filtered) <->
      include_min_boundary a = true /\
      price_ok None (max_price a) false (include_max_boundary a) (r col) = true /\
      other_criteria df dcol a r = true))
  /\
  (forall hi x, max_price a = Some hi -> r col = CNum x -> (x == hi)%Q ->
     (In r (data filtered) <->
      include_max_boundary a = true /\
      price_ok (min_price a) None (include_min_boundary a) false (r col) = true /\
      other_criteria df dcol a r = true))
  /\
  (is_set (min_price a) || is_set (max_price a) = true -> r col = CNull ->
   ~ In r (data filtered)).
Proof.
  intros Hf Hin. apply filter_by_price_range_rows in Hf as [_ ->]. cbn [data].
  split; [|split].
  - intros lo x Hlo Hx Heq. rewrite List.filter_In, selected_other_criteria, andb_true_iff.
    unfold bounds_ok, price_ok. rewrite Hlo, Hx. cbn [andb].
    destruct (include_min_boundary a).
    + rewrite (passes_ge_eq _ _ Heq). cbn [andb]. tauto.
    + rewrite (passes_gt_eq _ _ Heq). cbn [andb].
      split; [intros (_ & [=] & _) | intros ([=] & _)].
  - intros hi x Hhi Hx Heq. rewrite List.filter_In, selected_other_criteria, andb_true_iff.
    unfold bounds_ok, price_ok. rewrite Hhi, Hx. rewrite !andb_true_r.
    destruct (include_max_boundary a).
    + rewrite (passes_le_eq _ _ Heq), andb_true_r. tauto.
    + rewrite (passes_lt_eq _ _ Heq), andb_false_r.
      split; [intros (_ & [=] & _) | intros ([=] & _)].
  - intros Hset Hnull Hr. apply List.filter_In in Hr as [_ Hr].
    rewrite selected_other_criteria in Hr. apply andb_true_iff in Hr as [Hb _].
    unfold bounds_ok, price_ok in Hb. rewrite Hnull in Hb.
    destruct (min_price a), (max_price a); simpl in *; discriminate.
Qed.

End AbsentColumns.

Lemma filters_on_absent_columns_witness :
  Review.filter_by_price_range (lib := plain_lib) priced_days "日前出清节点价格" "日期"
    day_one_tashan
  = Review.filter_by_price_range (lib := plain_lib) priced_days "日前出清节点价格" "日期"
      (with_company day_one_tashan None)
  /\
  Review.filter_by_price_range (lib := plain_lib) priced_days "日前出清节点价格" "日期"
    day_one_tashan
  = (["警告: 数据中不包含'机组维度'列，无法应用机组维度筛选"], Ok priced_day_one)
  /\
  Review.filter_by_price_range (lib := plain_lib) bare_df "日前出清节点价格" "日期"
    no_price_bound
  = ([ "警告: 日期列 '日期' 不存在，无法应用日期筛选";
       "警告: 数据中不包含'机组维度'列，无法应用机组维度筛选" ], Ok bare_df).
Proof.
  split; [|split].
  - apply (proj1 (proj2 (filters_on_absent_columns (lib := plain_lib) priced_days
                           "日前出清节点价格" "日期" day_one_tashan))).
    reflexivity.
  - rewrite (proj1 (proj2 (proj2 (proj2
               (filters_on_absent_columns (lib := plain_lib) priced_days
                  "日前出清节点价格" "日期" day_one_tashan))))); [|reflexivity].
    vm_compute. reflexivity.
  - apply (proj2 (proj2 (proj2 (proj2
             (filters_on_absent_columns (lib := plain_lib) bare_df
                "日前出清节点价格" "日期" no_price_bound))))); reflexivity.
Defined.

(** C2 as stated fails twice on a table that has neither 省间日前出清价格
    nor 公司名称: with a minimum price set the price filter raises
    [KeyError], and the company filter is skipped without a warning. *)
Lemma price_filter_raises_on_absent_column :
  has_column bare_df "省间日前出清价格" = false
  /\ Review.filter_by_price_range (lib := plain_lib) bare_df "省间日前出清价格" "日期" min_100
     = ([], Raise (KeyError "省间日前出清价格"))
  /\ has_column bare_df "公司名称" = false
  /\ Review.filter_by_price_range (lib := plain_lib) bare_df "日前出清节点价格" "日期"
       tashan_only = ([], Ok bare_df).
Proof. repeat split. Qed.

Lemma price_boundary_inclusivity_witness :
  In (row_of (combine trading_columns (trading_row 100 90))) (data trading_100_to_200)
  /\ ~ In (row_of (combine trading_columns (trading_row 200 100))) (data trading_100_to_200)
  /\ ~ In (row_of (combine trading_columns (trading_row 100 90))) (data trading_above_100).
Proof.
  split; [|split].
  - apply (proj1 (price_boundary_inclusivity (lib := plain_lib)
                    trading_df trading_100_to_200 "日前出清节点价格" "日期"
                    from_100_below_200 []
                    (row_of (combine trading_columns (trading_row 100 90)))
                    ltac:(vm_compute; reflexivity) ltac:(left; reflexivity))
             100%Q 100%Q eq_refl eq_refl ltac:(reflexivity)).
    repeat split.
  - intros Hin.
    apply (proj1 (proj2 (price_boundary_inclusivity (lib := plain_lib)
                    trading_df trading_100_to_200 "日前出清节点价格" "日期"
                    from_100_below_200 []
                    (row_of (combine trading_columns (trading_row 200 100)))
                    ltac:(vm_compute; reflexivity)
                    ltac:(right; right; left; reflexivity)))
             200%Q 200%Q eq_refl eq_refl ltac:(reflexivity)) in Hin as [Hflag _].
    discriminate Hflag.
  - intros Hin.
    apply (proj1 (price_boundary_inclusivity (lib := plain_lib)
                    trading_df trading_above_100 "日前出清节点价格" "日期"
                    min_100 []
                    (row_of (combine trading_columns (trading_row 100 90)))
                    ltac:(vm_compute; reflexivity) ltac:(left; reflexivity))
             100%Q 100%Q eq_refl eq_refl ltac:(reflexivity)) in Hin as [Hflag _].
    discriminate Hflag.
Defined.

(** * Hours over a partition of the rows *)

Lemma filter_length_mono {A : Type} (p q : A -> bool) (l : list A) :
  (forall x, In x l -> p x = true -> q x = true) ->
  (length (List.filter p l) <= length (List.filter q l))%nat.
Proof.
  induction l as [|x l IH]; intros Hpq; simpl; [lia|].
  assert (IH' : (length (List.filter p l) <= length (List.filter q l))%nat)
    by (apply IH; intros y Hy; apply Hpq; right; exact Hy).
  destruct (p x) eqn:Hp.
  - rewrite (Hpq x (or_introl eq_refl) Hp). simpl. lia.
  - destruct (q x); simpl; lia.
Qed.

Lemma one_label (c0 : string) (cs : list string) :
  NoDup cs -> In c0 cs ->
  sum_list_with (fun c => if String.eqb c0 c then 1%nat else 0%nat) cs = 1%nat.
Proof.
  induction 1 as [|c cs Hnotin Hnodup IH]; intros Hin; [contradiction|].
  simpl. destruct (String.eqb_spec c0 c) as [->|Hne].
  - assert (Hz : sum_list_with (fun c' => if String.eqb c c' then 1%nat else 0%nat) cs = 0%nat).
    { clear IH Hin Hnodup. induction cs as [|c' cs IH]; [reflexivity|]. simpl.
      destruct (String.eqb_spec c c') as [->|_].
      - exfalso. apply Hnotin. left.
      - apply IH. intros Hc. apply Hnotin. right. exact Hc. }
    rewrite Hz. reflexivity.
  - destruct Hin as [->|Hin]; [contradiction|]. rewrite (IH Hin). reflexivity.
Qed.

Lemma sum_list_with_plus {A : Type} (f g : A -> nat) (l : list A) :
  sum_list_with (fun a => (f a + g a)%nat) l = (sum_list_with f l + sum_list_with g l)%nat.
Proof. induction l as [|a l IH]; simpl; [reflexivity|]. rewrite IH. lia. Qed.

(** Rows that each carry one label of a duplicate-free list: the rows
    of the labels add up to all the rows. *)
Lemma rows_by_label (col : string) (cs : list string) (rows : list Row) :
  NoDup cs ->
  Forall (fun r => exists c, In c cs /\ r col = CStr c) rows ->
  sum_list_with (fun c => length (List.filter (fun r => eq_text c (r col)) rows)) cs
  = length rows.
Proof.
  intros Hnodup. induction 1 as [|r rows (c0 & Hin & Hr) _ IH].
  - simpl. induction cs as [|c cs IHc]; [reflexivity|]. simpl. apply IHc.
    inversion Hnodup; assumption.
  - rewrite (sum_list_with_ext _
               (fun c => ((if String.eqb c0 c then 1 else 0)
                          + length (List.filter (fun r => eq_text c (r col)) rows))%nat)).
    + rewrite sum_list_with_plus, IH, (one_label c0 cs Hnodup Hin). reflexivity.
    + intros c _. cbn [List.filter]. rewrite Hr. cbn [eq_text].
      destruct (String.eqb c0 c); reflexivity.
Qed.

Lemma rows_of_no_label (col c : string) (cs : list string) (rows : list Row) :
  ~ In c cs ->
  Forall (fun r => exists c', In c' cs /\ r col = CStr c') rows ->
  List.filter (fun r => eq_text c (r col)) rows = [].
Proof.
  intros Hc. induction 1 as [|r rows (c' & Hin & Hr) _ IH]; [reflexivity|].
  simpl. rewrite Hr. simpl. destruct (String.eqb_spec c' c) as [->|_]; [contradiction|].
  exact IH.
Qed.

Lemma quarter_hours_sum {A : Type} (n : A -> nat) (l : list A) :
  (Qsum (map (fun a => quarter_hours (n a)) l) == quarter_hours (sum_list_with n l))%Q.
Proof.
  unfold Qsum. induction l as [|a l IH]; simpl.
  - reflexivity.
  - rewrite IH. unfold quarter_hours. rewrite Nat2Z.inj_add, inject_Z_plus. field.
Qed.

Lemma Forall2_map_r {A B : Type} (P : A -> B -> Prop) (f : A -> B) (l : list A) :
  (forall a, In a l -> P a (f a)) -> Forall2 P l (map f l).
Proof.
  induction l as [|a l IH]; intros HP; simpl; constructor.
  - apply HP. left. reflexivity.
  - apply IH. intros b Hb. apply HP. right. exact Hb.
Qed.

Section Partition.
Context {lib : PyLib}.
Import Review.

(** Metric 1 read on the rows the criteria select. *)
Lemma calculate_daily_forward_hours_rows (df : DataFrame) (a : Criteria)
    (out : list string) (h : Q) :
  calculate_daily_forward_hours df a = (out, Ok h) ->
  price_column_ready df "日前出清节点价格" a /\ dates_ready df "日期" a /\
  out = filter_warnings df "日期" a /\
  h = quarter_hours
        (length (List.filter (selected df "日前出清节点价格" "日期" a) (data df))).
Proof.
  unfold calculate_daily_forward_hours. intros Hb.
  apply bind_ok in Hb as (o1 & filtered & o2 & Hf & Hb & ->).
  injection Hb as <- <-.
  destruct (proj1 (filter_by_price_range_returns _ _ _ _)
              (ex_intro _ o1 (ex_intro _ filtered Hf))) as [Hp Hd].
  apply filter_by_price_range_rows in Hf as [-> ->].
  rewrite app_nil_r. auto.
Qed.

Lemma calculate_daily_forward_hours_ready (df : DataFrame) (a : Criteria) :
  price_column_ready df "日前出清节点价格" a -> dates_ready df "日期" a ->
  calculate_daily_forward_hours df a
  = (filter_warnings df "日期" a,
     Ok (quarter_hours
           (length (List.filter (selected df "日前出清节点价格" "日期" a) (data df))))).
Proof.
  intros Hp Hd.
  destruct (proj2 (filter_by_price_range_returns df "日前出清节点价格" "日期" a)
              (conj Hp Hd)) as (out & filtered & Hf).
  rewrite (calculate_daily_forward_hours_ok _ _ _ _ Hf).
  apply filter_by_price_range_rows in Hf as [-> ->]. reflexivity.
Qed.

(** X2.  On a table with the column 公司名称 whose every row names one of
    a list of distinct companies, whenever metric 1
    ([calculate_daily_forward_hours]) returns for no company it returns
    for each company of the list, with the same printed lines, and the
    hours of the companies add up to the hours of the whole table. *)
Theorem hours_by_company_add_up (df : DataFrame) (a : Criteria) (cs : list string)
    (out : list string) (h : Q) :
  has_column df "公司名称" = true ->
  NoDup cs ->
  Forall (fun r => exists c, In c cs /\ r "公司名称" = CStr c) (data df) ->
  calculate_daily_forward_hours df (with_company a None) = (out, Ok h) ->
  exists hs,
    Forall2 (fun c hc => calculate_daily_forward_hours df (with_company a (Some c))
                         = (out, Ok hc)) cs hs
    /\ (Qsum hs == h)%Q.
Proof.
  intros Hcol Hnodup Hrows Hh.
  apply calculate_daily_forward_hours_rows in Hh as (Hp & Hd & -> & ->).
  set (rows := List.filter (selected df "日前出清节点价格" "日期" (with_company a None))
                 (data df)).
  exists (map (fun c => quarter_hours
                          (length (List.filter (fun r => eq_text c (r "公司名称")) rows))) cs).
  split.
  - apply Forall2_map_r. intros c _.
    rewrite (calculate_daily_forward_hours_ready df (with_company a (Some c)) Hp Hd).
    f_equal. f_equal. f_equal. f_equal. unfold rows. rewrite filter_filter.
    apply List.filter_ext. intros r. unfold selected, text_ok, bounds_ok. cbn.
    rewrite Hcol. destruct (price_ok _ _ _ _ _), (if has_column df "日期" then _ else _),
      (eq_text c _), (match unit_name a with Some _ => _ | None => _ end),
      (match unit_dimension a with Some _ => _ | None => _ end); reflexivity.
  - rewrite (quarter_hours_sum
               (fun c => length (List.filter (fun r => eq_text c (r "公司名称")) rows)) cs).
    rewrite (rows_by_label "公司名称" cs rows Hnodup); [reflexivity|].
    unfold rows. apply List.Forall_forall. intros r Hr. apply List.filter_In in Hr as [Hr _].
    rewrite List.Forall_forall in Hrows. auto.
Qed.

End Partition.

Lemma hours_by_company_add_up_witness :
  exists hs,
    Forall2 (fun c hc => Review.calculate_daily_forward_hours (lib := plain_lib) trading_df
                           (with_company min_100 (Some c)) = ([], Ok hc))
      ["塔山"; "同华"] hs
    /\ (Qsum hs == quarter_hours 3)%Q.
Proof.
  apply (hours_by_company_add_up (lib := plain_lib) trading_df min_100 ["塔山"; "同华"] []
           (quarter_hours 3)).
  - reflexivity.
  - compute_done.
  - repeat (constructor; [exists "塔山"; split; [left; reflexivity | reflexivity]|]).
    constructor.
  - vm_compute. reflexivity.
Defined.

Section Monotone.
Context {lib : PyLib}.
Import Review.

(** Metric 2 read on the rows the criteria select. *)
Lemma calculate_realtime_hours_rows (df : DataFrame) (a : Criteria)
    (out : list string) (h : Q) :
  calculate_realtime_hours df a = (out, Ok h) ->
  out = filter_warnings df "日期" a /\
  h = quarter_hours
        (length (List.filter
                   (fun r => selected df "日前出清节点价格" "日期" a r
                             && (if has_column df "日内出清节点价格"
                                 then bounds_ok a (r "日内出清节点价格") else true))
                   (data df))).
Proof.
  intros H2. destruct (calculate_realtime_hours_inv _ _ _ _ H2) as [filtered Hf].
  rewrite (calculate_realtime_hours_ok _ _ _ _ _ Hf H2).
  apply filter_by_price_range_rows in Hf as [-> ->]. split; [reflexivity|].
  unfold has_column at 1, len. cbn [columns data].
  fold (has_column df "日内出清节点价格").
  destruct (has_column df "日内出清节点价格").
  - rewrite filter_filter. reflexivity.
  - f_equal. f_equal. apply List.filter_ext. intros r. rewrite andb_true_r. reflexivity.
Qed.

(** X3.  Two criteria sets that differ in their price bounds alone, the
    second accepting every price the first accepts: whenever metrics 1
    and 2 return for both, each is at least as large for the second,
    and the lines printed are the same. *)
Theorem hours_grow_with_price_range (df : DataFrame) (a : Criteria)
    (lo hi : option Q) (include_lo include_hi : bool)
    (out out' : list string) (h1 h2 h1' h2' : Q) :
  (forall c, bounds_ok a c = true ->
             bounds_ok (with_bounds a lo hi include_lo include_hi) c = true) ->
  calculate_daily_forward_hours df a = (out, Ok h1) ->
  calculate_realtime_hours df a = (out, Ok h2) ->
  calculate_daily_forward_hours df (with_bounds a lo hi include_lo include_hi)
  = (out', Ok h1') ->
  calculate_realtime_hours df (with_bounds a lo hi include_lo include_hi)
  = (out', Ok h2') ->
  (h1 <= h1')%Q /\ (h2 <= h2')%Q /\ out' = out.
Proof.
  intros Hwider H1 H2 H1' H2'.
  apply calculate_daily_forward_hours_rows in H1 as (_ & _ & -> & ->).
  apply calculate_daily_forward_hours_rows in H1' as (_ & _ & -> & ->).
  apply calculate_realtime_hours_rows in H2 as (_ & ->).
  apply calculate_realtime_hours_rows in H2' as (_ & ->).
  assert (Hsel : forall r, selected df "日前出清节点价格" "日期" a r = true ->
                           selected df "日前出清节点价格" "日期"
                             (with_bounds a lo hi include_lo include_hi) r = true).
  { intros r. unfold selected. cbn [start_date end_date company_name unit_name
                                     unit_dimension with_bounds].
    rewrite !andb_true_iff. intros ((((Hb & Hd) & Hc) & Hu) & Hg). auto 10. }
  split; [|split].
  - apply quarter_hours_le, filter_length_mono. intros r _. apply Hsel.
  - apply quarter_hours_le, filter_length_mono. intros r _.
    rewrite !andb_true_iff. intros [Hs Hi]. split; [apply Hsel; exact Hs|].
    destruct (has_column df "日内出清节点价格"); [apply Hwider; exact Hi | reflexivity].
  - reflexivity.
Qed.

End Monotone.

Lemma hours_grow_with_price_range_witness :
  (quarter_hours 3 <= quarter_hours 4)%Q /\ (quarter_hours 2 <= quarter_hours 3)%Q
  /\ @nil string = [].
Proof.
  apply (hours_grow_with_price_range (lib := plain_lib) trading_df min_100
           (Some 100%Q) None true false [] []).
  - intros c. unfold bounds_ok, price_ok. cbn. destruct c; cbn; try discriminate.
    unfold Qgt_bool, Qge_bool. rewrite !andb_true_r, negb_true_iff. intros Hx.
    apply Qle_bool_iff. apply Qlt_le_weak. apply Qnot_le_lt. intros Hle.
    apply Qle_bool_iff in Hle. congruence.
  - vm_compute. reflexivity.
  - vm_compute. reflexivity.
  - vm_compute. reflexivity.
  - vm_compute. reflexivity.
Defined.

(** * The unit groups of a table *)

Section UnitGroups.
Context {lib : PyLib}.
Import Review.

Lemma determine_dimension_label (name : cell) :
  In (determine_dimension name) unit_dimensions.
Proof.
  unfold determine_dimension, unit_dimensions. destruct (isna name); [simpl; auto|].
  destruct (search_digits _) as [digits|]; [|simpl; auto].
  destruct (_ || _); [simpl; auto|]. destruct (_ || _); simpl; auto.
Qed.

Lemma has_column_add_column (cols : list string) (col : string) :
  existsb (String.eqb col) (add_column cols col) = true.
Proof.
  unfold add_column. destruct (existsb (String.eqb col) cols) eqn:Hc; [exact Hc|].
  rewrite existsb_app. simpl. rewrite String.eqb_refl, orb_true_r. reflexivity.
Qed.

(** X4.  Let [_add_unit_dimension_column] return a table for a table
    that has the column 机组名称.  Then it printed nothing, and on the
    table it returned, whenever metric 1 returns for no unit group it
    returns for each of the four labels 机组1&3组, 机组2&4组, 其他机组 and
    未知, with the same printed lines; the hours of the four groups add
    up to the hours of the whole table, and for any other label the
    hours are those of no row. *)
Theorem hours_by_unit_dimension_add_up (df df' : DataFrame) (a : Criteria)
    (printed out : list string) (h : Q) :
  has_column df "机组名称" = true ->
  _add_unit_dimension_column df = (printed, Ok df') ->
  calculate_daily_forward_hours df' (with_unit_dimension a None) = (out, Ok h) ->
  printed = []
  /\
  (exists hs,
     Forall2 (fun d hd => calculate_daily_forward_hours df' (with_unit_dimension a (Some d))
                          = (out, Ok hd)) unit_dimensions hs
     /\ (Qsum hs == h)%Q)
  /\
  (forall d, ~ In d unit_dimensions ->
     calculate_daily_forward_hours df' (with_unit_dimension a (Some d))
     = (out, Ok (quarter_hours 0))).
Proof.
  intros Hname Hadd Hh. unfold _add_unit_dimension_column in Hadd. rewrite Hname in Hadd.
  cbn [negb] in Hadd. injection Hadd as <- <-. split; [reflexivity|].
  set (df' := assign df "机组维度" (fun r => CStr (determine_dimension (r "机组名称")))).
  assert (Hcol : has_column df' "机组维度" = true) by apply has_column_add_column.
  assert (Hlabel : Forall (fun r => exists d, In d unit_dimensions /\ r "机组维度" = CStr d)
                     (data df')).
  { unfold df', assign. cbn [data]. apply List.Forall_map, List.Forall_forall. intros r _.
    exists (determine_dimension (r "机组名称")). split; [apply determine_dimension_label|].
    unfold upd. rewrite String.eqb_refl. reflexivity. }
  apply calculate_daily_forward_hours_rows in Hh as (Hp & Hd & -> & ->).
  set (rows := List.filter
                 (selected df' "日前出清节点价格" "日期" (with_unit_dimension a None))
                 (data df')).
  assert (Hrows : Forall (fun r => exists d, In d unit_dimensions /\ r "机组维度" = CStr d) rows).
  { unfold rows. apply List.Forall_forall. intros r Hr. apply List.filter_In in Hr as [Hr _].
    rewrite List.Forall_forall in Hlabel. auto. }
  assert (Hgroup : forall d,
             calculate_daily_forward_hours df' (with_unit_dimension a (Some d))
             = (filter_warnings df' "日期" (with_unit_dimension a None),
                Ok (quarter_hours
                      (length (List.filter (fun r => eq_text d (r "机组维度")) rows))))).
  { intros d.
    rewrite (calculate_daily_forward_hours_ready df' (with_unit_dimension a (Some d)) Hp Hd).
    f_equal.
    - unfold filter_warnings. cbn [start_date end_date unit_dimension with_unit_dimension].
      rewrite Hcol. cbn [is_set negb andb]. reflexivity.
    - f_equal. f_equal. f_equal. unfold rows. rewrite filter_filter.
      apply List.filter_ext. intros r. unfold selected, text_ok, bounds_ok.
      cbn [min_price max_price include_min_boundary include_max_boundary start_date
             end_date company_name unit_name unit_dimension with_unit_dimension].
      rewrite Hcol, andb_true_r. reflexivity. }
  split.
  - exists (map (fun d => quarter_hours
                            (length (List.filter (fun r => eq_text d (r "机组维度")) rows)))
              unit_dimensions).
    split.
    + apply Forall2_map_r. intros d _. apply Hgroup.
    + rewrite (quarter_hours_sum
                 (fun d => length (List.filter (fun r => eq_text d (r "机组维度")) rows))
                 unit_dimensions).
      rewrite (rows_by_label "机组维度" unit_dimensions rows); [reflexivity | compute_done | exact Hrows].
  - intros d Hd'. rewrite Hgroup. f_equal. f_equal.
    rewrite (rows_of_no_label "机组维度" d unit_dimensions rows Hd' Hrows). reflexivity.
Qed.

End UnitGroups.

Lemma hours_by_unit_dimension_add_up_witness :
  @nil string = []
  /\
  (exists hs,
     Forall2 (fun d hd =>
                Review.calculate_daily_forward_hours (lib := plain_lib) trading_with_dimension
                  (with_unit_dimension min_100 (Some d)) = ([], Ok hd)) unit_dimensions hs
     /\ (Qsum hs == quarter_hours 3)%Q)
  /\
  (forall d, ~ In d unit_dimensions ->
     Review.calculate_daily_forward_hours (lib := plain_lib) trading_with_dimension
       (with_unit_dimension min_100 (Some d)) = ([], Ok (quarter_hours 0))).
Proof.
  apply (hours_by_unit_dimension_add_up (lib := plain_lib) trading_df trading_with_dimension
           min_100 [] [] (quarter_hours 3)).
  - reflexivity.
  - reflexivity.
  - vm_compute. reflexivity.
Defined.


(** * Sums and means of a column *)

Lemma series_sum_numbers (s : list cell) (t : Q) :
  series_sum s = Ok t ->
  t = Qsum (numbers s) /\ series_count s = length (numbers s) /\ Forall numeric s.
Proof.
  revert t. induction s as [|c s IH]; simpl; intros t Hs.
  - injection Hs as <-. repeat split. constructor.
  - destruct c as [|x|text|d|ts]; try discriminate.
    + destruct (IH _ Hs) as (-> & Hc & Hn). repeat split; [exact Hc|].
      constructor; [exact I | exact Hn].
    + apply bind_result_ok in Hs as (t' & Ht' & Hs). injection Hs as <-.
      destruct (IH _ Ht') as (-> & Hc & Hn). unfold series_count in *. simpl.
      repeat split; [congruence|]. constructor; [exact I | exact Hn].
Qed.

Lemma series_sum_numeric (s : list cell) :
  Forall numeric s -> series_sum s = Ok (Qsum (numbers s)).
Proof.
  induction 1 as [|c s Hc _ IH]; [reflexivity|].
  destruct c; try contradiction; simpl; rewrite IH; reflexivity.
Qed.

Lemma Qsum_numbers {A : Type} (f : A -> cell) (l : list A) :
  (Qsum (numbers (map f l)) == Qsum_over (fun a => num_of (f a)) l)%Q.
Proof.
  unfold Qsum. induction l as [|a l IH]; simpl; [reflexivity|].
  destruct (f a); simpl; rewrite IH; lra.
Qed.

Lemma series_mean_ok {lib : PyLib} (s : list cell) (v : cell) :
  series_mean s = Ok v ->
  Forall numeric s /\
  ((numbers s = [] /\ v = CNull) \/
   (numbers s <> [] /\ v = CNum (float_mean (numbers s)))).
Proof.
  unfold series_mean. intros Hm. apply bind_result_ok in Hm as (t & Ht & Hm).
  apply series_sum_numbers in Ht as (_ & Hc & Hn). split; [exact Hn|].
  rewrite Hc in Hm. revert Hm. destruct (numbers s) as [|x xs]; simpl; intros Hm.
  - left. split; congruence.
  - right. split; [discriminate|]. congruence.
Qed.

Lemma bounds_ok_within (a : Review.Criteria) (x : Q) :
  bounds_ok a (CNum x) = true <-> within_bounds a x.
Proof.
  unfold bounds_ok, price_ok, within_bounds, passes, Qgt_bool, Qge_bool, Qlt_bool.
  rewrite andb_true_iff.
  assert (Hnot : forall p q : Q, negb (Qle_bool p q) = true <-> (q < p)%Q).
  { intros p q. rewrite negb_true_iff. split.
    - intros Hf. apply Qnot_le_lt. intros Hle. apply Qle_bool_iff in Hle. congruence.
    - intros Hlt. destruct (Qle_bool p q) eqn:E; [|reflexivity].
      apply Qle_bool_iff in E. exfalso. apply (Qlt_not_le _ _ Hlt E). }
  destruct (Review.min_price a) as [lo|], (Review.max_price a) as [hi|],
    (Review.include_min_boundary a), (Review.include_max_boundary a);
    rewrite ?Hnot, ?Qle_bool_iff; tauto.
Qed.

(** * Metric 3: the forecast average price *)

Section AveragePrice.
Context {lib : PyLib}.
Import Review.

Lemma numbers_within (a : Criteria) (col : string) (rows : list Row) :
  Forall (fun r => bounds_ok a (r col) = true) rows ->
  Forall (within_bounds a) (numbers (map (fun r => r col) rows)).
Proof.
  induction 1 as [|r rows Hr _ IH]; simpl; [constructor|].
  destruct (r col) eqn:E; try exact IH.
  constructor; [|exact IH]. apply bounds_ok_within. exact Hr.
Qed.

Lemma numbers_nil (s : list cell) :
  Forall numeric s -> numbers s = [] -> Forall (fun c => c = CNull) s.
Proof.
  induction 1 as [|c s Hc _ IH]; [constructor|].
  destruct c; try contradiction; simpl; [|discriminate].
  intros Hn. constructor; [reflexivity | exact (IH Hn)].
Qed.

(** X5.  Whenever metric 3 ([calculate_daily_forward_avg_price])
    returns, on the rows [filter_by_price_range] selects and with its
    printed lines: it is NaN, not 0, exactly when no selected row has a
    forecast price, which with a price bound set means that no row is
    selected; otherwise it is the mean that pandas computes of the
    forecast prices of the selected rows that have one, and each of the
    numbers averaged lies inside the price bounds of the criteria, each
    bound strict or not as its flag says.  Nothing is said of the mean
    itself and the bounds: it is a rounded binary64 value. *)
Theorem daily_forward_avg_price_of_selection (df : DataFrame) (a : Criteria)
    (out : list string) (v : cell) :
  calculate_daily_forward_avg_price df a = (out, Ok v) ->
  exists filtered,
    filter_by_price_range df "日前出清节点价格" "日期" a = (out, Ok filtered) /\
    let prices := numbers (map (fun r => r "日前出清节点价格") (data filtered)) in
    ((v = CNull /\ Forall (fun r => r "日前出清节点价格" = CNull) (data filtered) /\
      (is_set (min_price a) || is_set (max_price a) = true -> data filtered = []))
     \/
     (v = CNum (float_mean prices) /\
      Exists (fun r => r "日前出清节点价格" <> CNull) (data filtered) /\
      Forall (within_bounds a) prices)).
Proof.
  unfold calculate_daily_forward_avg_price. intros Hb.
  apply bind_ok in Hb as (o1 & filtered & o2 & Hf & Hb & ->).
  apply lift_ok in Hb as [-> Hb]. rewrite app_nil_r. exists filtered. split; [exact Hf|].
  apply bind_result_ok in Hb as (s & Hs & Hm). unfold getitem in Hs.
  destruct (has_column filtered "日前出清节点价格"); [|discriminate]. injection Hs as <-.
  cbv zeta. apply series_mean_ok in Hm as [Hnum [[Hnil ->] | [Hne ->]]].
  - left. split; [reflexivity|].
    pose proof (numbers_nil _ Hnum Hnil) as Hnull. rewrite List.Forall_map in Hnull.
    split; [exact Hnull|]. intros Hset.
    destruct (data filtered) as [|r rows] eqn:Hrows; [reflexivity|]. exfalso.
    assert (Hin : In r (data filtered)) by (rewrite Hrows; left; reflexivity).
    destruct (filter_by_price_range_In _ _ _ _ _ _ r Hf Hin) as [_ Hb].
    inversion Hnull as [|r' rows' Hr _]; subst. rewrite Hr in Hb.
    unfold bounds_ok, price_ok in Hb.
    destruct (min_price a), (max_price a); simpl in *; discriminate.
  - right. split; [reflexivity|]. split.
    + clear Hnum. induction (data filtered) as [|r rows IH]; [contradiction|].
      simpl in Hne. destruct (r "日前出清节点价格") eqn:E;
        try (left; rewrite E; discriminate).
      right. apply IH. exact Hne.
    + apply numbers_within. apply List.Forall_forall. intros r Hr.
      apply (filter_by_price_range_In _ _ _ _ _ _ r Hf Hr).
Qed.

End AveragePrice.

Lemma daily_forward_avg_price_of_selection_witness :
  exists filtered,
    Review.filter_by_price_range (lib := plain_lib) trading_df "日前出清节点价格" "日期" min_100
    = ([], Ok filtered) /\
    let prices := numbers (map (fun r => r "日前出清节点价格") (data filtered)) in
    ((CNum (600 # 3) = CNull /\
      Forall (fun r => r "日前出清节点价格" = CNull) (data filtered) /\
      (is_set (Review.min_price min_100) || is_set (Review.max_price min_100) = true ->
       data filtered = []))
     \/
     (CNum (600 # 3) = CNum (float_mean (PyLib := plain_lib) prices) /\
      Exists (fun r => r "日前出清节点价格" <> CNull) (data filtered) /\
      Forall (within_bounds min_100) prices)).
Proof.
  apply (daily_forward_avg_price_of_selection (lib := plain_lib) trading_df min_100 []
           (CNum (600 # 3))).
  vm_compute. reflexivity.
Defined.

(** * The conversion factor *)

Section ConversionFactor.
Context {lib : PyLib}.
Import Review.

Lemma conversion_factor_cases (company : option string) :
  (1 <= _get_power_conversion_factor company)%Q /\
  (_get_power_conversion_factor company <= 33 # 10)%Q /\
  (match company with
   | Some c => ~ In c known_companies
   | None => True
   end -> _get_power_conversion_factor company = 1%Q).
Proof.
  unfold _get_power_conversion_factor, default_power_conversion_factor,
    power_conversion_factors, list_to_map, known_companies.
  cbn [foldr fst snd]. destruct company as [c|].
  - rewrite !lookup_insert, lookup_empty.
    repeat case_decide; subst; cbn [default from_option id];
      (split; [unfold Qle; simpl; lia|]); (split; [unfold Qle; simpl; lia|]);
      intros Hc; solve [reflexivity | exfalso; apply Hc; simpl; tauto].
  - repeat split; unfold Qle; simpl; lia.
Qed.

Lemma conversion_factor_positive (company : option string) :
  (0 < _get_power_conversion_factor company)%Q.
Proof. destruct (conversion_factor_cases company) as [H1 _]. lra. Qed.

(** X6.  The conversion factor of every company argument lies between
    1 and 3.3, and it is 1 when no company is given and when the company
    is none of the nine of the table. *)
Theorem power_conversion_factor_range (company : option string) :
  (1 <= _get_power_conversion_factor company <= 33 # 10)%Q /\
  _get_power_conversion_factor None = 1%Q /\
  (forall c, ~ In c known_companies -> _get_power_conversion_factor (Some c) = 1%Q).
Proof.
  destruct (conversion_factor_cases company) as (H1 & H2 & _).
  split; [split; assumption|]. split; [reflexivity|].
  intros c Hc. apply (conversion_factor_cases (Some c)). exact Hc.
Qed.

End ConversionFactor.

(** * Metrics 6 to 9: volumes and average powers *)

Lemma quarter_hours_nonzero (n : nat) :
  (0 < n)%nat -> Qeq_bool (quarter_hours n) 0 = false.
Proof.
  intros Hn. destruct (Qeq_bool (quarter_hours n) 0) eqn:E; [|reflexivity]. exfalso.
  apply Qeq_bool_iff in E. unfold quarter_hours, Qdiv in E.
  apply Qmult_integral in E as [Hz | Hz].
  - change 0%Q with (inject_Z 0) in Hz. apply (proj1 (inject_Z_injective _ _)) in Hz. lia.
  - discriminate Hz.
Qed.

Lemma empty_false (f : DataFrame) : empty f = false -> (0 < len f)%nat.
Proof.
  unfold empty. intros He. apply orb_false_iff in He as [He _].
  apply Nat.eqb_neq in He. lia.
Qed.

Lemma empty_true_len (f : DataFrame) (col : string) :
  has_column f col = true -> empty f = true -> len f = 0%nat.
Proof.
  unfold empty, has_column. intros Hcol He. apply orb_true_iff in He as [He | He].
  - apply Nat.eqb_eq in He. exact He.
  - apply Nat.eqb_eq in He. destruct (columns f); [discriminate Hcol | discriminate He].
Qed.

Lemma column_sum (col : string) (rows : list Row) :
  Forall (fun r => numeric (r col)) rows ->
  exists t, series_sum (map (fun r => r col) rows) = Ok t /\
            (t == Qsum_over (fun r => num_of (r col)) rows)%Q.
Proof.
  intros Hnum. eexists. split.
  - apply series_sum_numeric. rewrite List.Forall_map. exact Hnum.
  - apply (Qsum_numbers (fun r : Row => r col)).
Qed.

Section Powers.
Context {lib : PyLib}.
Import Review.

(** The body that metrics 7 and 8 share, on a selection with rows. *)
Lemma scaled_average (filtered : DataFrame) (col : string) (factor : Q) :
  (0 < len filtered)%nat -> has_column filtered col = true ->
  Forall (fun r => numeric (r col)) (data filtered) ->
  exists q,
    (let? s := getitem filtered col in
     let? total := series_sum s in
     py_div (total / 4 * factor) (quarter_hours (len filtered))) = Ok q /\
    (q == factor * (Qsum_over (fun r => num_of (r col)) (data filtered)
                    / inject_Z (Z.of_nat (len filtered))))%Q.
Proof.
  intros Hlen Hcol Hnum. rewrite (getitem_present _ _ Hcol). cbn [bind_result].
  destruct (column_sum col (data filtered) Hnum) as (t & -> & Ht). cbn [bind_result].
  unfold py_div. rewrite (quarter_hours_nonzero _ Hlen). eexists. split; [reflexivity|].
  rewrite Ht. unfold quarter_hours. field.
  change 0%Q with (inject_Z 0). rewrite inject_Z_injective. lia.
Qed.

(** X7.  On a selection that has rows, metric 7
    ([calculate_daily_forward_power]) is the conversion factor of the
    company argument times the mean of 日前中标出力 over the selected rows,
    a null counted as 0 and as a row: the two divisions by 4 cancel.
    Metric 8 ([calculate_actual_output_power]) is the same on 日内实际出力,
    and metric 9 ([calculate_medium_long_avg_power]) is four times the
    factor times the mean over the selected rows of 省内中长期上网电量 plus
    省间中长期上网电量. *)
Theorem power_metrics_are_scaled_means (df filtered : DataFrame) (a : Criteria)
    (out : list string) :
  filter_by_price_range df "日前出清节点价格" "日期" a = (out, Ok filtered) ->
  empty filtered = false ->
  let factor := _get_power_conversion_factor (company_name a) in
  let rows := inject_Z (Z.of_nat (len filtered)) in
  (has_column df "日前中标出力" = true ->
   Forall (fun r => numeric (r "日前中标出力")) (data filtered) ->
   exists q, calculate_daily_forward_power df a = (out, Ok q) /\
             (q == factor * (Qsum_over (fun r => num_of (r "日前中标出力")) (data filtered)
                             / rows))%Q)
  /\
  (has_column df "日内实际出力" = true ->
   Forall (fun r => numeric (r "日内实际出力")) (data filtered) ->
   exists q, calculate_actual_output_power df a = (out, Ok q) /\
             (q == factor * (Qsum_over (fun r => num_of (r "日内实际出力")) (data filtered)
                             / rows))%Q)
  /\
  (has_column df "省内中长期上网电量" = true -> has_column df "省间中长期上网电量" = true ->
   Forall (fun r => numeric (r "省内中长期上网电量") /\ numeric (r "省间中长期上网电量"))
     (data filtered) ->
   exists q, calculate_medium_long_avg_power df "日前出清节点价格" a = (out, Ok q) /\
             (q == 4 * factor
                   * (Qsum_over (fun r => num_of (r "省内中长期上网电量")
                                          + num_of (r "省间中长期上网电量")) (data filtered)
                      / rows))%Q).
Proof.
  intros Hf Hne factor rows.
  pose proof (filter_by_price_range_selection _ _ _ _ _ _ Hf) as Hsel.
  pose proof (empty_false _ Hne) as Hlen.
  split; [|split].
  - intros Hcol Hnum. rewrite <- (selection_of_has_column _ _ _ Hsel) in Hcol.
    destruct (scaled_average filtered "日前中标出力" factor Hlen Hcol Hnum) as (q & Hq & Heq).
    exists q. split; [|exact Heq].
    unfold calculate_daily_forward_power. rewrite Hf. cbn [bind].
    rewrite Hne, (quarter_hours_nonzero _ Hlen). fold factor. rewrite Hq.
    cbn [lift]. rewrite app_nil_r. reflexivity.
  - intros Hcol Hnum. rewrite <- (selection_of_has_column _ _ _ Hsel) in Hcol.
    destruct (scaled_average filtered "日内实际出力" factor Hlen Hcol Hnum) as (q & Hq & Heq).
    exists q. split; [|exact Heq].
    unfold calculate_actual_output_power. rewrite Hf. cbn [bind].
    rewrite Hne, (quarter_hours_nonzero _ Hlen). fold factor. rewrite Hq.
    cbn [lift]. rewrite app_nil_r. reflexivity.
  - intros Hintra Hinter Hnum.
    rewrite <- (selection_of_has_column _ _ _ Hsel) in Hintra.
    rewrite <- (selection_of_has_column _ _ _ Hsel) in Hinter.
    unfold calculate_medium_long_avg_power. rewrite Hf. cbn [bind].
    rewrite Hne, (quarter_hours_nonzero _ Hlen).
    rewrite (getitem_present _ _ Hintra), (getitem_present _ _ Hinter).
    cbn [bind_result]. rewrite !List.map_map.
    rewrite (total_step _ _ _ Hnum). cbn [bind_result]. rewrite series_sum_map.
    cbn [bind_result]. unfold py_div. rewrite (quarter_hours_nonzero _ Hlen).
    cbn [lift]. rewrite app_nil_r. eexists. split; [reflexivity|].
    fold factor. unfold quarter_hours, rows. field.
    change 0%Q with (inject_Z 0). rewrite inject_Z_injective. lia.
Qed.

(** X8.  On an empty selection metrics 7, 8 and 9 return 0 before they
    read a column, so a table that lacks 日前中标出力, 日内实际出力 or the
    two medium and long term volumes makes none of them raise.  On a
    selection with rows the absent column makes each raise [KeyError]. *)
Theorem power_metrics_on_empty_selection (df filtered : DataFrame) (a : Criteria)
    (out : list string) :
  filter_by_price_range df "日前出清节点价格" "日期" a = (out, Ok filtered) ->
  (empty filtered = true ->
   calculate_daily_forward_power df a = (out, Ok 0%Q) /\
   calculate_actual_output_power df a = (out, Ok 0%Q) /\
   calculate_medium_long_avg_power df "日前出清节点价格" a = (out, Ok 0%Q))
  /\
  (empty filtered = false ->
   (has_column df "日前中标出力" = false ->
    calculate_daily_forward_power df a = (out, Raise (KeyError "日前中标出力"))) /\
   (has_column df "日内实际出力" = false ->
    calculate_actual_output_power df a = (out, Raise (KeyError "日内实际出力"))) /\
   (has_column df "省内中长期上网电量" = false ->
    calculate_medium_long_avg_power df "日前出清节点价格" a
    = (out, Raise (KeyError "省内中长期上网电量")))).
Proof.
  intros Hf.
  pose proof (filter_by_price_range_selection _ _ _ _ _ _ Hf) as Hsel.
  split.
  - intros He. unfold calculate_daily_forward_power, calculate_actual_output_power,
      calculate_medium_long_avg_power. rewrite Hf. cbn [bind]. rewrite He.
    cbn [ret]. rewrite app_nil_r. auto.
  - intros Hne. pose proof (empty_false _ Hne) as Hlen.
    unfold calculate_daily_forward_power, calculate_actual_output_power,
      calculate_medium_long_avg_power. rewrite Hf. cbn [bind].
    rewrite Hne, (quarter_hours_nonzero _ Hlen). unfold getitem.
    rewrite !(selection_of_has_column _ _ _ Hsel).
    repeat split; intros ->; cbn [bind_result lift]; rewrite app_nil_r; reflexivity.
Qed.

End Powers.

Lemma power_metrics_are_scaled_means_witness :
  exists q,
    Review.calculate_daily_forward_power (lib := plain_lib) trading_df tashan_only
    = ([], Ok q) /\
    (q == Review._get_power_conversion_factor (Some "塔山")
          * (Qsum_over (fun r => num_of (r "日前中标出力")) (data trading_df)
             / inject_Z (Z.of_nat 4)))%Q.
Proof.
  refine (proj1 (power_metrics_are_scaled_means (lib := plain_lib) trading_df trading_df
                   tashan_only [] _ _) _ _).
  - vm_compute. reflexivity.
  - reflexivity.
  - reflexivity.
  - repeat (constructor; [exact I|]). constructor.
Defined.

Lemma power_metrics_on_empty_selection_witness :
  has_column trading_df "日内实际出力" = false /\
  Review.calculate_daily_forward_power (lib := plain_lib) trading_df below_50 = ([], Ok 0%Q) /\
  Review.calculate_actual_output_power (lib := plain_lib) trading_df below_50 = ([], Ok 0%Q) /\
  Review.calculate_medium_long_avg_power (lib := plain_lib) trading_df "日前出清节点价格"
    below_50 = ([], Ok 0%Q).
Proof.
  split; [reflexivity|].
  refine (proj1 (power_metrics_on_empty_selection (lib := plain_lib) trading_df
                   (sheet trading_columns []) below_50 [] _) _).
  - vm_compute. reflexivity.
  - reflexivity.
Defined.

Section CrossProvincial.
Context {lib : PyLib}.
Import Review.

(** Metric 6 with both volume columns in the table. *)
Lemma inter_provincial_power_sum (df filtered : DataFrame) (col : string)
    (a : Criteria) (out : list string) :
  filter_by_price_range df col "日期" a = (out, Ok filtered) ->
  has_column df "省间日前出清电力" = true -> has_column df "省间实时出清电力" = true ->
  Forall (fun r => numeric (r "省间日前出清电力") /\ numeric (r "省间实时出清电力"))
    (data filtered) ->
  calculate_inter_provincial_power df col a
  = (out, Ok (Qsum_over (fun r => num_of (r "省间日前出清电力")
                                  + num_of (r "省间实时出清电力")) (data filtered)
              * _get_power_conversion_factor (company_name a))%Q).
Proof.
  intros Hf H1 H2 Hnum.
  pose proof (filter_by_price_range_selection _ _ _ _ _ _ Hf) as Hsel.
  unfold calculate_inter_provincial_power. rewrite Hf. cbn [bind].
  rewrite <- (selection_of_has_column _ _ _ Hsel) in H1.
  rewrite <- (selection_of_has_column _ _ _ Hsel) in H2.
  rewrite H1, H2. cbn [andb].
  rewrite (getitem_present _ _ H1), (getitem_present _ _ H2).
  cbn [bind_result]. rewrite !List.map_map. rewrite (total_step _ _ _ Hnum).
  cbn [bind_result]. rewrite series_sum_map. cbn [lift bind ret app].
  rewrite app_nil_r. reflexivity.
Qed.

(** X9.  Metric 6 ([calculate_inter_provincial_power]) on the rows
    [filter_by_price_range] selects.  With both 省间日前出清电力 and
    省间实时出清电力 in the table it is the sum of the two volumes over the
    selected rows, a null counted as 0, times the conversion factor;
    with one of them absent and 省间中标总量 in the table it is the sum of
    that column times the factor; with none of these it prints a
    warning and returns 0, and does not raise. *)
Theorem inter_provincial_power_branches (df filtered : DataFrame) (col : string)
    (a : Criteria) (out : list string) :
  filter_by_price_range df col "日期" a = (out, Ok filtered) ->
  let factor := _get_power_conversion_factor (company_name a) in
  let both := has_column df "省间日前出清电力" && has_column df "省间实时出清电力" in
  (both = true ->
   Forall (fun r => numeric (r "省间日前出清电力") /\ numeric (r "省间实时出清电力"))
     (data filtered) ->
   exists q, calculate_inter_provincial_power df col a = (out, Ok q) /\
             (q == Qsum_over (fun r => num_of (r "省间日前出清电力")
                                       + num_of (r "省间实时出清电力")) (data filtered)
                   * factor)%Q)
  /\
  (both = false -> has_column df "省间中标总量" = true ->
   Forall (fun r => numeric (r "省间中标总量")) (data filtered) ->
   exists q, calculate_inter_provincial_power df col a = (out, Ok q) /\
             (q == Qsum_over (fun r => num_of (r "省间中标总量")) (data filtered) * factor)%Q)
  /\
  (both = false -> has_column df "省间中标总量" = false ->
   calculate_inter_provincial_power df col a
   = (out ++ ["警告: 数据中没有省间电力列，无法计算省间中标电量"], Ok 0%Q)).
Proof.
  intros Hf factor both.
  pose proof (filter_by_price_range_selection _ _ _ _ _ _ Hf) as Hsel.
  split; [|split].
  - intros Hboth Hnum. unfold both in Hboth. apply andb_true_iff in Hboth as [H1 H2].
    rewrite (inter_provincial_power_sum _ _ _ _ _ Hf H1 H2 Hnum).
    eexists. split; reflexivity.
  - unfold calculate_inter_provincial_power. rewrite Hf. cbn [bind].
    rewrite !(selection_of_has_column _ _ _ Hsel). fold both.
    intros Hboth Htotal Hnum. rewrite Hboth, Htotal.
    rewrite <- (selection_of_has_column _ _ _ Hsel) in Htotal.
    rewrite (getitem_present _ _ Htotal). cbn [bind_result].
    destruct (column_sum "省间中标总量" (data filtered) Hnum) as (t & -> & Ht).
    cbn [lift bind ret app]. rewrite app_nil_r. eexists. split; [reflexivity|].
    rewrite Ht. reflexivity.
  - unfold calculate_inter_provincial_power. rewrite Hf. cbn [bind].
    rewrite !(selection_of_has_column _ _ _ Hsel). fold both.
    intros Hboth Htotal. rewrite Hboth, Htotal. cbn [print lift bind ret app].
    reflexivity.
Qed.

(** X10.  On a selection whose four cross-provincial columns hold
    numbers or nulls, metric 6 is the conversion factor times the
    denominator of metric 5; so whenever the cross-provincial volume
    (metric 6) is zero, the cross-provincial average price (metric 5)
    is zero as well. *)
Theorem zero_inter_provincial_power_zero_price (df filtered : DataFrame) (col : string)
    (a : Criteria) (out : list string) :
  filter_by_price_range df col "日期" a = (out, Ok filtered) ->
  has_column df "省间日前出清电力" = true -> has_column df "省间日前出清价格" = true ->
  has_column df "省间实时出清电力" = true -> has_column df "省间实时出清价格" = true ->
  numeric_rows filtered
    "省间日前出清电力" "省间日前出清价格" "省间实时出清电力" "省间实时出清价格" ->
  exists price power,
    calculate_inter_provincial_avg_price df col a = (out, Ok price) /\
    calculate_inter_provincial_power df col a = (out, Ok power) /\
    (power == _get_power_conversion_factor (company_name a)
              * Qsum_over (fun r => num_of (r "省间日前出清电力")
                                    + num_of (r "省间实时出清电力")) (data filtered))%Q /\
    ((power == 0)%Q -> (price == 0)%Q).
Proof.
  intros Hf H1 H2 H3 H4 Hrows.
  destruct (inter_provincial_avg_price_formula _ _ _ _ _ Hf H1 H2 H3 H4 Hrows)
    as (price & Hprice & Heq).
  assert (Hnum : Forall (fun r => numeric (r "省间日前出清电力")
                                  /\ numeric (r "省间实时出清电力")) (data filtered)).
  { unfold numeric_rows in Hrows. eapply List.Forall_impl; [|exact Hrows].
    intros r (Ha & _ & Hb & _). auto. }
  pose proof (inter_provincial_power_sum _ _ _ _ _ Hf H1 H3 Hnum) as Hpower.
  eexists price, _. split; [exact Hprice|]. split; [exact Hpower|]. split.
  - apply Qmult_comm.
  - intros Hzero. rewrite Heq. unfold weighted_average.
    assert (Hd : (Qsum_over (fun r => num_of (r "省间日前出清电力")
                                      + num_of (r "省间实时出清电力")) (data filtered) == 0)%Q).
    { apply Qmult_integral in Hzero as [Hz | Hz]; [exact Hz|].
      pose proof (conversion_factor_positive (company_name a)) as Hpos. lra. }
    apply Qeq_bool_iff in Hd. rewrite Hd. reflexivity.
Qed.

End CrossProvincial.

Lemma inter_provincial_power_branches_witness :
  exists q,
    Review.calculate_inter_provincial_power (lib := plain_lib) trading_df
      "日前出清节点价格" min_100 = ([], Ok q) /\
    (q == Qsum_over (fun r => num_of (r "省间日前出清电力") + num_of (r "省间实时出清电力"))
            (data trading_above_100)
          * Review._get_power_conversion_factor None)%Q.
Proof.
  refine (proj1 (inter_provincial_power_branches (lib := plain_lib) trading_df
                   trading_above_100 "日前出清节点价格" min_100 [] _) _ _).
  - vm_compute. reflexivity.
  - reflexivity.
  - repeat (constructor; [split; exact I|]). constructor.
Defined.

Lemma zero_inter_provincial_power_zero_price_witness :
  exists price power,
    Review.calculate_inter_provincial_avg_price (lib := plain_lib) trading_df
      "日前出清节点价格" min_100 = ([], Ok price) /\
    Review.calculate_inter_provincial_power (lib := plain_lib) trading_df
      "日前出清节点价格" min_100 = ([], Ok power) /\
    (power == Review._get_power_conversion_factor None
              * Qsum_over (fun r => num_of (r "省间日前出清电力")
                                    + num_of (r "省间实时出清电力"))
                  (data trading_above_100))%Q /\
    ((power == 0)%Q -> (price == 0)%Q).
Proof.
  apply (zero_inter_provincial_power_zero_price (lib := plain_lib) trading_df
           trading_above_100 "日前出清节点价格" min_100 []).
  - vm_compute. reflexivity.
  - reflexivity.
  - reflexivity.
  - reflexivity.
  - reflexivity.
  - unfold numeric_rows. repeat (constructor; [repeat split; exact I|]). constructor.
Defined.


(** * The ten metrics together *)

Lemma getitem_ok (f : DataFrame) (col : string) (s : list cell) :
  getitem f col = Ok s -> has_column f col = true.
Proof. unfold getitem. destruct (has_column f col); [reflexivity | discriminate]. Qed.

Lemma getitem_raise_absent (f : DataFrame) (col : string) (e : PyError) :
  getitem f col = Raise e -> e = KeyError col /\ has_column f col = false.
Proof. unfold getitem. destruct (has_column f col); [discriminate|]. intros [= <-]. auto. Qed.

Lemma series_mean_raise {lib : PyLib} (s : list cell) (e : PyError) :
  series_mean s = Raise e -> e = TypeError.
Proof.
  unfold series_mean. intros Hm. apply bind_result_raise in Hm as [Hm | (t & _ & Hm)].
  - eapply series_sum_raise; eauto.
  - destruct (_ =? _)%nat; discriminate.
Qed.

(** The exception of a metric body that reads columns of the selection
    and computes on them. *)
Ltac body_error Hm Hsel :=
  repeat (apply bind_result_raise in Hm as [Hm | (? & _ & Hm)];
          [ first
              [ apply getitem_raise_absent in Hm as [-> Hm];
                rewrite (selection_of_has_column _ _ _ Hsel) in Hm;
                right; right; eexists; split; [reflexivity | exact Hm]
              | apply series_binop_raise in Hm as ->; left; reflexivity
              | apply series_sum_raise in Hm as ->; left; reflexivity
              | apply series_mean_raise in Hm as ->; left; reflexivity ]
          | ]).

Section Analysis.
Context {lib : PyLib}.
Import Review.

Lemma has_column_filtered (df : DataFrame) (p : Row -> bool) (c : string) :
  has_column {| columns := columns df; data := List.filter p (data df) |} c
  = has_column df c.
Proof. reflexivity. Qed.

Lemma average_price_ok (df : DataFrame) (col : string) (a : Criteria)
    (out : list string) (v : cell) :
  (do filtered <- filter_by_price_range df "日前出清节点价格" "日期" a;
   lift (let? s := getitem filtered col in series_mean s)) = (out, Ok v) ->
  out = filter_warnings df "日期" a /\ has_column df col = true.
Proof.
  intros Hb. apply bind_ok in Hb as (o1 & filtered & o2 & Hf & Hb & ->).
  apply lift_ok in Hb as [-> Hk]. apply filter_by_price_range_rows in Hf as [-> ->].
  rewrite app_nil_r. split; [reflexivity|].
  apply bind_result_ok in Hk as (s & Hs & _). apply getitem_ok in Hs. exact Hs.
Qed.

Lemma inter_provincial_avg_price_ok (df : DataFrame) (col : string) (a : Criteria)
    (out : list string) (v : Q) :
  calculate_inter_provincial_avg_price df col a = (out, Ok v) ->
  out = filter_warnings df "日期" a /\
  Forall (fun c => has_column df c = true)
    ["省间日前出清电力"; "省间日前出清价格"; "省间实时出清电力"; "省间实时出清价格"].
Proof.
  unfold calculate_inter_provincial_avg_price. intros Hb.
  apply bind_ok in Hb as (o1 & filtered & o2 & Hf & Hb & ->).
  apply lift_ok in Hb as [-> Hk]. apply filter_by_price_range_rows in Hf as [-> ->].
  rewrite app_nil_r. split; [reflexivity|].
  apply bind_result_ok in Hk as (s1 & H1 & Hk). apply bind_result_ok in Hk as (s2 & H2 & Hk).
  apply bind_result_ok in Hk as (s3 & H3 & Hk). apply bind_result_ok in Hk as (s4 & H4 & _).
  apply getitem_ok in H1, H2, H3, H4.
  apply List.Forall_cons; [exact H1|]. apply List.Forall_cons; [exact H2|].
  apply List.Forall_cons; [exact H3|]. apply List.Forall_cons; [exact H4|].
  apply List.Forall_nil.
Qed.

Lemma medium_long_weighted_avg_price_ok (df : DataFrame) (col : string) (a : Criteria)
    (out : list string) (v : Q) :
  calculate_medium_long_weighted_avg_price df col a = (out, Ok v) ->
  out = filter_warnings df "日期" a /\
  Forall (fun c => has_column df c = true)
    ["省内中长期上网电量"; "省内中长期均价"; "省间中长期上网电量"; "省间中长期均价"].
Proof.
  unfold calculate_medium_long_weighted_avg_price. intros Hb.
  apply bind_ok in Hb as (o1 & filtered & o2 & Hf & Hb & ->).
  apply lift_ok in Hb as [-> Hk]. apply filter_by_price_range_rows in Hf as [-> ->].
  rewrite app_nil_r. split; [reflexivity|].
  apply bind_result_ok in Hk as (s1 & H1 & Hk). apply bind_result_ok in Hk as (s2 & H2 & Hk).
  apply bind_result_ok in Hk as (s3 & H3 & Hk). apply bind_result_ok in Hk as (s4 & H4 & _).
  apply getitem_ok in H1, H2, H3, H4.
  apply List.Forall_cons; [exact H1|]. apply List.Forall_cons; [exact H2|].
  apply List.Forall_cons; [exact H3|]. apply List.Forall_cons; [exact H4|].
  apply List.Forall_nil.
Qed.

(** Metrics 7, 8 and 9 print what the filter prints. *)
Lemma guarded_power_ok (df : DataFrame) (col : string) (a : Criteria)
    (k : DataFrame -> result Q) (out : list string) (v : Q) :
  (do filtered <- filter_by_price_range df col "日期" a;
   if empty filtered then ret 0%Q
   else if Qeq_bool (quarter_hours (len filtered)) 0 then ret 0%Q
        else lift (k filtered)) = (out, Ok v) ->
  out = filter_warnings df "日期" a.
Proof.
  intros Hb. apply bind_ok in Hb as (o1 & filtered & o2 & Hf & Hb & ->).
  apply filter_by_price_range_rows in Hf as [-> _].
  destruct (empty filtered); [|destruct (Qeq_bool _ 0)];
    injection Hb as <- _; rewrite app_nil_r; reflexivity.
Qed.

Lemma inter_provincial_power_ok (df : DataFrame) (col : string) (a : Criteria)
    (out : list string) (v : Q) :
  has_column df "省间日前出清电力" = true -> has_column df "省间实时出清电力" = true ->
  calculate_inter_provincial_power df col a = (out, Ok v) ->
  out = filter_warnings df "日期" a.
Proof.
  intros H1 H2. unfold calculate_inter_provincial_power. intros Hb.
  apply bind_ok in Hb as (o1 & filtered & o2 & Hf & Hb & ->).
  apply filter_by_price_range_rows in Hf as [-> ->].
  rewrite !has_column_filtered, H1, H2 in Hb. cbn [andb] in Hb.
  apply bind_ok in Hb as (o3 & total & o4 & Ht & Hb & ->).
  apply bind_ok in Ht as (o5 & t & o6 & Ht & Hr & ->).
  apply lift_ok in Ht as [-> _]. injection Hr as <- <-. injection Hb as <- _.
  rewrite !app_nil_r. reflexivity.
Qed.

Lemma filter_warnings_other (df : DataFrame) (a : Criteria) :
  ~ In "警告: 数据中没有省间电力列，无法计算省间中标电量" (filter_warnings df "日期" a).
Proof.
  unfold filter_warnings. intros Hin. apply List.in_app_iff in Hin as [Hin | Hin].
  - destruct (_ && _); [|contradiction]. destruct Hin as [Hin | []]. discriminate Hin.
  - destruct (_ && _); [|contradiction]. destruct Hin as [Hin | []]. discriminate Hin.
Qed.

(** X11.  Whenever [analyze_all_metrics] returns, the table has the
    ten columns that metrics 3, 4, 5 and 10 read, the two cross-provincial
    volumes among them: metric 6 has taken neither its fallback to
    省间中标总量 nor its warning branch.  The ten metrics ran the same
    filter, so what was printed is the warnings of
    [filter_by_price_range] ten times over and nothing else; and the
    result holds the ten keys in the order of the dict. *)
Theorem analyze_all_metrics_one_selection (df : DataFrame) (a : Criteria)
    (out : list string) (results : list (string * cell)) :
  analyze_all_metrics df a = (out, Ok results) ->
  Forall (fun c => has_column df c = true) analysis_columns /\
  out = List.concat (repeat (filter_warnings df "日期" a) 10) /\
  map fst results = metric_keys /\
  ~ In "警告: 数据中没有省间电力列，无法计算省间中标电量" out.
Proof.
  unfold analyze_all_metrics. intros Hb.
  apply bind_ok in Hb as (o1 & m1 & p1 & H1 & Hb & ->).
  apply bind_ok in Hb as (o2 & m2 & p2 & H2 & Hb & ->).
  apply bind_ok in Hb as (o3 & m3 & p3 & H3 & Hb & ->).
  apply bind_ok in Hb as (o4 & m4 & p4 & H4 & Hb & ->).
  apply bind_ok in Hb as (o5 & m5 & p5 & H5 & Hb & ->).
  apply bind_ok in Hb as (o6 & m6 & p6 & H6 & Hb & ->).
  apply bind_ok in Hb as (o7 & m7 & p7 & H7 & Hb & ->).
  apply bind_ok in Hb as (o8 & m8 & p8 & H8 & Hb & ->).
  apply bind_ok in Hb as (o9 & m9 & p9 & H9 & Hb & ->).
  apply bind_ok in Hb as (o10 & m10 & p10 & H10 & Hb & ->).
  injection Hb as <- <-.
  apply calculate_daily_forward_hours_rows in H1 as (_ & _ & -> & _).
  apply calculate_realtime_hours_rows in H2 as (-> & _).
  apply average_price_ok in H3 as (-> & Hc3).
  apply average_price_ok in H4 as (-> & Hc4).
  apply inter_provincial_avg_price_ok in H5 as (-> & Hc5).
  apply medium_long_weighted_avg_price_ok in H10 as (-> & Hc10).
  inversion Hc5 as [|? ? Ha [|? ? Hb [|? ? Hc [|? ? Hd _]]]]; subst.
  inversion Hc10 as [|? ? He [|? ? Hf [|? ? Hg [|? ? Hh _]]]]; subst.
  apply (inter_provincial_power_ok _ _ _ _ _ Ha Hc) in H6 as ->.
  apply guarded_power_ok in H7 as ->. apply guarded_power_ok in H8 as ->.
  apply guarded_power_ok in H9 as ->.
  assert (Hout : filter_warnings df "日期" a ++ filter_warnings df "日期" a
                 ++ filter_warnings df "日期" a ++ filter_warnings df "日期" a
                 ++ filter_warnings df "日期" a ++ filter_warnings df "日期" a
                 ++ filter_warnings df "日期" a ++ filter_warnings df "日期" a
                 ++ filter_warnings df "日期" a ++ filter_warnings df "日期" a ++ []
                 = List.concat (repeat (filter_warnings df "日期" a) 10)) by reflexivity.
  rewrite Hout. split; [|split; [reflexivity | split; [reflexivity|]]].
  - unfold analysis_columns.
    apply List.Forall_cons; [exact Hc3|]. apply List.Forall_cons; [exact Hc4|].
    apply List.Forall_cons; [exact Ha|]. apply List.Forall_cons; [exact Hb|].
    apply List.Forall_cons; [exact Hc|]. apply List.Forall_cons; [exact Hd|].
    apply List.Forall_cons; [exact He|]. apply List.Forall_cons; [exact Hf|].
    apply List.Forall_cons; [exact Hg|]. apply List.Forall_cons; [exact Hh|].
    apply List.Forall_nil.
  - intros Hin. apply in_concat in Hin as (w & Hw & Hin).
    apply repeat_spec in Hw. subst w. exact (filter_warnings_other df a Hin).
Qed.

Lemma filter_price_error (f : DataFrame) (col : string) (lo hi : option Q) (il ih : bool)
    (e : PyError) :
  filter_price f col lo hi il ih = Raise e ->
  e = TypeError \/ (e = KeyError col /\ has_column f col = false).
Proof.
  assert (Hw : forall op g v, where_price op g col v = Raise e ->
                              e = TypeError \/ (e = KeyError col /\ has_column g col = false)).
  { intros op g v Hw. unfold where_price in Hw.
    apply bind_result_raise in Hw as [Hw | (s & _ & Hw)].
    - right. apply getitem_raise_absent. exact Hw.
    - apply bind_result_raise in Hw as [Hw | (m & _ & Hw)]; [|discriminate].
      left. eapply compare_scalar_raise; eauto. }
  unfold filter_price. intros Hf.
  apply bind_result_raise in Hf as [Hf | (f1 & H1 & Hf)].
  - destruct lo; [destruct il; eauto | discriminate].
  - assert (Hc : has_column f1 col = has_column f col).
    { destruct lo as [m|]; [|injection H1 as <-; reflexivity].
      destruct il; apply where_price_ok in H1 as (_ & _ & ->); reflexivity. }
    rewrite <- Hc. destruct hi; [destruct ih; eauto | discriminate].
Qed.

Lemma filter_by_price_range_error (df : DataFrame) (col dcol : string) (a : Criteria)
    (out : list string) (e : PyError) :
  filter_by_price_range df col dcol a = (out, Raise e) -> analysis_error df e.
Proof.
  unfold filter_by_price_range, analysis_error. intros Hb.
  apply bind_raise in Hb as [Hb | (o1 & f1 & o2 & _ & Hb)].
  { apply lift_ok in Hb as [_ Hb]. apply filter_price_error in Hb as [-> | [-> Hc]]; eauto. }
  apply bind_raise in Hb as [Hb | (o3 & f2 & o4 & _ & Hb)].
  { unfold filter_date in Hb. destruct (has_column f1 dcol) eqn:Hcol.
    - apply bind_raise in Hb as [Hb | (o5 & dates & o6 & _ & Hb)].
      { apply lift_ok in Hb as [_ Hb].
        apply bind_result_raise in Hb as [Hb | (cs & _ & Hb)]; [|discriminate].
        unfold getitem in Hb. rewrite Hcol in Hb. discriminate. }
      apply bind_raise in Hb as [Hb | (o7 & fd & o8 & Hfd & Hb)].
      { destruct (start_date a); [|discriminate].
        apply bind_raise in Hb as [Hb | (o9 & ts & o10 & _ & Hb)]; [|discriminate].
        apply lift_ok in Hb as [_ Hb]. apply to_datetime_scalar_raise in Hb as ->. auto. }
      destruct (end_date a); [|discriminate].
      apply bind_raise in Hb as [Hb | (o9 & ts & o10 & _ & Hb)].
      { apply lift_ok in Hb as [_ Hb]. apply to_datetime_scalar_raise in Hb as ->. auto. }
      apply bind_raise in Hb as [Hb | (o11 & d & o12 & _ & Hb)]; [|discriminate].
      apply lift_ok in Hb as [_ Hb].
      apply bind_result_raise in Hb as [Hb | (cs & _ & Hb)]; [|discriminate].
      assert (Hfd' : columns (fst fd) = columns f1).
      { destruct (start_date a).
        - apply bind_ok in Hfd as (? & ? & ? & _ & Hfd & _). injection Hfd as _ <-. reflexivity.
        - injection Hfd as _ <-. reflexivity. }
      unfold getitem, has_column in Hb. rewrite Hfd' in Hb.
      fold (has_column f1 dcol) in Hb. rewrite Hcol in Hb. discriminate.
    - destruct (is_set _ || is_set _); discriminate. }
  apply bind_raise in Hb as [Hb | (o5 & f3 & o6 & _ & Hb)]; [|discriminate].
  unfold filter_unit_dimension in Hb.
  destruct (unit_dimension a); [destruct (has_column _ _)|]; discriminate.
Qed.

Lemma hours_error (df : DataFrame) (a : Criteria) (out : list string) (e : PyError) :
  calculate_daily_forward_hours df a = (out, Raise e) \/
  calculate_realtime_hours df a = (out, Raise e) ->
  analysis_error df e.
Proof.
  intros [Hb | Hb].
  - unfold calculate_daily_forward_hours in Hb.
    apply bind_raise in Hb as [Hb | (o1 & filtered & o2 & _ & Hb)]; [|discriminate].
    eapply filter_by_price_range_error; eauto.
  - unfold calculate_realtime_hours in Hb.
    apply bind_raise in Hb as [Hb | (o1 & filtered & o2 & Hf & Hb)].
    { eapply filter_by_price_range_error; eauto. }
    apply bind_raise in Hb as [Hb | (o3 & f2 & o4 & _ & Hb)]; [|discriminate].
    apply lift_ok in Hb as [_ Hb].
    pose proof (filter_by_price_range_selection _ _ _ _ _ _ Hf) as Hsel.
    destruct (has_column filtered "日内出清节点价格"); [|discriminate].
    apply filter_price_error in Hb as [-> | [-> Hc]]; [left; reflexivity|].
    rewrite (selection_of_has_column _ _ _ Hsel) in Hc. right. right. eauto.
Qed.

Lemma average_price_error (df : DataFrame) (col : string) (a : Criteria)
    (out : list string) (e : PyError) :
  (do filtered <- filter_by_price_range df "日前出清节点价格" "日期" a;
   lift (let? s := getitem filtered col in series_mean s)) = (out, Raise e) ->
  analysis_error df e.
Proof.
  intros Hb. apply bind_raise in Hb as [Hb | (o1 & filtered & o2 & Hf & Hb)].
  { eapply filter_by_price_range_error; eauto. }
  pose proof (filter_by_price_range_selection _ _ _ _ _ _ Hf) as Hsel.
  apply lift_ok in Hb as [_ Hm]. unfold analysis_error.
  body_error Hm Hsel. cbv zeta in Hm. destruct (_ =? _)%nat; discriminate.
Qed.

Lemma weighted_average_error (df : DataFrame) (col : string) (a : Criteria)
    (out : list string) (e : PyError) :
  calculate_inter_provincial_avg_price df col a = (out, Raise e) \/
  calculate_medium_long_weighted_avg_price df col a = (out, Raise e) ->
  analysis_error df e.
Proof.
  unfold calculate_inter_provincial_avg_price, calculate_medium_long_weighted_avg_price,
    analysis_error.
  intros [Hb | Hb];
    (apply bind_raise in Hb as [Hb | (o1 & filtered & o2 & Hf & Hb)];
     [eapply filter_by_price_range_error; eauto|]);
    pose proof (filter_by_price_range_selection _ _ _ _ _ _ Hf) as Hsel;
    apply lift_ok in Hb as [_ Hm]; body_error Hm Hsel;
    rewrite guarded_quotient in Hm; discriminate.
Qed.

Lemma inter_provincial_power_error (df : DataFrame) (col : string) (a : Criteria)
    (out : list string) (e : PyError) :
  calculate_inter_provincial_power df col a = (out, Raise e) -> analysis_error df e.
Proof.
  unfold calculate_inter_provincial_power, analysis_error. intros Hb.
  apply bind_raise in Hb as [Hb | (o1 & filtered & o2 & Hf & Hb)].
  { eapply filter_by_price_range_error; eauto. }
  pose proof (filter_by_price_range_selection _ _ _ _ _ _ Hf) as Hsel.
  apply bind_raise in Hb as [Hb | (o3 & total & o4 & _ & Hb)].
  - destruct (_ && _); [|destruct (has_column filtered "省间中标总量"); [|discriminate]];
      (apply bind_raise in Hb as [Hb | (o5 & t & o6 & _ & Hb)]; [|discriminate]);
      apply lift_ok in Hb as [_ Hm]; body_error Hm Hsel;
      apply series_sum_raise in Hm as ->; left; reflexivity.
  - destruct total; discriminate.
Qed.

Lemma guarded_power_error (df : DataFrame) (col : string) (a : Criteria)
    (out : list string) (e : PyError) :
  calculate_daily_forward_power df a = (out, Raise e) \/
  calculate_actual_output_power df a = (out, Raise e) \/
  calculate_medium_long_avg_power df col a = (out, Raise e) ->
  analysis_error df e.
Proof.
  unfold calculate_daily_forward_power, calculate_actual_output_power,
    calculate_medium_long_avg_power, analysis_error.
  intros [Hb | [Hb | Hb]];
    (apply bind_raise in Hb as [Hb | (o1 & filtered & o2 & Hf & Hb)];
     [eapply filter_by_price_range_error; eauto|]);
    pose proof (filter_by_price_range_selection _ _ _ _ _ _ Hf) as Hsel;
    (destruct (empty filtered); [discriminate|]);
    (destruct (Qeq_bool (quarter_hours (len filtered)) 0) eqn:Hz; [discriminate|]);
    apply lift_ok in Hb as [_ Hm]; body_error Hm Hsel;
    unfold py_div in Hm; rewrite Hz in Hm; discriminate.
Qed.

(** X12.  When [analyze_all_metrics] raises, the exception is a
    [TypeError] (a cell that is no number where a number is read), a
    [ValueError] (a start or end date that does not parse) or the
    [KeyError] of a column that the table does not have; it is never a
    [ZeroDivisionError] nor an [IndexError]. *)
Theorem analyze_all_metrics_errors (df : DataFrame) (a : Criteria)
    (out : list string) (e : PyError) :
  analyze_all_metrics df a = (out, Raise e) ->
  (e = TypeError \/ e = ValueError \/
   exists c, e = KeyError c /\ has_column df c = false)
  /\ e <> ZeroDivisionError /\ e <> IndexError.
Proof.
  intros Hb.
  assert (He : analysis_error df e).
  { unfold analyze_all_metrics in Hb.
    apply bind_raise in Hb as [Hb | (? & m1 & ? & _ & Hb)];
      [eapply hours_error; left; exact Hb|].
    apply bind_raise in Hb as [Hb | (? & m2 & ? & _ & Hb)];
      [eapply hours_error; right; exact Hb|].
    apply bind_raise in Hb as [Hb | (? & m3 & ? & _ & Hb)];
      [eapply average_price_error; exact Hb|].
    apply bind_raise in Hb as [Hb | (? & m4 & ? & _ & Hb)];
      [eapply average_price_error; exact Hb|].
    apply bind_raise in Hb as [Hb | (? & m5 & ? & _ & Hb)];
      [eapply weighted_average_error; left; exact Hb|].
    apply bind_raise in Hb as [Hb | (? & m6 & ? & _ & Hb)];
      [eapply inter_provincial_power_error; exact Hb|].
    apply bind_raise in Hb as [Hb | (? & m7 & ? & _ & Hb)];
      [eapply (guarded_power_error df "日前出清节点价格"); left; exact Hb|].
    apply bind_raise in Hb as [Hb | (? & m8 & ? & _ & Hb)];
      [eapply (guarded_power_error df "日前出清节点价格"); right; left; exact Hb|].
    apply bind_raise in Hb as [Hb | (? & m9 & ? & _ & Hb)];
      [eapply guarded_power_error; right; right; exact Hb|].
    apply bind_raise in Hb as [Hb | (? & m10 & ? & _ & Hb)];
      [eapply weighted_average_error; right; exact Hb|].
    discriminate. }
  split; [exact He|].
  destruct He as [-> | [-> | (c & -> & _)]]; split; discriminate.
Qed.

End Analysis.

Lemma analyze_all_metrics_one_selection_witness :
  Forall (fun c => has_column output_df c = true) analysis_columns /\
  [] = List.concat (repeat (filter_warnings output_df "日期" min_100) 10) /\
  map fst output_metrics = metric_keys /\
  ~ In "警告: 数据中没有省间电力列，无法计算省间中标电量" [].
Proof.
  apply (analyze_all_metrics_one_selection (lib := plain_lib) output_df min_100 []
           output_metrics).
  vm_compute. reflexivity.
Defined.

Lemma analyze_all_metrics_errors_witness :
  (KeyError "日内实际出力" = TypeError \/ KeyError "日内实际出力" = ValueError \/
   exists c, KeyError "日内实际出力" = KeyError c /\ has_column trading_df c = false)
  /\ KeyError "日内实际出力" <> ZeroDivisionError /\ KeyError "日内实际出力" <> IndexError.
Proof.
  apply (analyze_all_metrics_errors (lib := plain_lib) trading_df min_100 []).
  vm_compute. reflexivity.
Defined.


(** * The cells of the unified table *)

Lemma mem_has_column (df : DataFrame) (c : string) : mem c (columns df) = has_column df c.
Proof. reflexivity. Qed.

Lemma unified_cells_ext (r r' : Row) :
  (forall c, r' c = r c) -> unified_cells r' = unified_cells r.
Proof. intros Hext. unfold unified_cells. apply map_ext. exact Hext. Qed.

Lemma has_column_assign (df : DataFrame) (col c : string) (f : Row -> cell) :
  has_column (assign df col f) c = false ->
  has_column df c = false /\ c <> col.
Proof.
  unfold has_column, assign, add_column. cbn [columns].
  destruct (existsb (String.eqb col) (columns df)) eqn:Hcol.
  - intros Hc. split; [exact Hc|]. intros ->. congruence.
  - rewrite existsb_app. intros Hc. apply orb_false_iff in Hc as [Hc Hne].
    split; [exact Hc|]. intros ->. simpl in Hne. rewrite String.eqb_refl in Hne. discriminate.
Qed.

(** Filling in the columns that are missing changes no cell of a frame
    whose rows are null outside its columns. *)
Lemma fill_missing_cells (cols : list string) (df : DataFrame) :
  confined df ->
  map unified_cells
    (data (fold_left
             (fun df col => if has_column df col then df
                            else assign df col (fun _ => CNull)) cols df))
  = map unified_cells (data df).
Proof.
  revert df. induction cols as [|col cols IH]; intros df Hconf; [reflexivity|].
  simpl. destruct (has_column df col) eqn:Hcol; [apply IH; exact Hconf|].
  rewrite IH.
  - cbn [assign data]. rewrite List.map_map. apply map_ext_in. intros r Hr.
    apply unified_cells_ext. intros c. unfold upd.
    destruct (String.eqb_spec c col) as [->|_]; [|reflexivity].
    unfold confined in Hconf. rewrite List.Forall_forall in Hconf.
    symmetry. apply (Hconf r Hr). exact Hcol.
  - unfold confined in *. cbn [assign data]. rewrite List.Forall_map.
    eapply List.Forall_impl; [|exact Hconf]. intros r Hr c Hc.
    apply has_column_assign in Hc as [Hc Hne]. rewrite (upd_other _ _ _ _ Hne). auto.
Qed.

Lemma concat_confined (a b : DataFrame) : confined (concat a b).
Proof.
  unfold confined, concat. cbn [data]. apply Forall_app. split;
    rewrite List.Forall_map; apply List.Forall_forall; intros r _ c Hc;
    unfold has_column in Hc; cbn [columns] in Hc; rewrite existsb_app in Hc;
    apply orb_false_iff in Hc as [Ha Hb]; unfold restrict, mem.
  - rewrite Ha. reflexivity.
  - destruct (existsb (String.eqb c) (columns b)) eqn:Hin; [|reflexivity]. exfalso.
    apply existsb_exists in Hin as (x & Hx & Heq). apply String.eqb_eq in Heq. subst x.
    assert (Hf : existsb (String.eqb c)
                   (List.filter (fun c => negb (mem c (columns a))) (columns b)) = true).
    { apply existsb_exists. exists c. split; [|apply String.eqb_refl].
      apply List.filter_In. split; [exact Hx|]. unfold mem. rewrite Ha. reflexivity. }
    congruence.
Qed.

Section UnifiedCells.
Context {lib : PyLib}.
Import Boundary.

(** Up to the order of the rows, the unified table is the rows of the
    forecast join followed by the rows of the realtime join, each laid
    out on the fifteen columns. *)
Lemma merge_boundary_data_cells
    (df_load df_renewable df_disclosure df_tie_line : DataFrame)
    (online_capacity : option Q)
    (df_hydro df_actual df_tie_line_rt df_price result : DataFrame) :
  merge_boundary_data df_load df_renewable df_disclosure df_tie_line online_capacity
    df_hydro df_actual df_tie_line_rt df_price = Ok result ->
  exists da rt,
    merge_day_ahead df_load df_renewable df_disclosure df_tie_line df_hydro df_price
    = Ok da /\
    merge_real_time df_actual df_tie_line_rt df_price = Ok rt /\
    columns result = unified_columns /\
    Permutation (map unified_cells (data result))
      (map (forecast_cells (scalar_cell online_capacity)) (data da)
       ++ map realtime_cells (data rt)).
Proof.
  unfold merge_boundary_data. intros Hm.
  apply bind_result_ok in Hm as (da & Hda & Hm).
  apply bind_result_ok in Hm as (rt & Hrt & Hm).
  apply bind_result_ok in Hm as (r1 & Hr1 & Hm).
  apply bind_result_ok in Hm as (r2 & Hr2 & Hm).
  exists da, rt. split; [exact Hda|]. split; [exact Hrt|].
  apply merge_day_ahead_ok in Hda as [Hcda _].
  apply merge_real_time_ok in Hrt as Hcrt.
  apply drop_ok in Hm as [Hcols Hdata].
  apply sort_values_ok in Hr2 as [Hc2 Hperm].
  apply select_ok in Hr1 as [Hc1 Hd1].
  split.
  - rewrite Hcols, Hc2. cbn [assign columns]. rewrite Hc1. reflexivity.
  - rewrite Hdata, Hc2, List.map_map. cbn [assign columns]. rewrite Hc1.
    rewrite (map_ext _ unified_cells) by (intros r; reflexivity).
    rewrite (Permutation_map unified_cells Hperm). cbn [assign data].
    rewrite Hd1, !List.map_map.
    rewrite (map_ext _ unified_cells) by (intros r; reflexivity).
    rewrite fill_missing_cells by apply concat_confined.
    unfold concat. cbn [assign data columns]. rewrite Hcda, Hcrt.
    rewrite List.map_app, !List.map_map. reflexivity.
Qed.

End UnifiedCells.

Section EntryPoints.
Context {lib : PyLib}.
Import Boundary.

(** Both entry points normalize the nine files and merge the results. *)
Lemma entry_points_all (files : gmap string UploadedFile) (result : DataFrame) :
  preprocess_boundary_files files = (Some result, None) \/ preprocess_data files = Ok result ->
  exists df_load df_renewable df_disclosure df_tie_line online_capacity
         df_hydro df_actual df_tie_line_rt df_price,
    normalize_load (read_from files "日前统调系统负荷预测_REPORT0.xlsx") = Ok df_load /\
    normalize_renewable (read_from files "日前新能源负荷预测_REPORT0.xlsx") = Ok df_renewable /\
    normalize_disclosure (read_from files "披露信息96点数据_REPORT0.xlsx") = Ok df_disclosure /\
    normalize_tie_line (read_from files "日前联络线计划_REPORT0.xlsx") = Ok df_tie_line /\
    normalize_clearing (read_from files "日前市场出清情况_TABLE.xlsx") = Ok online_capacity /\
    normalize_hydro (read_from files "日前水电计划发电总出力预测_REPORT0.xlsx") = Ok df_hydro /\
    normalize_actual (read_from files "96点电网运行实际值_REPORT0.xlsx") = Ok df_actual /\
    normalize_tie_line (read_from files "实时联络线计划_REPORT0.xlsx") = Ok df_tie_line_rt /\
    normalize_price (read_from files "现货出清电价_REPORT0.xlsx") = Ok df_price /\
    merge_boundary_data df_load df_renewable df_disclosure df_tie_line online_capacity
      df_hydro df_actual df_tie_line_rt df_price = Ok result.
Proof.
  intros [Hp | Hp].
  - unfold preprocess_boundary_files in Hp. unfold read_from.
    repeat (next_file Hp; [ | discriminate Hp | discriminate Hp]).
    destruct (merge_boundary_data _ _ _ _ _ _ _ _ _) as [r|e] eqn:Hm;
      cbn [of_result] in Hp; [|discriminate].
    injection Hp as <-.
    do 9 eexists. repeat (split; [reflexivity|]). eassumption.
  - unfold preprocess_data in Hp.
    do 9 (apply bind_result_ok in Hp as (? & ? & Hp)).
    do 9 eexists. repeat (split; [eassumption|]). eassumption.
Qed.

(** X13.  The unified table that [preprocess_boundary_files] or
    [preprocess_data] returns has exactly the fifteen columns of the
    fixed list, in its order: the two sort columns are gone. *)
Theorem unified_table_columns (files : gmap string UploadedFile) (result : DataFrame) :
  preprocess_boundary_files files = (Some result, None) \/ preprocess_data files = Ok result ->
  columns result = unified_columns /\
  length (columns result) = 15%nat /\
  has_column result "时点_排序" = false /\ has_column result "边界数据类型_排序" = false.
Proof.
  intros Hp.
  destruct (entry_points_all _ _ Hp)
    as (t1 & t2 & t3 & t4 & capacity & t5 & t7 & t8 & t6 & _ & _ & _ & _ & _ & _ & _ & _ & _ & Hm).
  destruct (merge_boundary_data_cells _ _ _ _ _ _ _ _ _ _ Hm) as (da & rt & _ & _ & Hc & _).
  unfold has_column. rewrite Hc. repeat split.
Qed.

End EntryPoints.

Lemma unified_table_columns_witness :
  columns example_unified = Boundary.unified_columns /\
  length (columns example_unified) = 15%nat /\
  has_column example_unified "时点_排序" = false /\
  has_column example_unified "边界数据类型_排序" = false.
Proof.
  apply (unified_table_columns (lib := plain_lib) example_files).
  left. vm_compute. reflexivity.
Defined.

(** * The normalized tables *)

Lemma mapM_Forall2 {A B : Type} (f : A -> result B) (l : list A) (bs : list B) :
  mapM f l = Ok bs -> Forall2 (fun a b => f a = Ok b) l bs.
Proof.
  revert bs. induction l as [|a l IH]; simpl; intros bs Hm.
  - injection Hm as <-. constructor.
  - apply bind_result_ok in Hm as (b & Hb & Hm).
    apply bind_result_ok in Hm as (bs' & Hbs & Hm). injection Hm as <-.
    constructor; [exact Hb | apply IH; exact Hbs].
Qed.

Lemma Forall2_length_eq {A B : Type} (P : A -> B -> Prop) (l : list A) (l' : list B) :
  Forall2 P l l' -> length l = length l'.
Proof. induction 1; simpl; congruence. Qed.

Lemma assignM_rows (df df' : DataFrame) (col : string) (f : Row -> result cell) :
  assignM df col f = Ok df' ->
  columns df' = add_column (columns df) col /\
  Forall2 (fun r r' => exists v, f r = Ok v /\ r' = upd r col v) (data df) (data df').
Proof.
  unfold assignM. intros Ha. apply bind_result_ok in Ha as (rows & Hrows & Ha).
  injection Ha as <-. split; [reflexivity|]. cbn [data].
  apply mapM_Forall2 in Hrows. induction Hrows as [|r r' l l' Hr _ IH]; constructor; [|exact IH].
  apply bind_result_ok in Hr as (v & Hv & Hr). injection Hr as <-. eauto.
Qed.

Lemma assignM_len (df df' : DataFrame) (col : string) (f : Row -> result cell) :
  assignM df col f = Ok df' -> len df' = len df.
Proof.
  intros Ha. apply assignM_rows in Ha as [_ Hrows]. unfold len.
  symmetry. eapply Forall2_length_eq. exact Hrows.
Qed.

(** The column an assignment writes holds what the function returns;
    the cells of every other column stay. *)
Lemma assignM_kind (df df' : DataFrame) (col : string) (f : Row -> result cell)
    (K : cell -> Prop) :
  assignM df col f = Ok df' -> (forall r v, f r = Ok v -> K v) ->
  Forall (fun r => K (r col)) (data df').
Proof.
  intros Ha HK. apply assignM_rows in Ha as [_ Hrows].
  induction Hrows as [|r r' l l' (v & Hv & ->) _ IH]; constructor; [|exact IH].
  unfold upd. rewrite String.eqb_refl. eapply HK. exact Hv.
Qed.

Lemma assignM_keeps (df df' : DataFrame) (col col' : string) (f : Row -> result cell)
    (K : cell -> Prop) :
  assignM df col f = Ok df' -> col' <> col ->
  Forall (fun r => K (r col')) (data df) -> Forall (fun r => K (r col')) (data df').
Proof.
  intros Ha Hne HK. apply assignM_rows in Ha as [_ Hrows].
  induction Hrows as [|r r' l l' (v & Hv & ->) _ IH]; [constructor|].
  inversion HK as [|? ? Hr Hl]; subst. constructor; [|apply IH; exact Hl].
  rewrite (upd_other _ _ _ _ Hne). exact Hr.
Qed.

Section Normalized.
Context {lib : PyLib}.
Import Boundary.

Lemma to_date_kind (c v : cell) : to_date c = Ok v -> date_cell v.
Proof.
  unfold to_date. destruct (to_datetime c) as [[t|]|e]; cbn [bind_result];
    [intros [= <-]; exact I | intros [= <-]; exact I | discriminate].
Qed.

Lemma astype_str_kind (c v : cell) : astype_str c = Ok v -> text_cell v.
Proof. unfold astype_str. intros [= <-]. exact I. Qed.

Lemma to_numeric_kind (c v : cell) : to_numeric c = Ok v -> numeric v.
Proof.
  unfold to_numeric. intros [= <-]. destruct c; try exact I;
    destruct (coerce_numeric _); exact I.
Qed.

Lemma assign_iloc_inv (df df' : DataFrame) (col : string) (k : nat)
    (f : cell -> result cell) :
  assign_iloc df col k f = Ok df' ->
  exists src, nth_error (columns df) k = Some src /\
              assignM df col (fun r => f (r src)) = Ok df'.
Proof.
  unfold assign_iloc, column_at. destruct (nth_error (columns df) k) as [src|];
    [|discriminate]. cbn [bind_result]. eauto.
Qed.

Lemma assign_from_inv (df df' : DataFrame) (col src : string) (f : cell -> result cell) :
  assign_from df col src f = Ok df' ->
  has_column df src = true /\ assignM df col (fun r => f (r src)) = Ok df'.
Proof. unfold assign_from. destruct (has_column df src); [auto | discriminate]. Qed.

End Normalized.

(** One assignment of a normalization: the kind of the column it writes
    is recorded, the kinds recorded so far are kept, and so is the
    number of rows. *)
Ltac assigned H kind_lemma :=
  let src := fresh "src" in
  let Hsrc := fresh "Hsrc" in
  let Hkind := fresh "Hkind" in
  let Hlen := fresh "Hlen" in
  first [ apply assign_iloc_inv in H as (src & Hsrc & H)
        | apply assign_from_inv in H as (Hsrc & H) ];
  pose proof (assignM_kind _ _ _ _ _ H (fun r v => kind_lemma (r _) v)) as Hkind;
  pose proof (assignM_len _ _ _ _ H) as Hlen;
  repeat match goal with
         | Hprev : Forall (fun r => ?K (r ?c)) (data ?df) |- _ =>
             lazymatch type of H with
             | assignM df _ _ = _ =>
                 apply (assignM_keeps _ _ _ c _ K H ltac:(discriminate)) in Hprev
             end
         end.

Section NormalizedTables.
Context {lib : PyLib}.
Import Boundary.

Lemma normalize_load_ok (df t : DataFrame) :
  normalize_load (Ok df) = Ok t ->
  normalized ["省调负荷(MW)"] t /\ len t = Nat.pred (len df).
Proof.
  unfold normalize_load, read_excel. cbn [bind_result]. intros Hn.
  apply bind_result_ok in Hn as (d1 & H1 & Hn).
  apply bind_result_ok in Hn as (d2 & H2 & Hn).
  assigned H1 to_date_kind. assigned H2 astype_str_kind. assigned Hn to_numeric_kind.
  split.
  - unfold normalized. rewrite List.Forall_forall in *. intros r Hr.
    split; [auto|]. split; [auto|].
    repeat (apply List.Forall_cons; [auto|]). apply List.Forall_nil.
  - unfold len in *. cbn [iloc_from1 data] in *. destruct (data df); simpl in *; lia.
Qed.

Lemma normalize_renewable_ok (df t : DataFrame) :
  normalize_renewable (Ok df) = Ok t ->
  normalized ["风电(MW)"; "光伏(MW)"; "新能源负荷(MW)"] t /\ len t = Nat.pred (len df).
Proof.
  unfold normalize_renewable, read_excel. cbn [bind_result]. intros Hn.
  apply bind_result_ok in Hn as (d1 & H1 & Hn).
  apply bind_result_ok in Hn as (d2 & H2 & Hn).
  apply bind_result_ok in Hn as (d3 & H3 & Hn).
  apply bind_result_ok in Hn as (d4 & H4 & Hn).
  assigned H1 to_date_kind. assigned H2 astype_str_kind. assigned H3 to_numeric_kind.
  assigned H4 to_numeric_kind. assigned Hn to_numeric_kind.
  split.
  - unfold normalized. rewrite List.Forall_forall in *. intros r Hr.
    split; [auto|]. split; [auto|].
    repeat (apply List.Forall_cons; [auto|]). apply List.Forall_nil.
  - unfold len in *. cbn [iloc_from1 data] in *. destruct (data df); simpl in *; lia.
Qed.

Lemma normalize_disclosure_ok (df t : DataFrame) :
  normalize_disclosure (Ok df) = Ok t ->
  normalized ["非市场化出力(MW)"] t /\ len t = Nat.pred (len df).
Proof.
  unfold normalize_disclosure, read_excel. cbn [bind_result]. intros Hn.
  apply bind_result_ok in Hn as (d1 & H1 & Hn).
  apply bind_result_ok in Hn as (d2 & H2 & Hn).
  assigned H1 to_date_kind. assigned H2 astype_str_kind. assigned Hn to_numeric_kind.
  split.
  - unfold normalized. rewrite List.Forall_forall in *. intros r Hr.
    split; [auto|]. split; [auto|].
    repeat (apply List.Forall_cons; [auto|]). apply List.Forall_nil.
  - unfold len in *. cbn [iloc_from1 data] in *. destruct (data df); simpl in *; lia.
Qed.

Lemma normalize_hydro_ok (df t : DataFrame) :
  normalize_hydro (Ok df) = Ok t ->
  normalized ["水电出力(MW)"] t /\ len t = Nat.pred (len df).
Proof.
  unfold normalize_hydro, read_excel. cbn [bind_result]. intros Hn.
  apply bind_result_ok in Hn as (d1 & H1 & Hn).
  apply bind_result_ok in Hn as (d2 & H2 & Hn).
  assigned H1 to_date_kind. assigned H2 astype_str_kind. assigned Hn to_numeric_kind.
  split.
  - unfold normalized. rewrite List.Forall_forall in *. intros r Hr.
    split; [auto|]. split; [auto|].
    repeat (apply List.Forall_cons; [auto|]). apply List.Forall_nil.
  - unfold len in *. cbn [iloc_from1 data] in *. destruct (data df); simpl in *; lia.
Qed.

Lemma normalize_actual_ok (df t : DataFrame) :
  normalize_actual (Ok df) = Ok t ->
  normalized ["省调负荷(MW)"; "风电(MW)"; "光伏(MW)"; "新能源负荷(MW)"; "水电出力(MW)";
              "非市场化出力(MW)"] t
  /\ len t = Nat.pred (len df).
Proof.
  unfold normalize_actual, read_excel. cbn [bind_result]. intros Hn.
  apply bind_result_ok in Hn as (d1 & H1 & Hn).
  apply bind_result_ok in Hn as (d2 & H2 & Hn).
  apply bind_result_ok in Hn as (d3 & H3 & Hn).
  apply bind_result_ok in Hn as (d4 & H4 & Hn).
  apply bind_result_ok in Hn as (d5 & H5 & Hn).
  apply bind_result_ok in Hn as (d6 & H6 & Hn).
  apply bind_result_ok in Hn as (d7 & H7 & Hn).
  assigned H1 to_date_kind. assigned H2 astype_str_kind. assigned H3 to_numeric_kind.
  assigned H4 to_numeric_kind. assigned H5 to_numeric_kind. assigned H6 to_numeric_kind.
  assigned H7 to_numeric_kind. assigned Hn to_numeric_kind.
  split.
  - unfold normalized. rewrite List.Forall_forall in *. intros r Hr.
    split; [auto|]. split; [auto|].
    repeat (apply List.Forall_cons; [auto|]). apply List.Forall_nil.
  - unfold len in *. cbn [iloc_from1 data] in *. destruct (data df); simpl in *; lia.
Qed.

Lemma normalize_tie_line_ok (df t : DataFrame) :
  normalize_tie_line (Ok df) = Ok t ->
  normalized ["联络线计划(MW)"] t /\
  exists label, nth_error (columns df) 1 = Some label /\
                len t = length (List.filter (fun r => eq_text "总加" (r label))
                                  (tl (data df))).
Proof.
  unfold normalize_tie_line, read_excel. cbn [bind_result]. intros Hn.
  apply bind_result_ok in Hn as (d0 & H0 & Hn).
  apply bind_result_ok in Hn as (d1 & H1 & Hn).
  apply bind_result_ok in Hn as (d2 & H2 & Hn).
  assigned H1 to_date_kind. assigned H2 astype_str_kind. assigned Hn to_numeric_kind.
  split.
  - unfold normalized. rewrite List.Forall_forall in *. intros r Hr.
    split; [auto|]. split; [auto|].
    repeat (apply List.Forall_cons; [auto|]). apply List.Forall_nil.
  - unfold only_total, column_at in H0.
    change (columns (iloc_from1 df)) with (columns df) in H0.
    destruct (nth_error (columns df) 1) as [label|]; [|discriminate].
    cbn [bind_result] in H0. injection H0 as <-. exists label. split; [reflexivity|].
    unfold len, mask_rows in Hlen. cbn [data iloc_from1] in Hlen.
    rewrite filter_mask in Hlen. unfold len in *. lia.
Qed.

Lemma normalize_price_ok (df t : DataFrame) :
  normalize_price (Ok df) = Ok t ->
  normalized ["实时出清价格(元/MWh)"; "日前出清价格(元/MWh)"] t /\
  len t = length (List.filter (fun r => numbered (r "序号")) (data df)).
Proof.
  unfold normalize_price, read_excel. cbn [bind_result]. intros Hn.
  apply bind_result_ok in Hn as (seq & Hseq & Hn).
  apply bind_result_ok in Hn as (numbers & Hnum & Hn).
  apply bind_result_ok in Hn as (d1 & H1 & Hn).
  apply bind_result_ok in Hn as (d2 & H2 & Hn).
  apply bind_result_ok in Hn as (d3 & H3 & Hn).
  assigned H1 to_date_kind. assigned H2 astype_str_kind. assigned H3 to_numeric_kind.
  assigned Hn to_numeric_kind.
  split.
  - unfold normalized. rewrite List.Forall_forall in *. intros r Hr.
    split; [auto|]. split; [auto|].
    repeat (apply List.Forall_cons; [auto|]). apply List.Forall_nil.
  - unfold getitem in Hseq. destruct (has_column df "序号"); [|discriminate].
    injection Hseq as <-.
    rewrite (mapM_ok to_numeric
               (fun c => match c with
                         | CNum x => CNum x
                         | CNull => CNull
                         | _ => match coerce_numeric c with
                                | Some x => CNum x
                                | None => CNull
                                end
                         end) _ _ ltac:(intros c v [= <-]; reflexivity) Hnum) in *.
    rewrite !List.map_map in *.
    rewrite (mask_rows_map df) in *. unfold len in *. cbn [data] in *.
    rewrite Hlen2, Hlen1, Hlen0, Hlen. f_equal. apply List.filter_ext. intros r.
    unfold numbered. destruct (r "序号"); try reflexivity;
      destruct (coerce_numeric _); reflexivity.
Qed.

End NormalizedTables.

(** * The rows of the normalized tables *)

Lemma Forall2_same {A : Type} (P : A -> A -> Prop) (l : list A) :
  (forall a, P a a) -> Forall2 P l l.
Proof. intros HP. induction l; constructor; auto. Qed.

Lemma Forall2_compose {A B C : Type} (P : A -> B -> Prop) (Q : B -> C -> Prop)
    (R : A -> C -> Prop) (l1 : list A) (l2 : list B) (l3 : list C) :
  (forall a b c, P a b -> Q b c -> R a c) ->
  Forall2 P l1 l2 -> Forall2 Q l2 l3 -> Forall2 R l1 l3.
Proof.
  intros HR H12. revert l3. induction H12 as [|a b l1 l2 Hab _ IH]; intros l3 H23.
  - inversion H23. constructor.
  - inversion H23 as [|b' c l2' l3' Hbc Hrest]; subst. constructor; eauto.
Qed.

Lemma sources_kept_weaken (written written' : list string) (plan : list Assignment) :
  (forall c, In c written' -> In c written) ->
  sources_kept written plan -> sources_kept written' plan.
Proof.
  revert written written'. induction plan as [|m plan IH]; intros w w' Hsub; [auto|].
  cbn [sources_kept]. intros [Hm Hrest]. split; [auto|].
  apply (IH (target m :: w)); [|exact Hrest].
  intros c [-> | Hc]; [left; reflexivity | right; auto].
Qed.

Lemma sources_kept_not_written (written : list string) (plan : list Assignment) :
  sources_kept written plan ->
  Forall (fun m => ~ In (source m) written) plan.
Proof.
  revert written. induction plan as [|m plan IH]; intros w; [constructor|].
  cbn [sources_kept]. intros [Hm Hrest]. constructor; [exact Hm|].
  apply IH. apply (sources_kept_weaken (target m :: w)); [|exact Hrest].
  intros c Hc. right. exact Hc.
Qed.

(** Assignments that read no column written before them: every row
    bears the converted cells of the row it comes from. *)
Lemma assign_all_converted (plan : list Assignment) (df t : DataFrame)
    (written : list string) :
  List.NoDup (map target plan) -> sources_kept written plan ->
  assign_all df plan = Ok t ->
  Forall2 (converted plan) (data df) (data t).
Proof.
  revert df written. induction plan as [|m plan IH]; intros df written Hnodup Hkept Ha.
  - injection Ha as <-. apply Forall2_same. intros r. split; [constructor | reflexivity].
  - cbn [assign_all] in Ha. apply bind_result_ok in Ha as (d1 & H1 & Ha).
    apply assignM_rows in H1 as [_ H1].
    cbn [map] in Hnodup. apply List.NoDup_cons_iff in Hnodup as [Hfresh Hnodup].
    cbn [sources_kept] in Hkept. destruct Hkept as [_ Hkept].
    pose proof (sources_kept_not_written _ _ Hkept) as Hsrc.
    specialize (IH d1 (target m :: written) Hnodup Hkept Ha).
    refine (Forall2_compose _ _ _ _ _ _ _ H1 IH).
    intros r r1 r' (v & Hv & ->) [Hconv Hrest]. split.
    + constructor.
      * rewrite (Hrest (target m) Hfresh). unfold upd. rewrite String.eqb_refl. exact Hv.
      * rewrite List.Forall_forall in *. intros m' Hm'.
        rewrite <- (Hconv m' Hm'). f_equal. symmetry. apply upd_other.
        intros Heq. apply (Hsrc m' Hm'). left. symmetry. exact Heq.
    + intros c Hc. cbn [map In] in Hc. rewrite Hrest by tauto.
      apply upd_other. intros ->. apply Hc. left. reflexivity.
Qed.

Lemma nth_error_add_column (cols : list string) (col src : string) (k : nat) :
  nth_error cols k = Some src -> nth_error (add_column cols col) k = Some src.
Proof.
  intros Hk. unfold add_column. destruct (existsb _ _); [exact Hk|].
  rewrite nth_error_app1; [exact Hk|]. apply nth_error_Some. congruence.
Qed.

(** Assignments by position are assignments by name, for the names
    that the positions have in the sheet. *)
Lemma assign_positions_named (steps : list (string * nat * (cell -> result cell)))
    (srcs : list string) (df : DataFrame) :
  Forall2 (fun step src => nth_error (columns df) (snd (fst step)) = Some src) steps srcs ->
  assign_positions df steps
  = assign_all df (map (fun p => (fst (fst (fst p)), snd p, snd (fst p))) (combine steps srcs)).
Proof.
  intros Hsrcs. revert df Hsrcs. revert srcs.
  induction steps as [|[[col k] f] steps IH]; intros srcs df Hsrcs.
  - reflexivity.
  - inversion Hsrcs as [|? src ? srcs' Hk Hrest]; subst. cbn [fst snd] in Hk.
    cbn [assign_positions combine map assign_all target source conversion fst snd].
    unfold assign_iloc, column_at. rewrite Hk. cbn [bind_result].
    destruct (assignM df col _) as [d1|e] eqn:H1; cbn [bind_result]; [|reflexivity].
    apply IH. apply assignM_rows in H1 as [Hcols _].
    eapply List.Forall2_impl; [|exact Hrest]. intros step src' Hstep. cbv beta in *.
    rewrite Hcols. apply nth_error_add_column. exact Hstep.
Qed.

Lemma assign_names_all (plan : list Assignment) (df t : DataFrame) :
  assign_names df plan = Ok t -> assign_all df plan = Ok t.
Proof.
  revert df. induction plan as [|m plan IH]; intros df Ha; [exact Ha|].
  cbn [assign_names] in Ha. apply bind_result_ok in Ha as (d1 & H1 & Ha).
  apply assign_from_inv in H1 as [_ H1]. cbn [assign_all]. rewrite H1. cbn [bind_result].
  apply IH. exact Ha.
Qed.

(** A normalization written as assignments by position. *)
Ltac as_positions :=
  cbn [bind_result assign_positions];
  repeat match goal with
         | |- context [assign_iloc ?d ?c ?k ?f] =>
             destruct (assign_iloc d c k f); cbn [bind_result]; [|reflexivity]
         end;
  reflexivity.

Ltac distinct_targets :=
  cbn [map target fst snd];
  repeat (apply List.NoDup_cons; [cbn [In]; intuition discriminate|]);
  apply List.NoDup_nil.

Section NormalizedRows.
Context {lib : PyLib}.
Import Boundary.

Lemma normalize_load_rows (df t : DataFrame) (c1 c2 c3 : string) :
  normalize_load (Ok df) = Ok t ->
  nth_error (columns df) 1 = Some c1 -> nth_error (columns df) 2 = Some c2 ->
  nth_error (columns df) 3 = Some c3 ->
  sources_kept [] [("日期", c1, to_date); ("时点", c2, astype_str);
                   ("省调负荷(MW)", c3, to_numeric)] ->
  Forall2 (converted [("日期", c1, to_date); ("时点", c2, astype_str);
                      ("省调负荷(MW)", c3, to_numeric)])
    (tl (data df)) (data t).
Proof.
  intros Hn H1 H2 H3 Hkept.
  assert (Hpos : normalize_load (Ok df)
                 = assign_positions (iloc_from1 df)
                     [("日期", 1%nat, to_date); ("时点", 2%nat, astype_str);
                      ("省调负荷(MW)", 3%nat, to_numeric)])
    by (unfold normalize_load, read_excel; as_positions).
  rewrite Hpos, (assign_positions_named _ [c1; c2; c3]) in Hn.
  - cbn [combine map fst snd] in Hn.
    refine (assign_all_converted _ _ _ [] _ Hkept Hn). distinct_targets.
  - constructor; [exact H1|]. constructor; [exact H2|].
    constructor; [exact H3|]. constructor.
Qed.

Lemma normalize_renewable_rows (df t : DataFrame) (c1 c2 c3 c4 c5 : string) :
  normalize_renewable (Ok df) = Ok t ->
  nth_error (columns df) 1 = Some c1 -> nth_error (columns df) 2 = Some c2 ->
  nth_error (columns df) 3 = Some c3 -> nth_error (columns df) 4 = Some c4 ->
  nth_error (columns df) 5 = Some c5 ->
  sources_kept [] [("日期", c1, to_date); ("时点", c2, astype_str);
                   ("风电(MW)", c4, to_numeric); ("光伏(MW)", c5, to_numeric);
                   ("新能源负荷(MW)", c3, to_numeric)] ->
  Forall2 (converted [("日期", c1, to_date); ("时点", c2, astype_str);
                      ("风电(MW)", c4, to_numeric); ("光伏(MW)", c5, to_numeric);
                      ("新能源负荷(MW)", c3, to_numeric)])
    (tl (data df)) (data t).
Proof.
  intros Hn H1 H2 H3 H4 H5 Hkept.
  assert (Hpos : normalize_renewable (Ok df)
                 = assign_positions (iloc_from1 df)
                     [("日期", 1%nat, to_date); ("时点", 2%nat, astype_str);
                      ("风电(MW)", 4%nat, to_numeric); ("光伏(MW)", 5%nat, to_numeric);
                      ("新能源负荷(MW)", 3%nat, to_numeric)])
    by (unfold normalize_renewable, read_excel; as_positions).
  rewrite Hpos, (assign_positions_named _ [c1; c2; c4; c5; c3]) in Hn.
  - cbn [combine map fst snd] in Hn.
    refine (assign_all_converted _ _ _ [] _ Hkept Hn). distinct_targets.
  - constructor; [exact H1|]. constructor; [exact H2|].
    constructor; [exact H4|]. constructor; [exact H5|].
    constructor; [exact H3|]. constructor.
Qed.

Lemma normalize_disclosure_rows (df t : DataFrame) (c1 c2 c3 : string) :
  normalize_disclosure (Ok df) = Ok t ->
  nth_error (columns df) 1 = Some c1 -> nth_error (columns df) 2 = Some c2 ->
  nth_error (columns df) 3 = Some c3 ->
  sources_kept [] [("日期", c1, to_date); ("时点", c2, astype_str);
                   ("非市场化出力(MW)", c3, to_numeric)] ->
  Forall2 (converted [("日期", c1, to_date); ("时点", c2, astype_str);
                      ("非市场化出力(MW)", c3, to_numeric)])
    (tl (data df)) (data t).
Proof.
  intros Hn H1 H2 H3 Hkept.
  assert (Hpos : normalize_disclosure (Ok df)
                 = assign_positions (iloc_from1 df)
                     [("日期", 1%nat, to_date); ("时点", 2%nat, astype_str);
                      ("非市场化出力(MW)", 3%nat, to_numeric)])
    by (unfold normalize_disclosure, read_excel; as_positions).
  rewrite Hpos, (assign_positions_named _ [c1; c2; c3]) in Hn.
  - cbn [combine map fst snd] in Hn.
    refine (assign_all_converted _ _ _ [] _ Hkept Hn). distinct_targets.
  - constructor; [exact H1|]. constructor; [exact H2|].
    constructor; [exact H3|]. constructor.
Qed.

Lemma normalize_hydro_rows (df t : DataFrame) (c1 c2 c3 : string) :
  normalize_hydro (Ok df) = Ok t ->
  nth_error (columns df) 1 = Some c1 -> nth_error (columns df) 2 = Some c2 ->
  nth_error (columns df) 3 = Some c3 ->
  sources_kept [] [("日期", c1, to_date); ("时点", c2, astype_str);
                   ("水电出力(MW)", c3, to_numeric)] ->
  Forall2 (converted [("日期", c1, to_date); ("时点", c2, astype_str);
                      ("水电出力(MW)", c3, to_numeric)])
    (tl (data df)) (data t).
Proof.
  intros Hn H1 H2 H3 Hkept.
  assert (Hpos : normalize_hydro (Ok df)
                 = assign_positions (iloc_from1 df)
                     [("日期", 1%nat, to_date); ("时点", 2%nat, astype_str);
                      ("水电出力(MW)", 3%nat, to_numeric)])
    by (unfold normalize_hydro, read_excel; as_positions).
  rewrite Hpos, (assign_positions_named _ [c1; c2; c3]) in Hn.
  - cbn [combine map fst snd] in Hn.
    refine (assign_all_converted _ _ _ [] _ Hkept Hn). distinct_targets.
  - constructor; [exact H1|]. constructor; [exact H2|].
    constructor; [exact H3|]. constructor.
Qed.

Lemma normalize_actual_rows (df t : DataFrame) (c1 c2 c3 c5 c6 c7 c8 c11 : string) :
  normalize_actual (Ok df) = Ok t ->
  nth_error (columns df) 1 = Some c1 -> nth_error (columns df) 2 = Some c2 ->
  nth_error (columns df) 3 = Some c3 -> nth_error (columns df) 5 = Some c5 ->
  nth_error (columns df) 6 = Some c6 -> nth_error (columns df) 7 = Some c7 ->
  nth_error (columns df) 8 = Some c8 -> nth_error (columns df) 11 = Some c11 ->
  sources_kept [] [("日期", c1, to_date); ("时点", c2, astype_str);
                   ("省调负荷(MW)", c3, to_numeric); ("风电(MW)", c5, to_numeric);
                   ("光伏(MW)", c6, to_numeric); ("新能源负荷(MW)", c7, to_numeric);
                   ("水电出力(MW)", c8, to_numeric); ("非市场化出力(MW)", c11, to_numeric)] ->
  Forall2 (converted [("日期", c1, to_date); ("时点", c2, astype_str);
                      ("省调负荷(MW)", c3, to_numeric); ("风电(MW)", c5, to_numeric);
                      ("光伏(MW)", c6, to_numeric); ("新能源负荷(MW)", c7, to_numeric);
                      ("水电出力(MW)", c8, to_numeric);
                      ("非市场化出力(MW)", c11, to_numeric)])
    (tl (data df)) (data t).
Proof.
  intros Hn H1 H2 H3 H5 H6 H7 H8 H11 Hkept.
  assert (Hpos : normalize_actual (Ok df)
                 = assign_positions (iloc_from1 df)
                     [("日期", 1%nat, to_date); ("时点", 2%nat, astype_str);
                      ("省调负荷(MW)", 3%nat, to_numeric); ("风电(MW)", 5%nat, to_numeric);
                      ("光伏(MW)", 6%nat, to_numeric); ("新能源负荷(MW)", 7%nat, to_numeric);
                      ("水电出力(MW)", 8%nat, to_numeric);
                      ("非市场化出力(MW)", 11%nat, to_numeric)])
    by (unfold normalize_actual, read_excel; as_positions).
  rewrite Hpos, (assign_positions_named _ [c1; c2; c3; c5; c6; c7; c8; c11]) in Hn.
  - cbn [combine map fst snd] in Hn.
    refine (assign_all_converted _ _ _ [] _ Hkept Hn). distinct_targets.
  - constructor; [exact H1|]. constructor; [exact H2|].
    constructor; [exact H3|]. constructor; [exact H5|].
    constructor; [exact H6|]. constructor; [exact H7|].
    constructor; [exact H8|]. constructor; [exact H11|]. constructor.
Qed.

Lemma normalize_tie_line_rows (df t : DataFrame) (label c2 c3 c4 : string) :
  normalize_tie_line (Ok df) = Ok t ->
  nth_error (columns df) 1 = Some label ->
  nth_error (columns df) 2 = Some c2 -> nth_error (columns df) 3 = Some c3 ->
  nth_error (columns df) 4 = Some c4 ->
  sources_kept [] [("日期", c2, to_date); ("时点", c3, astype_str);
                   ("联络线计划(MW)", c4, to_numeric)] ->
  Forall2 (converted [("日期", c2, to_date); ("时点", c3, astype_str);
                      ("联络线计划(MW)", c4, to_numeric)])
    (List.filter (fun r => eq_text "总加" (r label)) (tl (data df))) (data t).
Proof.
  intros Hn Hlabel H2 H3 H4 Hkept.
  assert (Hpos : normalize_tie_line (Ok df)
                 = assign_positions
                     {| columns := columns df;
                        data := List.filter (fun r => eq_text "总加" (r label))
                                  (tl (data df)) |}
                     [("日期", 2%nat, to_date); ("时点", 3%nat, astype_str);
                      ("联络线计划(MW)", 4%nat, to_numeric)]).
  { unfold normalize_tie_line, read_excel, only_total, column_at.
    cbn [bind_result iloc_from1 columns]. rewrite Hlabel. cbn [bind_result].
    rewrite (mask_rows_map (iloc_from1 df) (fun r => eq_text "总加" (r label))).
    cbn [iloc_from1 columns data]. as_positions. }
  rewrite Hpos, (assign_positions_named _ [c2; c3; c4]) in Hn.
  - cbn [combine map fst snd] in Hn.
    refine (assign_all_converted _ _ _ [] _ Hkept Hn). distinct_targets.
  - constructor; [exact H2|]. constructor; [exact H3|].
    constructor; [exact H4|]. constructor.
Qed.

Lemma normalize_price_rows (df t : DataFrame) :
  normalize_price (Ok df) = Ok t ->
  Forall2 (converted [("日期", "日期", to_date); ("时点", "时点", astype_str);
                      ("实时出清价格(元/MWh)", "实时出清价格(元/MWh)", to_numeric);
                      ("日前出清价格(元/MWh)", "日前出清价格(元/MWh)", to_numeric)])
    (List.filter (fun r => numbered (r "序号")) (data df)) (data t).
Proof.
  unfold normalize_price, read_excel. cbn [bind_result]. intros Hn.
  apply bind_result_ok in Hn as (seq & Hseq & Hn).
  apply bind_result_ok in Hn as (nums & Hnum & Hn).
  unfold getitem in Hseq. destruct (has_column df "序号"); [|discriminate].
  injection Hseq as <-.
  rewrite (mapM_ok to_numeric
             (fun c => match c with
                       | CNum x => CNum x
                       | CNull => CNull
                       | _ => match coerce_numeric c with
                              | Some x => CNum x
                              | None => CNull
                              end
                       end) _ _ ltac:(intros c v [= <-]; reflexivity) Hnum) in Hn.
  rewrite !List.map_map in Hn. rewrite (mask_rows_map df) in Hn.
  assert (Hrows : List.filter
                    (fun r => negb (isna match r "序号" with
                                         | CNum x => CNum x
                                         | CNull => CNull
                                         | _ => match coerce_numeric (r "序号") with
                                                | Some x => CNum x
                                                | None => CNull
                                                end
                                         end)) (data df)
                  = List.filter (fun r => numbered (r "序号")) (data df)).
  { apply List.filter_ext. intros r. unfold numbered.
    destruct (r "序号"); try reflexivity; destruct (coerce_numeric _); reflexivity. }
  rewrite Hrows in Hn.
  assert (Hall : assign_names
                   {| columns := columns df;
                      data := List.filter (fun r => numbered (r "序号")) (data df) |}
                   [("日期", "日期", to_date); ("时点", "时点", astype_str);
                    ("实时出清价格(元/MWh)", "实时出清价格(元/MWh)", to_numeric);
                    ("日前出清价格(元/MWh)", "日前出清价格(元/MWh)", to_numeric)]
                 = Ok t).
  { cbn [assign_names target source conversion fst snd].
    repeat match goal with
           | H : context [assign_from ?d ?c ?src ?f] |- context [assign_from ?d ?c ?src ?f] =>
               destruct (assign_from d c src f); cbn [bind_result] in H |- *;
               [|discriminate H]
           end.
    exact Hn. }
  apply assign_names_all in Hall.
  refine (assign_all_converted _ _ _ [] _ _ Hall); [distinct_targets|].
  cbn [sources_kept target source fst snd In]. intuition discriminate.
Qed.

End NormalizedRows.

(** X14.  What the seven normalizations return for a sheet.  On every
    row there is a date or a null under 日期, a text under 时点, and a
    number or a null under each value column.  The rows are, in the
    order of the sheet, every sheet row but the first (the units row)
    for the five plain sources, those among them whose second cell is
    the text 总加 for a tie-line plan, and the rows whose 序号 is a
    number for the price sheet.  Provided no column is read by position
    after another assignment has written it, each row bears under each
    column written the converted cell that its sheet row has at the
    position read, and the cells of its sheet row under every other
    column: 日期 is the date of the second column (the third of a
    tie-line plan), 时点 the text of the next one, and each value column
    the number at the position the code gives it, wind from the fifth
    and solar from the sixth column of the renewable forecast; the
    columns of the price sheet are converted in place. *)
Theorem normalized_tables {lib : PyLib} (df t : DataFrame) :
  (Boundary.normalize_load (Ok df) = Ok t ->
   normalized ["省调负荷(MW)"] t /\ len t = Nat.pred (len df) /\
   forall c1 c2 c3,
     nth_error (columns df) 1 = Some c1 -> nth_error (columns df) 2 = Some c2 ->
     nth_error (columns df) 3 = Some c3 ->
     let plan := [("日期", c1, Boundary.to_date); ("时点", c2, Boundary.astype_str);
                  ("省调负荷(MW)", c3, Boundary.to_numeric)] in
     sources_kept [] plan -> Forall2 (converted plan) (tl (data df)) (data t))
  /\
  (Boundary.normalize_renewable (Ok df) = Ok t ->
   normalized ["风电(MW)"; "光伏(MW)"; "新能源负荷(MW)"] t /\ len t = Nat.pred (len df) /\
   forall c1 c2 c3 c4 c5,
     nth_error (columns df) 1 = Some c1 -> nth_error (columns df) 2 = Some c2 ->
     nth_error (columns df) 3 = Some c3 -> nth_error (columns df) 4 = Some c4 ->
     nth_error (columns df) 5 = Some c5 ->
     let plan := [("日期", c1, Boundary.to_date); ("时点", c2, Boundary.astype_str);
                  ("风电(MW)", c4, Boundary.to_numeric);
                  ("光伏(MW)", c5, Boundary.to_numeric);
                  ("新能源负荷(MW)", c3, Boundary.to_numeric)] in
     sources_kept [] plan -> Forall2 (converted plan) (tl (data df)) (data t))
  /\
  (Boundary.normalize_disclosure (Ok df) = Ok t ->
   normalized ["非市场化出力(MW)"] t /\ len t = Nat.pred (len df) /\
   forall c1 c2 c3,
     nth_error (columns df) 1 = Some c1 -> nth_error (columns df) 2 = Some c2 ->
     nth_error (columns df) 3 = Some c3 ->
     let plan := [("日期", c1, Boundary.to_date); ("时点", c2, Boundary.astype_str);
                  ("非市场化出力(MW)", c3, Boundary.to_numeric)] in
     sources_kept [] plan -> Forall2 (converted plan) (tl (data df)) (data t))
  /\
  (Boundary.normalize_hydro (Ok df) = Ok t ->
   normalized ["水电出力(MW)"] t /\ len t = Nat.pred (len df) /\
   forall c1 c2 c3,
     nth_error (columns df) 1 = Some c1 -> nth_error (columns df) 2 = Some c2 ->
     nth_error (columns df) 3 = Some c3 ->
     let plan := [("日期", c1, Boundary.to_date); ("时点", c2, Boundary.astype_str);
                  ("水电出力(MW)", c3, Boundary.to_numeric)] in
     sources_kept [] plan -> Forall2 (converted plan) (tl (data df)) (data t))
  /\
  (Boundary.normalize_actual (Ok df) = Ok t ->
   normalized ["省调负荷(MW)"; "风电(MW)"; "光伏(MW)"; "新能源负荷(MW)"; "水电出力(MW)";
               "非市场化出力(MW)"] t
   /\ len t = Nat.pred (len df) /\
   forall c1 c2 c3 c5 c6 c7 c8 c11,
     nth_error (columns df) 1 = Some c1 -> nth_error (columns df) 2 = Some c2 ->
     nth_error (columns df) 3 = Some c3 -> nth_error (columns df) 5 = Some c5 ->
     nth_error (columns df) 6 = Some c6 -> nth_error (columns df) 7 = Some c7 ->
     nth_error (columns df) 8 = Some c8 -> nth_error (columns df) 11 = Some c11 ->
     let plan := [("日期", c1, Boundary.to_date); ("时点", c2, Boundary.astype_str);
                  ("省调负荷(MW)", c3, Boundary.to_numeric);
                  ("风电(MW)", c5, Boundary.to_numeric);
                  ("光伏(MW)", c6, Boundary.to_numeric);
                  ("新能源负荷(MW)", c7, Boundary.to_numeric);
                  ("水电出力(MW)", c8, Boundary.to_numeric);
                  ("非市场化出力(MW)", c11, Boundary.to_numeric)] in
     sources_kept [] plan -> Forall2 (converted plan) (tl (data df)) (data t))
  /\
  (Boundary.normalize_tie_line (Ok df) = Ok t ->
   normalized ["联络线计划(MW)"] t /\
   exists label,
     nth_error (columns df) 1 = Some label /\
     len t = length (List.filter (fun r => eq_text "总加" (r label)) (tl (data df))) /\
     forall c2 c3 c4,
       nth_error (columns df) 2 = Some c2 -> nth_error (columns df) 3 = Some c3 ->
       nth_error (columns df) 4 = Some c4 ->
       let plan := [("日期", c2, Boundary.to_date); ("时点", c3, Boundary.astype_str);
                    ("联络线计划(MW)", c4, Boundary.to_numeric)] in
       sources_kept [] plan ->
       Forall2 (converted plan)
         (List.filter (fun r => eq_text "总加" (r label)) (tl (data df))) (data t))
  /\
  (Boundary.normalize_price (Ok df) = Ok t ->
   normalized ["实时出清价格(元/MWh)"; "日前出清价格(元/MWh)"] t /\
   len t = length (List.filter (fun r => numbered (r "序号")) (data df)) /\
   Forall2 (converted [("日期", "日期", Boundary.to_date);
                       ("时点", "时点", Boundary.astype_str);
                       ("实时出清价格(元/MWh)", "实时出清价格(元/MWh)", Boundary.to_numeric);
                       ("日前出清价格(元/MWh)", "日前出清价格(元/MWh)", Boundary.to_numeric)])
     (List.filter (fun r => numbered (r "序号")) (data df)) (data t)).
Proof.
  split; [|split; [|split; [|split; [|split; [|split]]]]]; intros Hn.
  - destruct (normalize_load_ok _ _ Hn) as [Hk Hl]. split; [exact Hk|]. split; [exact Hl|].
    intros c1 c2 c3 H1 H2 H3 plan. apply normalize_load_rows; assumption.
  - destruct (normalize_renewable_ok _ _ Hn) as [Hk Hl]. split; [exact Hk|].
    split; [exact Hl|].
    intros c1 c2 c3 c4 c5 H1 H2 H3 H4 H5 plan. apply normalize_renewable_rows; assumption.
  - destruct (normalize_disclosure_ok _ _ Hn) as [Hk Hl]. split; [exact Hk|].
    split; [exact Hl|].
    intros c1 c2 c3 H1 H2 H3 plan. apply normalize_disclosure_rows; assumption.
  - destruct (normalize_hydro_ok _ _ Hn) as [Hk Hl]. split; [exact Hk|]. split; [exact Hl|].
    intros c1 c2 c3 H1 H2 H3 plan. apply normalize_hydro_rows; assumption.
  - destruct (normalize_actual_ok _ _ Hn) as [Hk Hl]. split; [exact Hk|]. split; [exact Hl|].
    intros c1 c2 c3 c5 c6 c7 c8 c11 H1 H2 H3 H5 H6 H7 H8 H11 plan.
    apply normalize_actual_rows; assumption.
  - destruct (normalize_tie_line_ok _ _ Hn) as [Hk (label & Hlabel & Hl)].
    split; [exact Hk|]. exists label. split; [exact Hlabel|]. split; [exact Hl|].
    intros c2 c3 c4 H2 H3 H4 plan. apply normalize_tie_line_rows; assumption.
  - destruct (normalize_price_ok _ _ Hn) as [Hk Hl]. split; [exact Hk|]. split; [exact Hl|].
    apply normalize_price_rows. exact Hn.
Qed.

Lemma normalized_tables_witness :
  exists t,
    Boundary.normalize_renewable (lib := plain_lib) (Ok example_renewable) = Ok t /\
    Forall2 (converted [("日期", "日期", Boundary.to_date (lib := plain_lib));
                        ("时点", "时点", Boundary.astype_str (lib := plain_lib));
                        ("风电(MW)", "风电", Boundary.to_numeric (lib := plain_lib));
                        ("光伏(MW)", "光伏", Boundary.to_numeric (lib := plain_lib));
                        ("新能源负荷(MW)", "新能源", Boundary.to_numeric (lib := plain_lib))])
      (tl (data example_renewable)) (data t) /\
    map (fun r : Row => [r "日期"; r "时点"; r "风电(MW)"; r "光伏(MW)"; r "新能源负荷(MW)"])
      (data t)
    = [[CDate 20454; CStr "00:30"; CNum 5000; CNum 0; CNum 5000]].
Proof.
  destruct (Boundary.normalize_renewable (lib := plain_lib) (Ok example_renewable))
    as [t|e] eqn:E; [|vm_compute in E; discriminate E].
  exists t. split; [reflexivity|]. split.
  - apply (proj2 (proj2 (proj1 (proj2 (normalized_tables (lib := plain_lib)
                                         example_renewable t)) E))
             "日期" "时点" "新能源" "风电" "光伏"); try reflexivity.
    cbn [sources_kept source target fst snd In]. intuition discriminate.
  - vm_compute in E. injection E as <-. vm_compute. reflexivity.
Defined.


(** * The kinds of the cells of the two joins *)

Lemma kind_ok_null (c : string) : kind_ok c CNull.
Proof.
  unfold kind_ok. destruct (String.eqb c "日期"); [exact I|].
  destruct (String.eqb c "时点"); [left; reflexivity | exact I].
Qed.

Lemma restrict_well_kinded (cols : list string) (r : Row) :
  (forall c, mem c cols = true -> kind_ok c (r c)) -> well_kinded (restrict cols r).
Proof.
  intros Hr c. unfold restrict. destruct (mem c cols) eqn:Hc; [auto | apply kind_ok_null].
Qed.

Lemma normalized_well_kinded (values : list string) (t s : DataFrame) :
  normalized values t ->
  select t ("日期" :: "时点" :: values) = Ok s ->
  Forall well_kinded (data s).
Proof.
  intros Hn Hs. apply select_ok in Hs as [_ ->]. rewrite List.Forall_map.
  eapply List.Forall_impl; [|exact Hn]. intros r (Hd & Ht & Hv).
  apply restrict_well_kinded. intros c Hc. unfold kind_ok.
  destruct (String.eqb_spec c "日期") as [->|Hne1]; [exact Hd|].
  destruct (String.eqb_spec c "时点") as [->|Hne2]; [right; exact Ht|].
  apply mem_In in Hc. destruct Hc as [Hc|[Hc|Hc]]; try congruence.
  rewrite List.Forall_forall in Hv. auto.
Qed.

Lemma merge_well_kinded (left right m : DataFrame) (on : list string) (how : How) :
  merge left right on how = Ok m ->
  Forall well_kinded (data left) -> Forall well_kinded (data right) ->
  Forall well_kinded (data m).
Proof.
  intros Hm Hl Hr. apply merge_ok in Hm as (_ & _ & _ & ->).
  rewrite List.Forall_forall in Hl, Hr.
  apply Forall_app. split.
  - apply List.Forall_forall. intros x Hx. apply in_flat_map in Hx as (l & Hin & Hx).
    unfold matched_rows in Hx.
    destruct (List.filter (keys_eqb on l) (data right)) as [|m0 ms] eqn:Hms.
    + destruct Hx as [<-|[]]. apply restrict_well_kinded. intros c _. apply (Hl l Hin).
    + apply List.in_map_iff in Hx as (r & <- & Hrin).
      assert (Hr' : In r (data right)).
      { rewrite <- Hms in Hrin. apply List.filter_In in Hrin. tauto. }
      intros c. unfold join_rows. destruct (mem c (columns left)); [apply (Hl l Hin)|].
      destruct (mem c (columns right)); [apply (Hr r Hr') | apply kind_ok_null].
  - destruct how; [|constructor]. unfold unmatched_rows. rewrite List.Forall_map.
    apply List.Forall_forall. intros r Hrin. apply List.filter_In in Hrin as [Hrin _].
    intros c. unfold right_only.
    destruct (mem c on); [apply (Hr r Hrin)|].
    destruct (mem c (columns left)); [apply kind_ok_null|].
    destruct (mem c (columns right)); [apply (Hr r Hrin) | apply kind_ok_null].
Qed.

Lemma merge_left_occurrences (left right m : DataFrame) (on : list string)
    (k : list cell) :
  merge left right on Left = Ok m ->
  occurrences k (map (key_of on) (data m))
  = (occurrences k (map (key_of on) (data left))
     * Nat.max 1 (occurrences k (map (key_of on) (data right))))%nat.
Proof.
  intros Hm. apply merge_ok in Hm as (Hl & _ & _ & ->). rewrite app_nil_r.
  apply (matched_occurrences left right on Hl).
Qed.

Lemma merge_left_length (left right m : DataFrame) (on : list string) :
  merge left right on Left = Ok m ->
  (len left <= len m)%nat /\
  (NoDup (map (key_of on) (data right)) -> len m = len left).
Proof.
  intros Hm. apply merge_ok in Hm as (Hl & _ & _ & Hd). unfold len. rewrite Hd, app_nil_r.
  clear Hd. split.
  - induction (data left) as [|l L IH]; simpl; [lia|].
    rewrite length_app, (matched_rows_length left right on l). lia.
  - intros Hnodup. induction (data left) as [|l L IH]; simpl; [reflexivity|].
    rewrite length_app, (matched_rows_length left right on l), IH.
    assert (Hle : (occurrences (key_of on l) (map (key_of on) (data right)) <= 1)%nat).
    { clear IH. induction Hnodup as [|k ks Hnotin _ IHk]; [rewrite occurrences_nil; lia|].
      rewrite occurrences_cons. destruct (bool_decide_reflect (k = key_of on l)) as [->|_].
      - assert (Hz : occurrences (key_of on l) ks = 0%nat).
        { apply occurrences_zero. intros Hin. apply Hnotin. apply list_elem_of_In. exact Hin. }
        lia.
      - simpl. exact IHk. }
    lia.
Qed.

Lemma normalized_weaken (values values' : list string) (t : DataFrame) :
  (forall c, In c values' -> In c values) -> normalized values t -> normalized values' t.
Proof.
  intros Hsub Hn. unfold normalized in *. eapply List.Forall_impl; [|exact Hn].
  intros r (Hd & Ht & Hv). split; [exact Hd|]. split; [exact Ht|].
  rewrite List.Forall_forall in *. auto.
Qed.

Lemma normalized_text_keys (values : list string) (t : DataFrame) :
  normalized values t -> Forall text_key (keys t).
Proof.
  intros Hn. unfold keys. rewrite List.Forall_map. eapply List.Forall_impl; [|exact Hn].
  intros r (_ & Ht & _). unfold key_of, Boundary.on_keys, text_key. cbn [map].
  destruct (r "时点"); try contradiction. exact I.
Qed.

Section JoinKinds.
Context {lib : PyLib}.
Import Boundary.

Lemma normalized_file (values : list string) (normalize : UploadedFile -> result DataFrame)
    (file : UploadedFile) (t : DataFrame) :
  (forall e, normalize (Raise e) = Raise e) ->
  (forall df, normalize (Ok df) = Ok t -> normalized values t) ->
  normalize file = Ok t -> normalized values t.
Proof.
  intros Hraise Hok Hn. destruct file as [df|e]; [exact (Hok df Hn)|].
  rewrite Hraise in Hn. discriminate.
Qed.

(** The nine files of an entry point, normalized. *)
Lemma normalized_sources (t1 t2 t3 t4 t5 t6 t7 t8 : DataFrame)
    (f1 f2 f3 f4 f5 f6 f7 f8 : UploadedFile) :
  normalize_load f1 = Ok t1 -> normalize_renewable f2 = Ok t2 ->
  normalize_disclosure f3 = Ok t3 -> normalize_tie_line f4 = Ok t4 ->
  normalize_hydro f5 = Ok t5 -> normalize_price f6 = Ok t6 ->
  normalize_actual f7 = Ok t7 -> normalize_tie_line f8 = Ok t8 ->
  normalized ["省调负荷(MW)"] t1 /\
  normalized ["风电(MW)"; "光伏(MW)"; "新能源负荷(MW)"] t2 /\
  normalized ["非市场化出力(MW)"] t3 /\
  normalized ["联络线计划(MW)"] t4 /\
  normalized ["水电出力(MW)"] t5 /\
  normalized ["实时出清价格(元/MWh)"; "日前出清价格(元/MWh)"] t6 /\
  normalized ["省调负荷(MW)"; "风电(MW)"; "光伏(MW)"; "新能源负荷(MW)"; "水电出力(MW)";
              "非市场化出力(MW)"] t7 /\
  normalized ["联络线计划(MW)"] t8.
Proof.
  intros H1 H2 H3 H4 H5 H6 H7 H8.
  repeat split;
    [ apply (normalized_file _ normalize_load f1 t1)
    | apply (normalized_file _ normalize_renewable f2 t2)
    | apply (normalized_file _ normalize_disclosure f3 t3)
    | apply (normalized_file _ normalize_tie_line f4 t4)
    | apply (normalized_file _ normalize_hydro f5 t5)
    | apply (normalized_file _ normalize_price f6 t6)
    | apply (normalized_file _ normalize_actual f7 t7)
    | apply (normalized_file _ normalize_tie_line f8 t8) ];
    try reflexivity; try assumption; intros df Hn;
    first [ apply normalize_load_ok in Hn | apply normalize_renewable_ok in Hn
          | apply normalize_disclosure_ok in Hn | apply normalize_tie_line_ok in Hn
          | apply normalize_hydro_ok in Hn | apply normalize_price_ok in Hn
          | apply normalize_actual_ok in Hn ]; apply Hn.
Qed.

Lemma on_keys_selected (a b : string) (c : list string) :
  Forall (fun x => mem x (a :: b :: c) = true) [a; b].
Proof.
  repeat constructor; unfold mem; simpl; rewrite ?String.eqb_refl, ?orb_true_r; reflexivity.
Qed.

Lemma merge_day_ahead_kinds
    (df_load df_renewable df_disclosure df_tie_line df_hydro df_price da : DataFrame) :
  merge_day_ahead df_load df_renewable df_disclosure df_tie_line df_hydro df_price = Ok da ->
  normalized ["省调负荷(MW)"] df_load ->
  normalized ["风电(MW)"; "光伏(MW)"; "新能源负荷(MW)"] df_renewable ->
  normalized ["非市场化出力(MW)"] df_disclosure ->
  normalized ["联络线计划(MW)"] df_tie_line ->
  normalized ["水电出力(MW)"] df_hydro ->
  normalized ["实时出清价格(元/MWh)"; "日前出清价格(元/MWh)"] df_price ->
  Forall well_kinded (data da) /\ Forall text_key (keys da).
Proof.
  intros Hm N1 N2 N3 N4 N5 N6. split.
  - unfold merge_day_ahead in Hm.
    apply bind_result_ok in Hm as (s1 & Hs1 & Hm).
    apply bind_result_ok in Hm as (s2 & Hs2 & Hm).
    apply bind_result_ok in Hm as (m1 & Hm1 & Hm).
    apply bind_result_ok in Hm as (s3 & Hs3 & Hm).
    apply bind_result_ok in Hm as (m2 & Hm2 & Hm).
    apply bind_result_ok in Hm as (s4 & Hs4 & Hm).
    apply bind_result_ok in Hm as (m3 & Hm3 & Hm).
    apply bind_result_ok in Hm as (s5 & Hs5 & Hm).
    apply bind_result_ok in Hm as (m4 & Hm4 & Hm).
    apply bind_result_ok in Hm as (s6 & Hs6 & Hm).
    apply (normalized_well_kinded _ _ _ N1) in Hs1.
    apply (normalized_well_kinded _ _ _ N2) in Hs2.
    apply (normalized_well_kinded _ _ _ N3) in Hs3.
    apply (normalized_well_kinded _ _ _ N4) in Hs4.
    apply (normalized_well_kinded _ _ _ N5) in Hs5.
    apply (normalized_well_kinded ["日前出清价格(元/MWh)"] df_price) in Hs6;
      [|eapply normalized_weaken; [|exact N6]; intros c [<-|[]]; right; left; reflexivity].
    pose proof (merge_well_kinded _ _ _ _ _ Hm1 Hs1 Hs2) as K1.
    pose proof (merge_well_kinded _ _ _ _ _ Hm2 K1 Hs3) as K2.
    pose proof (merge_well_kinded _ _ _ _ _ Hm3 K2 Hs4) as K3.
    pose proof (merge_well_kinded _ _ _ _ _ Hm4 K3 Hs5) as K4.
    exact (merge_well_kinded _ _ _ _ _ Hm K4 Hs6).
  - apply merge_day_ahead_ok in Hm as [_ Hocc].
    apply List.Forall_forall. intros k Hk.
    apply occurrences_pos in Hk. rewrite Hocc in Hk. apply key_in_some_table in Hk.
    apply in_concat in Hk as (t & Ht & Hk).
    pose proof (normalized_text_keys _ _ N1) as T1.
    pose proof (normalized_text_keys _ _ N2) as T2.
    pose proof (normalized_text_keys _ _ N3) as T3.
    pose proof (normalized_text_keys _ _ N4) as T4.
    pose proof (normalized_text_keys _ _ N5) as T5.
    pose proof (normalized_text_keys _ _ N6) as T6.
    rewrite List.Forall_forall in T1, T2, T3, T4, T5, T6.
    destruct Ht as [<-|[<-|[<-|[<-|[<-|[<-|[]]]]]]]; auto.
Qed.

Lemma merge_real_time_kinds (df_actual df_tie_line_rt df_price rt : DataFrame) :
  merge_real_time df_actual df_tie_line_rt df_price = Ok rt ->
  normalized ["省调负荷(MW)"; "风电(MW)"; "光伏(MW)"; "新能源负荷(MW)"; "水电出力(MW)";
              "非市场化出力(MW)"] df_actual ->
  normalized ["联络线计划(MW)"] df_tie_line_rt ->
  normalized ["实时出清价格(元/MWh)"; "日前出清价格(元/MWh)"] df_price ->
  Forall well_kinded (data rt) /\
  (forall k, occurrences k (keys rt)
             = (occurrences k (keys df_actual)
                * Nat.max 1 (occurrences k (keys df_tie_line_rt))
                * Nat.max 1 (occurrences k (keys df_price)))%nat) /\
  (len df_actual <= len rt)%nat /\
  (NoDup (keys df_tie_line_rt) -> NoDup (keys df_price) -> len rt = len df_actual).
Proof.
  intros Hm N1 N2 N3. unfold merge_real_time in Hm.
  apply bind_result_ok in Hm as (s1 & Hs1 & Hm).
  apply bind_result_ok in Hm as (s2 & Hs2 & Hm).
  apply bind_result_ok in Hm as (m1 & Hm1 & Hm).
  apply bind_result_ok in Hm as (s3 & Hs3 & Hm).
  pose proof (keys_select _ _ _ Hs1 (on_keys_selected _ _ _)) as K1.
  pose proof (keys_select _ _ _ Hs2 (on_keys_selected _ _ _)) as K2.
  pose proof (keys_select _ _ _ Hs3 (on_keys_selected _ _ _)) as K3.
  assert (L1 : len s1 = len df_actual).
  { apply select_ok in Hs1 as [_ Hd]. unfold len. rewrite Hd, length_map. reflexivity. }
  split; [|split; [|split]].
  - apply (normalized_well_kinded _ _ _ N1) in Hs1.
    apply (normalized_well_kinded _ _ _ N2) in Hs2.
    apply (normalized_well_kinded ["实时出清价格(元/MWh)"] df_price) in Hs3;
      [|eapply normalized_weaken; [|exact N3]; intros c [<-|[]]; left; reflexivity].
    pose proof (merge_well_kinded _ _ _ _ _ Hm1 Hs1 Hs2) as K.
    exact (merge_well_kinded _ _ _ _ _ Hm K Hs3).
  - intros k. rewrite <- K1, <- K2, <- K3. unfold keys.
    rewrite (merge_left_occurrences _ _ _ _ k Hm), (merge_left_occurrences _ _ _ _ k Hm1).
    reflexivity.
  - rewrite <- L1. destruct (merge_left_length _ _ _ _ Hm1) as [H1 _].
    destruct (merge_left_length _ _ _ _ Hm) as [H2 _]. lia.
  - intros D2 D3. rewrite <- L1. rewrite <- K2 in D2. rewrite <- K3 in D3.
    destruct (merge_left_length _ _ _ _ Hm1) as [_ H1].
    destruct (merge_left_length _ _ _ _ Hm) as [_ H2].
    rewrite (H2 D3), (H1 D2). reflexivity.
Qed.

End JoinKinds.

Lemma text_key_row (r : Row) (ks : list (list cell)) :
  Forall text_key ks -> In (key_of Boundary.on_keys r) ks -> text_cell (r "时点").
Proof.
  intros Hks Hin. rewrite List.Forall_forall in Hks. specialize (Hks _ Hin).
  unfold key_of, Boundary.on_keys, text_key in Hks. cbn [map] in Hks.
  destruct (r "时点"); try contradiction. exact I.
Qed.

Section UnifiedRows.
Context {lib : PyLib}.
Import Boundary.

Lemma forecast_row (r r0 : Row) (capacity : option Q) (ks : list (list cell)) :
  forecast_cells (scalar_cell capacity) r0 = unified_cells r ->
  well_kinded r0 -> Forall text_key ks -> In (key_of on_keys r0) ks ->
  unified_row r.
Proof.
  intros Heq Hk Hks Hin. pose proof (text_key_row _ _ Hks Hin) as Ht.
  unfold forecast_cells, unified_cells, unified_columns in Heq. cbn [map] in Heq.
  injection Heq as E1 E2 E3 E4 E5 E6 E7 E8 E9 E10 E11 E12 E13 E14 E15.
  unfold unified_row, measure_columns.
  rewrite <- E1, <- E2, <- E3, <- E4, <- E14, <- E15.
  split; [exact (Hk "日期")|]. split; [exact Ht|]. split; [reflexivity|].
  split; [reflexivity|]. split; [|left; split; reflexivity].
  apply List.Forall_cons; [cbv beta; rewrite <- E5; exact (Hk "省调负荷(MW)")|].
  apply List.Forall_cons; [cbv beta; rewrite <- E6; exact (Hk "风电(MW)")|].
  apply List.Forall_cons; [cbv beta; rewrite <- E7; exact (Hk "光伏(MW)")|].
  apply List.Forall_cons; [cbv beta; rewrite <- E8; exact (Hk "新能源负荷(MW)")|].
  apply List.Forall_cons; [cbv beta; rewrite <- E9; exact (Hk "非市场化出力(MW)")|].
  apply List.Forall_cons; [cbv beta; rewrite <- E10; exact (Hk "水电出力(MW)")|].
  apply List.Forall_cons; [cbv beta; rewrite <- E11; exact (Hk "联络线计划(MW)")|].
  apply List.Forall_cons; [cbv beta; rewrite <- E12; destruct capacity; exact I|].
  apply List.Forall_cons; [cbv beta; rewrite <- E13; exact (Hk "日前出清价格(元/MWh)")|].
  apply List.Forall_cons; [cbv beta; rewrite <- E14; exact I|].
  apply List.Forall_nil.
Qed.

Lemma realtime_row (r r0 : Row) (ks : list (list cell)) :
  realtime_cells r0 = unified_cells r ->
  well_kinded r0 -> Forall text_key ks -> In (key_of on_keys r0) ks ->
  unified_row r.
Proof.
  intros Heq Hk Hks Hin. pose proof (text_key_row _ _ Hks Hin) as Ht.
  unfold realtime_cells, unified_cells, unified_columns in Heq. cbn [map] in Heq.
  injection Heq as E1 E2 E3 E4 E5 E6 E7 E8 E9 E10 E11 E12 E13 E14 E15.
  unfold unified_row, measure_columns.
  rewrite <- E1, <- E2, <- E3, <- E4, <- E12, <- E13, <- E15.
  split; [exact (Hk "日期")|]. split; [exact Ht|]. split; [reflexivity|].
  split; [reflexivity|]. split; [|right; repeat split; reflexivity].
  apply List.Forall_cons; [cbv beta; rewrite <- E5; exact (Hk "省调负荷(MW)")|].
  apply List.Forall_cons; [cbv beta; rewrite <- E6; exact (Hk "风电(MW)")|].
  apply List.Forall_cons; [cbv beta; rewrite <- E7; exact (Hk "光伏(MW)")|].
  apply List.Forall_cons; [cbv beta; rewrite <- E8; exact (Hk "新能源负荷(MW)")|].
  apply List.Forall_cons; [cbv beta; rewrite <- E9; exact (Hk "非市场化出力(MW)")|].
  apply List.Forall_cons; [cbv beta; rewrite <- E10; exact (Hk "水电出力(MW)")|].
  apply List.Forall_cons; [cbv beta; rewrite <- E11; exact (Hk "联络线计划(MW)")|].
  apply List.Forall_cons; [cbv beta; rewrite <- E12; exact I|].
  apply List.Forall_cons; [cbv beta; rewrite <- E13; exact I|].
  apply List.Forall_cons; [cbv beta; rewrite <- E14; exact (Hk "实时出清价格(元/MWh)")|].
  apply List.Forall_nil.
Qed.

(** X15.  Every row of the unified table that
    [preprocess_boundary_files] or [preprocess_data] returns has a date
    or a null under 日期, a text under 时点, a null under 竞价空间(MW) and
    under 负荷率(%), and a number or a null under each of the ten measure
    columns; it is a forecast row (日前), with no realtime price, or a
    realtime row (实时), with no forecast price and no capacity. *)
Theorem unified_table_rows (files : gmap string UploadedFile) (result : DataFrame) :
  preprocess_boundary_files files = (Some result, None) \/ preprocess_data files = Ok result ->
  Forall unified_row (data result).
Proof.
  intros Hp.
  destruct (entry_points_all _ _ Hp)
    as (t1 & t2 & t3 & t4 & capacity & t5 & t7 & t8 & t6
        & H1 & H2 & H3 & H4 & _ & H5 & H7 & H8 & H6 & Hm).
  destruct (normalized_sources _ _ _ _ _ _ _ _ _ _ _ _ _ _ _ _ H1 H2 H3 H4 H5 H6 H7 H8)
    as (N1 & N2 & N3 & N4 & N5 & N6 & N7 & N8).
  destruct (merge_boundary_data_cells _ _ _ _ _ _ _ _ _ _ Hm)
    as (da & rt & Hda & Hrt & _ & Hperm).
  destruct (merge_day_ahead_kinds _ _ _ _ _ _ _ Hda N1 N2 N3 N4 N5 N6) as [KD TD].
  destruct (merge_real_time_kinds _ _ _ _ Hrt N7 N8 N6) as (KR & Hocc & _ & _).
  pose proof (normalized_text_keys _ _ N7) as TA.
  rewrite List.Forall_forall in KD, KR.
  apply List.Forall_forall. intros r Hr.
  assert (Hin : In (unified_cells r) (map unified_cells (data result)))
    by (apply in_map; exact Hr).
  apply (Permutation_in _ Hperm) in Hin. apply List.in_app_iff in Hin as [Hin | Hin];
    apply List.in_map_iff in Hin as (r0 & Heq & Hr0).
  - apply (forecast_row r r0 capacity (keys da) Heq (KD r0 Hr0) TD).
    unfold keys. apply in_map. exact Hr0.
  - apply (realtime_row r r0 (keys t7) Heq (KR r0 Hr0) TA).
    apply occurrences_pos.
    assert (Hpos : (0 < occurrences (key_of on_keys r0) (keys rt))%nat).
    { apply occurrences_pos. unfold keys. apply in_map. exact Hr0. }
    rewrite Hocc in Hpos. nia.
Qed.

Lemma realtime_of_cells (t : DataFrame) (rowsD rowsR : list Row) (capacity : cell) :
  Permutation (map unified_cells (data t))
    (map (forecast_cells capacity) rowsD ++ map realtime_cells rowsR) ->
  Permutation (map (key_of on_keys) (realtime_rows t)) (map (key_of on_keys) rowsR).
Proof.
  pose (realtime := fun cells : list cell =>
                      match cells with
                      | _ :: _ :: epoch :: _ => eq_text "实时" epoch
                      | _ => false
                      end).
  assert (HD : List.filter realtime (map (forecast_cells capacity) rowsD) = []).
  { induction rowsD as [|r rows IH]; [reflexivity | exact IH]. }
  assert (HR : List.filter realtime (map realtime_cells rowsR) = map realtime_cells rowsR).
  { apply filter_all. apply List.Forall_map. apply List.Forall_forall. reflexivity. }
  assert (HT : map (firstn 2) (List.filter realtime (map unified_cells (data t)))
               = map (key_of on_keys) (realtime_rows t)).
  { unfold realtime_rows. induction (data t) as [|r rows IH]; [reflexivity|].
    simpl. destruct (eq_text "实时" (r "边界数据类型")); simpl; rewrite IH; reflexivity. }
  intros Hperm.
  apply (Permutation_filter realtime) in Hperm.
  apply (Permutation_map (firstn 2)) in Hperm.
  rewrite List.filter_app, HD, HR, HT, app_nil_l, List.map_map in Hperm. exact Hperm.
Qed.

(** X16.  The realtime-epoch partition of the unified table comes from
    left joins on the normalized telemetry: for every key it has as
    many rows as the telemetry has for it, times the rows the realtime
    tie-line plan has for it if it has any, times the rows the price
    table has for it if it has any.  So it has no key that the
    telemetry lacks, at least as many rows as the telemetry, and exactly
    as many when neither the tie-line plan nor the price table repeats
    a key. *)
Theorem realtime_partition_left_join (files : gmap string UploadedFile)
    (result : DataFrame) :
  preprocess_boundary_files files = (Some result, None) \/ preprocess_data files = Ok result ->
  exists df_actual df_tie_line_rt df_price,
    normalize_actual (read_from files "96点电网运行实际值_REPORT0.xlsx") = Ok df_actual /\
    normalize_tie_line (read_from files "实时联络线计划_REPORT0.xlsx") = Ok df_tie_line_rt /\
    normalize_price (read_from files "现货出清电价_REPORT0.xlsx") = Ok df_price /\
    (forall k, occurrences k (map (key_of on_keys) (realtime_rows result))
               = (occurrences k (keys df_actual)
                  * Nat.max 1 (occurrences k (keys df_tie_line_rt))
                  * Nat.max 1 (occurrences k (keys df_price)))%nat) /\
    (forall r, In r (realtime_rows result) -> In (key_of on_keys r) (keys df_actual)) /\
    (len df_actual <= length (realtime_rows result))%nat /\
    (NoDup (keys df_tie_line_rt) -> NoDup (keys df_price) ->
     length (realtime_rows result) = len df_actual).
Proof.
  intros Hp.
  destruct (entry_points_all _ _ Hp)
    as (t1 & t2 & t3 & t4 & capacity & t5 & t7 & t8 & t6
        & H1 & H2 & H3 & H4 & _ & H5 & H7 & H8 & H6 & Hm).
  destruct (normalized_sources _ _ _ _ _ _ _ _ _ _ _ _ _ _ _ _ H1 H2 H3 H4 H5 H6 H7 H8)
    as (N1 & N2 & N3 & N4 & N5 & N6 & N7 & N8).
  destruct (merge_boundary_data_cells _ _ _ _ _ _ _ _ _ _ Hm)
    as (da & rt & Hda & Hrt & _ & Hperm).
  destruct (merge_real_time_kinds _ _ _ _ Hrt N7 N8 N6) as (_ & Hocc & Hle & Heq).
  exists t7, t8, t6. split; [exact H7|]. split; [exact H8|]. split; [exact H6|].
  pose proof (realtime_of_cells _ _ _ _ Hperm) as Hkeys. fold (keys rt) in Hkeys.
  assert (Hlen : length (realtime_rows result) = len rt).
  { rewrite <- (length_map (key_of on_keys)), (Permutation_length Hkeys).
    unfold keys, len. apply length_map. }
  split; [|split; [|split]].
  - intros k. rewrite <- Hocc. unfold occurrences.
    apply Permutation_length. apply Permutation_filter. exact Hkeys.
  - intros r Hr. apply occurrences_pos.
    assert (Hpos : (0 < occurrences (key_of on_keys r) (keys rt))%nat).
    { apply occurrences_pos. apply (Permutation_in _ Hkeys). apply in_map. exact Hr. }
    rewrite Hocc in Hpos. nia.
  - rewrite Hlen. exact Hle.
  - intros D2 D3. rewrite Hlen. exact (Heq D2 D3).
Qed.

End UnifiedRows.

Lemma unified_table_rows_witness : Forall unified_row (data example_unified).
Proof.
  apply (unified_table_rows (lib := plain_lib) example_files).
  left. vm_compute. reflexivity.
Defined.

Lemma realtime_partition_left_join_witness :
  exists df_actual df_tie_line_rt df_price,
    Boundary.normalize_actual (lib := plain_lib)
      (Boundary.read_from example_files "96点电网运行实际值_REPORT0.xlsx") = Ok df_actual /\
    Boundary.normalize_tie_line (lib := plain_lib)
      (Boundary.read_from example_files "实时联络线计划_REPORT0.xlsx") = Ok df_tie_line_rt /\
    Boundary.normalize_price (lib := plain_lib)
      (Boundary.read_from example_files "现货出清电价_REPORT0.xlsx") = Ok df_price /\
    (forall k, occurrences k (map (key_of Boundary.on_keys) (realtime_rows example_unified))
               = (occurrences k (keys df_actual)
                  * Nat.max 1 (occurrences k (keys df_tie_line_rt))
                  * Nat.max 1 (occurrences k (keys df_price)))%nat) /\
    (forall r, In r (realtime_rows example_unified) ->
               In (key_of Boundary.on_keys r) (keys df_actual)) /\
    (len df_actual <= length (realtime_rows example_unified))%nat /\
    (NoDup (keys df_tie_line_rt) -> NoDup (keys df_price) ->
     length (realtime_rows example_unified) = len df_actual).
Proof.
  apply (realtime_partition_left_join (lib := plain_lib) example_files).
  left. vm_compute. reflexivity.
Defined.


(** * The order of the rows *)

Lemma cell_compare_antisym (a b : cell) : cell_compare a b = CompOpp (cell_compare b a).
Proof.
  destruct a, b; simpl; try reflexivity.
  - symmetry. apply Qcompare_antisym.
  - apply String.compare_antisym.
  - apply Z.compare_antisym.
  - apply Z.compare_antisym.
Qed.

Lemma rows_compare_antisym (by_ : list string) (a b : Row) :
  rows_compare by_ a b = CompOpp (rows_compare by_ b a).
Proof.
  induction by_ as [|c by_ IH]; simpl; [reflexivity|].
  rewrite (cell_compare_antisym (a c) (b c)).
  destruct (cell_compare (b c) (a c)); simpl; [exact IH | reflexivity | reflexivity].
Qed.

Lemma insert_row_sorted (by_ : list string) (x : Row) (l : list Row) :
  Sorted (fun a b => rows_compare by_ a b <> Gt) l ->
  Sorted (fun a b => rows_compare by_ a b <> Gt) (insert_row by_ x l).
Proof.
  induction 1 as [|y l Hl IH Hhd]; simpl.
  - constructor; constructor.
  - destruct (rows_compare by_ y x) eqn:Hyx.
    + constructor; [constructor; assumption|]. constructor.
      rewrite rows_compare_antisym, Hyx. discriminate.
    + constructor; [exact IH|].
      destruct l as [|z l]; simpl.
      * constructor. rewrite Hyx. discriminate.
      * inversion Hhd; subst. destruct (rows_compare by_ z x); constructor;
          first [assumption | rewrite Hyx; discriminate].
    + constructor; [constructor; assumption|]. constructor.
      rewrite rows_compare_antisym, Hyx. discriminate.
Qed.

Lemma sort_values_sorted (df s : DataFrame) (by_ : list string) :
  sort_values df by_ = Ok s ->
  Sorted (fun a b => rows_compare by_ a b <> Gt) (data s).
Proof.
  unfold sort_values. destruct (List.find _ by_); [discriminate|].
  intros [= <-]. simpl. induction (data df) as [|x l IH]; simpl; [constructor|].
  apply insert_row_sorted. exact IH.
Qed.

Lemma Sorted_map_in {A B : Type} (R : A -> A -> Prop) (R' : B -> B -> Prop) (f : A -> B)
    (l : list A) :
  (forall a b, In a l -> In b l -> R a b -> R' (f a) (f b)) ->
  Sorted R l -> Sorted R' (map f l).
Proof.
  intros HR Hs. induction Hs as [|a l Hl IH Hhd]; simpl; [constructor|].
  constructor.
  - apply IH. intros x y Hx Hy. apply HR; right; assumption.
  - destruct Hhd as [|b l Hab]; simpl; constructor.
    apply HR; [left; reflexivity | right; left; reflexivity | exact Hab].
Qed.

Section Order.
Context {lib : PyLib}.
Import Boundary.

(** The rows of the unified table are in the order of their sort keys. *)
Lemma merge_boundary_data_sorted
    (df_load df_renewable df_disclosure df_tie_line : DataFrame)
    (online_capacity : option Q)
    (df_hydro df_actual df_tie_line_rt df_price result : DataFrame) :
  merge_boundary_data df_load df_renewable df_disclosure df_tie_line online_capacity
    df_hydro df_actual df_tie_line_rt df_price = Ok result ->
  Sorted (fun a b => key_le (sort_key a) (sort_key b)) (data result).
Proof.
  unfold merge_boundary_data. intros Hm.
  apply bind_result_ok in Hm as (da & Hda & Hm).
  apply bind_result_ok in Hm as (rt & Hrt & Hm).
  apply bind_result_ok in Hm as (r1 & Hr1 & Hm).
  apply bind_result_ok in Hm as (r2 & Hr2 & Hm).
  apply drop_ok in Hm as [_ Hdata].
  pose proof (sort_values_sorted _ _ _ Hr2) as Hsorted.
  apply sort_values_ok in Hr2 as [Hc2 Hperm].
  apply select_ok in Hr1 as [Hc1 _].
  rewrite Hdata, Hc2. cbn [assign columns]. rewrite Hc1.
  assert (Hinv : Forall (fun r : Row => r "边界数据类型_排序" = epoch_rank (r "边界数据类型") /\
                                       r "时点_排序" = to_datetime_hm (r "时点")) (data r2)).
  { apply List.Forall_forall. intros r Hr. apply (Permutation_in _ Hperm) in Hr.
    cbn [assign data] in Hr. rewrite List.map_map in Hr.
    apply List.in_map_iff in Hr as (r0 & <- & _). split; reflexivity. }
  rewrite List.Forall_forall in Hinv.
  eapply Sorted_map_in; [|exact Hsorted].
  intros a b Ha Hb Hab. destruct (Hinv a Ha) as [Ha1 Ha2]. destruct (Hinv b Hb) as [Hb1 Hb2].
  unfold key_le, sort_key. cbn [rows_compare] in Hab. rewrite Ha1, Ha2, Hb1, Hb2 in Hab.
  exact Hab.
Qed.

End Order.

Section Partitions.
Context {lib : PyLib}.
Import Boundary.

Lemma realtime_after_realtime (x : Row) (l : list Row) :
  Sorted (fun a b => key_le (sort_key a) (sort_key b)) (x :: l) ->
  Forall (fun r : Row => r "边界数据类型" = CStr "日前" \/ r "边界数据类型" = CStr "实时") l ->
  x "边界数据类型" = CStr "实时" ->
  Forall (fun r : Row => r "边界数据类型" = CStr "实时") l.
Proof.
  revert x. induction l as [|y l IH]; intros x Hs He Hx; [constructor|].
  inversion Hs as [|? ? Hs' Hhd]; subst. inversion Hhd as [|? ? Hxy]; subst.
  inversion He as [|? ? Hy He']; subst.
  assert (Hy' : y "边界数据类型" = CStr "实时").
  { destruct Hy as [Hy|Hy]; [|exact Hy]. exfalso. apply Hxy.
    unfold sort_key. rewrite Hx, Hy. reflexivity. }
  constructor; [exact Hy'|]. apply (IH y); assumption.
Qed.

Lemma forecast_then_realtime (l : list Row) :
  Sorted (fun a b => key_le (sort_key a) (sort_key b)) l ->
  Forall (fun r : Row => r "边界数据类型" = CStr "日前" \/ r "边界数据类型" = CStr "实时") l ->
  l = List.filter (fun r => eq_text "日前" (r "边界数据类型")) l
      ++ List.filter (fun r => eq_text "实时" (r "边界数据类型")) l.
Proof.
  induction l as [|x l IH]; intros Hs He; [reflexivity|].
  inversion He as [|? ? Hx He']; subst.
  destruct Hx as [Hx|Hx].
  - inversion Hs as [|? ? Hs' _]; subst. cbn [List.filter]. rewrite Hx. cbn [eq_text].
    change (String.eqb "日前" "日前") with true. change (String.eqb "日前" "实时") with false.
    cbn [app]. f_equal. apply IH; assumption.
  - pose proof (realtime_after_realtime x l Hs He' Hx) as Hall.
    assert (HF : List.filter (fun r => eq_text "日前" (r "边界数据类型")) (x :: l) = []).
    { assert (Hx' : Forall (fun r : Row => r "边界数据类型" = CStr "实时") (x :: l))
        by (constructor; assumption).
      clear -Hx'. induction Hx' as [|y l' Hy _ IH']; [reflexivity|].
      cbn [List.filter]. rewrite Hy. exact IH'. }
    assert (HR : List.filter (fun r => eq_text "实时" (r "边界数据类型")) (x :: l) = x :: l).
    { apply filter_all. constructor.
      - rewrite Hx. reflexivity.
      - eapply List.Forall_impl; [|exact Hall]. intros r ->. reflexivity. }
    rewrite HF, HR. reflexivity.
Qed.

(** X17.  In the unified table that [preprocess_boundary_files] or
    [preprocess_data] returns every row is followed by a row whose sort
    key is not smaller: the rank of the epoch (日前 before 实时), then the
    date, then the time of day read from 时点 as HH:MM, a null (a date
    that is missing, a time label that does not parse) coming last.
    So the table is its forecast partition followed by its realtime
    partition. *)
Theorem unified_table_order (files : gmap string UploadedFile) (result : DataFrame) :
  preprocess_boundary_files files = (Some result, None) \/ preprocess_data files = Ok result ->
  Sorted (fun a b => key_le (sort_key a) (sort_key b)) (data result) /\
  data result = forecast_rows result ++ realtime_rows result.
Proof.
  intros Hp.
  destruct (entry_points_all _ _ Hp)
    as (t1 & t2 & t3 & t4 & capacity & t5 & t7 & t8 & t6
        & _ & _ & _ & _ & _ & _ & _ & _ & _ & Hm).
  pose proof (merge_boundary_data_sorted _ _ _ _ _ _ _ _ _ _ Hm) as Hs.
  split; [exact Hs|]. apply (forecast_then_realtime _ Hs).
  destruct (merge_boundary_data_cells _ _ _ _ _ _ _ _ _ _ Hm) as (da & rt & _ & _ & _ & Hperm).
  apply List.Forall_forall. intros r Hr.
  assert (Hin : In (unified_cells r) (map unified_cells (data result)))
    by (apply in_map; exact Hr).
  apply (Permutation_in _ Hperm) in Hin. apply List.in_app_iff in Hin as [Hin | Hin];
    apply List.in_map_iff in Hin as (r0 & Heq & _);
    unfold unified_cells, forecast_cells, realtime_cells, unified_columns in Heq;
    cbn [map] in Heq; injection Heq as _ _ Hepoch _ _ _ _ _ _ _ _ _ _ _ _;
    [left | right]; congruence.
Qed.

End Partitions.

Lemma unified_table_order_witness :
  Sorted (fun a b => key_le (sort_key (lib := plain_lib) a) (sort_key (lib := plain_lib) b))
    (data example_unified) /\
  data example_unified = forecast_rows example_unified ++ realtime_rows example_unified.
Proof.
  apply (unified_table_order (lib := plain_lib) example_files).
  left. vm_compute. reflexivity.
Defined.


(** * The two entry points *)

(** One block of [preprocess_data], in a hypothesis about its result:
    the file is absent and reading it raises, or it is there and its
    normalization returns or raises. *)
Ltac next_read Hp :=
  match type of Hp with
  | context [?norm (Boundary.read_from ?files ?n)] =>
      let file := fresh "file" in
      let Hfile := fresh "Hfile" in
      let Hnorm := fresh "Hnorm" in
      let Hraise := fresh "Hraise" in
      unfold Boundary.read_from in Hp at 1;
      destruct (files !! n) as [file|] eqn:Hfile;
      [ destruct (norm file) eqn:Hnorm
      | assert (Hraise : norm (Raise (FileNotFoundError n)) = Raise (FileNotFoundError n))
          by reflexivity;
        rewrite Hraise in Hp; clear Hraise ];
      cbn [bind_result] in Hp
  end.

Section Agreement.
Context {lib : PyLib}.
Import Boundary.

Lemma entry_points_agree_present (files : gmap string UploadedFile) :
  Forall (fun name => is_set (files !! name) = true) required_files ->
  preprocess_boundary_files files
  = match preprocess_data files with
    | Ok result_df => (Some result_df, None)
    | Raise e => (None, Some ("处理出错: " +:+ error_text e))
    end.
Proof.
  intros Hall. unfold required_files in Hall.
  repeat match goal with
         | H : Forall _ (_ :: _) |- _ =>
             let Hset := fresh "Hset" in
             let Hrest := fresh "Hrest" in
             inversion H as [|? ? Hset Hrest]; subst; clear H
         end.
  unfold preprocess_boundary_files, load, preprocess_data, read_from.
  repeat match goal with
         | H : is_set (files !! ?n) = true |- _ =>
             destruct (files !! n); [clear H | discriminate H]
         end.
  repeat match goal with
         | |- context [bind_step (of_result ?m) _] =>
             destruct m; cbn [bind_step of_result bind_result]; [|reflexivity]
         end.
  destruct (merge_boundary_data _ _ _ _ _ _ _ _ _); reflexivity.
Qed.

Lemma missing_file_raises (files : gmap string UploadedFile) (name : string) :
  In name required_files -> files !! name = None ->
  loaded_before files loaders name = true ->
  preprocess_data files = Raise (FileNotFoundError name).
Proof.
  unfold required_files, preprocess_data, read_from, loaders. intros Hin Hname Hbefore.
  repeat (destruct Hin as [<- | Hin];
          [ cbn [loaded_before String.eqb Ascii.eqb Bool.eqb andb] in Hbefore;
            repeat match type of Hbefore with
                   | match files !! ?n with _ => _ end = true =>
                       let file := fresh "file" in
                       let Hok := fresh "Hok" in
                       destruct (files !! n) as [file|]; [|discriminate Hbefore];
                       apply andb_true_iff in Hbefore as [Hok Hbefore];
                       cbv beta iota;
                       match type of Hok with
                       | is_ok ?m = true => destruct m; [|discriminate Hok]
                       end;
                       clear Hok; cbn [bind_result]
                   end;
            rewrite Hname; reflexivity
          | ]).
  contradiction.
Qed.

(** X18.  The page and the script agree.  On a file set that has the
    nine required files, [preprocess_boundary_files] returns the table
    that [preprocess_data] returns, and when [preprocess_data] raises it
    returns no table and 处理出错 followed by the text of that exception.
    On a file set that lacks a required file, every file asked for
    before it being read and normalized, [preprocess_data] raises
    [FileNotFoundError] for the file that [preprocess_boundary_files]
    names after 缺少文件. *)
Theorem entry_points_agree (files : gmap string UploadedFile) :
  (Forall (fun name => is_set (files !! name) = true) required_files ->
   preprocess_boundary_files files
   = match preprocess_data files with
     | Ok result_df => (Some result_df, None)
     | Raise e => (None, Some ("处理出错: " +:+ error_text e))
     end)
  /\
  (forall name,
     In name required_files -> files !! name = None ->
     loaded_before files loaders name = true ->
     preprocess_data files = Raise (FileNotFoundError name) /\
     preprocess_boundary_files files = (None, Some ("缺少文件: " +:+ name))).
Proof.
  split.
  - apply entry_points_agree_present.
  - intros name Hin Hname Hbefore. split.
    + apply missing_file_raises; assumption.
    + apply missing_after_loading; assumption.
Qed.

End Agreement.

(** * The upload page *)

Section UploadPage.
Context {lib : PyLib}.
Import Boundary Page.

Lemma collect_snoc (uploaded_files : list (string * UploadedFile))
    (file : string * UploadedFile) :
  collect (uploaded_files ++ [file])
  = (<[fst file := snd file]> (fst (collect uploaded_files)),
     if existsb (String.eqb (fst file)) (map fst (snd (collect uploaded_files)))
     then mark (fst file) (snd (collect uploaded_files))
     else snd (collect uploaded_files)).
Proof. unfold collect. rewrite fold_left_app. reflexivity. Qed.

Lemma mark_names (name : string) (required : list (string * bool)) :
  map fst (mark name required) = map fst required.
Proof.
  unfold mark. rewrite List.map_map. apply List.map_ext.
  intros entry. destruct (String.eqb _ _); reflexivity.
Qed.

Lemma mark_absent (name : string) (required : list (string * bool)) :
  existsb (String.eqb name) (map fst required) = false -> mark name required = required.
Proof.
  induction required as [|entry required IH]; [reflexivity|].
  cbn [map existsb mark]. intros H. apply orb_false_iff in H as [Hne H].
  rewrite String.eqb_sym, Hne. f_equal. apply IH. exact H.
Qed.

(** After the loop: the names are the nine required ones, the flag of
    a name tells whether [files_dict] has it, and [files_dict] has the
    names of the uploaded files. *)
Lemma collect_spec (uploaded_files : list (string * UploadedFile)) :
  map fst (snd (collect uploaded_files)) = required_files /\
  Forall (fun entry => snd entry = is_set (fst (collect uploaded_files) !! fst entry))
    (snd (collect uploaded_files)) /\
  (forall name, is_set (fst (collect uploaded_files) !! name) = true
                <-> In name (map fst uploaded_files)).
Proof.
  induction uploaded_files as [|file uploaded_files IH] using rev_ind.
  - split; [|split].
    + unfold collect, required_flags. cbn [fold_left snd]. rewrite List.map_map.
      cbn [fst]. apply List.map_id.
    + unfold collect, required_flags. cbn [fold_left snd fst].
      apply List.Forall_forall. intros entry Hin.
      apply List.in_map_iff in Hin as [name [<- _]]. cbn [fst snd].
      rewrite lookup_empty. reflexivity.
    + intros name. unfold collect. cbn [fold_left fst map]. rewrite lookup_empty.
      cbn [is_set]. split; [discriminate | contradiction].
  - destruct IH as [Hnames [Hflags Hdict]].
    rewrite collect_snoc. cbn [fst snd].
    assert (Hmark : (if existsb (String.eqb (fst file)) (map fst (snd (collect uploaded_files)))
                     then mark (fst file) (snd (collect uploaded_files))
                     else snd (collect uploaded_files))
                    = mark (fst file) (snd (collect uploaded_files))).
    { destruct (existsb _ _) eqn:E; [reflexivity|]. symmetry. apply mark_absent. exact E. }
    rewrite Hmark. clear Hmark. split; [|split].
    + rewrite mark_names. exact Hnames.
    + unfold mark. apply List.Forall_map.
      eapply List.Forall_impl; [|exact Hflags]. intros entry Hentry. cbv beta.
      destruct (String.eqb (fst entry) (fst file)) eqn:E.
      * apply String.eqb_eq in E. cbn [fst snd]. rewrite E, lookup_insert_eq. reflexivity.
      * apply String.eqb_neq in E. rewrite lookup_insert_ne by congruence. exact Hentry.
    + intros name. rewrite List.map_app, List.in_app_iff. cbn [map In].
      destruct (String.eqb (fst file) name) eqn:E.
      * apply String.eqb_eq in E. rewrite E, lookup_insert_eq. cbn [is_set].
        split; [intros _; right; left; reflexivity | reflexivity].
      * apply String.eqb_neq in E. rewrite lookup_insert_ne by exact E.
        rewrite Hdict. split; [intros H; left; exact H|].
        intros [H | [H | []]]; [exact H | contradiction].
Qed.

Lemma missing_files_nil (required : list (string * bool)) :
  missing_files required = [] <-> Forall (fun entry => snd entry = true) required.
Proof.
  unfold missing_files. induction required as [|entry required IH].
  - split; [constructor | reflexivity].
  - cbn [List.filter]. destruct (snd entry) eqn:E; cbn [negb].
    + rewrite IH. split.
      * intros H. constructor; assumption.
      * intros H. inversion H; assumption.
    + cbn [map]. split; [discriminate|]. intros H. inversion H; congruence.
Qed.

Lemma no_missing_files (uploaded_files : list (string * UploadedFile)) :
  missing_files (snd (collect uploaded_files)) = []
  <-> Forall (fun name => In name (map fst uploaded_files)) required_files.
Proof.
  destruct (collect_spec uploaded_files) as [Hnames [Hflags Hdict]].
  rewrite missing_files_nil, <- Hnames, List.Forall_map.
  rewrite !List.Forall_forall. rewrite List.Forall_forall in Hflags.
  split; intros H entry Hin.
  - apply Hdict. rewrite <- (Hflags entry Hin). apply H. exact Hin.
  - rewrite (Hflags entry Hin). apply Hdict. apply H. exact Hin.
Qed.

Lemma all_present (uploaded_files : list (string * UploadedFile)) :
  Forall (fun name => In name (map fst uploaded_files)) required_files ->
  Forall (fun name => is_set (fst (collect uploaded_files) !! name) = true) required_files.
Proof.
  destruct (collect_spec uploaded_files) as [_ [_ Hdict]].
  apply List.Forall_impl. intros name. apply Hdict.
Qed.

Lemma last_upload_wins (before after : list (string * UploadedFile))
    (name : string) (file : UploadedFile) :
  ~ In name (map fst after) ->
  fst (collect (before ++ (name, file) :: after)) !! name = Some file.
Proof.
  induction after as [|other after IH] using rev_ind; intros Hnot.
  - rewrite collect_snoc. cbn [fst snd]. apply lookup_insert_eq.
  - rewrite app_comm_cons, app_assoc, collect_snoc. cbn [fst].
    rewrite List.map_app, List.in_app_iff in Hnot. cbn [map In] in Hnot.
    rewrite lookup_insert_ne by tauto.
    apply IH. tauto.
Qed.

(** X19.  The button of the upload page.  With every one of the nine
    required names among the uploaded files, whatever else is uploaded
    and in whatever order, the button runs the function, and what the
    page gets is what [preprocess_data] makes of the same files: its
    table, or 处理出错 with the text of its exception; of two files of
    one name the later one is read.  With a required name missing the
    button is disabled and the function is not run, so that the page
    never shows a 缺少文件 message of [preprocess_boundary_files]. *)
Theorem upload_page_button (uploaded_files : list (string * UploadedFile)) :
  (Forall (fun name => In name (map fst uploaded_files)) required_files ->
   start_processing uploaded_files
   = Some match preprocess_data (fst (collect uploaded_files)) with
          | Ok result_df => (Some result_df, None)
          | Raise e => (None, Some ("处理出错: " +:+ error_text e))
          end)
  /\
  (forall name, In name required_files -> ~ In name (map fst uploaded_files) ->
                start_processing uploaded_files = None)
  /\
  (forall name, start_processing uploaded_files <> Some (None, Some ("缺少文件: " +:+ name)))
  /\
  (forall before after name file,
     uploaded_files = before ++ (name, file) :: after -> ~ In name (map fst after) ->
     fst (collect uploaded_files) !! name = Some file).
Proof.
  assert (Hrun : Forall (fun name => In name (map fst uploaded_files)) required_files ->
                 start_processing uploaded_files
                 = Some match preprocess_data (fst (collect uploaded_files)) with
                        | Ok result_df => (Some result_df, None)
                        | Raise e => (None, Some ("处理出错: " +:+ error_text e))
                        end).
  { intros Hall. unfold start_processing.
    destruct uploaded_files as [|file uploaded_files].
    - inversion Hall as [|? ? Hin _]. destruct Hin.
    - cbv zeta. rewrite (proj2 (no_missing_files _) Hall). cbn [length Nat.ltb Nat.leb].
      rewrite (entry_points_agree_present _ (all_present _ Hall)). reflexivity. }
  assert (Hoff : forall name, In name required_files -> ~ In name (map fst uploaded_files) ->
                              start_processing uploaded_files = None).
  { intros name Hin Hnot. unfold start_processing.
    destruct uploaded_files as [|file uploaded_files]; [reflexivity|]. cbv zeta.
    destruct (missing_files _) eqn:E; [|reflexivity].
    apply no_missing_files in E. rewrite List.Forall_forall in E.
    destruct (Hnot (E name Hin)). }
  split; [exact Hrun|]. split; [exact Hoff|]. split.
  - intros name Hshown.
    destruct (missing_files (snd (collect uploaded_files))) eqn:E.
    + apply no_missing_files in E. rewrite (Hrun E) in Hshown.
      destruct (preprocess_data _); [discriminate Hshown|].
      injection Hshown as Hshown. cbn in Hshown. discriminate Hshown.
    + unfold start_processing in Hshown.
      destruct uploaded_files; [discriminate Hshown|]. cbv zeta in Hshown.
      rewrite E in Hshown. discriminate Hshown.
  - intros before after name file -> Hnot. apply last_upload_wins. exact Hnot.
Qed.

End UploadPage.

Lemma upload_page_button_witness :
  Page.start_processing (lib := plain_lib) example_uploads = Some (Some example_unified, None).
Proof.
  rewrite (proj1 (upload_page_button (lib := plain_lib) example_uploads)).
  - vm_compute. reflexivity.
  - unfold Boundary.required_files.
    repeat (apply List.Forall_cons; [cbn; tauto|]). apply List.Forall_nil.
Defined.

Lemma entry_points_agree_witness :
  Boundary.preprocess_boundary_files (lib := plain_lib) example_files
  = (Some example_unified, None) /\
  Boundary.preprocess_data (lib := plain_lib) (delete "现货出清电价_REPORT0.xlsx" example_files)
  = Raise (FileNotFoundError "现货出清电价_REPORT0.xlsx").
Proof.
  split.
  - rewrite (proj1 (entry_points_agree (lib := plain_lib) example_files)).
    + vm_compute. reflexivity.
    + vm_compute. repeat constructor.
  - apply (proj2 (entry_points_agree (lib := plain_lib) _)).
    + vm_compute. tauto.
    + vm_compute. reflexivity.
    + vm_compute. reflexivity.
Defined.


Section TradingFiles.
Context {lib : PyLib}.
Import Boundary Trading.

Lemma rfind_absent (ch : ascii) (s : string) : occurs ch s = false -> rfind ch s = None.
Proof.
  induction s as [|a s IH]; [reflexivity|]. cbn [occurs rfind].
  intros H. apply orb_false_iff in H as [Ha Hs]. rewrite (IH Hs), Ha. reflexivity.
Qed.

Lemma append_nil (t : string) : "" +:+ t = t.
Proof. reflexivity. Qed.

Lemma append_cons (a : ascii) (s t : string) : String a s +:+ t = String a (s +:+ t).
Proof. reflexivity. Qed.

Lemma rfind_last (ch : ascii) (s t : string) :
  occurs ch t = false -> rfind ch (s +:+ String ch t) = Some (String.length s).
Proof.
  intros Ht. induction s as [|a s IH].
  - rewrite ?append_nil, ?append_cons; cbn [rfind String.length]. rewrite (rfind_absent _ _ Ht), Ascii.eqb_refl.
    reflexivity.
  - rewrite ?append_nil, ?append_cons; cbn [rfind String.length]. rewrite IH. reflexivity.
Qed.

Lemma substring_prefix (s t : string) : substring 0 (String.length s) (s +:+ t) = s.
Proof.
  induction s as [|a s IH].
  - rewrite ?append_nil, ?append_cons; cbn [String.length]. destruct t; reflexivity.
  - rewrite ?append_nil, ?append_cons; cbn [String.length substring]. rewrite IH. reflexivity.
Qed.

Lemma string_length_app (s t : string) :
  String.length (s +:+ t) = (String.length s + String.length t)%nat.
Proof. induction s as [|a s IH]; [reflexivity|]. rewrite ?append_nil, ?append_cons; cbn [String.length]. lia. Qed.

Lemma first_part_app (ch : ascii) (s t : string) :
  occurs ch s = false -> first_part ch (s +:+ String ch t) = s.
Proof.
  induction s as [|a s IH]; intros Hs.
  - rewrite ?append_nil, ?append_cons; cbn [first_part]. rewrite Ascii.eqb_refl. reflexivity.
  - cbn [occurs] in Hs. apply orb_false_iff in Hs as [Ha Hs].
    rewrite ?append_nil, ?append_cons; cbn [first_part]. rewrite Ha, (IH Hs). reflexivity.
Qed.

Lemma first_part_absent (ch : ascii) (s : string) :
  occurs ch s = false -> first_part ch s = s.
Proof.
  induction s as [|a s IH]; [reflexivity|]. cbn [occurs first_part].
  intros H. apply orb_false_iff in H as [Ha Hs]. rewrite Ha, (IH Hs). reflexivity.
Qed.

Lemma first_part_free (ch : ascii) (s : string) : occurs ch (first_part ch s) = false.
Proof.
  induction s as [|a s IH]; [reflexivity|]. cbn [first_part].
  destruct (Ascii.eqb a ch) eqn:E; [reflexivity|]. cbn [occurs]. rewrite E, IH. reflexivity.
Qed.

Lemma stem_suffix (base ext : string) :
  base <> "" -> ext <> "" -> occurs "." ext = false ->
  stem (base +:+ String "." ext) = base.
Proof.
  intros Hbase Hext Hdot. unfold stem. rewrite (rfind_last _ _ _ Hdot).
  rewrite string_length_app. cbn [String.length].
  assert (Hb : (0 < String.length base)%nat) by (destruct base; [congruence | cbn; lia]).
  assert (He : (0 < String.length ext)%nat) by (destruct ext; [congruence | cbn; lia]).
  replace (0 <? String.length base)%nat with true by (symmetry; apply Nat.ltb_lt; lia).
  replace (String.length base <? String.length base + S (String.length ext) - 1)%nat
    with true by (symmetry; apply Nat.ltb_lt; lia).
  cbn [andb]. apply substring_prefix.
Qed.

Lemma append_assoc (s t u : string) : (s +:+ t) +:+ u = s +:+ t +:+ u.
Proof.
  induction s as [|a s IH]; [reflexivity|]. rewrite !append_cons, IH. reflexivity.
Qed.

Lemma fold_process_file (files : list (string * UploadedFile))
    (state : list string * list DataFrame) :
  fold_left process_file files state
  = (fst state ++ flat_map read_error files, snd state ++ flat_map labelled files).
Proof.
  revert state. induction files as [|file files IH]; intros state.
  - cbn [fold_left flat_map]. rewrite !app_nil_r. destruct state; reflexivity.
  - cbn [fold_left flat_map]. rewrite IH. unfold process_file, read_error, labelled, read_excel.
    destruct (snd file); cbn [fst snd]; rewrite <- ?app_assoc; reflexivity.
Qed.

Lemma mem_union_step (c : string) (cols more : list string) :
  mem c (cols ++ List.filter (fun c' => negb (mem c' cols)) more) = mem c cols || mem c more.
Proof.
  unfold mem at 1. rewrite existsb_app. fold (mem c cols).
  destruct (mem c cols) eqn:Hc; [reflexivity|]. cbn [orb].
  apply eq_true_iff_eq. fold (mem c (List.filter (fun c' => negb (mem c' cols)) more)).
  rewrite !mem_In, List.filter_In. split; [tauto|].
  intros Hin. split; [exact Hin|]. rewrite Hc. reflexivity.
Qed.

Lemma mem_union_columns (c : string) (frames : list DataFrame) (cols : list string) :
  mem c (fold_left (fun cols df => cols ++ List.filter (fun c' => negb (mem c' cols)) (columns df))
           frames cols)
  = mem c cols || existsb (fun df => has_column df c) frames.
Proof.
  revert cols. induction frames as [|df frames IH]; intros cols.
  - cbn [fold_left existsb]. rewrite orb_false_r. reflexivity.
  - cbn [fold_left existsb]. rewrite IH, mem_union_step, orb_assoc. reflexivity.
Qed.

Lemma has_column_concat_all (frames : list DataFrame) (c : string) :
  has_column (concat_all frames) c = existsb (fun df => has_column df c) frames.
Proof.
  unfold has_column at 1, concat_all, union_columns. cbn [columns].
  exact (mem_union_columns c frames []).
Qed.

(** The rows of the merged table, file by file. *)
Lemma merged_rows (files : list (string * UploadedFile)) :
  data (concat_all (flat_map labelled files))
  = flat_map
      (fun file : string * UploadedFile =>
         match snd file with
         | Ok df =>
             map (fun r => restrict (add_column (columns df) "公司名称")
                             (upd r "公司名称" (CStr (company_name_of (fst file)))))
               (data df)
         | Raise _ => []
         end) files.
Proof.
  unfold concat_all. cbn [data].
  induction files as [|file files IH]; [reflexivity|].
  cbn [flat_map]. rewrite flat_map_app, IH. f_equal.
  unfold labelled. cbv beta. destruct (snd file) as [df|e]; [|reflexivity].
  cbn [flat_map assign columns data]. rewrite app_nil_r, List.map_map. reflexivity.
Qed.

Lemma restrict_label (cols : list string) (r : Row) (v : cell) :
  restrict (add_column cols "公司名称") (upd r "公司名称" v) "公司名称" = v.
Proof.
  unfold restrict, mem. rewrite has_column_add_column. unfold upd.
  rewrite String.eqb_refl. reflexivity.
Qed.

Lemma restrict_other (df : DataFrame) (r : Row) (v : cell) (c : string) :
  has_column df c = true -> c <> "公司名称" ->
  restrict (add_column (columns df) "公司名称") (upd r "公司名称" v) c = r c.
Proof.
  intros Hc Hne. unfold restrict, upd.
  apply String.eqb_neq in Hne. rewrite Hne.
  assert (Hm : mem c (add_column (columns df) "公司名称") = true).
  { apply mem_In. unfold add_column. destruct (existsb _ _).
    - apply mem_In. exact Hc.
    - apply List.in_app_iff. left. apply mem_In. exact Hc. }
  rewrite Hm. reflexivity.
Qed.

(** X20.  The company of a trading file is read off its name.  For a
    name made of a company without a hyphen, a hyphen, any text and an
    extension, the label is the company, whatever dots and hyphens the
    text has; the label of any name has no hyphen, so that a company
    whose name has one is cut at it; a name without a hyphen gives its
    stem. *)
Theorem company_label_of_file_name (company rest ext : string) :
  occurs "-" company = false -> ext <> "" -> occurs "." ext = false ->
  company_name_of (company +:+ "-" +:+ rest +:+ "." +:+ ext) = company /\
  (forall name, occurs "-" (company_name_of name) = false) /\
  (forall name, occurs "-" name = false -> company_name_of name = stem name).
Proof.
  intros Hcompany Hext Hdot. split; [|split].
  - unfold company_name_of.
    replace (company +:+ "-" +:+ rest +:+ "." +:+ ext)
      with ((company +:+ "-" +:+ rest) +:+ String "." ext)
      by (rewrite !append_assoc; reflexivity).
    rewrite stem_suffix; [| |exact Hext|exact Hdot].
    + change ("-" +:+ rest) with (String "-" rest). apply first_part_app. exact Hcompany.
    + destruct company; discriminate.
  - intros name. apply first_part_free.
  - intros name Hname. unfold company_name_of. apply first_part_absent.
    unfold stem. destruct (rfind "." name) as [i|]; [|exact Hname].
    destruct (_ && _); [|exact Hname].
    clear -Hname. revert i. induction name as [|a name IH]; intros i.
    + destruct i; reflexivity.
    + cbn [occurs] in Hname. apply orb_false_iff in Hname as [Ha Hname].
      destruct i as [|i]; [reflexivity|]. cbn [substring occurs].
      rewrite Ha. apply IH. exact Hname.
Qed.

Lemma labelled_nil (files : list (string * UploadedFile)) :
  flat_map labelled files = [] <-> Forall (fun file => readable file = false) files.
Proof.
  induction files as [|file files IH].
  - split; [constructor | reflexivity].
  - cbn [flat_map]. unfold labelled at 1, readable at 1.
    destruct (snd file) as [df|e] eqn:E.
    + split; [discriminate|]. intros H. inversion H as [|? ? Hr _]. 
      unfold readable in Hr. rewrite E in Hr. discriminate Hr.
    + cbn [app]. rewrite IH. split.
      * intros H. constructor; [|exact H]. unfold readable. rewrite E. reflexivity.
      * intros H. inversion H; assumption.
Qed.

Lemma labels_of_rows (files : list (string * UploadedFile)) :
  map (fun r : Row => r "公司名称") (data (concat_all (flat_map labelled files)))
  = flat_map (fun file => repeat (CStr (company_name_of (fst file))) (rows_of_file file))
      files.
Proof.
  rewrite merged_rows. induction files as [|file files IH]; [reflexivity|].
  cbn [flat_map]. rewrite List.map_app, IH. f_equal.
  unfold rows_of_file, len. destruct (snd file) as [df|e]; [|reflexivity].
  induction (data df) as [|r rows IHr]; [reflexivity|].
  cbn [map length repeat]. rewrite restrict_label, IHr. reflexivity.
Qed.

Lemma length_flat_repeat {A B : Type} (f : A -> nat) (g : A -> B) (l : list A) :
  length (flat_map (fun a => repeat (g a) (f a)) l) = sum_list_with f l.
Proof.
  induction l as [|a l IH]; [reflexivity|].
  cbn [flat_map sum_list_with]. rewrite length_app, repeat_length, IH. reflexivity.
Qed.

Lemma has_column_labelled (df : DataFrame) (c : string) (v : cell) :
  has_column df c = true -> has_column (assign df "公司名称" (fun _ => v)) c = true.
Proof.
  intros Hc. unfold has_column, assign, add_column. cbn [columns].
  destruct (existsb (String.eqb "公司名称") (columns df)); [exact Hc|].
  rewrite existsb_app. unfold has_column in Hc. rewrite Hc. reflexivity.
Qed.

(** X21.  The merged trading table.  [process_trading_files] shows one
    message for each sheet that cannot be read, naming the file, and
    goes on; it returns no table exactly when no sheet can be read.
    The table it returns has the column 公司名称 and every column of
    every sheet read; its rows are the rows of the sheets read, in the
    order of the files, so that their number is the sum of the numbers
    of rows of the sheets; every row bears the label of its file under
    公司名称 and keeps the cells of its sheet under the other columns
    of the sheet. *)
Theorem merged_trading_table (files : list (string * UploadedFile))
    (errors : list string) (out : option DataFrame) :
  process_trading_files files = (errors, out) ->
  errors = flat_map read_error files /\
  (out = None <-> Forall (fun file => readable file = false) files) /\
  (forall merged_df, out = Some merged_df ->
     has_column merged_df "公司名称" = true /\
     map (fun r : Row => r "公司名称") (data merged_df)
     = flat_map (fun file => repeat (CStr (company_name_of (fst file))) (rows_of_file file))
         files /\
     len merged_df = sum_list_with rows_of_file files /\
     (forall file df c,
        In file files -> snd file = Ok df -> has_column df c = true ->
        has_column merged_df c = true) /\
     (forall file df r,
        In file files -> snd file = Ok df -> In r (data df) ->
        exists r', In r' (data merged_df) /\
                   r' "公司名称" = CStr (company_name_of (fst file)) /\
                   forall c, has_column df c = true -> c <> "公司名称" -> r' c = r c)).
Proof.
  unfold process_trading_files. rewrite fold_process_file. cbn [fst snd app].
  intros Hp. injection Hp as <- <-. split; [reflexivity|]. split.
  - rewrite <- labelled_nil. destruct (flat_map labelled files); split; congruence.
  - intros merged_df Hout.
    destruct (flat_map labelled files) as [|first others] eqn:E; [discriminate Hout|].
    injection Hout as <-.
    assert (Hfirst : In first (flat_map labelled files)) by (rewrite E; left; reflexivity).
    rewrite <- E. clear others E.
    assert (Hkept : forall file df c,
               In file files -> snd file = Ok df -> has_column df c = true ->
               has_column (concat_all (flat_map labelled files)) c = true).
    { intros file df c Hin Hread Hc. rewrite has_column_concat_all.
      apply existsb_exists.
      exists (assign df "公司名称" (fun _ => CStr (company_name_of (fst file)))). split.
      - apply in_flat_map. exists file. split; [exact Hin|].
        unfold labelled. rewrite Hread. left. reflexivity.
      - apply has_column_labelled. exact Hc. }
    split; [|split; [|split; [|split]]].
    + rewrite has_column_concat_all. apply existsb_exists.
      exists first. split; [exact Hfirst|].
      apply in_flat_map in Hfirst as [file [_ Hfirst]]. unfold labelled in Hfirst.
      destruct (snd file) as [df|e]; [|destruct Hfirst].
      destruct Hfirst as [<- | []]. apply has_column_add_column.
    + apply labels_of_rows.
    + unfold len. rewrite <- (length_map (fun r : Row => r "公司名称")), labels_of_rows.
      apply length_flat_repeat.
    + exact Hkept.
    + intros file df r Hin Hread Hr.
      exists (restrict (add_column (columns df) "公司名称")
                (upd r "公司名称" (CStr (company_name_of (fst file))))).
      split; [|split].
      * rewrite merged_rows. apply in_flat_map. exists file. split; [exact Hin|].
        rewrite Hread.
        exact (List.in_map
                 (fun r0 : Row => restrict (add_column (columns df) "公司名称")
                                    (upd r0 "公司名称" (CStr (company_name_of (fst file)))))
                 _ _ Hr).
      * apply restrict_label.
      * intros c Hc Hne. apply restrict_other; assumption.
Qed.

End TradingFiles.

Lemma company_label_of_file_name_witness :
  Trading.company_name_of "河津-电力营销信息统计1.10-20260112(1).xlsx" = "河津".
Proof.
  apply (company_label_of_file_name "河津" "电力营销信息统计1.10-20260112(1)" "xlsx").
  - vm_compute. reflexivity.
  - discriminate.
  - vm_compute. reflexivity.
Defined.

Lemma merged_trading_table_witness :
  Trading.process_trading_files (lib := plain_lib) example_trading_uploads
  = (["处理文件 损坏.xlsx 时出错: " +:+ error_text (PyLib := plain_lib) ValueError],
     Some example_merged) /\
  len example_merged = 5%nat /\
  map (fun r : Row => r "公司名称") (data example_merged)
  = [CStr "河津"; CStr "塔山"; CStr "塔山"; CStr "塔山"; CStr "塔山"].
Proof.
  assert (Hp : Trading.process_trading_files (lib := plain_lib) example_trading_uploads
               = (["处理文件 损坏.xlsx 时出错: " +:+ error_text (PyLib := plain_lib) ValueError],
                  Some example_merged))
    by (vm_compute; reflexivity).
  split; [exact Hp|].
  destruct (merged_trading_table (lib := plain_lib) _ _ _ Hp) as [_ [_ Hmerged]].
  destruct (Hmerged _ eq_refl) as [_ [Hlabels [Hlen _]]].
  split.
  - rewrite Hlen. vm_compute. reflexivity.
  - rewrite Hlabels. vm_compute. reflexivity.
Defined.

